(* ===== verification/_CoqProject ===== *)
-Q . S2P
Prelude.v
Endian.v
Checksum.v
HelperTable.v
Variadic.v
Kernel.v
Program.v
Common.v
RefKernel.v
Wire.v
Rules.v
Options.v
UdpCsum.v
IcmpMap.v
Egress.v
Ingress.v
Contract.v
EgressSpec.v
EgressProof.v
IngressSpec.v
IngressProof.v
IcmpError.v
IngressContract.v
EgressTheorems.v
IngressTheorems.v
RoundTrip.v
System.v
Frames.v
Witness.v
