(* ===== verification/Prelude.v ===== *)
(** * cilium-clat: a verified model of the eBPF CLAT

    The program (src/bpf/clat.c) is a stateless customer-side translator (CLAT,
    RFC 6877 and RFC 7915) that runs in the kernel as two tc programs on the
    interface of a pod: [clat_egress] turns IPv4 packets of the pod into IPv6
    packets to addresses inside a /96 prefix, [clat_ingress] turns the answers
    back, ICMPv6 errors and the packets they quote included.  The programs are
    configured by four constants in .rodata and count what they do in a per-CPU
    array.  Everything else they do, they do through helper functions of the
    kernel.

    ** The model

    The programs are translated statement by statement into a monad with the
    packet buffer and the counter slots as its state, early return with an
    action, and a fault for a direct packet access out of bounds.

    - [Endian] (src/bpf/include/bpf_endian.h): the byte-order macros, for both
      byte orders and both branches of [__builtin_constant_p] (class [Target]);
      native loads and stores.  Integers are [Z] with the wrap of their width
      written out ([u8] to [u64] below); a checksum is computed on native words,
      as in C.
    - [Checksum]: [csum_fold] and [word16]; the congruence modulo 65535 that
      ones'-complement arithmetic computes in, as a setoid; the receiver's test
      of RFC 1071 ([inet_ok]) on bytes in network order.
    - [HelperTable] (src/bpf/include/bpf_helper_defs.h): the declarations of the
      180 helpers, each with the results that the header documents for it.
    - [Variadic] (src/bpf/include/bpf_helpers.h): the macros that compute:
      argument counting, array filling, printing, [KERNEL_VERSION].
    - [Kernel]: the eight helpers that the programs call, as operations of the
      class [Kernel] on an abstract packet buffer, and their documented behaviour
      as the class [KernelSpec], which takes what a call may return from
      [HelperTable].  Its parameter [may_fail] says when a helper may
      fail on arguments that are in range: theorems about any kernel leave it
      open, theorems about what a frame becomes take it to be [False].
    - [Program]: the monad, the helpers in it, and a weakest precondition [wp]
      with one rule per operation.
    - [Common]: constants, header structs and their layout, the counters, and the
      small functions at the top of clat.c.
    - [RefKernel]: an executable instance of [Kernel], with the proof that it
      satisfies [KernelSpec]: the hypotheses about the kernel are consistent.
    - [Options], [UdpCsum], [IcmpMap]: [ip4_has_source_route], [udp_full_csum] and
      [icmp6_to_icmp4], each with its own specification; for the last, the table
      of src/DESIGN.md and the one of RFC 7915.
    - [Egress], [Ingress]: the two programs, cut at the natural joints of the C
      functions (parsing, reshaping, headers, transport part, ICMPv6 errors).
    - [Wire], [Rules]: header structs on the wire; rules of [wp] for frames that
      are split into a header and a rest.
    - [Contract], [EgressSpec], [IngressSpec]: the abstract specification, stated
      on the bytes of the wire without native byte order: a verdict computed from
      the frame ([egress_verdict], [ingress_verdict]: pass, drop under one of some
      counters, translate) and a relation between the frame before and after a
      translation ([egress_out], [ingress_out]).
    - [EgressProof], [IngressProof], [IcmpError], [IngressContract]: the programs
      meet that specification, stage by stage.
    - [EgressTheorems], [IngressTheorems], [RoundTrip]: what follows for packets.
    - [System]: both programs on several CPUs, as a transition system, proved
      against the interface [Accountable] alone.
    - [Frames], [Witness]: the packets of the tests, both programs run on them on
      the reference kernel for both byte orders, and the theorems applied to them.

    ** What the theorems show

    - Refinement: on every frame (whose [skb->protocol] agrees with its Ethernet
      type) and any kernel, each program terminates without a fault and does what
      its specification says ([egress_correct], [ingress_correct]).  A helper that
      fails on its own account leads to a counted drop, with two exceptions, both
      on ingress: a packet that cannot be made linear passes unchanged and
      uncounted, even if it is return traffic, and a quoted transport checksum
      that cannot be read is left as it was in a packet that is passed on.
    - Safety: native IPv6 and frames of other types pass untouched and uncounted;
      protocols without a pseudo-header and later fragments keep their payload.
    - Accounting: every run changes at most one counter, by one, and the counter
      tells what happened; over any interleaving of packets on any CPUs the
      counters add up ([counters_account]).
    - Checksums: right checksums in, right checksums out, for TCP, UDP, Echo
      messages and ICMP errors with the packets they quote, with and without
      offload; and a right checksum for a datagram that came without one, unless
      its pseudo-header sums to zero modulo 65535.
    - Lengths and path MTU: the total length agrees with the frame; the
      translated MTU leaves room for the larger header.
    - Round trip: egress, a peer that answers with the addresses exchanged, and
      ingress give back the packet, but for the identification and the
      don't-fragment bit of unfragmented packets and for IPv4 options
      ([clat_round_trip]).
    - Components: the option scan agrees with a recursive parser, the chunked UDP
      checksum with the plain sum, the error mapping with RFC 7915 outside two
      classes of errors ([icmp_map_rfc]), the constant byte-order macros with the
      built-ins; the printing macros pass on what they were given.
    - Deviations: a datagram without a checksum can be taken for a partial one
      ([egress_zero_field_misread]); a total length can wrap
      ([ingress_length_wraps]); an option that runs past its list is accepted
      ([overlong_option_accepted]).

    ** Bounds

    The loops of the program are bounded in C; the model runs them for the same
    number of iterations (40 options, 40 chunks), and the theorems show that these
    are enough: an option list has at most 40 bytes, and a longer datagram than 40
    chunks is refused first.  No definition needs other fuel.

    ** Not modelled

    The kernel's side of the helpers, beyond the documented behaviour assumed in
    [KernelSpec]: in particular GSO metadata and [skb->csum] of received packets.
    What src/bpf/include/bpf_helpers.h has besides the macros of [Variadic]:
    attributes, map declaration syntax, and a tail call in assembly.  That a
    per-CPU map gives a run only the slots of its CPU is assumed by [System].  The
    Go programs (internal/clat, cmd/cilium-clat) that configure,
    load and attach the programs and read the counters: control plane on top of
    netlink and bpf system calls; the constants they write are the parameter
    [consts], assumed to be of their types ([consts_ok]).

    This file holds the vocabulary the others share: machine integers, list
    lengths in [Z], reading and overwriting a range of a byte list, and the
    tactics and hint databases for them. *)

From Stdlib Require Export ZArith Lia.
From stdpp Require Export base tactics list numbers gmap.

#[global] Open Scope Z_scope.

(** ** Machine integers

    A [w]-bit unsigned C integer is a [Z]; the wrap-around of an assignment or
    a conversion is written out with one of these. *)

Definition u8 (x : Z) : Z := x mod 2 ^ 8.
Definition u16 (x : Z) : Z := x mod 2 ^ 16.
Definition u32 (x : Z) : Z := x mod 2 ^ 32.
Definition u64 (x : Z) : Z := x mod 2 ^ 64.

(** Linear arithmetic with division and modulus by constants. *)
Ltac mlia := Z.to_euclidean_division_equations; lia.

Lemma u8_range x : 0 <= u8 x < 256.
Proof. unfold u8. change (2 ^ 8) with 256. mlia. Qed.

Lemma u16_range x : 0 <= u16 x < 65536.
Proof. unfold u16. change (2 ^ 16) with 65536. mlia. Qed.

Lemma u32_range x : 0 <= u32 x < 4294967296.
Proof. unfold u32. change (2 ^ 32) with 4294967296. mlia. Qed.

Lemma u8_id x : 0 <= x < 256 -> u8 x = x.
Proof. intros. apply Z.mod_small. change (2 ^ 8) with 256. lia. Qed.

Lemma u16_id x : 0 <= x < 65536 -> u16 x = x.
Proof. intros. apply Z.mod_small. change (2 ^ 16) with 65536. lia. Qed.

Lemma u32_id x : 0 <= x < 4294967296 -> u32 x = x.
Proof. intros. apply Z.mod_small. change (2 ^ 32) with 4294967296. lia. Qed.

(** ** Lengths

    Offsets and lengths of the C code are integers, so list lengths are
    measured in [Z]. *)

Definition zlen {A} (l : list A) : Z := Z.of_nat (length l).

Section Zlen.
Context {A : Type}.
Implicit Types l k : list A.

Lemma zlen_nonneg l : 0 <= zlen l.
Proof. unfold zlen. lia. Qed.

Lemma zlen_nil : zlen (@nil A) = 0.
Proof. reflexivity. Qed.

Lemma zlen_cons x l : zlen (x :: l) = 1 + zlen l.
Proof. unfold zlen. simpl. lia. Qed.

Lemma zlen_app l k : zlen (l ++ k) = zlen l + zlen k.
Proof. unfold zlen. rewrite length_app. lia. Qed.

Lemma zlen_take n l : zlen (take n l) = Z.min (Z.of_nat n) (zlen l).
Proof. unfold zlen. rewrite length_take. lia. Qed.

Lemma zlen_drop n l : zlen (drop n l) = Z.max 0 (zlen l - Z.of_nat n).
Proof. unfold zlen. rewrite length_drop. lia. Qed.

Lemma zlen_replicate n (x : A) : zlen (replicate n x) = Z.of_nat n.
Proof. unfold zlen. rewrite length_replicate. lia. Qed.
End Zlen.

Lemma zlen_2 {A} (d : list A) : zlen d = 2 -> exists a b, d = [a; b].
Proof.
  destruct d as [|a [|b [|x d]]]; try done; [by exists a, b|].
  rewrite !zlen_cons. pose proof (zlen_nonneg d). lia.
Qed.

Create Rewrite HintDb zlen.
#[export] Hint Rewrite @zlen_nil @zlen_cons @zlen_app @zlen_take @zlen_drop
  @zlen_replicate : zlen.

(** [len] closes arithmetic goals about list lengths. *)
Ltac len :=
  repeat match goal with
  | |- context [zlen ?l] =>
      lazymatch goal with
      | _ : 0 <= zlen l |- _ => fail
      | _ => pose proof (zlen_nonneg l)
      end
  end;
  autorewrite with zlen in *; try lia.

(** Evaluates [Z.to_nat] on literals. *)
Ltac nat_literal n :=
  lazymatch n with
  | O => idtac
  | S ?m => nat_literal m
  end.

Ltac znat :=
  repeat match goal with
  | |- context [Z.to_nat ?x] =>
      let v := eval compute in (Z.to_nat x) in
      nat_literal v; change (Z.to_nat x) with v
  end.

(** Adds up literals. *)
Ltac zlit :=
  repeat match goal with
  | |- context [Z.add ?a ?b] =>
      lazymatch a with Z0 => idtac | Zpos _ => idtac end;
      lazymatch b with Z0 => idtac | Zpos _ => idtac end;
      let v := eval compute in (a + b) in change (a + b) with v
  end.

(** Membership in a list that is written out. *)
Ltac in_list := solve [repeat (apply list_elem_of_here || apply list_elem_of_further)].

(** ** Reading and writing a range of a byte list *)

(** The [n] bytes at offset [off]. *)
Definition sub (off n : Z) (f : list Z) : list Z :=
  take (Z.to_nat n) (drop (Z.to_nat off) f).

(** [f] with the bytes at [off] overwritten by [d]. *)
Definition splice (off : Z) (d f : list Z) : list Z :=
  take (Z.to_nat off) f ++ d ++ drop (Z.to_nat off + length d) f.

Lemma zlen_sub off n f :
  0 <= off -> 0 <= n -> off + n <= zlen f -> zlen (sub off n f) = n.
Proof. intros. unfold sub. len. Qed.

Lemma zlen_splice off d f :
  0 <= off -> off + zlen d <= zlen f -> zlen (splice off d f) = zlen f.
Proof. intros. unfold splice. autorewrite with zlen. unfold zlen in *. lia. Qed.

Lemma sub_0 n f : zlen f = n -> sub 0 n f = f.
Proof. intros <-. unfold sub, zlen. rewrite drop_0, Nat2Z.id. by apply take_ge. Qed.

(** Reading the prefix of a concatenation. *)
Lemma sub_app_l off n a b :
  0 <= off -> 0 <= n -> off + n <= zlen a -> sub off n (a ++ b) = sub off n a.
Proof.
  unfold sub, zlen. intros. rewrite drop_app_le by lia.
  rewrite take_app_le; [done|]. rewrite length_drop. lia.
Qed.

(** Reading past the first part of a concatenation. *)
Lemma sub_app_r off n a b :
  zlen a <= off -> sub off n (a ++ b) = sub (off - zlen a) n b.
Proof.
  unfold sub, zlen. intros. rewrite drop_app_ge by lia.
  do 2 f_equal. lia.
Qed.

Lemma sub_app_0 n a b : zlen a = n -> sub 0 n (a ++ b) = a.
Proof.
  intros Ha. pose proof (zlen_nonneg a). rewrite sub_app_l by lia. by apply sub_0.
Qed.

Lemma drop_app_zlen n (a b : list Z) : zlen a = n -> drop (Z.to_nat n) (a ++ b) = b.
Proof.
  intros <-. unfold zlen. rewrite Nat2Z.id, drop_app_ge by lia. by rewrite Nat.sub_diag, drop_0.
Qed.

Lemma sub_sub o1 n1 o2 n2 f :
  0 <= o1 -> 0 <= o2 -> 0 <= n2 -> o2 + n2 <= n1 ->
  sub o2 n2 (sub o1 n1 f) = sub (o1 + o2) n2 f.
Proof.
  intros. unfold sub. rewrite skipn_firstn_comm, take_take, drop_drop.
  f_equal; [lia|]. f_equal; lia.
Qed.

Lemma sub_split off n m f :
  0 <= off -> 0 <= n -> 0 <= m ->
  sub off (n + m) f = sub off n f ++ sub (off + n) m f.
Proof.
  intros. unfold sub. rewrite !Z2Nat.inj_add, <- drop_drop by lia.
  symmetry. apply take_take_drop.
Qed.

(** A list cut at [off]. *)
Lemma sub_drop off f : 0 <= off <= zlen f -> f = sub 0 off f ++ drop (Z.to_nat off) f.
Proof. intros. unfold sub. rewrite drop_0. symmetry. apply take_drop. Qed.

Lemma splice_app_r off d a b :
  zlen a <= off -> splice off d (a ++ b) = a ++ splice (off - zlen a) d b.
Proof.
  unfold splice, zlen. intros.
  rewrite take_app_ge, drop_app_ge by lia. rewrite <- app_assoc.
  do 2 f_equal; [|f_equal]; f_equal; lia.
Qed.

Lemma splice_app_l off d a b :
  0 <= off -> off + zlen d <= zlen a -> splice off d (a ++ b) = splice off d a ++ b.
Proof.
  unfold splice, zlen. intros.
  rewrite take_app_le, drop_app_le by lia. by rewrite <- !app_assoc.
Qed.

(** Overwriting a whole part of a concatenation. *)
Lemma splice_app_0 d a b : zlen d = zlen a -> splice 0 d (a ++ b) = d ++ b.
Proof.
  unfold splice, zlen. intros. rewrite take_0. simpl.
  rewrite drop_app_ge by lia. replace (length d - length a)%nat with O by lia.
  by rewrite drop_0.
Qed.

Lemma splice_0 d a : zlen d = zlen a -> splice 0 d a = d.
Proof.
  intros. rewrite <- (app_nil_r a) at 1. rewrite splice_app_0 by done. apply app_nil_r.
Qed.

(** ** Lists of bytes *)

Definition is_byte (b : Z) : Prop := 0 <= b < 256.
Definition bytes (l : list Z) : Prop := Forall is_byte l.

#[export] Instance is_byte_dec b : Decision (is_byte b).
Proof. unfold is_byte. apply _. Defined.

#[export] Instance bytes_dec l : Decision (bytes l).
Proof. unfold bytes. apply _. Defined.

Lemma bytes_app a b : bytes (a ++ b) <-> bytes a /\ bytes b.
Proof. apply Forall_app. Qed.

Lemma bytes_cons x l : bytes (x :: l) <-> is_byte x /\ bytes l.
Proof. apply Forall_cons. Qed.

Lemma bytes_nil : bytes [].
Proof. by apply Forall_nil. Qed.

Lemma bytes_take n l : bytes l -> bytes (take n l).
Proof. apply Forall_take. Qed.

Lemma bytes_drop n l : bytes l -> bytes (drop n l).
Proof. apply Forall_drop. Qed.

Lemma bytes_sub off n l : bytes l -> bytes (sub off n l).
Proof. intros. by apply bytes_take, bytes_drop. Qed.

Lemma bytes_splice off d l : bytes d -> bytes l -> bytes (splice off d l).
Proof.
  intros. unfold splice. rewrite !bytes_app. auto using bytes_take, bytes_drop.
Qed.

Lemma bytes_replicate_0 n : bytes (replicate n 0).
Proof. apply Forall_replicate. unfold is_byte. lia. Qed.

Create HintDb bytes.
#[export] Hint Resolve bytes_nil bytes_take bytes_drop bytes_sub bytes_splice
  bytes_replicate_0 : bytes.

(** Closes [bytes] goals about concatenations of known parts. *)
Ltac solve_bytes :=
  rewrite ?bytes_app, ?bytes_cons; repeat split; auto with bytes; unfold is_byte in *; lia.

(** The byte at offset [i]; the C code only reads in range, where the default
    plays no part. *)
Definition byte_at (f : list Z) (i : Z) : Z := nth (Z.to_nat i) f 0.

Lemma byte_at_range f i : bytes f -> 0 <= byte_at f i < 256.
Proof.
  intros Hf. unfold byte_at. destruct (nth_in_or_default (Z.to_nat i) f 0) as [Hin| ->]; [|lia].
  apply Forall_forall with (x := nth (Z.to_nat i) f 0) in Hf; [exact Hf|].
  by apply list_elem_of_In.
Qed.

Lemma byte_at_app_l f g i : 0 <= i < zlen f -> byte_at (f ++ g) i = byte_at f i.
Proof. unfold byte_at, zlen. intros. apply app_nth1. lia. Qed.

Lemma byte_at_app_r f g i : zlen f <= i -> byte_at (f ++ g) i = byte_at g (i - zlen f).
Proof.
  unfold byte_at, zlen. intros. rewrite app_nth2 by lia. f_equal. lia.
Qed.

Lemma byte_at_sub f off n i :
  0 <= off -> 0 <= i < n -> off + n <= zlen f ->
  byte_at (sub off n f) i = byte_at f (off + i).
Proof.
  unfold byte_at, sub, zlen. intros.
  rewrite nth_firstn, nth_skipn.
  destruct (Nat.ltb_spec (Z.to_nat i) (Z.to_nat n)); [|lia]. f_equal. lia.
Qed.

Lemma byte_at_drop f n i :
  0 <= i -> byte_at (drop n f) i = byte_at f (Z.of_nat n + i).
Proof. unfold byte_at. intros. rewrite nth_skipn. f_equal. lia. Qed.

Lemma sub_cons off n f :
  0 <= off -> 0 < n -> off + n <= zlen f ->
  sub off n f = byte_at f off :: sub (off + 1) (n - 1) f.
Proof.
  intros. unfold sub, byte_at, zlen in *.
  destruct (nth_lookup_or_length f (Z.to_nat off) 0) as [Hl|]; [|lia].
  rewrite (drop_S _ _ _ Hl). replace (Z.to_nat n) with (S (Z.to_nat (n - 1))) by lia.
  cbn [take]. do 3 f_equal. lia.
Qed.

Lemma sub_1 off f : 0 <= off -> off + 1 <= zlen f -> sub off 1 f = [byte_at f off].
Proof. intros. by rewrite sub_cons by lia. Qed.

Lemma sub_drop_l off n m f :
  0 <= off -> 0 <= m -> sub (off + m) (n - m) f = drop (Z.to_nat m) (sub off n f).
Proof.
  intros. unfold sub. rewrite skipn_firstn_comm, drop_drop. f_equal; [lia|]. f_equal; lia.
Qed.

Lemma sub_neg off n f : n <= 0 -> sub off n f = [].
Proof. intros. unfold sub. by replace (Z.to_nat n) with O by lia. Qed.
