(* ===== verification/Endian.v ===== *)
(** * Byte order (src/bpf/include/bpf_endian.h)

    The byte-swap macros of the header, the compiler's built-ins they select,
    and native 16- and 32-bit loads and stores.  The byte order of the BPF
    target and the arguments the compiler treats as constants are fields of
    the class [Target], so every theorem holds on a little-endian and on a
    big-endian target and for either branch of [bpf_htons] and its like. *)

From S2P Require Import Prelude.

(** What the macros ask of the compiler: [__BYTE_ORDER__], and
    [__builtin_constant_p] on an argument. *)
Class Target := {
  little_endian : bool;
  builtin_constant_p : Z -> bool
}.

(** ** The constant macros *)

(** [___bpf_mvb(x, b, n, m)]: byte [n] of the [b]-bit [x] moved to byte [m].
    The cast to [__u##b] is followed by shifts in the promoted type, which is
    32 bits wide when [b] is 16; [w] is that width. *)
Definition bpf_mvb (w x b n m : Z) : Z :=
  let y := x mod 2 ^ b in
  let y := (Z.shiftl y (b - (n + 1) * 8)) mod 2 ^ w in
  let y := Z.shiftr y (b - 8) in
  (Z.shiftl y (m * 8)) mod 2 ^ w.

Definition bpf_swab16 (x : Z) : Z :=
  u16 (Z.lor (bpf_mvb 32 x 16 0 1) (bpf_mvb 32 x 16 1 0)).

Definition bpf_swab32 (x : Z) : Z :=
  u32 (Z.lor (Z.lor (Z.lor (bpf_mvb 32 x 32 0 3) (bpf_mvb 32 x 32 1 2))
                    (bpf_mvb 32 x 32 2 1))
             (bpf_mvb 32 x 32 3 0)).

Definition bpf_swab64 (x : Z) : Z :=
  u64 (Z.lor (Z.lor (Z.lor (Z.lor (Z.lor (Z.lor (Z.lor
        (bpf_mvb 64 x 64 0 7) (bpf_mvb 64 x 64 1 6)) (bpf_mvb 64 x 64 2 5))
        (bpf_mvb 64 x 64 3 4)) (bpf_mvb 64 x 64 4 3)) (bpf_mvb 64 x 64 5 2))
        (bpf_mvb 64 x 64 6 1)) (bpf_mvb 64 x 64 7 0)).

(** ** The compiler's built-ins: reversal of the bytes of the argument *)

Definition byte_n (x n : Z) : Z := x / 2 ^ (8 * n) mod 256.

Definition builtin_bswap16 (x : Z) : Z := byte_n x 0 * 2 ^ 8 + byte_n x 1.

Definition builtin_bswap32 (x : Z) : Z :=
  byte_n x 0 * 2 ^ 24 + byte_n x 1 * 2 ^ 16 + byte_n x 2 * 2 ^ 8 + byte_n x 3.

Definition builtin_bswap64 (x : Z) : Z :=
  byte_n x 0 * 2 ^ 56 + byte_n x 1 * 2 ^ 48 + byte_n x 2 * 2 ^ 40 +
  byte_n x 3 * 2 ^ 32 + byte_n x 4 * 2 ^ 24 + byte_n x 5 * 2 ^ 16 +
  byte_n x 6 * 2 ^ 8 + byte_n x 7.

(** ** The selected macros *)

Section Macros.
Context `{T : Target}.

(** On a big-endian target the macros are their argument; what is assigned
    to a narrower variable is cut there. *)
Definition bpf_constant_htons (x : Z) : Z := if little_endian then bpf_swab16 x else x.
Definition bpf_nonconst_htons (x : Z) : Z := if little_endian then builtin_bswap16 x else x.
Definition bpf_constant_htonl (x : Z) : Z := if little_endian then bpf_swab32 x else x.
Definition bpf_nonconst_htonl (x : Z) : Z := if little_endian then builtin_bswap32 x else x.
Definition bpf_constant_cpu_to_be64 (x : Z) : Z := if little_endian then bpf_swab64 x else x.
Definition bpf_nonconst_cpu_to_be64 (x : Z) : Z :=
  if little_endian then builtin_bswap64 x else x.

Definition bpf_htons (x : Z) : Z :=
  if builtin_constant_p x then bpf_constant_htons x else bpf_nonconst_htons x.
Definition bpf_ntohs (x : Z) : Z :=
  if builtin_constant_p x then bpf_constant_htons x else bpf_nonconst_htons x.
Definition bpf_htonl (x : Z) : Z :=
  if builtin_constant_p x then bpf_constant_htonl x else bpf_nonconst_htonl x.
Definition bpf_ntohl (x : Z) : Z :=
  if builtin_constant_p x then bpf_constant_htonl x else bpf_nonconst_htonl x.
Definition bpf_cpu_to_be64 (x : Z) : Z :=
  if builtin_constant_p x then bpf_constant_cpu_to_be64 x else bpf_nonconst_cpu_to_be64 x.
Definition bpf_be64_to_cpu (x : Z) : Z :=
  if builtin_constant_p x then bpf_constant_cpu_to_be64 x else bpf_nonconst_cpu_to_be64 x.

(** ** Native loads and stores *)

Definition load16 (b0 b1 : Z) : Z := if little_endian then b0 + 256 * b1 else 256 * b0 + b1.

Definition load32 (b0 b1 b2 b3 : Z) : Z :=
  if little_endian then b0 + 256 * b1 + 65536 * b2 + 16777216 * b3
  else 16777216 * b0 + 65536 * b1 + 256 * b2 + b3.

Definition store16 (v : Z) : list Z :=
  if little_endian then [byte_n v 0; byte_n v 1] else [byte_n v 1; byte_n v 0].

Definition store32 (v : Z) : list Z :=
  if little_endian then [byte_n v 0; byte_n v 1; byte_n v 2; byte_n v 3]
  else [byte_n v 3; byte_n v 2; byte_n v 1; byte_n v 0].

Definition store64 (v : Z) : list Z :=
  if little_endian then
    [byte_n v 0; byte_n v 1; byte_n v 2; byte_n v 3; byte_n v 4; byte_n v 5; byte_n v 6; byte_n v 7]
  else
    [byte_n v 7; byte_n v 6; byte_n v 5; byte_n v 4; byte_n v 3; byte_n v 2; byte_n v 1; byte_n v 0].

(** A native load of the 2 or 4 bytes at offset [i] of a buffer. *)
Definition ld16 (l : list Z) (i : Z) : Z := load16 (byte_at l i) (byte_at l (i + 1)).
Definition ld32 (l : list Z) (i : Z) : Z :=
  load32 (byte_at l i) (byte_at l (i + 1)) (byte_at l (i + 2)) (byte_at l (i + 3)).
End Macros.

(** Network order on the wire, independent of the target. *)
Definition be16 (v : Z) : list Z := [byte_n v 1; byte_n v 0].
Definition be32 (v : Z) : list Z := [byte_n v 3; byte_n v 2; byte_n v 1; byte_n v 0].
Definition be64 (v : Z) : list Z :=
  [byte_n v 7; byte_n v 6; byte_n v 5; byte_n v 4; byte_n v 3; byte_n v 2; byte_n v 1; byte_n v 0].
Definition rd16 (l : list Z) (i : Z) : Z := 256 * byte_at l i + byte_at l (i + 1).
Definition rd32 (l : list Z) (i : Z) : Z :=
  16777216 * byte_at l i + 65536 * byte_at l (i + 1) + 256 * byte_at l (i + 2) + byte_at l (i + 3).

(** ** Lemmas *)

Lemma byte_n_range x n : is_byte (byte_n x n).
Proof. unfold is_byte, byte_n. mlia. Qed.
#[export] Hint Resolve byte_n_range : bytes.

(** Disjoint bits: [lor] is addition. *)
Lemma lor_add h k l : 0 <= k -> 0 <= l < 2 ^ k -> Z.lor (h * 2 ^ k) l = h * 2 ^ k + l.
Proof.
  intros Hk Hl. rewrite <- Z.shiftl_mul_pow2 by lia.
  apply Z.bits_inj'. intros i Hi.
  rewrite Z.lor_spec. destruct (Z.lt_ge_cases i k).
  - rewrite Z.shiftl_spec_low by lia.
    rewrite <- (Z.mod_pow2_bits_low (_ + _) k i) by lia.
    rewrite Z.shiftl_mul_pow2 by lia. 
    rewrite Z.add_comm, Z_mod_plus_full, Z.mod_small by lia. reflexivity.
  - rewrite Z.shiftl_spec by lia.
    replace (Z.testbit l i) with false.
    2: { symmetry. rewrite <- (Z.mod_small l (2 ^ k)) by lia. apply Z.mod_pow2_bits_high. lia. }
    rewrite orb_false_r. rewrite Z.shiftl_mul_pow2 by lia.
    replace i with (i - k + k) at 2 by lia.
    rewrite <- Z.div_pow2_bits by lia.
    rewrite Z.add_comm, Z_div_plus_full by lia. rewrite Z.div_small by lia. reflexivity.
Qed.

(** What one move computes, for the widths the header uses. *)
Lemma bpf_mvb_full w x n m : w = 32 \/ w = 64 -> 0 <= n < w / 8 -> m = w / 8 - 1 - n ->
  bpf_mvb w x w n m = byte_n x n * 2 ^ (8 * m).
Proof.
  intros Hw Hn ->. unfold bpf_mvb, byte_n.
  rewrite Z.shiftl_mul_pow2, Z.shiftr_div_pow2, Z.shiftl_mul_pow2 by mlia.
  assert (Hk : 2 ^ w = 2 ^ (8 * n) * (256 * 2 ^ (w - (n + 1) * 8))).
  { change 256 with (2 ^ 8). rewrite <- !Z.pow_add_r by mlia. f_equal. lia. }
  assert (Hs : 2 ^ (w - 8) = 2 ^ (8 * n) * 2 ^ (w - (n + 1) * 8)).
  { rewrite <- Z.pow_add_r by mlia. f_equal. lia. }
  set (p := 2 ^ (8 * n)) in *. set (q := 2 ^ (w - (n + 1) * 8)) in *.
  assert (0 < p) by (apply Z.pow_pos_nonneg; lia).
  assert (0 < q) by (apply Z.pow_pos_nonneg; mlia).
  replace (2 ^ (8 * (w / 8 - 1 - n))) with q by (unfold q; f_equal; mlia).
  replace (2 ^ ((w / 8 - 1 - n) * 8)) with q by (unfold q; f_equal; mlia).
  assert (Hy : (x mod 2 ^ w * q) mod 2 ^ w / 2 ^ (w - 8) = x / p mod 256).
  { rewrite Zmult_mod_idemp_l, Hk, Hs. replace (x * q) with (q * x) by lia.
    replace (p * (256 * q)) with (q * (256 * p)) by lia.
    rewrite Z.mul_mod_distr_l by lia. rewrite (Z.mul_comm p q), Z.div_mul_cancel_l by lia.
    rewrite (Z.mul_comm 256 p), Z.rem_mul_r by lia.
    rewrite (Z.mul_comm p), Z.div_add by lia. 
    rewrite Z.div_small by (apply Z.mod_pos_bound; lia). lia. }
  rewrite Hy. apply Z.mod_small. rewrite Hk.
  pose proof (Z.mod_pos_bound (x / p) 256 ltac:(lia)). nia.
Qed.

Lemma bpf_mvb_16_hi x : bpf_mvb 32 x 16 0 1 = x mod 65536 * 2 ^ 8.
Proof.
  unfold bpf_mvb. rewrite Z.shiftl_mul_pow2, Z.shiftr_div_pow2, Z.shiftl_mul_pow2 by lia.
  cbn -[Z.modulo Z.div Z.mul]. mlia.
Qed.

Lemma bpf_mvb_16_lo x : bpf_mvb 32 x 16 1 0 = x / 256 mod 256.
Proof.
  unfold bpf_mvb. rewrite Z.shiftl_mul_pow2, Z.shiftr_div_pow2, Z.shiftl_mul_pow2 by lia.
  cbn -[Z.modulo Z.div Z.mul]. mlia.
Qed.

(** The constant macros and the built-ins agree. *)
Lemma bpf_swab16_builtin x : bpf_swab16 x = builtin_bswap16 x.
Proof.
  unfold bpf_swab16. rewrite bpf_mvb_16_hi, bpf_mvb_16_lo, lor_add by mlia.
  unfold u16, builtin_bswap16, byte_n. cbn -[Z.modulo Z.div Z.mul]. mlia.
Qed.

(** Horner's rule on the bytes of a swapped word: [m1] is [m + 1]. *)
Lemma lor_join h x n m m1 :
  0 <= m -> m1 = m + 1 ->
  Z.lor (h * 2 ^ (8 * m1)) (byte_n x n * 2 ^ (8 * m)) = (h * 256 + byte_n x n) * 2 ^ (8 * m).
Proof.
  intros Hm ->. replace (8 * (m + 1)) with (8 * m + 8) by lia.
  pose proof (byte_n_range x n) as Hb. unfold is_byte in Hb.
  assert (0 < 2 ^ (8 * m)) by (apply Z.pow_pos_nonneg; lia).
  rewrite lor_add; rewrite ?Z.pow_add_r by lia; [lia|lia|].
  change (2 ^ 8) with 256. nia.
Qed.

(** Bounds of the bytes of [x]. *)
Ltac byte_bounds x :=
  repeat match goal with
  | |- context [byte_n x ?n] =>
      let b := fresh "b" in
      let Hb := fresh "Hb" in
      pose proof (byte_n_range x n) as Hb; unfold is_byte in Hb;
      set (b := byte_n x n) in *; clearbody b
  end.

Lemma bpf_swab32_builtin x : bpf_swab32 x = builtin_bswap32 x.
Proof.
  unfold bpf_swab32. rewrite !bpf_mvb_full, !lor_join by mlia.
  unfold builtin_bswap32. change (2 ^ (8 * 0)) with 1.
  byte_bounds x. rewrite u32_id by lia. lia.
Qed.

Lemma bpf_swab64_builtin x : bpf_swab64 x = builtin_bswap64 x.
Proof.
  unfold bpf_swab64. rewrite !bpf_mvb_full, !lor_join by mlia.
  unfold builtin_bswap64, u64. change (2 ^ (8 * 0)) with 1.
  byte_bounds x. rewrite Z.mod_small by lia. lia.
Qed.

(** Equality of explicit lists, element by element. *)
Ltac cons_eq := repeat (refine (f_equal2 cons _ _)); try reflexivity.

Section Lemmas.
Context `{T : Target}.

(** The value of [bpf_htons] and [bpf_ntohs], whatever the compiler folds. *)
Lemma bpf_htons_eq x : bpf_htons x = if little_endian then builtin_bswap16 x else x.
Proof.
  unfold bpf_htons, bpf_constant_htons, bpf_nonconst_htons.
  rewrite bpf_swab16_builtin. by destruct (builtin_constant_p x).
Qed.

Lemma bpf_htonl_eq x : bpf_htonl x = if little_endian then builtin_bswap32 x else x.
Proof.
  unfold bpf_htonl, bpf_constant_htonl, bpf_nonconst_htonl.
  rewrite bpf_swab32_builtin. by destruct (builtin_constant_p x).
Qed.

Lemma bpf_ntohs_htons x : bpf_ntohs x = bpf_htons x.
Proof. reflexivity. Qed.

Lemma bpf_ntohl_htonl x : bpf_ntohl x = bpf_htonl x.
Proof. reflexivity. Qed.

Lemma bpf_htonl_range x : 0 <= x < 4294967296 -> 0 <= bpf_htonl x < 4294967296.
Proof.
  intros. rewrite bpf_htonl_eq. unfold builtin_bswap32.
  destruct little_endian; [byte_bounds x|]; cbn -[Z.modulo Z.div Z.mul]; mlia.
Qed.

Lemma load16_range a b : is_byte a -> is_byte b -> 0 <= load16 a b < 65536.
Proof. unfold is_byte, load16. destruct little_endian; lia. Qed.

Lemma load32_range a b c d :
  is_byte a -> is_byte b -> is_byte c -> is_byte d -> 0 <= load32 a b c d < 4294967296.
Proof. unfold is_byte, load32. destruct little_endian; lia. Qed.

Lemma ld16_range l i : bytes l -> 0 <= ld16 l i < 65536.
Proof. intros. apply load16_range; by apply byte_at_range. Qed.

Lemma ld32_range l i : bytes l -> 0 <= ld32 l i < 4294967296.
Proof. intros. apply load32_range; by apply byte_at_range. Qed.

(** A field read from the wire and converted to host order. *)
Lemma ntohs_load16 a b : is_byte a -> is_byte b -> bpf_ntohs (load16 a b) = 256 * a + b.
Proof.
  unfold is_byte. intros. rewrite bpf_ntohs_htons, bpf_htons_eq.
  unfold load16, builtin_bswap16, byte_n.
  destruct little_endian; cbn -[Z.modulo Z.div Z.mul]; mlia.
Qed.

Lemma ntohl_load32 a b c d : is_byte a -> is_byte b -> is_byte c -> is_byte d ->
  bpf_ntohl (load32 a b c d) = 16777216 * a + 65536 * b + 256 * c + d.
Proof.
  unfold is_byte. intros. rewrite bpf_ntohl_htonl, bpf_htonl_eq.
  unfold load32, builtin_bswap32, byte_n.
  destruct little_endian; cbn -[Z.modulo Z.div Z.mul]; mlia.
Qed.

Lemma ntohs_ld16 l i : bytes l -> bpf_ntohs (ld16 l i) = rd16 l i.
Proof. intros. apply ntohs_load16; by apply byte_at_range. Qed.

Lemma ntohl_ld32 l i : bytes l -> bpf_ntohl (ld32 l i) = rd32 l i.
Proof. intros. apply ntohl_load32; by apply byte_at_range. Qed.

(** A host value converted with [bpf_htons] and stored is in network order. *)
Lemma store16_htons v : store16 (bpf_htons v) = be16 v.
Proof.
  rewrite bpf_htons_eq. unfold store16, be16, builtin_bswap16, byte_n.
  destruct little_endian; cbn -[Z.modulo Z.div Z.mul]; cons_eq; mlia.
Qed.

Lemma store32_htonl v : store32 (bpf_htonl v) = be32 v.
Proof.
  rewrite bpf_htonl_eq. unfold store32, be32, builtin_bswap32, byte_n.
  destruct little_endian; cbn -[Z.modulo Z.div Z.mul]; cons_eq; mlia.
Qed.

(** A store keeps the low 16 bits. *)
Lemma store16_u16 v : store16 (u16 v) = store16 v.
Proof.
  unfold store16, byte_n, u16. destruct little_endian; cbn -[Z.modulo Z.div Z.mul]; cons_eq; mlia.
Qed.

Lemma store16_load16 a b : is_byte a -> is_byte b -> store16 (load16 a b) = [a; b].
Proof.
  unfold is_byte, store16, load16, byte_n. intros.
  destruct little_endian; cbn -[Z.modulo Z.div Z.mul]; cons_eq; mlia.
Qed.

Lemma store32_load32 a b c d : is_byte a -> is_byte b -> is_byte c -> is_byte d ->
  store32 (load32 a b c d) = [a; b; c; d].
Proof.
  unfold is_byte, store32, load32, byte_n. intros.
  destruct little_endian; cbn -[Z.modulo Z.div Z.mul]; cons_eq; mlia.
Qed.

Lemma ld16_store16 v r : 0 <= v < 65536 -> ld16 (store16 v ++ r) 0 = v.
Proof.
  intros. unfold ld16, byte_at, store16, load16, byte_n.
  destruct little_endian; znat; cbn -[Z.modulo Z.div Z.mul]; mlia.
Qed.

Lemma ld32_store32 v r : 0 <= v < 4294967296 -> ld32 (store32 v ++ r) 0 = v.
Proof.
  intros. unfold ld32, byte_at, store32, load32, byte_n.
  destruct little_endian; znat; cbn -[Z.modulo Z.div Z.mul]; mlia.
Qed.

Lemma zlen_store16 v : zlen (store16 v) = 2.
Proof. unfold store16. by destruct little_endian. Qed.

Lemma zlen_store32 v : zlen (store32 v) = 4.
Proof. unfold store32. by destruct little_endian. Qed.

Lemma bytes_store16 v : bytes (store16 v).
Proof. unfold store16. destruct little_endian; repeat constructor; apply byte_n_range. Qed.

Lemma bytes_store32 v : bytes (store32 v).
Proof. unfold store32. destruct little_endian; repeat constructor; apply byte_n_range. Qed.

(** Loads at an offset of a larger buffer. *)
Lemma ld16_app_l l r i : 0 <= i -> i + 2 <= zlen l -> ld16 (l ++ r) i = ld16 l i.
Proof. intros. unfold ld16. by rewrite !byte_at_app_l by lia. Qed.

Lemma ld32_app_l l r i : 0 <= i -> i + 4 <= zlen l -> ld32 (l ++ r) i = ld32 l i.
Proof. intros. unfold ld32. by rewrite !byte_at_app_l by lia. Qed.
End Lemmas.

#[export] Hint Rewrite @zlen_store16 @zlen_store32 : zlen.
#[export] Hint Resolve bytes_store16 bytes_store32 : bytes.

Lemma zlen_be16 v : zlen (be16 v) = 2.
Proof. reflexivity. Qed.

Lemma zlen_be32 v : zlen (be32 v) = 4.
Proof. reflexivity. Qed.
#[export] Hint Rewrite zlen_be16 zlen_be32 : zlen.

Lemma bytes_be16 v : bytes (be16 v).
Proof. repeat constructor; apply byte_n_range. Qed.

Lemma bytes_be32 v : bytes (be32 v).
Proof. repeat constructor; apply byte_n_range. Qed.
#[export] Hint Resolve bytes_be16 bytes_be32 : bytes.

(** ** Properties *)

(** C29: The conversion macros of bpf_endian.h do not depend on whether the
    compiler treats their argument as a constant: the byte-moving macros used
    for constants equal the compiler builtins used otherwise, for every
    argument, in all three widths, on both byte orders. *)
Theorem endian_constant_folding `{T : Target} x :
  bpf_constant_htons x = bpf_nonconst_htons x /\ bpf_constant_htonl x = bpf_nonconst_htonl x /\
  bpf_constant_cpu_to_be64 x = bpf_nonconst_cpu_to_be64 x.
Proof.
  unfold bpf_constant_htons, bpf_constant_htonl, bpf_constant_cpu_to_be64.
  by rewrite bpf_swab16_builtin, bpf_swab32_builtin, bpf_swab64_builtin.
Qed.

(** Bytes of numbers written byte by byte. *)
Lemma byte_n_0 h b : is_byte b -> byte_n (h * 256 + b) 0 = b.
Proof. unfold is_byte, byte_n. intros. change (2 ^ (8 * 0)) with 1. mlia. Qed.

Lemma byte_n_S h b n m : is_byte b -> 0 <= n -> m = n + 1 -> byte_n (h * 256 + b) m = byte_n h n.
Proof.
  unfold is_byte, byte_n. intros Hb Hn ->. replace (8 * (n + 1)) with (8 + 8 * n) by lia.
  rewrite Z.pow_add_r, <- Z.div_div by lia. change (2 ^ 8) with 256.
  replace ((h * 256 + b) / 256) with h by mlia. done.
Qed.

Lemma div_byte_step v n m : 0 <= n -> m = n + 1 ->
  v / 2 ^ (8 * n) = v / 2 ^ (8 * m) * 256 + byte_n v n.
Proof.
  intros Hn ->. unfold byte_n. replace (8 * (n + 1)) with (8 * n + 8) by lia.
  rewrite Z.pow_add_r, <- Z.div_div by lia. change (2 ^ 8) with 256.
  set (q := v / 2 ^ (8 * n)). mlia.
Qed.

Lemma swap_bytes v : 0 <= v ->
  (v < 2 ^ 16 -> v = byte_n v 1 * 256 + byte_n v 0) /\
  (v < 2 ^ 32 -> v = ((byte_n v 3 * 256 + byte_n v 2) * 256 + byte_n v 1) * 256 + byte_n v 0) /\
  (v < 2 ^ 64 -> v = ((((((byte_n v 7 * 256 + byte_n v 6) * 256 + byte_n v 5) * 256 + byte_n v 4) * 256
       + byte_n v 3) * 256 + byte_n v 2) * 256 + byte_n v 1) * 256 + byte_n v 0).
Proof.
  intros Hv. assert (E0 : v = v / 2 ^ (8 * 0)) by (change (2 ^ (8 * 0)) with 1; mlia).
  pose proof (div_byte_step v 0 1 ltac:(lia) eq_refl). pose proof (div_byte_step v 1 2 ltac:(lia) eq_refl).
  pose proof (div_byte_step v 2 3 ltac:(lia) eq_refl). pose proof (div_byte_step v 3 4 ltac:(lia) eq_refl).
  pose proof (div_byte_step v 4 5 ltac:(lia) eq_refl). pose proof (div_byte_step v 5 6 ltac:(lia) eq_refl).
  pose proof (div_byte_step v 6 7 ltac:(lia) eq_refl). pose proof (div_byte_step v 7 8 ltac:(lia) eq_refl).
  split; [|split]; intros Hlt.
  - pose proof (Z.div_small v (2 ^ (8 * 2)) ltac:(lia)). lia.
  - pose proof (Z.div_small v (2 ^ (8 * 4)) ltac:(lia)). lia.
  - pose proof (Z.div_small v (2 ^ (8 * 8)) ltac:(lia)). lia.
Qed.

(** The value of bytes, most significant first. *)
Definition of_bytes (l : list Z) : Z := fold_left (fun h b => h * 256 + b) l 0.

Ltac byte_steps :=
  repeat first
    [rewrite byte_n_0 by assumption
    |rewrite (byte_n_S _ _ 6 7) by first [assumption|done]
    |rewrite (byte_n_S _ _ 5 6) by first [assumption|done]
    |rewrite (byte_n_S _ _ 4 5) by first [assumption|done]
    |rewrite (byte_n_S _ _ 3 4) by first [assumption|done]
    |rewrite (byte_n_S _ _ 2 3) by first [assumption|done]
    |rewrite (byte_n_S _ _ 1 2) by first [assumption|done]
    |rewrite (byte_n_S _ _ 0 1) by first [assumption|done]].

Lemma bswap16_bytes a b : is_byte a -> is_byte b ->
  builtin_bswap16 (of_bytes [a; b]) = of_bytes [b; a].
Proof. intros. unfold builtin_bswap16, of_bytes. cbn [fold_left]. byte_steps. lia. Qed.

Lemma bswap32_bytes a b c d : is_byte a -> is_byte b -> is_byte c -> is_byte d ->
  builtin_bswap32 (of_bytes [a; b; c; d]) = of_bytes [d; c; b; a].
Proof. intros. unfold builtin_bswap32, of_bytes. cbn [fold_left]. byte_steps. lia. Qed.

Lemma bswap64_bytes a b c d e f g h :
  is_byte a -> is_byte b -> is_byte c -> is_byte d ->
  is_byte e -> is_byte f -> is_byte g -> is_byte h ->
  builtin_bswap64 (of_bytes [a; b; c; d; e; f; g; h]) = of_bytes [h; g; f; e; d; c; b; a].
Proof. intros. unfold builtin_bswap64, of_bytes. cbn [fold_left]. byte_steps. lia. Qed.

Lemma builtin_bswap_invol v : 0 <= v ->
  (v < 2 ^ 16 -> builtin_bswap16 (builtin_bswap16 v) = v) /\
  (v < 2 ^ 32 -> builtin_bswap32 (builtin_bswap32 v) = v) /\
  (v < 2 ^ 64 -> builtin_bswap64 (builtin_bswap64 v) = v).
Proof.
  intros Hv. destruct (swap_bytes v Hv) as (H16 & H32 & H64). split; [|split]; intros Hlt.
  - replace (builtin_bswap16 v) with (of_bytes [byte_n v 0; byte_n v 1])
      by (unfold builtin_bswap16, of_bytes; cbn [fold_left]; lia).
    rewrite bswap16_bytes by apply byte_n_range. unfold of_bytes. cbn [fold_left].
    specialize (H16 Hlt). lia.
  - replace (builtin_bswap32 v) with (of_bytes [byte_n v 0; byte_n v 1; byte_n v 2; byte_n v 3])
      by (unfold builtin_bswap32, of_bytes; cbn [fold_left]; lia).
    rewrite bswap32_bytes by apply byte_n_range. unfold of_bytes. cbn [fold_left].
    specialize (H32 Hlt). lia.
  - replace (builtin_bswap64 v) with (of_bytes [byte_n v 0; byte_n v 1; byte_n v 2; byte_n v 3;
      byte_n v 4; byte_n v 5; byte_n v 6; byte_n v 7])
      by (unfold builtin_bswap64, of_bytes; cbn [fold_left]; lia).
    rewrite bswap64_bytes by apply byte_n_range. unfold of_bytes. cbn [fold_left].
    specialize (H64 Hlt). lia.
Qed.

Lemma bpf_cpu_to_be64_eq `{T : Target} x :
  bpf_cpu_to_be64 x = if little_endian then builtin_bswap64 x else x.
Proof.
  unfold bpf_cpu_to_be64, bpf_constant_cpu_to_be64, bpf_nonconst_cpu_to_be64.
  rewrite bpf_swab64_builtin. by destruct (builtin_constant_p x).
Qed.

Lemma store64_cpu_to_be64 `{T : Target} v : store64 (bpf_cpu_to_be64 v) = be64 v.
Proof.
  rewrite bpf_cpu_to_be64_eq. unfold store64, be64. destruct little_endian; [|done].
  pose proof (byte_n_range v 0). pose proof (byte_n_range v 1). pose proof (byte_n_range v 2).
  pose proof (byte_n_range v 3). pose proof (byte_n_range v 4). pose proof (byte_n_range v 5).
  pose proof (byte_n_range v 6). pose proof (byte_n_range v 7).
  replace (builtin_bswap64 v) with (of_bytes [byte_n v 0; byte_n v 1; byte_n v 2; byte_n v 3;
    byte_n v 4; byte_n v 5; byte_n v 6; byte_n v 7])
    by (unfold builtin_bswap64, of_bytes; cbn [fold_left]; lia).
  unfold of_bytes. cbn [fold_left]. byte_steps. done.
Qed.

(** C30: Network to host undoes host to network, in all three widths and on both
    byte orders, and a converted value that is stored natively lies in memory in
    network order, most significant byte first, in all three widths. *)
Theorem endian_round_trip `{T : Target} v :
  0 <= v ->
  (v < 2 ^ 16 -> bpf_ntohs (bpf_htons v) = v) /\
  (v < 2 ^ 32 -> bpf_ntohl (bpf_htonl v) = v) /\
  (v < 2 ^ 64 -> bpf_be64_to_cpu (bpf_cpu_to_be64 v) = v) /\
  store16 (bpf_htons v) = be16 v /\ store32 (bpf_htonl v) = be32 v /\
  store64 (bpf_cpu_to_be64 v) = be64 v.
Proof.
  intros Hv. destruct (builtin_bswap_invol v Hv) as (H16 & H32 & H64).
  split; [|split; [|split; [|by rewrite store16_htons, store32_htonl, store64_cpu_to_be64]]];
    intros Hlt.
  - rewrite bpf_ntohs_htons, !bpf_htons_eq. destruct little_endian; auto.
  - rewrite bpf_ntohl_htonl, !bpf_htonl_eq. destruct little_endian; auto.
  - change (bpf_be64_to_cpu ?x) with (bpf_cpu_to_be64 x).
    rewrite !bpf_cpu_to_be64_eq. destruct little_endian; auto.
Qed.
