(* ===== verification/Checksum.v ===== *)
(** * Internet checksum arithmetic (csum_fold and word16 of src/bpf/clat.c)

    Ones'-complement sums are sums modulo 65535.  [nsum] is the sum of the
    native 16-bit words of a buffer, which is what the kernel's checksum
    helpers add up; [sum16] is the sum of its words in network order, which is
    what RFC 1071 defines.  The two differ by a factor that does not depend on
    the buffer, so a checksum computed natively and stored natively is the
    network-order checksum on both byte orders. *)

From Stdlib Require Import Setoid Morphisms.
From S2P Require Import Prelude Endian.

(** ** Congruence modulo 65535 *)

Definition eq1c (a b : Z) : Prop := a mod 65535 = b mod 65535.

Declare Scope csum_scope.
Delimit Scope csum_scope with csum.
Notation "a ≅ b" := (eq1c a b) (at level 70, no associativity) : csum_scope.
#[global] Open Scope csum_scope.

#[export] Instance eq1c_equiv : Equivalence eq1c.
Proof. split; unfold eq1c; red; congruence. Qed.

#[export] Instance eq1c_add : Proper (eq1c ==> eq1c ==> eq1c) Z.add.
Proof. intros a b H c d H'. unfold eq1c in *. rewrite (Z.add_mod a), (Z.add_mod b); congruence. Qed.

#[export] Instance eq1c_mul : Proper (eq1c ==> eq1c ==> eq1c) Z.mul.
Proof. intros a b H c d H'. unfold eq1c in *. rewrite (Z.mul_mod a), (Z.mul_mod b); congruence. Qed.

#[export] Instance eq1c_opp : Proper (eq1c ==> eq1c) Z.opp.
Proof.
  intros a b H. replace (- a) with (-1 * a) by lia. replace (- b) with (-1 * b) by lia.
  by rewrite H.
Qed.

#[export] Instance eq1c_sub : Proper (eq1c ==> eq1c ==> eq1c) Z.sub.
Proof. intros a b H c d H'. unfold Z.sub. by rewrite H, H'. Qed.

Lemma eq1c_iff a b : a ≅ b <-> exists k, a = b + 65535 * k.
Proof.
  unfold eq1c. split.
  - intros H. exists (a / 65535 - b / 65535). mlia.
  - intros [k ->]. rewrite Z.mul_comm. apply Z_mod_plus_full.
Qed.

(** Moves every congruence of the context to an equation and solves a
    congruence goal that follows linearly, with the witness [k]. *)
Ltac eq1c_lia := unfold eq1c in *; mlia.

Lemma eq1c_sub_0 a b : a ≅ b <-> a - b ≅ 0.
Proof. rewrite !eq1c_iff. split; intros [k Hk]; exists k; lia. Qed.

Lemma eq1c_65536 a : 65536 * a ≅ a.
Proof. apply eq1c_iff. exists a. lia. Qed.

(** ** The operations of the program *)

Section Csum.
Context `{T : Target}.

(** [csum_fold]: fold a 32-bit sum to 16 bits and complement it. *)
Definition csum_fold (csum : Z) : Z :=
  let s := u32 csum in
  let s := u32 (Z.land s 0xffff + Z.shiftr s 16) in
  let s := u32 (Z.land s 0xffff + Z.shiftr s 16) in
  u16 (Z.lnot s).

(** [word16]: a 32-bit word with [v] in its first two bytes of memory. *)
Definition word16 (v : Z) : Z :=
  let b := splice 0 (store16 v) [0; 0; 0; 0] in
  ld32 b 0.

(** ** Sums of buffers *)

Fixpoint nsum (l : list Z) : Z :=
  match l with
  | a :: b :: r => load16 a b + nsum r
  | [a] => load16 a 0
  | [] => 0
  end.
End Csum.

Fixpoint sum16 (l : list Z) : Z :=
  match l with
  | a :: b :: r => 256 * a + b + sum16 r
  | [a] => 256 * a
  | [] => 0
  end.

(** One step of RFC 1071: 16-bit addition with end-around carry. *)
Definition onec_add (a b : Z) : Z := if a + b <? 65536 then a + b else a + b - 65535.

Fixpoint inet_sum (l : list Z) : Z :=
  match l with
  | a :: b :: r => onec_add (256 * a + b) (inet_sum r)
  | [a] => 256 * a
  | [] => 0
  end.

(** The receiver's test: the ones'-complement sum of the data, checksum
    included, is all ones. *)
Definition inet_ok (l : list Z) : Prop := inet_sum l = 65535.

(** ** Lemmas on the folds *)

(** Induction on a list two elements at a time. *)
Lemma pair_ind {A} (P : list A -> Prop) :
  P [] -> (forall a, P [a]) -> (forall a b r, P r -> P (a :: b :: r)) -> forall l, P l.
Proof.
  intros H0 H1 H2. fix IH 1. intros [|a [|b r]]; [exact H0|apply H1|apply H2, IH].
Qed.

Lemma csum_fold_step s : 0 <= s < 4294967296 ->
  Z.land s 0xffff + Z.shiftr s 16 = s mod 65536 + s / 65536.
Proof.
  intros. change 0xffff with (Z.ones 16). rewrite Z.land_ones, Z.shiftr_div_pow2 by lia.
  reflexivity.
Qed.

(** [csum_fold] is the complement of the folded sum. *)
Lemma csum_fold_eq s : 0 <= s < 4294967296 ->
  csum_fold s = 65535 - (let t := s mod 65536 + s / 65536 in t mod 65536 + t / 65536).
Proof.
  intros. unfold csum_fold. cbv zeta. rewrite (u32_id s), (csum_fold_step s) by lia.
  set (t := s mod 65536 + s / 65536). assert (0 <= t < 131072) by (unfold t; mlia).
  rewrite (u32_id t), (csum_fold_step t) by lia.
  set (r := t mod 65536 + t / 65536). assert (0 <= r < 65536) by (unfold r, t in *; mlia).
  rewrite (u32_id r) by lia. unfold u16, Z.lnot. change (2 ^ 16) with 65536. mlia.
Qed.

Lemma csum_fold_range s : 0 <= csum_fold s < 65536.
Proof. unfold csum_fold. apply u16_range. Qed.

Lemma csum_fold_cong s : 0 <= s < 4294967296 -> csum_fold s + s ≅ 0.
Proof. intros. rewrite csum_fold_eq by lia. cbv zeta. eq1c_lia. Qed.

(** The folded sum is zero only for the sum zero: the complement is 0xffff
    only for zero. *)
Lemma csum_fold_ffff s : 0 <= s < 4294967296 -> csum_fold s = 65535 <-> s = 0.
Proof. intros. rewrite csum_fold_eq by lia. cbv zeta. mlia. Qed.

Lemma csum_fold_0 s : 0 <= s < 4294967296 -> csum_fold s = 0 <-> s <> 0 /\ s ≅ 0.
Proof. intros. rewrite csum_fold_eq by lia. cbv zeta. unfold eq1c. mlia. Qed.

(** ** Lemmas on sums of buffers *)

(** A buffer of an even number of bytes: 16-bit words do not straddle its end. *)
Definition even_len (l : list Z) : Prop := Z.even (zlen l) = true.

Lemma even_len_app a b : even_len a -> even_len b -> even_len (a ++ b).
Proof. unfold even_len. intros Ha Hb. by rewrite zlen_app, Z.even_add, Ha, Hb. Qed.

Lemma even_len_app_inv a b : even_len a -> even_len (a ++ b) -> even_len b.
Proof.
  unfold even_len. intros Ha. rewrite zlen_app, Z.even_add, Ha. by destruct (Z.even (zlen b)).
Qed.

Section Sums.
Context `{T : Target}.

Lemma nsum_app a b : even_len a -> nsum (a ++ b) = nsum a + nsum b.
Proof.
  unfold even_len. revert a. apply (pair_ind (fun a => _ -> nsum (a ++ b) = _)).
  - done.
  - intros x Hx. discriminate.
  - intros x y r IH Hr. simpl. rewrite IH; [lia|].
    rewrite !zlen_cons in Hr. replace (1 + (1 + zlen r)) with (zlen r + 2 * 1) in Hr by lia.
    by rewrite Z.even_add_mul_2 in Hr.
Qed.

(** The factor between native and network order: [256] is its own inverse. *)
Definition order_factor : Z := if little_endian then 256 else 1.

Lemma order_factor_sq a : order_factor * (order_factor * a) ≅ a.
Proof. unfold order_factor. destruct little_endian; apply eq1c_iff; [exists a|exists 0]; lia. Qed.

Lemma nsum_sum16 l : nsum l ≅ order_factor * sum16 l.
Proof.
  revert l. apply pair_ind.
  - simpl. by rewrite Z.mul_0_r.
  - intros a. simpl. unfold load16, order_factor.
    destruct little_endian; apply eq1c_iff; [exists (- a)|exists 0]; lia.
  - intros a b r IH. simpl. rewrite IH. unfold load16, order_factor.
    destruct little_endian; apply eq1c_iff; [exists (- a)|exists 0]; lia.
Qed.

Lemma sum16_nsum l : sum16 l ≅ order_factor * nsum l.
Proof. by rewrite nsum_sum16, order_factor_sq. Qed.

(** Native and network-order sums agree on equalities. *)
Lemma nsum_sum16_0 l : nsum l ≅ 0 <-> sum16 l ≅ 0.
Proof.
  split; intros H.
  - by rewrite sum16_nsum, H, Z.mul_0_r.
  - by rewrite nsum_sum16, H, Z.mul_0_r.
Qed.

Lemma nsum_store16 v : nsum (store16 v) = u16 v.
Proof.
  unfold store16, byte_n, u16, load16, nsum, load16.
  destruct little_endian; cbn -[Z.modulo Z.div Z.mul]; mlia.
Qed.

Lemma nsum_store32 v : nsum (store32 v) ≅ u32 v.
Proof.
  unfold store32, byte_n, u32. rewrite eq1c_iff.
  exists (if little_endian then - (v / 65536 mod 65536) else - (v / 65536 mod 65536)).
  unfold nsum, load16. destruct little_endian; cbn -[Z.modulo Z.div Z.mul]; mlia.
Qed.

(** A 16-bit value converted with [bpf_htonl] or [bpf_htons] has one sum. *)
Lemma htonl_htons v : 0 <= v < 65536 -> bpf_htonl v ≅ bpf_htons v.
Proof.
  intros. rewrite bpf_htonl_eq, bpf_htons_eq. unfold builtin_bswap32, builtin_bswap16, byte_n.
  destruct little_endian; apply eq1c_iff;
    [exists (builtin_bswap16 v)|exists 0]; unfold builtin_bswap16, byte_n;
    cbn -[Z.modulo Z.div Z.mul]; mlia.
Qed.

Lemma word16_range v : 0 <= word16 v < 4294967296.
Proof. apply ld32_range. apply bytes_splice; [apply bytes_store16|apply (bytes_replicate_0 4)]. Qed.

Lemma word16_cong v : word16 v ≅ u16 v.
Proof.
  unfold word16, store16, byte_n, ld32, splice, byte_at, load32, u16.
  destruct little_endian; znat; cbn -[Z.modulo Z.div Z.mul]; apply eq1c_iff;
    [exists 0|exists (v mod 65536)]; mlia.
Qed.

(** Zero padding adds nothing. *)
Lemma nsum_replicate_0 n : nsum (replicate n 0) = 0.
Proof.
  induction n as [n IH] using lt_wf_ind. destruct n as [|[|n]]; simpl; unfold load16.
  - done.
  - by destruct little_endian.
  - rewrite IH by lia. by destruct little_endian.
Qed.

Lemma nsum_pad l n : nsum (l ++ replicate n 0) = nsum l.
Proof.
  revert l. apply pair_ind.
  - simpl. apply nsum_replicate_0.
  - intros a. destruct n as [|n]; simpl; [done|]. rewrite nsum_replicate_0. lia.
  - intros a b r IH. simpl. by rewrite IH.
Qed.
End Sums.

(** ** The RFC 1071 test *)

Lemma onec_add_range a b : 0 <= a < 65536 -> 0 <= b < 65536 -> 0 <= onec_add a b < 65536.
Proof. unfold onec_add. intros. destruct (Z.ltb_spec (a + b) 65536); lia. Qed.

Lemma onec_add_cong a b : onec_add a b ≅ a + b.
Proof.
  unfold onec_add. destruct (a + b <? 65536); [done|]. apply eq1c_iff. exists (-1). lia.
Qed.

Lemma onec_add_0 a b : 0 <= a < 65536 -> 0 <= b < 65536 -> onec_add a b = 0 <-> a = 0 /\ b = 0.
Proof. unfold onec_add. intros. destruct (Z.ltb_spec (a + b) 65536); lia. Qed.

Lemma inet_sum_range l : bytes l -> 0 <= inet_sum l < 65536.
Proof.
  revert l. apply (pair_ind (fun l => bytes l -> 0 <= inet_sum l < 65536)).
  - cbn [inet_sum sum16]. lia.
  - intros a Ha. apply bytes_cons in Ha as [Ha _]. unfold is_byte in Ha. cbn [inet_sum sum16]. lia.
  - intros a b r IH Hl. rewrite !bytes_cons in Hl. unfold is_byte in Hl.
    cbn [inet_sum sum16]. apply onec_add_range; [lia|tauto].
Qed.

Lemma inet_sum_cong l : inet_sum l ≅ sum16 l.
Proof.
  revert l. apply (pair_ind (fun l => inet_sum l ≅ sum16 l)); try done.
  intros a b r IH. cbn [inet_sum sum16]. by rewrite onec_add_cong, IH.
Qed.

Lemma inet_sum_0 l : bytes l -> inet_sum l = 0 <-> Forall (fun b => b = 0) l.
Proof.
  revert l. apply (pair_ind (fun l => bytes l -> inet_sum l = 0 <-> Forall (fun b => b = 0) l)).
  - cbn [inet_sum sum16]. by split.
  - intros a Ha. rewrite Forall_singleton. apply bytes_cons in Ha as [Ha _]. unfold is_byte in Ha.
    cbn [inet_sum sum16]. lia.
  - intros a b r IH Hl. rewrite !bytes_cons in Hl. destruct Hl as (Ha & Hb & Hl).
    unfold is_byte in *. pose proof (inet_sum_range r Hl).
    rewrite !Forall_cons. cbn [inet_sum sum16]. rewrite onec_add_0 by lia. rewrite IH by done.
    split; intros; repeat split; try lia; tauto.
Qed.

(** The test holds exactly when the network-order sum vanishes modulo 65535
    and the data are not all zero. *)
Lemma inet_ok_iff l : bytes l -> inet_ok l <-> sum16 l ≅ 0 /\ ~ Forall (fun b => b = 0) l.
Proof.
  intros Hl. unfold inet_ok. rewrite <- inet_sum_0, <- inet_sum_cong by done.
  pose proof (inet_sum_range l Hl). unfold eq1c. mlia.
Qed.

(** ** Properties *)

(** C28: [csum_fold] in closed form: the complement of the sum reduced modulo
    65535, where the representative zero stands for the sum zero only. *)
Theorem csum_fold_spec s :
  0 <= s < 4294967296 ->
  csum_fold s = 65535 - (if s =? 0 then 0 else (s - 1) mod 65535 + 1).
Proof.
  intros Hs. rewrite csum_fold_eq by done. cbv zeta. destruct (Z.eqb_spec s 0) as [->|Hne]; [done|].
  mlia.
Qed.

(** C27: Byte order does not matter to the checksum: whatever 32-bit sum
    congruent to the native 16-bit words of a buffer one folds, the result,
    stored natively into the zeroed checksum field, makes the buffer pass the
    receiver's test of RFC 1071, which reads words in network order; so on
    little-endian as on big-endian targets. *)
Theorem native_checksum_valid `{T : Target} a b s :
  bytes a -> bytes b -> even_len a -> ~ Forall (fun x => x = 0) a ->
  0 <= s < 4294967296 -> s ≅ nsum (a ++ [0; 0] ++ b) ->
  inet_ok (a ++ store16 (csum_fold s) ++ b).
Proof.
  intros Ha Hb He Hnz Hs Hc. apply inet_ok_iff; [solve_bytes|]. split.
  2: { rewrite Forall_app. tauto. }
  apply nsum_sum16_0. pose proof (csum_fold_cong s Hs) as Hf. pose proof (csum_fold_range s).
  assert (E2 : forall d, zlen d = 2 -> even_len d) by (intros d Hd; unfold even_len; by rewrite Hd).
  rewrite !nsum_app in Hc by (try done; by apply E2).
  rewrite !nsum_app, nsum_store16, u16_id by (try done; apply E2, zlen_store16).
  replace (nsum [0; 0]) with 0 in Hc by (unfold nsum, load16; by destruct little_endian).
  generalize dependent (csum_fold s). intros x Hf Hx. rewrite Hc in Hf.
  etrans; [|exact Hf]. apply eq1c_iff. exists 0. lia.
Qed.
