(* ===== verification/HelperTable.v ===== *)
(** * The helper functions the kernel offers (src/bpf/include/bpf_helper_defs.h)

    The header declares every BPF helper as a function pointer whose value is
    the number the kernel knows the helper by, and documents under Returns
    what a call may give back.  One definition per helper holds both: the
    declaration, and the documented results as a list of alternatives in the
    order of the text.  The circumstances the text attaches to a result (which
    argument is at fault for which error) are prose and are not part of it.

    The programs call eight of the helpers, through the operations of the class
    [Kernel] of Kernel.v; its specification takes what those may return from
    here ([documented]). *)

From Stdlib Require Import String List ZArith Lia.
Import ListNotations.
#[local] Open Scope string_scope.
#[local] Open Scope Z_scope.

(** A type as declared: [const] or not, the name, and the number of stars. *)
Inductive c_type := CType (is_const : bool) (base : string) (stars : Z).

(** The error codes the header names, with Linux's values. *)
Inductive errno :=
  EPERM | ENOENT | E2BIG | EAGAIN | EACCES | EFAULT | EBUSY | EEXIST | EINVAL | ENOSPC | ERANGE |
  EDEADLK | ENOMSG | EOVERFLOW | EPROTONOSUPPORT | ESOCKTNOSUPPORT | EOPNOTSUPP | ENETUNREACH.

Definition errno_value (e : errno) : Z :=
  match e with
  | EPERM => 1
  | ENOENT => 2
  | E2BIG => 7
  | EAGAIN => 11
  | EACCES => 13
  | EFAULT => 14
  | EBUSY => 16
  | EEXIST => 17
  | EINVAL => 22
  | ENOSPC => 28
  | ERANGE => 34
  | EDEADLK => 35
  | ENOMSG => 42
  | EOVERFLOW => 75
  | EPROTONOSUPPORT => 93
  | ESOCKTNOSUPPORT => 94
  | EOPNOTSUPP => 95
  | ENETUNREACH => 101
  end.

(** Result codes the header names, with the values of the kernel's headers. *)
Module Code.
Definition XDP_ABORTED : Z := 0.
Definition XDP_REDIRECT : Z := 4.
Definition TC_ACT_SHOT : Z := 2.
Definition TC_ACT_REDIRECT : Z := 7.
Definition SK_DROP : Z := 0.
Definition SK_PASS : Z := 1.
Definition BPF_MTU_CHK_RET_FRAG_NEEDED : Z := 1.
Definition BPF_MTU_CHK_RET_SEGS_TOOBIG : Z := 2.
End Code.

(** A documented result: a number or a named code, one of the error codes
    (returned negated), "a negative error", a count that is not negative, one
    that is positive, a number from a bound up to the value of a parameter, the
    low bits of a parameter, a value the text does not bound, a pointer, or
    [NULL]. *)
Inductive outcome :=
  | Exactly (n : Z)
  | Error (e : errno)
  | Negative
  | NonNegative
  | Positive
  | Within (lo : Z) (param : string)
  | LowBits (n : Z) (param : string)
  | Value
  | Pointer
  | Null.

(** A helper: name, number, return type, named parameters, whether further
    arguments may follow, and the documented results (none for a helper that
    returns nothing). *)
Record helper := Helper {
  h_name : string; h_id : Z; h_ret : c_type; h_params : list (string * c_type);
  h_variadic : bool; h_returns : list outcome
}.

(** ** The declarations, in the order of the header *)

Definition decl_bpf_map_lookup_elem : helper :=
  Helper "bpf_map_lookup_elem" 1 (CType false "void" 1)
    [("map", CType false "void" 1); ("key", CType true "void" 1)]
    false
    [Pointer; Null].

Definition decl_bpf_map_update_elem : helper :=
  Helper "bpf_map_update_elem" 2 (CType false "long" 0)
    [("map", CType false "void" 1); ("key", CType true "void" 1); ("value", CType true "void" 1);
     ("flags", CType false "__u64" 0)]
    false
    [Exactly 0; Negative].

Definition decl_bpf_map_delete_elem : helper :=
  Helper "bpf_map_delete_elem" 3 (CType false "long" 0)
    [("map", CType false "void" 1); ("key", CType true "void" 1)]
    false
    [Exactly 0; Negative].

Definition decl_bpf_probe_read : helper :=
  Helper "bpf_probe_read" 4 (CType false "long" 0)
    [("dst", CType false "void" 1); ("size", CType false "__u32" 0);
     ("unsafe_ptr", CType true "void" 1)]
    false
    [Exactly 0; Negative].

Definition decl_bpf_ktime_get_ns : helper :=
  Helper "bpf_ktime_get_ns" 5 (CType false "__u64" 0)
    []
    false
    [Value].

Definition decl_bpf_trace_printk : helper :=
  Helper "bpf_trace_printk" 6 (CType false "long" 0)
    [("fmt", CType true "char" 1); ("fmt_size", CType false "__u32" 0)]
    true
    [NonNegative; Negative].

Definition decl_bpf_get_prandom_u32 : helper :=
  Helper "bpf_get_prandom_u32" 7 (CType false "__u32" 0)
    []
    false
    [Value].

Definition decl_bpf_get_smp_processor_id : helper :=
  Helper "bpf_get_smp_processor_id" 8 (CType false "__u32" 0)
    []
    false
    [Value].

Definition decl_bpf_skb_store_bytes : helper :=
  Helper "bpf_skb_store_bytes" 9 (CType false "long" 0)
    [("skb", CType false "struct __sk_buff" 1); ("offset", CType false "__u32" 0);
     ("from", CType true "void" 1); ("len", CType false "__u32" 0);
     ("flags", CType false "__u64" 0)]
    false
    [Exactly 0; Negative].

Definition decl_bpf_l3_csum_replace : helper :=
  Helper "bpf_l3_csum_replace" 10 (CType false "long" 0)
    [("skb", CType false "struct __sk_buff" 1); ("offset", CType false "__u32" 0);
     ("from", CType false "__u64" 0); ("to", CType false "__u64" 0);
     ("size", CType false "__u64" 0)]
    false
    [Exactly 0; Negative].

Definition decl_bpf_l4_csum_replace : helper :=
  Helper "bpf_l4_csum_replace" 11 (CType false "long" 0)
    [("skb", CType false "struct __sk_buff" 1); ("offset", CType false "__u32" 0);
     ("from", CType false "__u64" 0); ("to", CType false "__u64" 0);
     ("flags", CType false "__u64" 0)]
    false
    [Exactly 0; Negative].

Definition decl_bpf_tail_call : helper :=
  Helper "bpf_tail_call" 12 (CType false "long" 0)
    [("ctx", CType false "void" 1); ("prog_array_map", CType false "void" 1);
     ("index", CType false "__u32" 0)]
    false
    [Exactly 0; Negative].

Definition decl_bpf_clone_redirect : helper :=
  Helper "bpf_clone_redirect" 13 (CType false "long" 0)
    [("skb", CType false "struct __sk_buff" 1); ("ifindex", CType false "__u32" 0);
     ("flags", CType false "__u64" 0)]
    false
    [Exactly 0; Negative].

Definition decl_bpf_get_current_pid_tgid : helper :=
  Helper "bpf_get_current_pid_tgid" 14 (CType false "__u64" 0)
    []
    false
    [Value].

Definition decl_bpf_get_current_uid_gid : helper :=
  Helper "bpf_get_current_uid_gid" 15 (CType false "__u64" 0)
    []
    false
    [Value].

Definition decl_bpf_get_current_comm : helper :=
  Helper "bpf_get_current_comm" 16 (CType false "long" 0)
    [("buf", CType false "void" 1); ("size_of_buf", CType false "__u32" 0)]
    false
    [Exactly 0; Negative].

Definition decl_bpf_get_cgroup_classid : helper :=
  Helper "bpf_get_cgroup_classid" 17 (CType false "__u32" 0)
    [("skb", CType false "struct __sk_buff" 1)]
    false
    [Value; Exactly 0].

Definition decl_bpf_skb_vlan_push : helper :=
  Helper "bpf_skb_vlan_push" 18 (CType false "long" 0)
    [("skb", CType false "struct __sk_buff" 1); ("vlan_proto", CType false "__be16" 0);
     ("vlan_tci", CType false "__u16" 0)]
    false
    [Exactly 0; Negative].

Definition decl_bpf_skb_vlan_pop : helper :=
  Helper "bpf_skb_vlan_pop" 19 (CType false "long" 0)
    [("skb", CType false "struct __sk_buff" 1)]
    false
    [Exactly 0; Negative].

Definition decl_bpf_skb_get_tunnel_key : helper :=
  Helper "bpf_skb_get_tunnel_key" 20 (CType false "long" 0)
    [("skb", CType false "struct __sk_buff" 1); ("key", CType false "struct bpf_tunnel_key" 1);
     ("size", CType false "__u32" 0); ("flags", CType false "__u64" 0)]
    false
    [Exactly 0; Negative].

Definition decl_bpf_skb_set_tunnel_key : helper :=
  Helper "bpf_skb_set_tunnel_key" 21 (CType false "long" 0)
    [("skb", CType false "struct __sk_buff" 1); ("key", CType false "struct bpf_tunnel_key" 1);
     ("size", CType false "__u32" 0); ("flags", CType false "__u64" 0)]
    false
    [Exactly 0; Negative].

Definition decl_bpf_perf_event_read : helper :=
  Helper "bpf_perf_event_read" 22 (CType false "__u64" 0)
    [("map", CType false "void" 1); ("flags", CType false "__u64" 0)]
    false
    [Value; Negative].

Definition decl_bpf_redirect : helper :=
  Helper "bpf_redirect" 23 (CType false "long" 0)
    [("ifindex", CType false "__u32" 0); ("flags", CType false "__u64" 0)]
    false
    [Exactly Code.XDP_REDIRECT; Exactly Code.XDP_ABORTED; Exactly Code.TC_ACT_REDIRECT;
     Exactly Code.TC_ACT_SHOT].

Definition decl_bpf_get_route_realm : helper :=
  Helper "bpf_get_route_realm" 24 (CType false "__u32" 0)
    [("skb", CType false "struct __sk_buff" 1)]
    false
    [Value; Exactly 0].

Definition decl_bpf_perf_event_output : helper :=
  Helper "bpf_perf_event_output" 25 (CType false "long" 0)
    [("ctx", CType false "void" 1); ("map", CType false "void" 1);
     ("flags", CType false "__u64" 0); ("data", CType false "void" 1);
     ("size", CType false "__u64" 0)]
    false
    [Exactly 0; Negative].

Definition decl_bpf_skb_load_bytes : helper :=
  Helper "bpf_skb_load_bytes" 26 (CType false "long" 0)
    [("skb", CType true "void" 1); ("offset", CType false "__u32" 0);
     ("to", CType false "void" 1); ("len", CType false "__u32" 0)]
    false
    [Exactly 0; Negative].

Definition decl_bpf_get_stackid : helper :=
  Helper "bpf_get_stackid" 27 (CType false "long" 0)
    [("ctx", CType false "void" 1); ("map", CType false "void" 1);
     ("flags", CType false "__u64" 0)]
    false
    [NonNegative; Negative].

Definition decl_bpf_csum_diff : helper :=
  Helper "bpf_csum_diff" 28 (CType false "__s64" 0)
    [("from", CType false "__be32" 1); ("from_size", CType false "__u32" 0);
     ("to", CType false "__be32" 1); ("to_size", CType false "__u32" 0);
     ("seed", CType false "__wsum" 0)]
    false
    [NonNegative; Negative].

Definition decl_bpf_skb_get_tunnel_opt : helper :=
  Helper "bpf_skb_get_tunnel_opt" 29 (CType false "long" 0)
    [("skb", CType false "struct __sk_buff" 1); ("opt", CType false "void" 1);
     ("size", CType false "__u32" 0)]
    false
    [NonNegative].

Definition decl_bpf_skb_set_tunnel_opt : helper :=
  Helper "bpf_skb_set_tunnel_opt" 30 (CType false "long" 0)
    [("skb", CType false "struct __sk_buff" 1); ("opt", CType false "void" 1);
     ("size", CType false "__u32" 0)]
    false
    [Exactly 0; Negative].

Definition decl_bpf_skb_change_proto : helper :=
  Helper "bpf_skb_change_proto" 31 (CType false "long" 0)
    [("skb", CType false "struct __sk_buff" 1); ("proto", CType false "__be16" 0);
     ("flags", CType false "__u64" 0)]
    false
    [Exactly 0; Negative].

Definition decl_bpf_skb_change_type : helper :=
  Helper "bpf_skb_change_type" 32 (CType false "long" 0)
    [("skb", CType false "struct __sk_buff" 1); ("type", CType false "__u32" 0)]
    false
    [Exactly 0; Negative].

Definition decl_bpf_skb_under_cgroup : helper :=
  Helper "bpf_skb_under_cgroup" 33 (CType false "long" 0)
    [("skb", CType false "struct __sk_buff" 1); ("map", CType false "void" 1);
     ("index", CType false "__u32" 0)]
    false
    [Exactly 0; Exactly 1; Negative].

Definition decl_bpf_get_hash_recalc : helper :=
  Helper "bpf_get_hash_recalc" 34 (CType false "__u32" 0)
    [("skb", CType false "struct __sk_buff" 1)]
    false
    [Value].

Definition decl_bpf_get_current_task : helper :=
  Helper "bpf_get_current_task" 35 (CType false "__u64" 0)
    []
    false
    [Pointer].

Definition decl_bpf_probe_write_user : helper :=
  Helper "bpf_probe_write_user" 36 (CType false "long" 0)
    [("dst", CType false "void" 1); ("src", CType true "void" 1); ("len", CType false "__u32" 0)]
    false
    [Exactly 0; Negative].

Definition decl_bpf_current_task_under_cgroup : helper :=
  Helper "bpf_current_task_under_cgroup" 37 (CType false "long" 0)
    [("map", CType false "void" 1); ("index", CType false "__u32" 0)]
    false
    [Exactly 0; Exactly 1; Negative].

Definition decl_bpf_skb_change_tail : helper :=
  Helper "bpf_skb_change_tail" 38 (CType false "long" 0)
    [("skb", CType false "struct __sk_buff" 1); ("len", CType false "__u32" 0);
     ("flags", CType false "__u64" 0)]
    false
    [Exactly 0; Negative].

Definition decl_bpf_skb_pull_data : helper :=
  Helper "bpf_skb_pull_data" 39 (CType false "long" 0)
    [("skb", CType false "struct __sk_buff" 1); ("len", CType false "__u32" 0)]
    false
    [Exactly 0; Negative].

Definition decl_bpf_csum_update : helper :=
  Helper "bpf_csum_update" 40 (CType false "__s64" 0)
    [("skb", CType false "struct __sk_buff" 1); ("csum", CType false "__wsum" 0)]
    false
    [NonNegative; Negative].

Definition decl_bpf_set_hash_invalid : helper :=
  Helper "bpf_set_hash_invalid" 41 (CType false "void" 0)
    [("skb", CType false "struct __sk_buff" 1)]
    false
    [].

Definition decl_bpf_get_numa_node_id : helper :=
  Helper "bpf_get_numa_node_id" 42 (CType false "long" 0)
    []
    false
    [Value].

Definition decl_bpf_skb_change_head : helper :=
  Helper "bpf_skb_change_head" 43 (CType false "long" 0)
    [("skb", CType false "struct __sk_buff" 1); ("len", CType false "__u32" 0);
     ("flags", CType false "__u64" 0)]
    false
    [Exactly 0; Negative].

Definition decl_bpf_xdp_adjust_head : helper :=
  Helper "bpf_xdp_adjust_head" 44 (CType false "long" 0)
    [("xdp_md", CType false "struct xdp_md" 1); ("delta", CType false "int" 0)]
    false
    [Exactly 0; Negative].

Definition decl_bpf_probe_read_str : helper :=
  Helper "bpf_probe_read_str" 45 (CType false "long" 0)
    [("dst", CType false "void" 1); ("size", CType false "__u32" 0);
     ("unsafe_ptr", CType true "void" 1)]
    false
    [Positive; Negative].

Definition decl_bpf_get_socket_cookie : helper :=
  Helper "bpf_get_socket_cookie" 46 (CType false "__u64" 0)
    [("ctx", CType false "void" 1)]
    false
    [Value; Exactly 0].

Definition decl_bpf_get_socket_uid : helper :=
  Helper "bpf_get_socket_uid" 47 (CType false "__u32" 0)
    [("skb", CType false "struct __sk_buff" 1)]
    false
    [Value].

Definition decl_bpf_set_hash : helper :=
  Helper "bpf_set_hash" 48 (CType false "long" 0)
    [("skb", CType false "struct __sk_buff" 1); ("hash", CType false "__u32" 0)]
    false
    [Exactly 0].

Definition decl_bpf_setsockopt : helper :=
  Helper "bpf_setsockopt" 49 (CType false "long" 0)
    [("bpf_socket", CType false "void" 1); ("level", CType false "int" 0);
     ("optname", CType false "int" 0); ("optval", CType false "void" 1);
     ("optlen", CType false "int" 0)]
    false
    [Exactly 0; Negative].

Definition decl_bpf_skb_adjust_room : helper :=
  Helper "bpf_skb_adjust_room" 50 (CType false "long" 0)
    [("skb", CType false "struct __sk_buff" 1); ("len_diff", CType false "__s32" 0);
     ("mode", CType false "__u32" 0); ("flags", CType false "__u64" 0)]
    false
    [Exactly 0; Negative].

Definition decl_bpf_redirect_map : helper :=
  Helper "bpf_redirect_map" 51 (CType false "long" 0)
    [("map", CType false "void" 1); ("key", CType false "__u32" 0);
     ("flags", CType false "__u64" 0)]
    false
    [Exactly Code.XDP_REDIRECT; LowBits 2 "flags"].

Definition decl_bpf_sk_redirect_map : helper :=
  Helper "bpf_sk_redirect_map" 52 (CType false "long" 0)
    [("skb", CType false "struct __sk_buff" 1); ("map", CType false "void" 1);
     ("key", CType false "__u32" 0); ("flags", CType false "__u64" 0)]
    false
    [Exactly Code.SK_PASS; Exactly Code.SK_DROP].

Definition decl_bpf_sock_map_update : helper :=
  Helper "bpf_sock_map_update" 53 (CType false "long" 0)
    [("skops", CType false "struct bpf_sock_ops" 1); ("map", CType false "void" 1);
     ("key", CType false "void" 1); ("flags", CType false "__u64" 0)]
    false
    [Exactly 0; Negative].

Definition decl_bpf_xdp_adjust_meta : helper :=
  Helper "bpf_xdp_adjust_meta" 54 (CType false "long" 0)
    [("xdp_md", CType false "struct xdp_md" 1); ("delta", CType false "int" 0)]
    false
    [Exactly 0; Negative].

Definition decl_bpf_perf_event_read_value : helper :=
  Helper "bpf_perf_event_read_value" 55 (CType false "long" 0)
    [("map", CType false "void" 1); ("flags", CType false "__u64" 0);
     ("buf", CType false "struct bpf_perf_event_value" 1); ("buf_size", CType false "__u32" 0)]
    false
    [Exactly 0; Negative].

Definition decl_bpf_perf_prog_read_value : helper :=
  Helper "bpf_perf_prog_read_value" 56 (CType false "long" 0)
    [("ctx", CType false "struct bpf_perf_event_data" 1);
     ("buf", CType false "struct bpf_perf_event_value" 1); ("buf_size", CType false "__u32" 0)]
    false
    [Exactly 0; Negative].

Definition decl_bpf_getsockopt : helper :=
  Helper "bpf_getsockopt" 57 (CType false "long" 0)
    [("bpf_socket", CType false "void" 1); ("level", CType false "int" 0);
     ("optname", CType false "int" 0); ("optval", CType false "void" 1);
     ("optlen", CType false "int" 0)]
    false
    [Exactly 0; Negative].

Definition decl_bpf_override_return : helper :=
  Helper "bpf_override_return" 58 (CType false "long" 0)
    [("regs", CType false "struct pt_regs" 1); ("rc", CType false "__u64" 0)]
    false
    [Exactly 0].

Definition decl_bpf_sock_ops_cb_flags_set : helper :=
  Helper "bpf_sock_ops_cb_flags_set" 59 (CType false "long" 0)
    [("bpf_sock", CType false "struct bpf_sock_ops" 1); ("argval", CType false "int" 0)]
    false
    [Error EINVAL; NonNegative].

Definition decl_bpf_msg_redirect_map : helper :=
  Helper "bpf_msg_redirect_map" 60 (CType false "long" 0)
    [("msg", CType false "struct sk_msg_md" 1); ("map", CType false "void" 1);
     ("key", CType false "__u32" 0); ("flags", CType false "__u64" 0)]
    false
    [Exactly Code.SK_PASS; Exactly Code.SK_DROP].

Definition decl_bpf_msg_apply_bytes : helper :=
  Helper "bpf_msg_apply_bytes" 61 (CType false "long" 0)
    [("msg", CType false "struct sk_msg_md" 1); ("bytes", CType false "__u32" 0)]
    false
    [Exactly 0].

Definition decl_bpf_msg_cork_bytes : helper :=
  Helper "bpf_msg_cork_bytes" 62 (CType false "long" 0)
    [("msg", CType false "struct sk_msg_md" 1); ("bytes", CType false "__u32" 0)]
    false
    [Exactly 0].

Definition decl_bpf_msg_pull_data : helper :=
  Helper "bpf_msg_pull_data" 63 (CType false "long" 0)
    [("msg", CType false "struct sk_msg_md" 1); ("start", CType false "__u32" 0);
     ("end", CType false "__u32" 0); ("flags", CType false "__u64" 0)]
    false
    [Exactly 0; Negative].

Definition decl_bpf_bind : helper :=
  Helper "bpf_bind" 64 (CType false "long" 0)
    [("ctx", CType false "struct bpf_sock_addr" 1); ("addr", CType false "struct sockaddr" 1);
     ("addr_len", CType false "int" 0)]
    false
    [Exactly 0; Negative].

Definition decl_bpf_xdp_adjust_tail : helper :=
  Helper "bpf_xdp_adjust_tail" 65 (CType false "long" 0)
    [("xdp_md", CType false "struct xdp_md" 1); ("delta", CType false "int" 0)]
    false
    [Exactly 0; Negative].

Definition decl_bpf_skb_get_xfrm_state : helper :=
  Helper "bpf_skb_get_xfrm_state" 66 (CType false "long" 0)
    [("skb", CType false "struct __sk_buff" 1); ("index", CType false "__u32" 0);
     ("xfrm_state", CType false "struct bpf_xfrm_state" 1); ("size", CType false "__u32" 0);
     ("flags", CType false "__u64" 0)]
    false
    [Exactly 0; Negative].

Definition decl_bpf_get_stack : helper :=
  Helper "bpf_get_stack" 67 (CType false "long" 0)
    [("ctx", CType false "void" 1); ("buf", CType false "void" 1);
     ("size", CType false "__u32" 0); ("flags", CType false "__u64" 0)]
    false
    [Within 0 "size"; Negative].

Definition decl_bpf_skb_load_bytes_relative : helper :=
  Helper "bpf_skb_load_bytes_relative" 68 (CType false "long" 0)
    [("skb", CType true "void" 1); ("offset", CType false "__u32" 0);
     ("to", CType false "void" 1); ("len", CType false "__u32" 0);
     ("start_header", CType false "__u32" 0)]
    false
    [Exactly 0; Negative].

Definition decl_bpf_fib_lookup : helper :=
  Helper "bpf_fib_lookup" 69 (CType false "long" 0)
    [("ctx", CType false "void" 1); ("params", CType false "struct bpf_fib_lookup" 1);
     ("plen", CType false "int" 0); ("flags", CType false "__u32" 0)]
    false
    [Negative; Exactly 0; Positive].

Definition decl_bpf_sock_hash_update : helper :=
  Helper "bpf_sock_hash_update" 70 (CType false "long" 0)
    [("skops", CType false "struct bpf_sock_ops" 1); ("map", CType false "void" 1);
     ("key", CType false "void" 1); ("flags", CType false "__u64" 0)]
    false
    [Exactly 0; Negative].

Definition decl_bpf_msg_redirect_hash : helper :=
  Helper "bpf_msg_redirect_hash" 71 (CType false "long" 0)
    [("msg", CType false "struct sk_msg_md" 1); ("map", CType false "void" 1);
     ("key", CType false "void" 1); ("flags", CType false "__u64" 0)]
    false
    [Exactly Code.SK_PASS; Exactly Code.SK_DROP].

Definition decl_bpf_sk_redirect_hash : helper :=
  Helper "bpf_sk_redirect_hash" 72 (CType false "long" 0)
    [("skb", CType false "struct __sk_buff" 1); ("map", CType false "void" 1);
     ("key", CType false "void" 1); ("flags", CType false "__u64" 0)]
    false
    [Exactly Code.SK_PASS; Exactly Code.SK_DROP].

Definition decl_bpf_lwt_push_encap : helper :=
  Helper "bpf_lwt_push_encap" 73 (CType false "long" 0)
    [("skb", CType false "struct __sk_buff" 1); ("type", CType false "__u32" 0);
     ("hdr", CType false "void" 1); ("len", CType false "__u32" 0)]
    false
    [Exactly 0; Negative].

Definition decl_bpf_lwt_seg6_store_bytes : helper :=
  Helper "bpf_lwt_seg6_store_bytes" 74 (CType false "long" 0)
    [("skb", CType false "struct __sk_buff" 1); ("offset", CType false "__u32" 0);
     ("from", CType true "void" 1); ("len", CType false "__u32" 0)]
    false
    [Exactly 0; Negative].

Definition decl_bpf_lwt_seg6_adjust_srh : helper :=
  Helper "bpf_lwt_seg6_adjust_srh" 75 (CType false "long" 0)
    [("skb", CType false "struct __sk_buff" 1); ("offset", CType false "__u32" 0);
     ("delta", CType false "__s32" 0)]
    false
    [Exactly 0; Negative].

Definition decl_bpf_lwt_seg6_action : helper :=
  Helper "bpf_lwt_seg6_action" 76 (CType false "long" 0)
    [("skb", CType false "struct __sk_buff" 1); ("action", CType false "__u32" 0);
     ("param", CType false "void" 1); ("param_len", CType false "__u32" 0)]
    false
    [Exactly 0; Negative].

Definition decl_bpf_rc_repeat : helper :=
  Helper "bpf_rc_repeat" 77 (CType false "long" 0)
    [("ctx", CType false "void" 1)]
    false
    [Exactly 0].

Definition decl_bpf_rc_keydown : helper :=
  Helper "bpf_rc_keydown" 78 (CType false "long" 0)
    [("ctx", CType false "void" 1); ("protocol", CType false "__u32" 0);
     ("scancode", CType false "__u64" 0); ("toggle", CType false "__u32" 0)]
    false
    [Exactly 0].

Definition decl_bpf_skb_cgroup_id : helper :=
  Helper "bpf_skb_cgroup_id" 79 (CType false "__u64" 0)
    [("skb", CType false "struct __sk_buff" 1)]
    false
    [Value; Exactly 0].

Definition decl_bpf_get_current_cgroup_id : helper :=
  Helper "bpf_get_current_cgroup_id" 80 (CType false "__u64" 0)
    []
    false
    [Value].

Definition decl_bpf_get_local_storage : helper :=
  Helper "bpf_get_local_storage" 81 (CType false "void" 1)
    [("map", CType false "void" 1); ("flags", CType false "__u64" 0)]
    false
    [Pointer].

Definition decl_bpf_sk_select_reuseport : helper :=
  Helper "bpf_sk_select_reuseport" 82 (CType false "long" 0)
    [("reuse", CType false "struct sk_reuseport_md" 1); ("map", CType false "void" 1);
     ("key", CType false "void" 1); ("flags", CType false "__u64" 0)]
    false
    [Exactly 0; Negative].

Definition decl_bpf_skb_ancestor_cgroup_id : helper :=
  Helper "bpf_skb_ancestor_cgroup_id" 83 (CType false "__u64" 0)
    [("skb", CType false "struct __sk_buff" 1); ("ancestor_level", CType false "int" 0)]
    false
    [Value; Exactly 0].

Definition decl_bpf_sk_lookup_tcp : helper :=
  Helper "bpf_sk_lookup_tcp" 84 (CType false "struct bpf_sock" 1)
    [("ctx", CType false "void" 1); ("tuple", CType false "struct bpf_sock_tuple" 1);
     ("tuple_size", CType false "__u32" 0); ("netns", CType false "__u64" 0);
     ("flags", CType false "__u64" 0)]
    false
    [Pointer; Null].

Definition decl_bpf_sk_lookup_udp : helper :=
  Helper "bpf_sk_lookup_udp" 85 (CType false "struct bpf_sock" 1)
    [("ctx", CType false "void" 1); ("tuple", CType false "struct bpf_sock_tuple" 1);
     ("tuple_size", CType false "__u32" 0); ("netns", CType false "__u64" 0);
     ("flags", CType false "__u64" 0)]
    false
    [Pointer; Null].

Definition decl_bpf_sk_release : helper :=
  Helper "bpf_sk_release" 86 (CType false "long" 0)
    [("sock", CType false "void" 1)]
    false
    [Exactly 0; Negative].

Definition decl_bpf_map_push_elem : helper :=
  Helper "bpf_map_push_elem" 87 (CType false "long" 0)
    [("map", CType false "void" 1); ("value", CType true "void" 1);
     ("flags", CType false "__u64" 0)]
    false
    [Exactly 0; Negative].

Definition decl_bpf_map_pop_elem : helper :=
  Helper "bpf_map_pop_elem" 88 (CType false "long" 0)
    [("map", CType false "void" 1); ("value", CType false "void" 1)]
    false
    [Exactly 0; Negative].

Definition decl_bpf_map_peek_elem : helper :=
  Helper "bpf_map_peek_elem" 89 (CType false "long" 0)
    [("map", CType false "void" 1); ("value", CType false "void" 1)]
    false
    [Exactly 0; Negative].

Definition decl_bpf_msg_push_data : helper :=
  Helper "bpf_msg_push_data" 90 (CType false "long" 0)
    [("msg", CType false "struct sk_msg_md" 1); ("start", CType false "__u32" 0);
     ("len", CType false "__u32" 0); ("flags", CType false "__u64" 0)]
    false
    [Exactly 0; Negative].

Definition decl_bpf_msg_pop_data : helper :=
  Helper "bpf_msg_pop_data" 91 (CType false "long" 0)
    [("msg", CType false "struct sk_msg_md" 1); ("start", CType false "__u32" 0);
     ("len", CType false "__u32" 0); ("flags", CType false "__u64" 0)]
    false
    [Exactly 0; Negative].

Definition decl_bpf_rc_pointer_rel : helper :=
  Helper "bpf_rc_pointer_rel" 92 (CType false "long" 0)
    [("ctx", CType false "void" 1); ("rel_x", CType false "__s32" 0);
     ("rel_y", CType false "__s32" 0)]
    false
    [Exactly 0].

Definition decl_bpf_spin_lock : helper :=
  Helper "bpf_spin_lock" 93 (CType false "long" 0)
    [("lock", CType false "struct bpf_spin_lock" 1)]
    false
    [Exactly 0].

Definition decl_bpf_spin_unlock : helper :=
  Helper "bpf_spin_unlock" 94 (CType false "long" 0)
    [("lock", CType false "struct bpf_spin_lock" 1)]
    false
    [Exactly 0].

Definition decl_bpf_sk_fullsock : helper :=
  Helper "bpf_sk_fullsock" 95 (CType false "struct bpf_sock" 1)
    [("sk", CType false "struct bpf_sock" 1)]
    false
    [Pointer; Null].

Definition decl_bpf_tcp_sock : helper :=
  Helper "bpf_tcp_sock" 96 (CType false "struct bpf_tcp_sock" 1)
    [("sk", CType false "struct bpf_sock" 1)]
    false
    [Pointer; Null].

Definition decl_bpf_skb_ecn_set_ce : helper :=
  Helper "bpf_skb_ecn_set_ce" 97 (CType false "long" 0)
    [("skb", CType false "struct __sk_buff" 1)]
    false
    [Exactly 1; Exactly 0].

Definition decl_bpf_get_listener_sock : helper :=
  Helper "bpf_get_listener_sock" 98 (CType false "struct bpf_sock" 1)
    [("sk", CType false "struct bpf_sock" 1)]
    false
    [Pointer; Null].

Definition decl_bpf_skc_lookup_tcp : helper :=
  Helper "bpf_skc_lookup_tcp" 99 (CType false "struct bpf_sock" 1)
    [("ctx", CType false "void" 1); ("tuple", CType false "struct bpf_sock_tuple" 1);
     ("tuple_size", CType false "__u32" 0); ("netns", CType false "__u64" 0);
     ("flags", CType false "__u64" 0)]
    false
    [Pointer; Null].

Definition decl_bpf_tcp_check_syncookie : helper :=
  Helper "bpf_tcp_check_syncookie" 100 (CType false "long" 0)
    [("sk", CType false "void" 1); ("iph", CType false "void" 1);
     ("iph_len", CType false "__u32" 0); ("th", CType false "struct tcphdr" 1);
     ("th_len", CType false "__u32" 0)]
    false
    [Exactly 0; Negative].

Definition decl_bpf_sysctl_get_name : helper :=
  Helper "bpf_sysctl_get_name" 101 (CType false "long" 0)
    [("ctx", CType false "struct bpf_sysctl" 1); ("buf", CType false "char" 1);
     ("buf_len", CType false "unsigned long" 0); ("flags", CType false "__u64" 0)]
    false
    [NonNegative; Error E2BIG].

Definition decl_bpf_sysctl_get_current_value : helper :=
  Helper "bpf_sysctl_get_current_value" 102 (CType false "long" 0)
    [("ctx", CType false "struct bpf_sysctl" 1); ("buf", CType false "char" 1);
     ("buf_len", CType false "unsigned long" 0)]
    false
    [NonNegative; Error E2BIG; Error EINVAL].

Definition decl_bpf_sysctl_get_new_value : helper :=
  Helper "bpf_sysctl_get_new_value" 103 (CType false "long" 0)
    [("ctx", CType false "struct bpf_sysctl" 1); ("buf", CType false "char" 1);
     ("buf_len", CType false "unsigned long" 0)]
    false
    [NonNegative; Error E2BIG; Error EINVAL].

Definition decl_bpf_sysctl_set_new_value : helper :=
  Helper "bpf_sysctl_set_new_value" 104 (CType false "long" 0)
    [("ctx", CType false "struct bpf_sysctl" 1); ("buf", CType true "char" 1);
     ("buf_len", CType false "unsigned long" 0)]
    false
    [Exactly 0; Error E2BIG; Error EINVAL].

Definition decl_bpf_strtol : helper :=
  Helper "bpf_strtol" 105 (CType false "long" 0)
    [("buf", CType true "char" 1); ("buf_len", CType false "unsigned long" 0);
     ("flags", CType false "__u64" 0); ("res", CType false "long" 1)]
    false
    [Within 1 "buf_len"; Error EINVAL; Error ERANGE].

Definition decl_bpf_strtoul : helper :=
  Helper "bpf_strtoul" 106 (CType false "long" 0)
    [("buf", CType true "char" 1); ("buf_len", CType false "unsigned long" 0);
     ("flags", CType false "__u64" 0); ("res", CType false "unsigned long" 1)]
    false
    [Within 1 "buf_len"; Error EINVAL; Error ERANGE].

Definition decl_bpf_sk_storage_get : helper :=
  Helper "bpf_sk_storage_get" 107 (CType false "void" 1)
    [("map", CType false "void" 1); ("sk", CType false "void" 1);
     ("value", CType false "void" 1); ("flags", CType false "__u64" 0)]
    false
    [Pointer; Null].

Definition decl_bpf_sk_storage_delete : helper :=
  Helper "bpf_sk_storage_delete" 108 (CType false "long" 0)
    [("map", CType false "void" 1); ("sk", CType false "void" 1)]
    false
    [Exactly 0; Error ENOENT; Error EINVAL].

Definition decl_bpf_send_signal : helper :=
  Helper "bpf_send_signal" 109 (CType false "long" 0)
    [("sig", CType false "__u32" 0)]
    false
    [Exactly 0; Error EBUSY; Error EINVAL; Error EPERM; Error EAGAIN].

Definition decl_bpf_tcp_gen_syncookie : helper :=
  Helper "bpf_tcp_gen_syncookie" 110 (CType false "__s64" 0)
    [("sk", CType false "void" 1); ("iph", CType false "void" 1);
     ("iph_len", CType false "__u32" 0); ("th", CType false "struct tcphdr" 1);
     ("th_len", CType false "__u32" 0)]
    false
    [Value; Error EINVAL; Error ENOENT; Error EOPNOTSUPP; Error EPROTONOSUPPORT].

Definition decl_bpf_skb_output : helper :=
  Helper "bpf_skb_output" 111 (CType false "long" 0)
    [("ctx", CType false "void" 1); ("map", CType false "void" 1);
     ("flags", CType false "__u64" 0); ("data", CType false "void" 1);
     ("size", CType false "__u64" 0)]
    false
    [Exactly 0; Negative].

Definition decl_bpf_probe_read_user : helper :=
  Helper "bpf_probe_read_user" 112 (CType false "long" 0)
    [("dst", CType false "void" 1); ("size", CType false "__u32" 0);
     ("unsafe_ptr", CType true "void" 1)]
    false
    [Exactly 0; Negative].

Definition decl_bpf_probe_read_kernel : helper :=
  Helper "bpf_probe_read_kernel" 113 (CType false "long" 0)
    [("dst", CType false "void" 1); ("size", CType false "__u32" 0);
     ("unsafe_ptr", CType true "void" 1)]
    false
    [Exactly 0; Negative].

Definition decl_bpf_probe_read_user_str : helper :=
  Helper "bpf_probe_read_user_str" 114 (CType false "long" 0)
    [("dst", CType false "void" 1); ("size", CType false "__u32" 0);
     ("unsafe_ptr", CType true "void" 1)]
    false
    [Positive; Negative].

Definition decl_bpf_probe_read_kernel_str : helper :=
  Helper "bpf_probe_read_kernel_str" 115 (CType false "long" 0)
    [("dst", CType false "void" 1); ("size", CType false "__u32" 0);
     ("unsafe_ptr", CType true "void" 1)]
    false
    [Positive; Negative].

Definition decl_bpf_tcp_send_ack : helper :=
  Helper "bpf_tcp_send_ack" 116 (CType false "long" 0)
    [("tp", CType false "void" 1); ("rcv_nxt", CType false "__u32" 0)]
    false
    [Exactly 0; Negative].

Definition decl_bpf_send_signal_thread : helper :=
  Helper "bpf_send_signal_thread" 117 (CType false "long" 0)
    [("sig", CType false "__u32" 0)]
    false
    [Exactly 0; Error EBUSY; Error EINVAL; Error EPERM; Error EAGAIN].

Definition decl_bpf_jiffies64 : helper :=
  Helper "bpf_jiffies64" 118 (CType false "__u64" 0)
    []
    false
    [Value].

Definition decl_bpf_read_branch_records : helper :=
  Helper "bpf_read_branch_records" 119 (CType false "long" 0)
    [("ctx", CType false "struct bpf_perf_event_data" 1); ("buf", CType false "void" 1);
     ("size", CType false "__u32" 0); ("flags", CType false "__u64" 0)]
    false
    [NonNegative; Negative; Error EINVAL; Error ENOENT].

Definition decl_bpf_get_ns_current_pid_tgid : helper :=
  Helper "bpf_get_ns_current_pid_tgid" 120 (CType false "long" 0)
    [("dev", CType false "__u64" 0); ("ino", CType false "__u64" 0);
     ("nsdata", CType false "struct bpf_pidns_info" 1); ("size", CType false "__u32" 0)]
    false
    [Exactly 0; Error EINVAL; Error ENOENT].

Definition decl_bpf_xdp_output : helper :=
  Helper "bpf_xdp_output" 121 (CType false "long" 0)
    [("ctx", CType false "void" 1); ("map", CType false "void" 1);
     ("flags", CType false "__u64" 0); ("data", CType false "void" 1);
     ("size", CType false "__u64" 0)]
    false
    [Exactly 0; Negative].

Definition decl_bpf_get_netns_cookie : helper :=
  Helper "bpf_get_netns_cookie" 122 (CType false "__u64" 0)
    [("ctx", CType false "void" 1)]
    false
    [Value].

Definition decl_bpf_get_current_ancestor_cgroup_id : helper :=
  Helper "bpf_get_current_ancestor_cgroup_id" 123 (CType false "__u64" 0)
    [("ancestor_level", CType false "int" 0)]
    false
    [Value; Exactly 0].

Definition decl_bpf_sk_assign : helper :=
  Helper "bpf_sk_assign" 124 (CType false "long" 0)
    [("ctx", CType false "void" 1); ("sk", CType false "void" 1);
     ("flags", CType false "__u64" 0)]
    false
    [Exactly 0; Error EINVAL; Error ENOENT; Error ENETUNREACH; Error EOPNOTSUPP;
     Error ESOCKTNOSUPPORT].

Definition decl_bpf_ktime_get_boot_ns : helper :=
  Helper "bpf_ktime_get_boot_ns" 125 (CType false "__u64" 0)
    []
    false
    [Value].

Definition decl_bpf_seq_printf : helper :=
  Helper "bpf_seq_printf" 126 (CType false "long" 0)
    [("m", CType false "struct seq_file" 1); ("fmt", CType true "char" 1);
     ("fmt_size", CType false "__u32" 0); ("data", CType true "void" 1);
     ("data_len", CType false "__u32" 0)]
    false
    [Exactly 0; Error EBUSY; Error EINVAL; Error E2BIG; Error EOVERFLOW].

Definition decl_bpf_seq_write : helper :=
  Helper "bpf_seq_write" 127 (CType false "long" 0)
    [("m", CType false "struct seq_file" 1); ("data", CType true "void" 1);
     ("len", CType false "__u32" 0)]
    false
    [Exactly 0; Error EOVERFLOW].

Definition decl_bpf_sk_cgroup_id : helper :=
  Helper "bpf_sk_cgroup_id" 128 (CType false "__u64" 0)
    [("sk", CType false "void" 1)]
    false
    [Value; Exactly 0].

Definition decl_bpf_sk_ancestor_cgroup_id : helper :=
  Helper "bpf_sk_ancestor_cgroup_id" 129 (CType false "__u64" 0)
    [("sk", CType false "void" 1); ("ancestor_level", CType false "int" 0)]
    false
    [Value; Exactly 0].

Definition decl_bpf_ringbuf_output : helper :=
  Helper "bpf_ringbuf_output" 130 (CType false "long" 0)
    [("ringbuf", CType false "void" 1); ("data", CType false "void" 1);
     ("size", CType false "__u64" 0); ("flags", CType false "__u64" 0)]
    false
    [Exactly 0; Negative].

Definition decl_bpf_ringbuf_reserve : helper :=
  Helper "bpf_ringbuf_reserve" 131 (CType false "void" 1)
    [("ringbuf", CType false "void" 1); ("size", CType false "__u64" 0);
     ("flags", CType false "__u64" 0)]
    false
    [Pointer; Null].

Definition decl_bpf_ringbuf_submit : helper :=
  Helper "bpf_ringbuf_submit" 132 (CType false "void" 0)
    [("data", CType false "void" 1); ("flags", CType false "__u64" 0)]
    false
    [].

Definition decl_bpf_ringbuf_discard : helper :=
  Helper "bpf_ringbuf_discard" 133 (CType false "void" 0)
    [("data", CType false "void" 1); ("flags", CType false "__u64" 0)]
    false
    [].

Definition decl_bpf_ringbuf_query : helper :=
  Helper "bpf_ringbuf_query" 134 (CType false "__u64" 0)
    [("ringbuf", CType false "void" 1); ("flags", CType false "__u64" 0)]
    false
    [Value; Exactly 0].

Definition decl_bpf_csum_level : helper :=
  Helper "bpf_csum_level" 135 (CType false "long" 0)
    [("skb", CType false "struct __sk_buff" 1); ("level", CType false "__u64" 0)]
    false
    [Exactly 0; Negative; NonNegative; Error EACCES].

Definition decl_bpf_skc_to_tcp6_sock : helper :=
  Helper "bpf_skc_to_tcp6_sock" 136 (CType false "struct tcp6_sock" 1)
    [("sk", CType false "void" 1)]
    false
    [Pointer; Null].

Definition decl_bpf_skc_to_tcp_sock : helper :=
  Helper "bpf_skc_to_tcp_sock" 137 (CType false "struct tcp_sock" 1)
    [("sk", CType false "void" 1)]
    false
    [Pointer; Null].

Definition decl_bpf_skc_to_tcp_timewait_sock : helper :=
  Helper "bpf_skc_to_tcp_timewait_sock" 138 (CType false "struct tcp_timewait_sock" 1)
    [("sk", CType false "void" 1)]
    false
    [Pointer; Null].

Definition decl_bpf_skc_to_tcp_request_sock : helper :=
  Helper "bpf_skc_to_tcp_request_sock" 139 (CType false "struct tcp_request_sock" 1)
    [("sk", CType false "void" 1)]
    false
    [Pointer; Null].

Definition decl_bpf_skc_to_udp6_sock : helper :=
  Helper "bpf_skc_to_udp6_sock" 140 (CType false "struct udp6_sock" 1)
    [("sk", CType false "void" 1)]
    false
    [Pointer; Null].

Definition decl_bpf_get_task_stack : helper :=
  Helper "bpf_get_task_stack" 141 (CType false "long" 0)
    [("task", CType false "struct task_struct" 1); ("buf", CType false "void" 1);
     ("size", CType false "__u32" 0); ("flags", CType false "__u64" 0)]
    false
    [Within 0 "size"; Negative].

Definition decl_bpf_load_hdr_opt : helper :=
  Helper "bpf_load_hdr_opt" 142 (CType false "long" 0)
    [("skops", CType false "struct bpf_sock_ops" 1); ("searchby_res", CType false "void" 1);
     ("len", CType false "__u32" 0); ("flags", CType false "__u64" 0)]
    false
    [Positive; Error EINVAL; Error ENOMSG; Error ENOENT; Error ENOSPC; Error EFAULT; Error EPERM].

Definition decl_bpf_store_hdr_opt : helper :=
  Helper "bpf_store_hdr_opt" 143 (CType false "long" 0)
    [("skops", CType false "struct bpf_sock_ops" 1); ("from", CType true "void" 1);
     ("len", CType false "__u32" 0); ("flags", CType false "__u64" 0)]
    false
    [Exactly 0; Error EINVAL; Error ENOSPC; Error EEXIST; Error EFAULT; Error EPERM].

Definition decl_bpf_reserve_hdr_opt : helper :=
  Helper "bpf_reserve_hdr_opt" 144 (CType false "long" 0)
    [("skops", CType false "struct bpf_sock_ops" 1); ("len", CType false "__u32" 0);
     ("flags", CType false "__u64" 0)]
    false
    [Exactly 0; Error EINVAL; Error ENOSPC; Error EPERM].

Definition decl_bpf_inode_storage_get : helper :=
  Helper "bpf_inode_storage_get" 145 (CType false "void" 1)
    [("map", CType false "void" 1); ("inode", CType false "void" 1);
     ("value", CType false "void" 1); ("flags", CType false "__u64" 0)]
    false
    [Pointer; Null].

Definition decl_bpf_inode_storage_delete : helper :=
  Helper "bpf_inode_storage_delete" 146 (CType false "int" 0)
    [("map", CType false "void" 1); ("inode", CType false "void" 1)]
    false
    [Exactly 0; Error ENOENT].

Definition decl_bpf_d_path : helper :=
  Helper "bpf_d_path" 147 (CType false "long" 0)
    [("path", CType false "struct path" 1); ("buf", CType false "char" 1);
     ("sz", CType false "__u32" 0)]
    false
    [Positive; Negative].

Definition decl_bpf_copy_from_user : helper :=
  Helper "bpf_copy_from_user" 148 (CType false "long" 0)
    [("dst", CType false "void" 1); ("size", CType false "__u32" 0);
     ("user_ptr", CType true "void" 1)]
    false
    [Exactly 0; Negative].

Definition decl_bpf_snprintf_btf : helper :=
  Helper "bpf_snprintf_btf" 149 (CType false "long" 0)
    [("str", CType false "char" 1); ("str_size", CType false "__u32" 0);
     ("ptr", CType false "struct btf_ptr" 1); ("btf_ptr_size", CType false "__u32" 0);
     ("flags", CType false "__u64" 0)]
    false
    [NonNegative; Negative].

Definition decl_bpf_seq_printf_btf : helper :=
  Helper "bpf_seq_printf_btf" 150 (CType false "long" 0)
    [("m", CType false "struct seq_file" 1); ("ptr", CType false "struct btf_ptr" 1);
     ("ptr_size", CType false "__u32" 0); ("flags", CType false "__u64" 0)]
    false
    [Exactly 0; Negative].

Definition decl_bpf_skb_cgroup_classid : helper :=
  Helper "bpf_skb_cgroup_classid" 151 (CType false "__u64" 0)
    [("skb", CType false "struct __sk_buff" 1)]
    false
    [Value; Exactly 0].

Definition decl_bpf_redirect_neigh : helper :=
  Helper "bpf_redirect_neigh" 152 (CType false "long" 0)
    [("ifindex", CType false "__u32" 0); ("params", CType false "struct bpf_redir_neigh" 1);
     ("plen", CType false "int" 0); ("flags", CType false "__u64" 0)]
    false
    [Exactly Code.TC_ACT_REDIRECT; Exactly Code.TC_ACT_SHOT].

Definition decl_bpf_per_cpu_ptr : helper :=
  Helper "bpf_per_cpu_ptr" 153 (CType false "void" 1)
    [("percpu_ptr", CType true "void" 1); ("cpu", CType false "__u32" 0)]
    false
    [Pointer; Null].

Definition decl_bpf_this_cpu_ptr : helper :=
  Helper "bpf_this_cpu_ptr" 154 (CType false "void" 1)
    [("percpu_ptr", CType true "void" 1)]
    false
    [Pointer].

Definition decl_bpf_redirect_peer : helper :=
  Helper "bpf_redirect_peer" 155 (CType false "long" 0)
    [("ifindex", CType false "__u32" 0); ("flags", CType false "__u64" 0)]
    false
    [Exactly Code.TC_ACT_REDIRECT; Exactly Code.TC_ACT_SHOT].

Definition decl_bpf_task_storage_get : helper :=
  Helper "bpf_task_storage_get" 156 (CType false "void" 1)
    [("map", CType false "void" 1); ("task", CType false "struct task_struct" 1);
     ("value", CType false "void" 1); ("flags", CType false "__u64" 0)]
    false
    [Pointer; Null].

Definition decl_bpf_task_storage_delete : helper :=
  Helper "bpf_task_storage_delete" 157 (CType false "long" 0)
    [("map", CType false "void" 1); ("task", CType false "struct task_struct" 1)]
    false
    [Exactly 0; Error ENOENT].

Definition decl_bpf_get_current_task_btf : helper :=
  Helper "bpf_get_current_task_btf" 158 (CType false "struct task_struct" 1)
    []
    false
    [Pointer].

Definition decl_bpf_bprm_opts_set : helper :=
  Helper "bpf_bprm_opts_set" 159 (CType false "long" 0)
    [("bprm", CType false "struct linux_binprm" 1); ("flags", CType false "__u64" 0)]
    false
    [Error EINVAL; Exactly 0].

Definition decl_bpf_ktime_get_coarse_ns : helper :=
  Helper "bpf_ktime_get_coarse_ns" 160 (CType false "__u64" 0)
    []
    false
    [Value].

Definition decl_bpf_ima_inode_hash : helper :=
  Helper "bpf_ima_inode_hash" 161 (CType false "long" 0)
    [("inode", CType false "struct inode" 1); ("dst", CType false "void" 1);
     ("size", CType false "__u32" 0)]
    false
    [Value; Error EOPNOTSUPP; Error EINVAL].

Definition decl_bpf_sock_from_file : helper :=
  Helper "bpf_sock_from_file" 162 (CType false "struct socket" 1)
    [("file", CType false "struct file" 1)]
    false
    [Pointer; Null].

Definition decl_bpf_check_mtu : helper :=
  Helper "bpf_check_mtu" 163 (CType false "long" 0)
    [("ctx", CType false "void" 1); ("ifindex", CType false "__u32" 0);
     ("mtu_len", CType false "__u32" 1); ("len_diff", CType false "__s32" 0);
     ("flags", CType false "__u64" 0)]
    false
    [Exactly 0; Negative; Exactly Code.BPF_MTU_CHK_RET_FRAG_NEEDED;
     Exactly Code.BPF_MTU_CHK_RET_SEGS_TOOBIG].

Definition decl_bpf_for_each_map_elem : helper :=
  Helper "bpf_for_each_map_elem" 164 (CType false "long" 0)
    [("map", CType false "void" 1); ("callback_fn", CType false "void" 1);
     ("callback_ctx", CType false "void" 1); ("flags", CType false "__u64" 0)]
    false
    [NonNegative; Error EINVAL].

Definition decl_bpf_snprintf : helper :=
  Helper "bpf_snprintf" 165 (CType false "long" 0)
    [("str", CType false "char" 1); ("str_size", CType false "__u32" 0);
     ("fmt", CType true "char" 1); ("data", CType false "__u64" 1);
     ("data_len", CType false "__u32" 0)]
    false
    [Positive; Error EBUSY].

Definition decl_bpf_sys_bpf : helper :=
  Helper "bpf_sys_bpf" 166 (CType false "long" 0)
    [("cmd", CType false "__u32" 0); ("attr", CType false "void" 1);
     ("attr_size", CType false "__u32" 0)]
    false
    [Value].

Definition decl_bpf_btf_find_by_name_kind : helper :=
  Helper "bpf_btf_find_by_name_kind" 167 (CType false "long" 0)
    [("name", CType false "char" 1); ("name_sz", CType false "int" 0);
     ("kind", CType false "__u32" 0); ("flags", CType false "int" 0)]
    false
    [Value].

Definition decl_bpf_sys_close : helper :=
  Helper "bpf_sys_close" 168 (CType false "long" 0)
    [("fd", CType false "__u32" 0)]
    false
    [Value].

Definition decl_bpf_timer_init : helper :=
  Helper "bpf_timer_init" 169 (CType false "long" 0)
    [("timer", CType false "struct bpf_timer" 1); ("map", CType false "void" 1);
     ("flags", CType false "__u64" 0)]
    false
    [Exactly 0; Error EBUSY; Error EINVAL; Error EPERM].

Definition decl_bpf_timer_set_callback : helper :=
  Helper "bpf_timer_set_callback" 170 (CType false "long" 0)
    [("timer", CType false "struct bpf_timer" 1); ("callback_fn", CType false "void" 1)]
    false
    [Exactly 0; Error EINVAL; Error EPERM].

Definition decl_bpf_timer_start : helper :=
  Helper "bpf_timer_start" 171 (CType false "long" 0)
    [("timer", CType false "struct bpf_timer" 1); ("nsecs", CType false "__u64" 0);
     ("flags", CType false "__u64" 0)]
    false
    [Exactly 0; Error EINVAL].

Definition decl_bpf_timer_cancel : helper :=
  Helper "bpf_timer_cancel" 172 (CType false "long" 0)
    [("timer", CType false "struct bpf_timer" 1)]
    false
    [Exactly 0; Exactly 1; Error EINVAL; Error EDEADLK].

Definition decl_bpf_get_func_ip : helper :=
  Helper "bpf_get_func_ip" 173 (CType false "__u64" 0)
    [("ctx", CType false "void" 1)]
    false
    [Value].

Definition decl_bpf_get_attach_cookie : helper :=
  Helper "bpf_get_attach_cookie" 174 (CType false "__u64" 0)
    [("ctx", CType false "void" 1)]
    false
    [Value; Exactly 0].

Definition decl_bpf_task_pt_regs : helper :=
  Helper "bpf_task_pt_regs" 175 (CType false "long" 0)
    [("task", CType false "struct task_struct" 1)]
    false
    [Pointer].

Definition decl_bpf_get_branch_snapshot : helper :=
  Helper "bpf_get_branch_snapshot" 176 (CType false "long" 0)
    [("entries", CType false "void" 1); ("size", CType false "__u32" 0);
     ("flags", CType false "__u64" 0)]
    false
    [NonNegative; Negative; Error EINVAL; Error ENOENT].

Definition decl_bpf_trace_vprintk : helper :=
  Helper "bpf_trace_vprintk" 177 (CType false "long" 0)
    [("fmt", CType true "char" 1); ("fmt_size", CType false "__u32" 0);
     ("data", CType true "void" 1); ("data_len", CType false "__u32" 0)]
    false
    [NonNegative; Negative].

Definition decl_bpf_skc_to_unix_sock : helper :=
  Helper "bpf_skc_to_unix_sock" 178 (CType false "struct unix_sock" 1)
    [("sk", CType false "void" 1)]
    false
    [Pointer; Null].

Definition decl_bpf_kallsyms_lookup_name : helper :=
  Helper "bpf_kallsyms_lookup_name" 179 (CType false "long" 0)
    [("name", CType true "char" 1); ("name_sz", CType false "int" 0);
     ("flags", CType false "int" 0); ("res", CType false "__u64" 1)]
    false
    [Exactly 0; Negative; Error EINVAL; Error ENOENT; Error EPERM].

Definition decl_bpf_find_vma : helper :=
  Helper "bpf_find_vma" 180 (CType false "long" 0)
    [("task", CType false "struct task_struct" 1); ("addr", CType false "__u64" 0);
     ("callback_fn", CType false "void" 1); ("callback_ctx", CType false "void" 1);
     ("flags", CType false "__u64" 0)]
    false
    [Exactly 0; Error ENOENT; Error EBUSY; Error EINVAL].

(** All of them. *)
Definition helpers : list helper :=
  [decl_bpf_map_lookup_elem; decl_bpf_map_update_elem; decl_bpf_map_delete_elem;
  decl_bpf_probe_read; decl_bpf_ktime_get_ns; decl_bpf_trace_printk; decl_bpf_get_prandom_u32;
  decl_bpf_get_smp_processor_id; decl_bpf_skb_store_bytes; decl_bpf_l3_csum_replace;
  decl_bpf_l4_csum_replace; decl_bpf_tail_call; decl_bpf_clone_redirect;
  decl_bpf_get_current_pid_tgid; decl_bpf_get_current_uid_gid; decl_bpf_get_current_comm;
  decl_bpf_get_cgroup_classid; decl_bpf_skb_vlan_push; decl_bpf_skb_vlan_pop;
  decl_bpf_skb_get_tunnel_key; decl_bpf_skb_set_tunnel_key; decl_bpf_perf_event_read;
  decl_bpf_redirect; decl_bpf_get_route_realm; decl_bpf_perf_event_output;
  decl_bpf_skb_load_bytes; decl_bpf_get_stackid; decl_bpf_csum_diff; decl_bpf_skb_get_tunnel_opt;
  decl_bpf_skb_set_tunnel_opt; decl_bpf_skb_change_proto; decl_bpf_skb_change_type;
  decl_bpf_skb_under_cgroup; decl_bpf_get_hash_recalc; decl_bpf_get_current_task;
  decl_bpf_probe_write_user; decl_bpf_current_task_under_cgroup; decl_bpf_skb_change_tail;
  decl_bpf_skb_pull_data; decl_bpf_csum_update; decl_bpf_set_hash_invalid;
  decl_bpf_get_numa_node_id; decl_bpf_skb_change_head; decl_bpf_xdp_adjust_head;
  decl_bpf_probe_read_str; decl_bpf_get_socket_cookie; decl_bpf_get_socket_uid;
  decl_bpf_set_hash; decl_bpf_setsockopt; decl_bpf_skb_adjust_room; decl_bpf_redirect_map;
  decl_bpf_sk_redirect_map; decl_bpf_sock_map_update; decl_bpf_xdp_adjust_meta;
  decl_bpf_perf_event_read_value; decl_bpf_perf_prog_read_value; decl_bpf_getsockopt;
  decl_bpf_override_return; decl_bpf_sock_ops_cb_flags_set; decl_bpf_msg_redirect_map;
  decl_bpf_msg_apply_bytes; decl_bpf_msg_cork_bytes; decl_bpf_msg_pull_data; decl_bpf_bind;
  decl_bpf_xdp_adjust_tail; decl_bpf_skb_get_xfrm_state; decl_bpf_get_stack;
  decl_bpf_skb_load_bytes_relative; decl_bpf_fib_lookup; decl_bpf_sock_hash_update;
  decl_bpf_msg_redirect_hash; decl_bpf_sk_redirect_hash; decl_bpf_lwt_push_encap;
  decl_bpf_lwt_seg6_store_bytes; decl_bpf_lwt_seg6_adjust_srh; decl_bpf_lwt_seg6_action;
  decl_bpf_rc_repeat; decl_bpf_rc_keydown; decl_bpf_skb_cgroup_id;
  decl_bpf_get_current_cgroup_id; decl_bpf_get_local_storage; decl_bpf_sk_select_reuseport;
  decl_bpf_skb_ancestor_cgroup_id; decl_bpf_sk_lookup_tcp; decl_bpf_sk_lookup_udp;
  decl_bpf_sk_release; decl_bpf_map_push_elem; decl_bpf_map_pop_elem; decl_bpf_map_peek_elem;
  decl_bpf_msg_push_data; decl_bpf_msg_pop_data; decl_bpf_rc_pointer_rel; decl_bpf_spin_lock;
  decl_bpf_spin_unlock; decl_bpf_sk_fullsock; decl_bpf_tcp_sock; decl_bpf_skb_ecn_set_ce;
  decl_bpf_get_listener_sock; decl_bpf_skc_lookup_tcp; decl_bpf_tcp_check_syncookie;
  decl_bpf_sysctl_get_name; decl_bpf_sysctl_get_current_value; decl_bpf_sysctl_get_new_value;
  decl_bpf_sysctl_set_new_value; decl_bpf_strtol; decl_bpf_strtoul; decl_bpf_sk_storage_get;
  decl_bpf_sk_storage_delete; decl_bpf_send_signal; decl_bpf_tcp_gen_syncookie;
  decl_bpf_skb_output; decl_bpf_probe_read_user; decl_bpf_probe_read_kernel;
  decl_bpf_probe_read_user_str; decl_bpf_probe_read_kernel_str; decl_bpf_tcp_send_ack;
  decl_bpf_send_signal_thread; decl_bpf_jiffies64; decl_bpf_read_branch_records;
  decl_bpf_get_ns_current_pid_tgid; decl_bpf_xdp_output; decl_bpf_get_netns_cookie;
  decl_bpf_get_current_ancestor_cgroup_id; decl_bpf_sk_assign; decl_bpf_ktime_get_boot_ns;
  decl_bpf_seq_printf; decl_bpf_seq_write; decl_bpf_sk_cgroup_id; decl_bpf_sk_ancestor_cgroup_id;
  decl_bpf_ringbuf_output; decl_bpf_ringbuf_reserve; decl_bpf_ringbuf_submit;
  decl_bpf_ringbuf_discard; decl_bpf_ringbuf_query; decl_bpf_csum_level;
  decl_bpf_skc_to_tcp6_sock; decl_bpf_skc_to_tcp_sock; decl_bpf_skc_to_tcp_timewait_sock;
  decl_bpf_skc_to_tcp_request_sock; decl_bpf_skc_to_udp6_sock; decl_bpf_get_task_stack;
  decl_bpf_load_hdr_opt; decl_bpf_store_hdr_opt; decl_bpf_reserve_hdr_opt;
  decl_bpf_inode_storage_get; decl_bpf_inode_storage_delete; decl_bpf_d_path;
  decl_bpf_copy_from_user; decl_bpf_snprintf_btf; decl_bpf_seq_printf_btf;
  decl_bpf_skb_cgroup_classid; decl_bpf_redirect_neigh; decl_bpf_per_cpu_ptr;
  decl_bpf_this_cpu_ptr; decl_bpf_redirect_peer; decl_bpf_task_storage_get;
  decl_bpf_task_storage_delete; decl_bpf_get_current_task_btf; decl_bpf_bprm_opts_set;
  decl_bpf_ktime_get_coarse_ns; decl_bpf_ima_inode_hash; decl_bpf_sock_from_file;
  decl_bpf_check_mtu; decl_bpf_for_each_map_elem; decl_bpf_snprintf; decl_bpf_sys_bpf;
  decl_bpf_btf_find_by_name_kind; decl_bpf_sys_close; decl_bpf_timer_init;
  decl_bpf_timer_set_callback; decl_bpf_timer_start; decl_bpf_timer_cancel; decl_bpf_get_func_ip;
  decl_bpf_get_attach_cookie; decl_bpf_task_pt_regs; decl_bpf_get_branch_snapshot;
  decl_bpf_trace_vprintk; decl_bpf_skc_to_unix_sock; decl_bpf_kallsyms_lookup_name;
  decl_bpf_find_vma].

(** The helper of a name. *)
Definition helper_named (n : string) : option helper :=
  find (fun h => String.eqb (h_name h) n) helpers.

(** ** What a call may return

    [env] gives the values of the integer arguments by the names of their
    parameters; a pointer is its address, [NULL] is 0. *)

Definition arg (env : list (string * Z)) (p : string) : Z :=
  match find (fun a => String.eqb (fst a) p) env with Some a => snd a | None => 0 end.

Definition admits_one (env : list (string * Z)) (o : outcome) (r : Z) : bool :=
  match o with
  | Exactly n => r =? n
  | Error e => r =? - errno_value e
  | Negative => r <? 0
  | NonNegative => 0 <=? r
  | Positive => 0 <? r
  | Within lo p => (lo <=? r) && (r <=? arg env p)
  | LowBits n p => r =? Z.land (arg env p) (Z.ones n)
  | Value => true
  | Pointer => negb (r =? 0)
  | Null => r =? 0
  end.

Definition admits (env : list (string * Z)) (os : list outcome) (r : Z) : bool :=
  existsb (fun o => admits_one env o r) os.

(** [r] is a result the header documents for a call of the helper [n]. *)
Definition documented (n : string) (env : list (string * Z)) (r : Z) : Prop :=
  match helper_named n with
  | Some h => admits env (h_returns h) r = true
  | None => False
  end.

(** Most helpers return 0 or a negative error. *)
Lemma documented_zero_neg n env r :
  option_map h_returns (helper_named n) = Some [Exactly 0; Negative] ->
  documented n env r <-> r = 0 \/ r < 0.
Proof.
  unfold documented. destruct (helper_named n) as [h|]; [|discriminate].
  intros [= ->]. unfold admits. cbn [existsb admits_one]. rewrite Bool.orb_false_r, Bool.orb_true_iff.
  now rewrite Z.eqb_eq, Z.ltb_lt.
Qed.
