(* ===== verification/Variadic.v ===== *)
(** * The macros of src/bpf/include/bpf_helpers.h that compute

    Counting macro arguments, storing them in an array, the printing macros
    built on that, and [KERNEL_VERSION].  A macro works on its arguments before
    the compiler sees them: an expansion is [None] where the preprocessor has no
    macro to go on with.  The programs use none of these macros; they come with
    the header, which declares the helpers as HelperTable.v has them. *)

From Stdlib Require Import String.
From S2P Require Import Prelude HelperTable.

#[local] Open Scope list_scope.
#[local] Open Scope Z_scope.

(** ** Counting arguments *)

(** What a macro argument may be here: an argument of the caller, or one of the
    words [W] that the header itself writes. *)
Section Count.
Context {A W : Type}.

Inductive token := Arg (a : A) | Word (w : W).

(** [___bpf_nth(_, _1, ..., _c, N, ...)] is its fourteenth argument. *)
Definition bpf_nth (args : list token) : option token := args !! 13%nat.

(** [___bpf_nth(_, ##__VA_ARGS__, ws)]; the comma goes when there are no
    arguments. *)
Definition bpf_nth_of (under : W) (args : list A) (ws : list W) : option token :=
  bpf_nth (Word under :: map Arg args ++ map Word ws).
End Count.
Arguments token : clear implicits.

(** [___bpf_narg]: the words are numbers, so that the arguments in front push
    their own number to the fourteenth place. *)
Definition bpf_narg {A} (args : list A) : option (token A nat) :=
  bpf_nth_of 0%nat args [12; 11; 10; 9; 8; 7; 6; 5; 4; 3; 2; 1; 0]%nat.

(** ** Filling an array *)

(** The statements [arr[p] = x;] in order. *)
Definition stores := list (Z * Z).

(** [___bpf_fill0] to [___bpf_fill12]: the first ignores its one argument, which
    may be empty, the second takes exactly one, the others one and whatever is
    left. *)
Fixpoint bpf_fill_n (n : nat) (p : Z) (args : list Z) : option stores :=
  match n with
  | O => match args with [] | [_] => Some [] | _ => None end
  | S O => match args with [x] => Some [(p, x)] | _ => None end
  | S n' =>
      match args with
      | x :: args' => ((p, x) ::.) <$> bpf_fill_n n' (p + 1) args'
      | [] => None
      end
  end.

(** [___bpf_fill]: [___bpf_apply] pastes the count to the name; an argument in
    place of the count names no macro. *)
Definition bpf_fill (args : list Z) : option stores :=
  match bpf_narg args with
  | Some (Word n) => bpf_fill_n n 0 args
  | _ => None
  end.

(** The stores run on [unsigned long long arr[n]]; one outside it is undefined.
    What an array holds before is not defined either, so it is a parameter. *)
Definition store_param (arr : list Z) (s : Z * Z) : option (list Z) :=
  if (0 <=? s.1) && (s.1 <? zlen arr) then Some (<[Z.to_nat s.1 := u64 s.2]> arr) else None.

Fixpoint run_stores (arr : list Z) (ss : stores) : option (list Z) :=
  match ss with
  | [] => Some arr
  | s :: ss' => match store_param arr s with Some arr' => run_stores arr' ss' | None => None end
  end.

(** [unsigned long long ___param[___bpf_narg(args)]; ___bpf_fill(___param, args);]
    with [junk] for the words of the new array. *)
Definition bpf_param (junk : nat -> Z) (args : list Z) : option (list Z) :=
  match bpf_narg args, bpf_fill args with
  | Some (Word n), Some ss => run_stores (map junk (seq 0 n)) ss
  | _, _ => None
  end.

(** ** Printing *)

(** A call of a helper: its name and the arguments.  A format and an array are
    passed by address; what the address holds is what matters. *)
Inductive value := Int (n : Z) | Str (s : string) | Array (l : list Z).
Definition call : Type := string * list value.

(** [sizeof] of an array initialised with the format, and of an array of
    [unsigned long long]. *)
Definition sizeof_str (s : string) : Z := Z.of_nat (String.length s) + 1.
Definition sizeof_param (l : list Z) : Z := 8 * zlen l.

Section Print.
Local Open Scope string_scope.
Local Open Scope list_scope.
Context (junk : nat -> Z).

Definition BPF_SEQ_PRINTF (seq : Z) (fmt : string) (args : list Z) : option call :=
  param ← bpf_param junk args;
  Some ("bpf_seq_printf",
    [Int seq; Str fmt; Int (sizeof_str fmt); Array param; Int (sizeof_param param)]).

Definition BPF_SNPRINTF (out out_size : Z) (fmt : string) (args : list Z) : option call :=
  param ← bpf_param junk args;
  Some ("bpf_snprintf", [Int out; Int out_size; Str fmt; Array param; Int (sizeof_param param)]).

(** [__bpf_printk]: the arguments are passed on as they are. *)
Definition bpf_printk_direct (fmt : string) (args : list Z) : option call :=
  Some ("bpf_trace_printk", [Str fmt; Int (sizeof_str fmt)] ++ map Int args).

(** [__bpf_vprintk]: the arguments are passed in an array. *)
Definition bpf_vprintk (fmt : string) (args : list Z) : option call :=
  param ← bpf_param junk args;
  Some ("bpf_trace_vprintk", [Str fmt; Int (sizeof_str fmt); Array param; Int (sizeof_param param)]).

Inductive printer := Printk | Vprintk.

(** [___bpf_pick_printk]: one macro name per number of arguments, from twelve
    down. *)
Definition bpf_pick_printk (args : list Z) : option (token Z printer) :=
  bpf_nth_of Printk args
    [Vprintk; Vprintk; Vprintk; Vprintk; Vprintk; Vprintk; Vprintk; Vprintk; Vprintk;
     Printk; Printk; Printk; Printk].

Definition bpf_printk (fmt : string) (args : list Z) : option call :=
  match bpf_pick_printk args with
  | Some (Word Printk) => bpf_printk_direct fmt args
  | Some (Word Vprintk) => bpf_vprintk fmt args
  | _ => None
  end.
End Print.

(** ** Kernel versions *)


(** ** Lemmas *)

Lemma bpf_narg_count {A} (args : list A) :
  (length args <= 12)%nat -> bpf_narg args = Some (Word (length args)).
Proof. intros H. do 13 (destruct args as [|? args]; [done|]). cbn in H. lia. Qed.

Lemma bpf_narg_many {A} (args : list A) :
  (12 < length args)%nat -> exists a, bpf_narg args = Some (Arg a).
Proof.
  intros H. do 13 (destruct args as [|? args]; [cbn in H; lia|]). by eexists.
Qed.

(** The stores that put [args] at [p] and behind it. *)
Fixpoint fill_at (p : Z) (args : list Z) : stores :=
  match args with [] => [] | x :: args' => (p, x) :: fill_at (p + 1) args' end.

Lemma bpf_fill_n_at n : forall p args, length args = n -> bpf_fill_n n p args = Some (fill_at p args).
Proof.
  induction n as [|[|n] IH]; intros p args Hn.
  - by destruct args.
  - by destruct args as [|x [|y args]].
  - destruct args as [|x args]; [done|]. injection Hn as Hn.
    change (((p, x) ::.) <$> bpf_fill_n (S n) (p + 1) args = Some (fill_at p (x :: args))).
    by rewrite IH.
Qed.

Lemma run_fill_at args : forall pre rest, length rest = length args ->
  run_stores (pre ++ rest) (fill_at (zlen pre) args) = Some (pre ++ map u64 args).
Proof.
  induction args as [|x args IH]; intros pre [|y rest] Hn; try done. injection Hn as Hn.
  cbn [fill_at run_stores]. unfold store_param. cbn [fst snd]. rewrite zlen_app, zlen_cons.
  pose proof (zlen_nonneg pre). pose proof (zlen_nonneg rest).
  rewrite (proj2 (Z.leb_le _ _)), (proj2 (Z.ltb_lt _ _)) by lia. cbn [andb].
  unfold zlen at 1. rewrite Nat2Z.id, insert_app_r_alt, Nat.sub_diag by lia.
  specialize (IH (pre ++ [u64 x]) rest Hn). rewrite zlen_app, <- !app_assoc in IH. exact IH.
Qed.

Lemma bpf_param_few junk args : (length args <= 12)%nat -> bpf_param junk args = Some (map u64 args).
Proof.
  intros H. unfold bpf_param, bpf_fill. rewrite bpf_narg_count, bpf_fill_n_at by done.
  apply (run_fill_at args [] (map junk (seq 0 (length args)))). by rewrite length_map, length_seq.
Qed.

Lemma bpf_param_many junk args : (12 < length args)%nat -> bpf_param junk args = None.
Proof. intros H. unfold bpf_param. by destruct (bpf_narg_many args H) as [a ->]. Qed.

Lemma bpf_pick_cases args :
  bpf_pick_printk args =
    if bool_decide (length args <= 3)%nat then Some (Word Printk)
    else if bool_decide (length args <= 12)%nat then Some (Word Vprintk)
    else Arg <$> args !! 12%nat.
Proof. do 13 (destruct args as [|? args]; [done|]). done. Qed.

(** ** Properties *)

(** A call that fits the declaration of its helper and the five registers that
    carry arguments. *)
Definition fits (c : call) : bool :=
  match helper_named c.1 with
  | Some h =>
      (length c.2 <=? 5)%nat &&
      if h_variadic h then (length (h_params h) <=? length c.2)%nat
      else (length c.2 =? length (h_params h))%nat
  | None => false
  end.

(** C34: The variadic macros for bpf_seq_printf and bpf_snprintf pass an array that
    holds exactly their arguments, in order, as 64-bit words, whatever was in
    memory before, with its size in bytes, for any number of arguments up to
    twelve; with more, the expansion fails. *)
Theorem bpf_param_spec junk seq out out_size fmt args :
  BPF_SEQ_PRINTF junk seq fmt args =
    (if bool_decide (length args <= 12)%nat then
       Some ("bpf_seq_printf"%string, [Int seq; Str fmt; Int (sizeof_str fmt);
         Array (map u64 args); Int (8 * zlen args)])
     else None) /\
  BPF_SNPRINTF junk out out_size fmt args =
    (if bool_decide (length args <= 12)%nat then
       Some ("bpf_snprintf"%string, [Int out; Int out_size; Str fmt;
         Array (map u64 args); Int (8 * zlen args)])
     else None).
Proof.
  assert (E : sizeof_param (map u64 args) = 8 * zlen args)
    by (unfold sizeof_param, zlen; by rewrite length_map).
  unfold BPF_SEQ_PRINTF, BPF_SNPRINTF. case_bool_decide.
  - rewrite bpf_param_few by done. cbn. by rewrite E.
  - by rewrite bpf_param_many by lia.
Qed.

(** The call that prints [args]: up to three arguments are passed directly to
    bpf_trace_printk, four to twelve in an array to bpf_trace_vprintk. *)
Definition printk_call (fmt : string) (args : list Z) : option call :=
  if bool_decide (length args <= 3)%nat then
    Some ("bpf_trace_printk"%string, [Str fmt; Int (sizeof_str fmt)] ++ map Int args)
  else if bool_decide (length args <= 12)%nat then
    Some ("bpf_trace_vprintk"%string,
      [Str fmt; Int (sizeof_str fmt); Array (map u64 args); Int (8 * zlen args)])
  else None.

Lemma printk_call_fits fmt args c : printk_call fmt args = Some c -> fits c = true.
Proof.
  unfold printk_call. case_bool_decide as H3; [|by case_bool_decide; intros [= <-]].
  intros [= <-]. unfold fits. change (helper_named _) with (Some decl_bpf_trace_printk).
  do 4 (destruct args as [|? args]; [done|]). cbn in H3. lia.
Qed.

(** C35: [bpf_printk] passes up to three arguments to bpf_trace_printk directly and
    four to twelve in an array to bpf_trace_vprintk, with the sizes of format and
    array; every call it makes fits the declaration of the helper and the five
    argument registers. *)
Theorem bpf_printk_spec junk fmt args :
  bpf_printk junk fmt args = printk_call fmt args /\
  forall c, bpf_printk junk fmt args = Some c -> fits c = true.
Proof.
  assert (E : bpf_printk junk fmt args = printk_call fmt args).
  { unfold bpf_printk, printk_call. rewrite bpf_pick_cases. case_bool_decide; [done|].
    case_bool_decide; [|by destruct (args !! 12%nat)]. unfold bpf_vprintk.
    rewrite bpf_param_few by done. cbn. unfold sizeof_param, zlen. by rewrite length_map. }
  split; [exact E|]. intros c. rewrite E. apply printk_call_fits.
Qed.

