(* ===== verification/Kernel.v ===== *)
(** * The kernel side: BPF helpers, packet buffer, and the program monad

    The helper functions are kernel code: src/bpf/include/bpf_helper_defs.h
    only declares them.  They are the operations of the class [Kernel], and
    what the programs rely on is stated as the fields of [KernelSpec], taken
    from the documentation in that header; the values a call may return are
    those HelperTable.v records.  The packet buffer [skb] is an
    abstract type of the kernel, seen through a few observations.

    A program is a function of the monad [M]: it reads and changes a [world]
    (the packet buffer and this CPU's counter slots), and either continues,
    returns an action, or faults on a direct packet access outside
    [skb->data .. skb->data_end]. *)

From Stdlib Require Import String.
From S2P Require Import Prelude Endian Checksum HelperTable.

#[local] Open Scope string_scope.
#[local] Open Scope list_scope.
#[local] Open Scope Z_scope.

(** ** Constants of the kernel's headers *)

Definition ETH_P_IP : Z := 0x0800.
Definition ETH_P_IPV6 : Z := 0x86DD.
Definition ETH_HLEN : Z := 14.

Definition TC_ACT_OK : Z := 0.
Definition TC_ACT_SHOT : Z := 2.

Definition BPF_F_RECOMPUTE_CSUM : Z := 1.
Definition BPF_F_PSEUDO_HDR : Z := 16.
Definition BPF_F_MARK_MANGLED_0 : Z := 32.
Definition BPF_F_MARK_ENFORCE : Z := 64.
Definition BPF_F_ADJ_ROOM_FIXED_GSO : Z := 1.
Definition BPF_F_ADJ_ROOM_NO_CSUM_RESET : Z := 32.
Definition BPF_ADJ_ROOM_NET : Z := 0.

(** [skb->ip_summed]: who computes or has verified the transport checksum. *)
Inductive ip_summed_t :=
  CHECKSUM_NONE | CHECKSUM_UNNECESSARY | CHECKSUM_COMPLETE | CHECKSUM_PARTIAL.

#[export] Instance ip_summed_eq_dec : EqDecision ip_summed_t.
Proof. solve_decision. Defined.

(** ** The operations *)

Class Kernel := {
  skb : Type;
  (** The packet, from the MAC header on. *)
  skb_bytes : skb -> list Z;
  (** [skb->data_end - skb->data]: the bytes open to direct access. *)
  skb_headlen : skb -> Z;
  (** [skb->protocol], in host order. *)
  skb_protocol : skb -> Z;
  skb_ip_summed : skb -> ip_summed_t;

  bpf_skb_pull_data : skb -> Z -> Z * skb;
  bpf_skb_load_bytes : skb -> Z -> Z -> Z * list Z;
  bpf_skb_store_bytes : skb -> Z -> list Z -> Z -> Z * skb;
  bpf_skb_adjust_room : skb -> Z -> Z -> Z -> Z * skb;
  bpf_skb_change_proto : skb -> Z -> Z -> Z * skb;
  bpf_l4_csum_replace : skb -> Z -> Z -> Z -> Z -> Z * skb;
  bpf_csum_diff : list Z -> list Z -> Z -> Z;
  (** The slot of a key of the counter array, on the running CPU. *)
  bpf_map_lookup_elem : Z -> option Z
}.

(** Bytes of the network header that [BPF_ADJ_ROOM_NET] keeps in front of the
    room it adds or removes. *)
Definition net_base_len (proto : Z) : Z :=
  if proto =? ETH_P_IP then 20 else 40.

(** What [bpf_l4_csum_replace] does to the field [c] when [from] is zero and
    the size bits of [flags] are zero: [c'] accounts for the difference
    [diff].  A [CHECKSUM_PARTIAL] field holds the uncomplemented sum of the
    pseudo-header, any other one the complemented sum of everything. *)
Definition l4_field_update (st : ip_summed_t) (flags c diff c' : Z) : Prop :=
  if Z.testbit flags 5 && negb (Z.testbit flags 6) && (c =? 0) then c' = c
  else
    match st with
    | CHECKSUM_PARTIAL => c' ≅ c + diff
    | _ => c' ≅ c - diff
    end /\ (Z.testbit flags 5 = true -> c' <> 0).

(** A kernel whose [bpf_csum_diff] folds its result to 16 bits. *)
Definition csum_folded {K : Kernel} : Prop :=
  forall from to seed, 0 <= bpf_csum_diff from to seed <= 0xffff.

Section Spec.
Context `{T : Target}.

(** What a helper that returned without an error leaves alone. *)
Definition keeps {K : Kernel} (s s' : skb) : Prop :=
  skb_protocol s' = skb_protocol s /\ skb_ip_summed s' = skb_ip_summed s.

(** The documented behaviour.  [may_fail] is what has to hold for a helper
    to fail on arguments that are in range (no memory, for instance):
    [False] describes a kernel whose helpers succeed whenever their
    arguments allow it, [True] any kernel. *)
Class KernelSpec (may_fail : Prop) (max_entries : Z) (K : Kernel) : Prop := {
  skb_bytes_ok s : bytes (skb_bytes s);
  skb_headlen_ok s : 0 <= skb_headlen s <= zlen (skb_bytes s);

  pull_data_ok s len r s' : 0 <= len -> bpf_skb_pull_data s len = (r, s') ->
    skb_bytes s' = skb_bytes s /\ keeps s s' /\
    (len <= zlen (skb_bytes s) -> (r = 0 /\ len <= skb_headlen s') \/ may_fail);

  load_bytes_doc s off len r b : 0 <= off -> 0 < len ->
    bpf_skb_load_bytes s off len = (r, b) ->
    documented "bpf_skb_load_bytes" [("offset", off); ("len", len)] r /\
    (r = 0 -> off + len <= zlen (skb_bytes s) /\ b = sub off len (skb_bytes s)) /\
    (r < 0 -> off + len <= zlen (skb_bytes s) -> may_fail);

  store_bytes_doc s off d flags r s' : 0 <= off -> 0 < zlen d -> bytes d ->
    bpf_skb_store_bytes s off d flags = (r, s') ->
    documented "bpf_skb_store_bytes" [("offset", off); ("len", zlen d); ("flags", flags)] r /\
    (r = 0 -> off + zlen d <= zlen (skb_bytes s) /\
     skb_bytes s' = splice off d (skb_bytes s) /\ keeps s s') /\
    (r < 0 -> off + zlen d <= zlen (skb_bytes s) -> may_fail);

  (** Growing opens [n] bytes of unspecified content behind the network
      header. *)
  adjust_room_grow_doc s n flags r s' :
    let off := ETH_HLEN + net_base_len (skb_protocol s) in
    skb_protocol s = ETH_P_IP \/ skb_protocol s = ETH_P_IPV6 ->
    0 < n < 4096 -> off <= zlen (skb_bytes s) ->
    Z.testbit flags 5 = true ->
    bpf_skb_adjust_room s n BPF_ADJ_ROOM_NET flags = (r, s') ->
    documented "bpf_skb_adjust_room"
      [("len_diff", n); ("mode", BPF_ADJ_ROOM_NET); ("flags", flags)] r /\
    (r = 0 -> keeps s s' /\ exists room, zlen room = n /\
     skb_bytes s' = sub 0 off (skb_bytes s) ++ room ++ drop (Z.to_nat off) (skb_bytes s)) /\
    (r < 0 -> may_fail);

  adjust_room_shrink_doc s n flags r s' :
    let off := ETH_HLEN + net_base_len (skb_protocol s) in
    skb_protocol s = ETH_P_IP \/ skb_protocol s = ETH_P_IPV6 ->
    0 < n < 4096 -> off <= zlen (skb_bytes s) ->
    Z.testbit flags 5 = true ->
    bpf_skb_adjust_room s (- n) BPF_ADJ_ROOM_NET flags = (r, s') ->
    documented "bpf_skb_adjust_room"
      [("len_diff", - n); ("mode", BPF_ADJ_ROOM_NET); ("flags", flags)] r /\
    (r = 0 -> keeps s s' /\ off + n <= zlen (skb_bytes s) /\
     skb_bytes s' = sub 0 off (skb_bytes s) ++ drop (Z.to_nat (off + n)) (skb_bytes s)) /\
    (r < 0 -> off + n <= zlen (skb_bytes s) -> may_fail);

  (** The 20-byte IPv4 header becomes 40 bytes for the new header. *)
  change_proto_4to6_doc s r s' :
    skb_protocol s = ETH_P_IP -> ETH_HLEN + 20 <= zlen (skb_bytes s) ->
    bpf_skb_change_proto s (bpf_htons ETH_P_IPV6) 0 = (r, s') ->
    documented "bpf_skb_change_proto" [("proto", bpf_htons ETH_P_IPV6); ("flags", 0)] r /\
    (r = 0 -> skb_protocol s' = ETH_P_IPV6 /\ skb_ip_summed s' = skb_ip_summed s /\
     exists hdr, zlen hdr = 40 /\
     skb_bytes s' = sub 0 ETH_HLEN (skb_bytes s) ++ hdr ++ drop 34 (skb_bytes s)) /\
    (r < 0 -> may_fail);

  change_proto_6to4_doc s r s' :
    skb_protocol s = ETH_P_IPV6 -> ETH_HLEN + 40 <= zlen (skb_bytes s) ->
    bpf_skb_change_proto s (bpf_htons ETH_P_IP) 0 = (r, s') ->
    documented "bpf_skb_change_proto" [("proto", bpf_htons ETH_P_IP); ("flags", 0)] r /\
    (r = 0 -> skb_protocol s' = ETH_P_IP /\ skb_ip_summed s' = skb_ip_summed s /\
     exists hdr, zlen hdr = 20 /\
     skb_bytes s' = sub 0 ETH_HLEN (skb_bytes s) ++ hdr ++ drop 54 (skb_bytes s)) /\
    (r < 0 -> may_fail);

  l4_csum_replace_doc s off diff flags r s' :
    0 <= off <= 0xffff -> Z.even off = true -> 0 <= diff < 2 ^ 32 ->
    Z.land flags 15 = 0 -> Z.testbit flags 4 = true ->
    bpf_l4_csum_replace s off 0 diff flags = (r, s') ->
    documented "bpf_l4_csum_replace"
      [("offset", off); ("from", 0); ("to", diff); ("flags", flags)] r /\
    (r = 0 -> off + 2 <= zlen (skb_bytes s) /\ keeps s s' /\
     exists c', 0 <= c' < 65536 /\
     skb_bytes s' = splice off (store16 c') (skb_bytes s) /\
     l4_field_update (skb_ip_summed s) flags (ld16 (skb_bytes s) off) diff c') /\
    (r < 0 -> off + 2 <= zlen (skb_bytes s) -> may_fail);

  (** A ones'-complement difference of native words, on top of [seed]. *)
  csum_diff_ok from to seed :
    bytes from -> bytes to -> zlen from mod 4 = 0 -> zlen to mod 4 = 0 ->
    zlen from + zlen to <= 512 -> 0 <= seed < 2 ^ 32 ->
    0 <= bpf_csum_diff from to seed < 2 ^ 32 /\
    bpf_csum_diff from to seed ≅ seed + nsum to - nsum from;

  (** A sum of data that are not all zero is not the representation [0]. *)
  csum_diff_nz to seed :
    bytes to -> zlen to mod 4 = 0 -> zlen to <= 512 -> 0 <= seed < 2 ^ 32 ->
    seed <> 0 \/ ~ Forall (fun b => b = 0) to -> bpf_csum_diff [] to seed <> 0;

  map_lookup_ok k : 0 <= k < max_entries -> is_Some (bpf_map_lookup_elem k);
  map_lookup_inj k1 k2 p :
    bpf_map_lookup_elem k1 = Some p -> bpf_map_lookup_elem k2 = Some p -> k1 = k2
}.

(** ** Success and failure

    The header documents 0 or a negative error for these helpers, so a call
    either succeeded or shows it by a negative result. *)

Lemma zero_or_neg n env r (A B : Prop) :
  option_map h_returns (helper_named n) = Some [Exactly 0; Negative] ->
  documented n env r /\ (r = 0 -> A) /\ (r < 0 -> B) <-> (r = 0 /\ A) \/ (r < 0 /\ B).
Proof.
  intros Hn. rewrite (documented_zero_neg n env r Hn). split.
  - intros ([Hr|Hr] & HA & HB); auto.
  - intros [[-> HA]|[Hr HB]]; split; auto; split; intros; [done|lia|lia|done].
Qed.

Context {may_fail : Prop} {max_entries : Z} {K : Kernel} {KS : KernelSpec may_fail max_entries K}.

Lemma load_bytes_ok s off len r b : 0 <= off -> 0 < len ->
  bpf_skb_load_bytes s off len = (r, b) ->
  (r = 0 /\ off + len <= zlen (skb_bytes s) /\ b = sub off len (skb_bytes s)) \/
  (r < 0 /\ (off + len <= zlen (skb_bytes s) -> may_fail)).
Proof. intros Ho Hl E. by refine (proj1 (zero_or_neg _ _ _ _ _ _) (load_bytes_doc s off len r b Ho Hl E)). Qed.

Lemma store_bytes_ok s off d flags r s' : 0 <= off -> 0 < zlen d -> bytes d ->
  bpf_skb_store_bytes s off d flags = (r, s') ->
  (r = 0 /\ off + zlen d <= zlen (skb_bytes s) /\
   skb_bytes s' = splice off d (skb_bytes s) /\ keeps s s') \/
  (r < 0 /\ (off + zlen d <= zlen (skb_bytes s) -> may_fail)).
Proof. intros Ho Hl Hd E. by refine (proj1 (zero_or_neg _ _ _ _ _ _) (store_bytes_doc s off d flags r s' Ho Hl Hd E)). Qed.

Lemma adjust_room_grow_ok s n flags r s' :
  let off := ETH_HLEN + net_base_len (skb_protocol s) in
  skb_protocol s = ETH_P_IP \/ skb_protocol s = ETH_P_IPV6 ->
  0 < n < 4096 -> off <= zlen (skb_bytes s) ->
  Z.testbit flags 5 = true ->
  bpf_skb_adjust_room s n BPF_ADJ_ROOM_NET flags = (r, s') ->
  (r = 0 /\ keeps s s' /\ exists room, zlen room = n /\
   skb_bytes s' = sub 0 off (skb_bytes s) ++ room ++ drop (Z.to_nat off) (skb_bytes s)) \/
  (r < 0 /\ may_fail).
Proof. intros off Hp Hn Ho Hf E. by refine (proj1 (zero_or_neg _ _ _ _ _ _) (adjust_room_grow_doc s n flags r s' Hp Hn Ho Hf E)). Qed.

Lemma adjust_room_shrink_ok s n flags r s' :
  let off := ETH_HLEN + net_base_len (skb_protocol s) in
  skb_protocol s = ETH_P_IP \/ skb_protocol s = ETH_P_IPV6 ->
  0 < n < 4096 -> off <= zlen (skb_bytes s) ->
  Z.testbit flags 5 = true ->
  bpf_skb_adjust_room s (- n) BPF_ADJ_ROOM_NET flags = (r, s') ->
  (r = 0 /\ keeps s s' /\ off + n <= zlen (skb_bytes s) /\
   skb_bytes s' = sub 0 off (skb_bytes s) ++ drop (Z.to_nat (off + n)) (skb_bytes s)) \/
  (r < 0 /\ (off + n <= zlen (skb_bytes s) -> may_fail)).
Proof. intros off Hp Hn Ho Hf E. by refine (proj1 (zero_or_neg _ _ _ _ _ _) (adjust_room_shrink_doc s n flags r s' Hp Hn Ho Hf E)). Qed.

Lemma change_proto_4to6_ok s r s' :
  skb_protocol s = ETH_P_IP -> ETH_HLEN + 20 <= zlen (skb_bytes s) ->
  bpf_skb_change_proto s (bpf_htons ETH_P_IPV6) 0 = (r, s') ->
  (r = 0 /\ skb_protocol s' = ETH_P_IPV6 /\ skb_ip_summed s' = skb_ip_summed s /\
   exists hdr, zlen hdr = 40 /\
   skb_bytes s' = sub 0 ETH_HLEN (skb_bytes s) ++ hdr ++ drop 34 (skb_bytes s)) \/
  (r < 0 /\ may_fail).
Proof. intros Hp Hl E. by refine (proj1 (zero_or_neg _ _ _ _ _ _) (change_proto_4to6_doc s r s' Hp Hl E)). Qed.

Lemma change_proto_6to4_ok s r s' :
  skb_protocol s = ETH_P_IPV6 -> ETH_HLEN + 40 <= zlen (skb_bytes s) ->
  bpf_skb_change_proto s (bpf_htons ETH_P_IP) 0 = (r, s') ->
  (r = 0 /\ skb_protocol s' = ETH_P_IP /\ skb_ip_summed s' = skb_ip_summed s /\
   exists hdr, zlen hdr = 20 /\
   skb_bytes s' = sub 0 ETH_HLEN (skb_bytes s) ++ hdr ++ drop 54 (skb_bytes s)) \/
  (r < 0 /\ may_fail).
Proof. intros Hp Hl E. by refine (proj1 (zero_or_neg _ _ _ _ _ _) (change_proto_6to4_doc s r s' Hp Hl E)). Qed.

Lemma l4_csum_replace_ok s off diff flags r s' :
  0 <= off <= 0xffff -> Z.even off = true -> 0 <= diff < 2 ^ 32 ->
  Z.land flags 15 = 0 -> Z.testbit flags 4 = true ->
  bpf_l4_csum_replace s off 0 diff flags = (r, s') ->
  (r = 0 /\ off + 2 <= zlen (skb_bytes s) /\ keeps s s' /\
   exists c', 0 <= c' < 65536 /\
   skb_bytes s' = splice off (store16 c') (skb_bytes s) /\
   l4_field_update (skb_ip_summed s) flags (ld16 (skb_bytes s) off) diff c') \/
  (r < 0 /\ (off + 2 <= zlen (skb_bytes s) -> may_fail)).
Proof. intros Ho He Hd Hf Hp E. by refine (proj1 (zero_or_neg _ _ _ _ _ _) (l4_csum_replace_doc s off diff flags r s' Ho He Hd Hf Hp E)). Qed.
End Spec.
