(* ===== verification/Program.v ===== *)
(** * Programs: the monad of the BPF programs and its weakest preconditions

    [M A] is a state monad over [world] with two ways of not continuing: the
    program returns a TC action (every [return] of the C code, early or not),
    or it faults.  [wp] is the corresponding predicate transformer; the rules
    for the helpers below are the ones every proof about the programs uses. *)

From S2P Require Import Prelude Endian Checksum Kernel.

Section Monad.
Context {K : Kernel}.

(** The packet buffer, and the counter slots of the running CPU. *)
Record world := World { w_skb : skb; w_slots : gmap Z Z }.

Inductive outcome (A : Type) :=
| Next (a : A)
| Return (act : Z)
| Fault.
Arguments Next {A} a.
Arguments Return {A} act.
Arguments Fault {A}.

Definition M (A : Type) : Type := world -> outcome A * world.

#[global] Instance M_ret : MRet M := fun A a w => (Next a, w).

#[global] Instance M_bind : MBind M := fun A B f m w =>
  match m w with
  | (Next a, w') => f a w'
  | (Return r, w') => (Return r, w')
  | (Fault, w') => (Fault, w')
  end.

(** [return act;] *)
Definition ret_act {A} (act : Z) : M A := fun w => (Return act, w).

(** [if (c) stmt;] *)
Definition when (c : bool) (m : M unit) : M unit := if c then m else mret tt.

(** The result of a run: the action, unless the program faults. *)
Definition exec (m : M Z) (w : world) : option Z * world :=
  match m w with
  | (Next r, w') => (Some r, w')
  | (Return r, w') => (Some r, w')
  | (Fault, w') => (None, w')
  end.

(** ** Helper calls and direct packet access *)

Definition frame (w : world) : list Z := skb_bytes (w_skb w).

Definition set_skb (s : skb) (w : world) : world := World s (w_slots w).

Definition lift_skb (op : skb -> Z * skb) : M Z := fun w =>
  let '(r, s') := op (w_skb w) in (Next r, set_skb s' w).

Definition skb_pull_data (len : Z) : M Z := lift_skb (fun s => bpf_skb_pull_data s len).
Definition skb_store_bytes (off : Z) (d : list Z) (flags : Z) : M Z :=
  lift_skb (fun s => bpf_skb_store_bytes s off d flags).
Definition skb_adjust_room (n mode flags : Z) : M Z :=
  lift_skb (fun s => bpf_skb_adjust_room s n mode flags).
Definition skb_change_proto (proto flags : Z) : M Z :=
  lift_skb (fun s => bpf_skb_change_proto s proto flags).
Definition l4_csum_replace (off from to flags : Z) : M Z :=
  lift_skb (fun s => bpf_l4_csum_replace s off from to flags).

Definition skb_load_bytes (off len : Z) : M (Z * list Z) := fun w =>
  (Next (bpf_skb_load_bytes (w_skb w) off len), w).

(** [skb->data_end - skb->data] *)
Definition linear_len : M Z := fun w => (Next (skb_headlen (w_skb w)), w).

(** Bytes [off .. off + len) read through a packet pointer. *)
Definition pkt_read (off len : Z) : M (list Z) := fun w =>
  if (0 <=? off) && (off + len <=? skb_headlen (w_skb w))
  then (Next (sub off len (frame w)), w)
  else (Fault, w).

(** ** Weakest preconditions *)

(** [m] does not fault from [w]; it continues in a state satisfying [Q] or
    returns an action satisfying [R]. *)
Definition wp {A} (m : M A) (Q : A -> world -> Prop) (R : Z -> world -> Prop)
    (w : world) : Prop :=
  match m w with
  | (Next a, w') => Q a w'
  | (Return r, w') => R r w'
  | (Fault, _) => False
  end.

Lemma wp_ret {A} (a : A) Q R w : Q a w -> wp (mret a) Q R w.
Proof. done. Qed.

Lemma wp_bind {A B} (m : M A) (f : A -> M B) Q R w :
  wp m (fun a w' => wp (f a) Q R w') R w -> wp (m ≫= f) Q R w.
Proof. unfold wp, mbind, M_bind. destruct (m w) as [[a|r|] w']; done. Qed.

Lemma wp_bind_inv {A B} (m : M A) (f : A -> M B) Q R w :
  wp (m ≫= f) Q R w -> wp m (fun a w' => wp (f a) Q R w') R w.
Proof. unfold wp, mbind, M_bind. destruct (m w) as [[a|r|] w']; done. Qed.

(** Two statements taken as one. *)
Lemma wp_assoc {A B C} (m : M A) (f : A -> M B) (g : B -> M C) Q R w :
  wp ((m ≫= f) ≫= g) Q R w -> wp (m ≫= fun a => f a ≫= g) Q R w.
Proof. unfold wp, mbind, M_bind. by destruct (m w) as [[a|r|] w']. Qed.

Lemma wp_mono {A} (m : M A) (Q Q' : A -> world -> Prop) (R R' : Z -> world -> Prop) w :
  wp m Q R w -> (forall a w', Q a w' -> Q' a w') -> (forall r w', R r w' -> R' r w') ->
  wp m Q' R' w.
Proof. unfold wp. destruct (m w) as [[a|r|] w']; auto. Qed.

Lemma wp_ret_act {A} act Q R w : R act w -> wp (ret_act (A:=A) act) Q R w.
Proof. done. Qed.

Lemma wp_when (c : bool) m Q R w :
  (c = true -> wp m Q R w) -> (c = false -> Q tt w) -> wp (when c m) Q R w.
Proof. destruct c; intros H1 H2; [exact (H1 eq_refl)|exact (H2 eq_refl)]. Qed.

Lemma wp_exec (m : M Z) (R : Z -> world -> Prop) w :
  wp m R R w <-> exists act w', exec m w = (Some act, w') /\ R act w'.
Proof.
  unfold wp, exec. destruct (m w) as [[a|r|] w']; split.
  1, 3: by eauto.
  1, 2: by intros (? & ? & [= -> ->] & ?).
  - done.
  - by intros (? & ? & [=] & ?).
Qed.

Lemma wp_linear_len Q R w : Q (skb_headlen (w_skb w)) w -> wp linear_len Q R w.
Proof. done. Qed.

Lemma wp_pkt_read off len Q R w :
  0 <= off -> off + len <= skb_headlen (w_skb w) ->
  Q (sub off len (frame w)) w -> wp (pkt_read off len) Q R w.
Proof.
  intros H0 H1 HQ. unfold wp, pkt_read.
  rewrite (proj2 (Z.leb_le 0 off)), (proj2 (Z.leb_le _ _) H1) by lia. exact HQ.
Qed.

(** ** The helpers' rules *)

Context `{T : Target} {may_fail : Prop} {max_entries : Z}.
Context {KS : KernelSpec may_fail max_entries K}.

(** [w'] has the same packet and counters, possibly in a buffer that was
    linearised. *)
Definition same_packet (w w' : world) : Prop :=
  frame w' = frame w /\ keeps (w_skb w) (w_skb w') /\ w_slots w' = w_slots w.

Lemma same_packet_refl w : same_packet w w.
Proof. done. Qed.

Lemma same_packet_trans w1 w2 w3 :
  same_packet w1 w2 -> same_packet w2 w3 -> same_packet w1 w3.
Proof. unfold same_packet, keeps. intuition congruence. Qed.

Lemma frame_ok w : bytes (frame w).
Proof. apply skb_bytes_ok. Qed.

Lemma frame_app_ok w a b : frame w = a ++ b -> bytes a /\ bytes b.
Proof. intros E. apply bytes_app. rewrite <- E. apply frame_ok. Qed.

Lemma wp_pull_data len Q R w :
  0 <= len ->
  (forall r w', same_packet w w' ->
     (len <= zlen (frame w) -> (r = 0 /\ len <= skb_headlen (w_skb w')) \/ may_fail) ->
     Q r w') ->
  wp (skb_pull_data len) Q R w.
Proof.
  intros Hl HQ. unfold wp, skb_pull_data, lift_skb.
  destruct (bpf_skb_pull_data (w_skb w) len) as [r s'] eqn:E.
  destruct (pull_data_ok _ _ _ _ Hl E) as (Hb & Hk & Hr). apply HQ; [|exact Hr]. done.
Qed.

Lemma wp_load_bytes off len Q R w :
  0 <= off -> 0 < len ->
  (off + len <= zlen (frame w) -> Q (0, sub off len (frame w)) w) ->
  (forall r b, r < 0 -> (off + len <= zlen (frame w) -> may_fail) -> Q (r, b) w) ->
  wp (skb_load_bytes off len) Q R w.
Proof.
  intros H0 Hl Hok Hfail. unfold wp, skb_load_bytes.
  destruct (bpf_skb_load_bytes (w_skb w) off len) as [r b] eqn:E.
  destruct (load_bytes_ok _ _ _ _ _ H0 Hl E) as [(-> & Hz & ->)|[Hr Hz]]; auto.
Qed.

Lemma wp_load_bytes_any off len Q R w :
  (forall r b, Q (r, b) w) -> wp (skb_load_bytes off len) Q R w.
Proof. intros HQ. unfold wp, skb_load_bytes. destruct bpf_skb_load_bytes. apply HQ. Qed.

Lemma wp_store_bytes off d flags Q R w :
  0 <= off -> 0 < zlen d -> bytes d ->
  (forall w', off + zlen d <= zlen (frame w) -> frame w' = splice off d (frame w) ->
     keeps (w_skb w) (w_skb w') -> w_slots w' = w_slots w -> Q 0 w') ->
  (forall r w', r < 0 -> (off + zlen d <= zlen (frame w) -> may_fail) ->
     w_slots w' = w_slots w -> Q r w') ->
  wp (skb_store_bytes off d flags) Q R w.
Proof.
  intros H0 Hd Hb Hok Hfail. unfold wp, skb_store_bytes, lift_skb.
  destruct (bpf_skb_store_bytes (w_skb w) off d flags) as [r s'] eqn:E.
  destruct (store_bytes_ok _ _ _ _ _ _ H0 Hd Hb E) as [(-> & Hz & Hs & Hk)|[Hr Hz]]; auto.
Qed.

Lemma wp_adjust_room_grow n flags Q R w :
  let off := ETH_HLEN + net_base_len (skb_protocol (w_skb w)) in
  skb_protocol (w_skb w) = ETH_P_IP \/ skb_protocol (w_skb w) = ETH_P_IPV6 ->
  0 < n < 4096 -> off <= zlen (frame w) -> Z.testbit flags 5 = true ->
  (forall w' room, zlen room = n ->
     frame w' = sub 0 off (frame w) ++ room ++ drop (Z.to_nat off) (frame w) ->
     keeps (w_skb w) (w_skb w') -> w_slots w' = w_slots w -> Q 0 w') ->
  (forall r w', r < 0 -> may_fail -> w_slots w' = w_slots w -> Q r w') ->
  wp (skb_adjust_room n BPF_ADJ_ROOM_NET flags) Q R w.
Proof.
  intros off Hp Hn Hz Hf Hok Hfail. unfold wp, skb_adjust_room, lift_skb.
  destruct (bpf_skb_adjust_room (w_skb w) n BPF_ADJ_ROOM_NET flags) as [r s'] eqn:E.
  destruct (adjust_room_grow_ok _ _ _ _ _ Hp Hn Hz Hf E)
    as [(-> & Hk & room & Hr & Hs)|[Hr Hm]]; eauto.
Qed.

Lemma wp_adjust_room_shrink n flags Q R w :
  let off := ETH_HLEN + net_base_len (skb_protocol (w_skb w)) in
  skb_protocol (w_skb w) = ETH_P_IP \/ skb_protocol (w_skb w) = ETH_P_IPV6 ->
  0 < n < 4096 -> off <= zlen (frame w) -> Z.testbit flags 5 = true ->
  (forall w', off + n <= zlen (frame w) ->
     frame w' = sub 0 off (frame w) ++ drop (Z.to_nat (off + n)) (frame w) ->
     keeps (w_skb w) (w_skb w') -> w_slots w' = w_slots w -> Q 0 w') ->
  (forall r w', r < 0 -> (off + n <= zlen (frame w) -> may_fail) ->
     w_slots w' = w_slots w -> Q r w') ->
  wp (skb_adjust_room (- n) BPF_ADJ_ROOM_NET flags) Q R w.
Proof.
  intros off Hp Hn Hz Hf Hok Hfail. unfold wp, skb_adjust_room, lift_skb.
  destruct (bpf_skb_adjust_room (w_skb w) (- n) BPF_ADJ_ROOM_NET flags) as [r s'] eqn:E.
  destruct (adjust_room_shrink_ok _ _ _ _ _ Hp Hn Hz Hf E)
    as [(-> & Hk & Hl & Hs)|[Hr Hm]]; eauto.
Qed.

Lemma wp_change_proto_4to6 Q R w :
  skb_protocol (w_skb w) = ETH_P_IP -> 34 <= zlen (frame w) ->
  (forall w' hdr, zlen hdr = 40 ->
     frame w' = sub 0 ETH_HLEN (frame w) ++ hdr ++ drop 34 (frame w) ->
     skb_protocol (w_skb w') = ETH_P_IPV6 ->
     skb_ip_summed (w_skb w') = skb_ip_summed (w_skb w) ->
     w_slots w' = w_slots w -> Q 0 w') ->
  (forall r w', r < 0 -> may_fail -> w_slots w' = w_slots w -> Q r w') ->
  wp (skb_change_proto (bpf_htons ETH_P_IPV6) 0) Q R w.
Proof.
  intros Hp Hz Hok Hfail. unfold wp, skb_change_proto, lift_skb.
  destruct (bpf_skb_change_proto (w_skb w) _ 0) as [r s'] eqn:E.
  destruct (change_proto_4to6_ok _ _ _ Hp Hz E)
    as [(-> & Hp' & Hs' & hdr & Hh & Hs)|[Hr Hm]]; eauto.
Qed.

Lemma wp_change_proto_6to4 Q R w :
  skb_protocol (w_skb w) = ETH_P_IPV6 -> 54 <= zlen (frame w) ->
  (forall w' hdr, zlen hdr = 20 ->
     frame w' = sub 0 ETH_HLEN (frame w) ++ hdr ++ drop 54 (frame w) ->
     skb_protocol (w_skb w') = ETH_P_IP ->
     skb_ip_summed (w_skb w') = skb_ip_summed (w_skb w) ->
     w_slots w' = w_slots w -> Q 0 w') ->
  (forall r w', r < 0 -> may_fail -> w_slots w' = w_slots w -> Q r w') ->
  wp (skb_change_proto (bpf_htons ETH_P_IP) 0) Q R w.
Proof.
  intros Hp Hz Hok Hfail. unfold wp, skb_change_proto, lift_skb.
  destruct (bpf_skb_change_proto (w_skb w) _ 0) as [r s'] eqn:E.
  destruct (change_proto_6to4_ok _ _ _ Hp Hz E)
    as [(-> & Hp' & Hs' & hdr & Hh & Hs)|[Hr Hm]]; eauto.
Qed.

Lemma wp_l4_csum_replace off diff flags Q R w :
  0 <= off <= 0xffff -> Z.even off = true -> 0 <= diff < 2 ^ 32 ->
  Z.land flags 15 = 0 -> Z.testbit flags 4 = true ->
  (forall w' c', off + 2 <= zlen (frame w) -> 0 <= c' < 65536 ->
     frame w' = splice off (store16 c') (frame w) ->
     l4_field_update (skb_ip_summed (w_skb w)) flags (ld16 (frame w) off) diff c' ->
     keeps (w_skb w) (w_skb w') -> w_slots w' = w_slots w -> Q 0 w') ->
  (forall r w', r < 0 -> (off + 2 <= zlen (frame w) -> may_fail) ->
     w_slots w' = w_slots w -> Q r w') ->
  wp (l4_csum_replace off 0 diff flags) Q R w.
Proof.
  intros Ho He Hd Hf Hp Hok Hfail. unfold wp, l4_csum_replace, lift_skb.
  destruct (bpf_l4_csum_replace (w_skb w) off 0 diff flags) as [r s'] eqn:E.
  destruct (l4_csum_replace_ok _ _ _ _ _ _ Ho He Hd Hf Hp E)
    as [(-> & Hz & Hk & c' & Hc & Hs & Hu)|[Hr Hm]]; eauto.
Qed.
End Monad.

Arguments Next {A} a.
Arguments Return {A} act.
Arguments Fault {A}.

(** A computation that neither faults nor returns has a result. *)
Lemma wp_Next {K : Kernel} {A} (m : M A) Q w :
  wp m Q (fun _ _ => False) w -> exists a w', m w = (Next a, w') /\ Q a w'.
Proof. unfold wp. destruct (m w) as [[a|r|] w']; [eauto|done|done]. Qed.
