(* ===== verification/Common.v ===== *)
(** * Definitions shared by the two programs (src/bpf/clat.c, lines 37-224)

    Header layouts, the per-pod constants, the counter map, and the small
    helper functions of the C file.  Fields of type [__be16] and [__be32] hold
    the native value of the bytes, as in C. *)

From S2P Require Import Prelude Endian Checksum Kernel Program.

(** ** Constants *)

Definition IP_DF : Z := 0x4000.
Definition IP_MF : Z := 0x2000.
Definition IP_OFFSET : Z := 0x1fff.

Definition ICMP_ECHOREPLY : Z := 0.
Definition ICMP_DEST_UNREACH : Z := 3.
Definition ICMP_ECHO : Z := 8.
Definition ICMP_TIME_EXCEEDED : Z := 11.
Definition ICMP_PARAMETERPROB : Z := 12.
Definition ICMP_HOST_UNREACH : Z := 1.
Definition ICMP_PROT_UNREACH : Z := 2.
Definition ICMP_PORT_UNREACH : Z := 3.
Definition ICMP_FRAG_NEEDED : Z := 4.
Definition ICMP_HOST_ANO : Z := 10.

Definition ICMPV6_DEST_UNREACH : Z := 1.
Definition ICMPV6_PKT_TOOBIG : Z := 2.
Definition ICMPV6_TIME_EXCEED : Z := 3.
Definition ICMPV6_PARAMPROB : Z := 4.
Definition ICMPV6_ECHO_REQUEST : Z := 128.
Definition ICMPV6_ECHO_REPLY : Z := 129.
Definition ICMPV6_NOROUTE : Z := 0.
Definition ICMPV6_ADM_PROHIBITED : Z := 1.
Definition ICMPV6_NOT_NEIGHBOUR : Z := 2.
Definition ICMPV6_ADDR_UNREACH : Z := 3.
Definition ICMPV6_PORT_UNREACH : Z := 4.
Definition ICMPV6_POLICY_FAIL : Z := 5.
Definition ICMPV6_REJECT_ROUTE : Z := 6.
Definition ICMPV6_HDR_FIELD : Z := 0.
Definition ICMPV6_UNK_NEXTHDR : Z := 1.

Definition IPPROTO_HOPOPTS : Z := 0.
Definition IPPROTO_ICMP : Z := 1.
Definition IPPROTO_TCP : Z := 6.
Definition IPPROTO_UDP : Z := 17.
Definition IPPROTO_ROUTING : Z := 43.
Definition IPPROTO_FRAGMENT : Z := 44.
Definition IPPROTO_AH : Z := 51.
Definition IPPROTO_ICMPV6 : Z := 58.
Definition IPPROTO_NONE : Z := 59.
Definition IPPROTO_DSTOPTS : Z := 60.
Definition IPPROTO_MH : Z := 135.

Definition STORE_FLAGS : Z := BPF_F_RECOMPUTE_CSUM.
Definition ROOM_FLAGS : Z := Z.lor BPF_F_ADJ_ROOM_FIXED_GSO BPF_F_ADJ_ROOM_NO_CSUM_RESET.

Definition IP6_HLEN : Z := 40.
Definition IP4_HLEN : Z := 20.
Definition FRAG_HLEN : Z := 8.

Definition CSUM_CHUNK : Z := 256.
Definition CSUM_MAX_CHUNKS : Z := 40.

Definition IPOPT_LSRR_T : Z := 131.
Definition IPOPT_SSRR_T : Z := 137.

(** ** Counters *)

Inductive clat_counter :=
| CNT_EGRESS_TRANSLATED
| CNT_INGRESS_TRANSLATED
| CNT_EGRESS_DROP_TRUNCATED
| CNT_EGRESS_DROP_BAD_SRC
| CNT_EGRESS_DROP_MCAST
| CNT_EGRESS_DROP_SRCROUTE
| CNT_EGRESS_DROP_FRAG_NO_CSUM
| CNT_EGRESS_DROP_ICMP_UNSUPPORTED
| CNT_EGRESS_DROP_TOO_BIG
| CNT_EGRESS_DROP_HELPER
| CNT_INGRESS_DROP_TRUNCATED
| CNT_INGRESS_DROP_EXTHDR
| CNT_INGRESS_DROP_UDP_ZERO_CSUM
| CNT_INGRESS_DROP_FRAG_ICMP
| CNT_INGRESS_DROP_ICMP_UNSUPPORTED
| CNT_INGRESS_DROP_ICMP_INNER
| CNT_INGRESS_DROP_HELPER.

#[export] Instance clat_counter_eq_dec : EqDecision clat_counter.
Proof. solve_decision. Defined.

(** The value of an enumerator, and [CNT_MAX]. *)
Definition counter_key (c : clat_counter) : Z :=
  match c with
  | CNT_EGRESS_TRANSLATED => 0
  | CNT_INGRESS_TRANSLATED => 1
  | CNT_EGRESS_DROP_TRUNCATED => 2
  | CNT_EGRESS_DROP_BAD_SRC => 3
  | CNT_EGRESS_DROP_MCAST => 4
  | CNT_EGRESS_DROP_SRCROUTE => 5
  | CNT_EGRESS_DROP_FRAG_NO_CSUM => 6
  | CNT_EGRESS_DROP_ICMP_UNSUPPORTED => 7
  | CNT_EGRESS_DROP_TOO_BIG => 8
  | CNT_EGRESS_DROP_HELPER => 9
  | CNT_INGRESS_DROP_TRUNCATED => 10
  | CNT_INGRESS_DROP_EXTHDR => 11
  | CNT_INGRESS_DROP_UDP_ZERO_CSUM => 12
  | CNT_INGRESS_DROP_FRAG_ICMP => 13
  | CNT_INGRESS_DROP_ICMP_UNSUPPORTED => 14
  | CNT_INGRESS_DROP_ICMP_INNER => 15
  | CNT_INGRESS_DROP_HELPER => 16
  end.

Definition CNT_MAX : Z := 17.

#[export] Instance counter_key_inj : Inj (=) (=) counter_key.
Proof. by intros [] [] [=]. Qed.

Lemma counter_key_range c : 0 <= counter_key c < CNT_MAX.
Proof. destruct c; done. Qed.

(** ** Headers *)

Record in6_addr := In6 { u6_0 : Z; u6_1 : Z; u6_2 : Z; u6_3 : Z }.

#[export] Instance in6_addr_eq_dec : EqDecision in6_addr.
Proof. solve_decision. Defined.

(** [struct iphdr]. *)
Record iphdr := IpHdr {
  i4_version : Z; i4_ihl : Z; i4_tos : Z; i4_tot_len : Z; i4_id : Z; i4_frag_off : Z;
  i4_ttl : Z; i4_protocol : Z; i4_check : Z; i4_saddr : Z; i4_daddr : Z
}.

(** [struct ipv6hdr]; its first word holds version, class and flow label. *)
Record ipv6hdr := Ipv6Hdr {
  i6_word0 : Z; i6_payload_len : Z; i6_nexthdr : Z; i6_hop_limit : Z;
  i6_saddr : in6_addr; i6_daddr : in6_addr
}.

Record frag_hdr := FragHdr {
  fh_nexthdr : Z; fh_reserved : Z; fh_frag_off : Z; fh_identification : Z
}.

(** The union of [struct icmphdr]. *)
Inductive icmp_un :=
| UnEcho (id sequence : Z)
| UnGateway (gateway : Z)
| UnFrag (unused mtu : Z).

Record icmphdr := IcmpHdr { ic_type : Z; ic_code : Z; ic_checksum : Z; ic_un : icmp_un }.

Record pseudo6 := Pseudo6 {
  p6_saddr : in6_addr; p6_daddr : in6_addr; p6_len : Z; p6_nexthdr : Z
}.

(** The per-pod constants, set in .rodata before load. *)
Record consts := Consts {
  CLAT_PREFIX : in6_addr; POD_IP6 : in6_addr; POD_IP4 : Z; ERR_IP4 : Z
}.

Section Layout.
Context `{T : Target}.

Definition in6_bytes (a : in6_addr) : list Z :=
  store32 (u6_0 a) ++ store32 (u6_1 a) ++ store32 (u6_2 a) ++ store32 (u6_3 a).

Definition in6_at (l : list Z) (i : Z) : in6_addr :=
  In6 (ld32 l i) (ld32 l (i + 4)) (ld32 l (i + 8)) (ld32 l (i + 12)).

Definition iphdr_bytes (h : iphdr) : list Z :=
  [u8 (i4_version h * 16 + i4_ihl h); u8 (i4_tos h)] ++ store16 (i4_tot_len h) ++
  store16 (i4_id h) ++ store16 (i4_frag_off h) ++
  [u8 (i4_ttl h); u8 (i4_protocol h)] ++ store16 (i4_check h) ++
  store32 (i4_saddr h) ++ store32 (i4_daddr h).

Definition iphdr_at (l : list Z) (i : Z) : iphdr :=
  IpHdr (byte_at l i / 16) (byte_at l i mod 16) (byte_at l (i + 1)) (ld16 l (i + 2))
    (ld16 l (i + 4)) (ld16 l (i + 6)) (byte_at l (i + 8)) (byte_at l (i + 9))
    (ld16 l (i + 10)) (ld32 l (i + 12)) (ld32 l (i + 16)).

Definition ipv6hdr_bytes (h : ipv6hdr) : list Z :=
  store32 (i6_word0 h) ++ store16 (i6_payload_len h) ++
  [u8 (i6_nexthdr h); u8 (i6_hop_limit h)] ++ in6_bytes (i6_saddr h) ++
  in6_bytes (i6_daddr h).

Definition ipv6hdr_at (l : list Z) (i : Z) : ipv6hdr :=
  Ipv6Hdr (ld32 l i) (ld16 l (i + 4)) (byte_at l (i + 6)) (byte_at l (i + 7))
    (in6_at l (i + 8)) (in6_at l (i + 24)).

(** The [version] bit-field: the high half of the first byte in memory. *)
Definition i6_version (h : ipv6hdr) : Z := byte_at (store32 (i6_word0 h)) 0 / 16.

Definition frag_hdr_bytes (h : frag_hdr) : list Z :=
  [u8 (fh_nexthdr h); u8 (fh_reserved h)] ++ store16 (fh_frag_off h) ++
  store32 (fh_identification h).

Definition frag_hdr_at (l : list Z) (i : Z) : frag_hdr :=
  FragHdr (byte_at l i) (byte_at l (i + 1)) (ld16 l (i + 2)) (ld32 l (i + 4)).

Definition icmphdr_bytes (h : icmphdr) : list Z :=
  [u8 (ic_type h); u8 (ic_code h)] ++ store16 (ic_checksum h) ++
  match ic_un h with
  | UnEcho id sequence => store16 id ++ store16 sequence
  | UnGateway gateway => store32 gateway
  | UnFrag unused mtu => store16 unused ++ store16 mtu
  end.

Definition pseudo6_bytes (p : pseudo6) : list Z :=
  in6_bytes (p6_saddr p) ++ in6_bytes (p6_daddr p) ++ store32 (p6_len p) ++
  store32 (p6_nexthdr p).
End Layout.

(** ** The helper functions of the C file *)

(** [is_ext_hdr]: next-header values the ingress program does not translate. *)
Definition is_ext_hdr (nh : Z) : bool :=
  (nh =? IPPROTO_HOPOPTS) || (nh =? IPPROTO_ROUTING) || (nh =? IPPROTO_FRAGMENT) ||
  (nh =? IPPROTO_DSTOPTS) || (nh =? IPPROTO_AH) || (nh =? IPPROTO_NONE) ||
  (nh =? IPPROTO_MH) || (nh =? 139) || (nh =? 140).

Definition prefix_copy (src : in6_addr) : in6_addr :=
  In6 (u6_0 src) (u6_1 src) (u6_2 src) (u6_3 src).

Definition addr6_eq (a b : in6_addr) : bool :=
  (u6_0 a =? u6_0 b) && (u6_1 a =? u6_1 b) && (u6_2 a =? u6_2 b) && (u6_3 a =? u6_3 b).

Definition in_prefix (cfg : consts) (a : in6_addr) : bool :=
  (u6_0 a =? u6_0 (CLAT_PREFIX cfg)) && (u6_1 a =? u6_1 (CLAT_PREFIX cfg)) &&
  (u6_2 a =? u6_2 (CLAT_PREFIX cfg)).

Section Functions.
Context {K : Kernel}.

(** The counter array after the increment of the slot of [c]. *)
Definition bump (c : clat_counter) (slots : gmap Z Z) : gmap Z Z :=
  match bpf_map_lookup_elem (counter_key c) with
  | Some v => <[v := u64 (default 0 (slots !! v) + 1)]> slots
  | None => slots
  end.

Definition count (c : clat_counter) : M unit := fun w =>
  (Next tt, World (w_skb w) (bump c (w_slots w))).

(** [return DROP(key);] *)
Definition DROP {A} (c : clat_counter) : M A := count c ;; ret_act TC_ACT_SHOT.

Definition ensure_linear (len : Z) : M bool :=
  n ← linear_len;
  if len <=? n then mret true
  else
    r ← skb_pull_data len;
    if r <? 0 then mret false
    else n ← linear_len; mret (len <=? n).

(** The value of counter [c]. *)
Definition slot_value (slots : gmap Z Z) (c : clat_counter) : Z :=
  match bpf_map_lookup_elem (counter_key c) with
  | Some v => default 0 (slots !! v)
  | None => 0
  end.

Definition counter (w : world) (c : clat_counter) : Z := slot_value (w_slots w) c.

(** ** Lemmas *)

Context `{T : Target} {may_fail : Prop} {KS : KernelSpec may_fail CNT_MAX K}.

Lemma wp_count c Q R w :
  Q tt (World (w_skb w) (bump c (w_slots w))) -> wp (count c) Q R w.
Proof. done. Qed.

Lemma wp_DROP {A} c Q R w :
  R TC_ACT_SHOT (World (w_skb w) (bump c (w_slots w))) -> wp (DROP (A:=A) c) Q R w.
Proof. done. Qed.

Lemma wp_ensure_linear len Q R w :
  0 <= len ->
  (forall w', same_packet w w' -> len <= skb_headlen (w_skb w') -> Q true w') ->
  (forall w', same_packet w w' -> (len <= zlen (frame w) -> may_fail) -> Q false w') ->
  wp (ensure_linear len) Q R w.
Proof.
  intros Hl Ht Hf. unfold ensure_linear. apply wp_bind, wp_linear_len.
  destruct (Z.leb_spec len (skb_headlen (w_skb w))) as [Hn|Hn].
  { apply Ht; [apply same_packet_refl|done]. }
  apply wp_bind, wp_pull_data; [done|]. intros r w' Hw Hr.
  destruct (Z.ltb_spec r 0) as [Hr0|Hr0].
  { apply Hf; [done|]. intros Hz. destruct (Hr Hz) as [[-> _]|?]; [lia|done]. }
  apply wp_bind, wp_linear_len, wp_ret.
  destruct (Z.leb_spec len (skb_headlen (w_skb w'))); [by apply Ht|].
  apply Hf; [done|]. intros Hz. destruct (Hr Hz) as [[_ ?]|?]; [lia|done].
Qed.

(** Counting changes one counter, by one, with the wrap of [__u64]. *)
Lemma slot_value_bump slots c c' :
  slot_value (bump c slots) c' =
    if decide (c' = c) then u64 (slot_value slots c + 1) else slot_value slots c'.
Proof.
  unfold slot_value, bump.
  destruct (map_lookup_ok (counter_key c) (counter_key_range c)) as [v Hv]. rewrite Hv.
  destruct (map_lookup_ok (counter_key c') (counter_key_range c')) as [v' Hv']. rewrite Hv'.
  destruct (decide (c' = c)) as [->|Hne].
  - assert (v' = v) as -> by congruence. by rewrite lookup_insert_eq.
  - rewrite lookup_insert_ne; [done|]. intros ->.
    apply Hne, (inj counter_key), (map_lookup_inj _ _ _ Hv' Hv).
Qed.

Lemma counter_bump w w' c c' :
  w_slots w' = bump c (w_slots w) ->
  counter w' c' = if decide (c' = c) then u64 (counter w c + 1) else counter w c'.
Proof. intros E. unfold counter. rewrite E. apply slot_value_bump. Qed.
End Functions.
