(* ===== verification/RefKernel.v ===== *)
(** * A reference kernel

    An executable instance of [Kernel]: the packet is a list of bytes, all
    helpers succeed when their arguments are in range, and checksum results
    are folded to 16 bits.  It shows that the documented behaviour assumed in
    [KernelSpec] is consistent, and it runs the programs on concrete frames. *)

From S2P Require Import Prelude Endian Checksum Kernel Program Common.

Record ref_skb := RefSkb {
  rs_raw : list Z; rs_headlen : Z; rs_protocol : Z; rs_ip_summed : ip_summed_t
}.

(** A ones'-complement sum of a non-negative number, with [0] only for [0]. *)
Definition onec_norm (x : Z) : Z := if x =? 0 then 0 else (x - 1) mod 65535 + 1.

Lemma onec_norm_range x : 0 <= onec_norm x <= 65535.
Proof. unfold onec_norm. destruct (x =? 0); mlia. Qed.

Lemma onec_norm_cong x : onec_norm x ≅ x.
Proof. unfold onec_norm. destruct (Z.eqb_spec x 0) as [->|]; [done|]. eq1c_lia. Qed.

Lemma onec_norm_0 x : onec_norm x = 0 <-> x = 0.
Proof. unfold onec_norm. destruct (Z.eqb_spec x 0); mlia. Qed.

Section Ref.
Context `{T : Target}.

Definition ref_bytes (s : ref_skb) : list Z := u8 <$> rs_raw s.

Definition with_bytes (s : ref_skb) (l : list Z) : ref_skb :=
  RefSkb l (rs_headlen s) (rs_protocol s) (rs_ip_summed s).

Definition EFAULT : Z := 14.
Definition ENOTSUPP : Z := 524.

Definition ref_pull_data (s : ref_skb) (len : Z) : Z * ref_skb :=
  if len <=? zlen (ref_bytes s)
  then (0, RefSkb (rs_raw s) (Z.max (rs_headlen s) len) (rs_protocol s) (rs_ip_summed s))
  else (- EFAULT, s).

Definition ref_load_bytes (s : ref_skb) (off len : Z) : Z * list Z :=
  if off + len <=? zlen (ref_bytes s) then (0, sub off len (ref_bytes s)) else (- EFAULT, []).

Definition ref_store_bytes (s : ref_skb) (off : Z) (d : list Z) (flags : Z) : Z * ref_skb :=
  if off + zlen d <=? zlen (ref_bytes s)
  then (0, with_bytes s (splice off d (ref_bytes s)))
  else (- EFAULT, s).

Definition ref_adjust_room (s : ref_skb) (n mode flags : Z) : Z * ref_skb :=
  let off := ETH_HLEN + net_base_len (rs_protocol s) in
  let b := ref_bytes s in
  if 0 <? n then
    (0, with_bytes s (sub 0 off b ++ replicate (Z.to_nat n) 0 ++ drop (Z.to_nat off) b))
  else if off - n <=? zlen b then
    (0, with_bytes s (sub 0 off b ++ drop (Z.to_nat (off - n)) b))
  else (- ENOTSUPP, s).

Definition ref_change_proto (s : ref_skb) (proto flags : Z) : Z * ref_skb :=
  let b := ref_bytes s in
  if (rs_protocol s =? ETH_P_IP) && (proto =? bpf_htons ETH_P_IPV6) then
    (0, RefSkb (sub 0 ETH_HLEN b ++ replicate 20 0 ++ drop 14 b) (rs_headlen s)
          ETH_P_IPV6 (rs_ip_summed s))
  else if (rs_protocol s =? ETH_P_IPV6) && (proto =? bpf_htons ETH_P_IP) then
    (0, RefSkb (sub 0 ETH_HLEN b ++ drop 34 b) (rs_headlen s) ETH_P_IP (rs_ip_summed s))
  else (- ENOTSUPP, s).

Definition ref_l4_field (st : ip_summed_t) (flags c diff : Z) : Z :=
  if Z.testbit flags 5 && negb (Z.testbit flags 6) && (c =? 0) then c
  else
    let c' := match st with
              | CHECKSUM_PARTIAL => onec_norm (c + diff)
              | _ => 65535 - onec_norm (65535 - c + diff)
              end in
    if Z.testbit flags 5 && (c' =? 0) then 65535 else c'.

Definition ref_l4_csum_replace (s : ref_skb) (off from to flags : Z) : Z * ref_skb :=
  let b := ref_bytes s in
  if off + 2 <=? zlen b then
    (0, with_bytes s (splice off (store16 (ref_l4_field (rs_ip_summed s) flags (ld16 b off) to)) b))
  else (- EFAULT, s).

Definition ref_csum_diff (from to : list Z) (seed : Z) : Z :=
  onec_norm (seed + nsum to + (65535 * zlen from - nsum from)).

Definition ref_map_lookup_elem (k : Z) : option Z :=
  if (0 <=? k) && (k <? CNT_MAX) then Some k else None.

Definition RefKernel : Kernel := {|
  skb := ref_skb;
  skb_bytes := ref_bytes;
  skb_headlen s := Z.max 0 (Z.min (rs_headlen s) (zlen (ref_bytes s)));
  skb_protocol := rs_protocol;
  skb_ip_summed := rs_ip_summed;
  bpf_skb_pull_data := ref_pull_data;
  bpf_skb_load_bytes := ref_load_bytes;
  bpf_skb_store_bytes := ref_store_bytes;
  bpf_skb_adjust_room := ref_adjust_room;
  bpf_skb_change_proto := ref_change_proto;
  bpf_l4_csum_replace := ref_l4_csum_replace;
  bpf_csum_diff := ref_csum_diff;
  bpf_map_lookup_elem := ref_map_lookup_elem
|}.

(** A received frame, with [n] bytes in the linear area. *)
Definition ref_world (l : list Z) (n proto : Z) (st : ip_summed_t) : @world RefKernel :=
  @World RefKernel (RefSkb l n proto st) ∅.

(** ** It is an instance of the documented behaviour *)

Lemma map_u8_bytes l : bytes l -> u8 <$> l = l.
Proof.
  induction 1 as [|x l Hx _ IH]; [done|]. rewrite fmap_cons, IH. f_equal. by apply u8_id.
Qed.

Lemma ref_bytes_ok s : bytes (ref_bytes s).
Proof. unfold ref_bytes. induction (rs_raw s); constructor; [apply u8_range|done]. Qed.

Lemma ref_bytes_with s l : bytes l -> ref_bytes (with_bytes s l) = l.
Proof. apply map_u8_bytes. Qed.

Lemma nsum_bound l : bytes l -> 0 <= nsum l <= 65535 * zlen l.
Proof.
  revert l. apply (pair_ind (fun l => bytes l -> 0 <= nsum l <= 65535 * zlen l)).
  - done.
  - intros a Ha. apply bytes_cons in Ha as [Ha _]. cbn [nsum]. change (zlen [a]) with 1.
    pose proof (load16_range a 0 Ha ltac:(unfold is_byte; lia)). lia.
  - intros a b r IH Hl. rewrite !bytes_cons in Hl. destruct Hl as (Ha & Hb & Hr).
    cbn [nsum]. rewrite !zlen_cons. pose proof (load16_range a b Ha Hb). specialize (IH Hr). lia.
Qed.

Lemma nsum_zero l : bytes l -> nsum l = 0 -> Forall (fun b => b = 0) l.
Proof.
  revert l. apply (pair_ind (fun l => bytes l -> nsum l = 0 -> Forall (fun b => b = 0) l)).
  - done.
  - intros a Ha H0. apply bytes_cons in Ha as [Ha _]. apply Forall_singleton.
    unfold nsum, load16, is_byte in *. destruct little_endian; lia.
  - intros a b r IH Hl. rewrite !bytes_cons in Hl. destruct Hl as (Ha & Hb & Hr).
    cbn [nsum]. pose proof (load16_range a b Ha Hb). pose proof (nsum_bound r Hr).
    intros Hs. rewrite !Forall_cons. specialize (IH Hr). unfold load16, is_byte in *.
    destruct little_endian; repeat split; try lia; apply IH; lia.
Qed.

Lemma ref_l4_field_ok st flags c diff :
  0 <= c < 65536 -> 0 <= diff ->
  0 <= ref_l4_field st flags c diff < 65536 /\
  l4_field_update st flags c diff (ref_l4_field st flags c diff).
Proof.
  intros Hc Hd. unfold l4_field_update, ref_l4_field.
  destruct (Z.testbit flags 5 && negb (Z.testbit flags 6) && (c =? 0)); [lia|].
  set (c' := match st with CHECKSUM_PARTIAL => _ | _ => _ end).
  assert (Hc' : 0 <= c' < 65536 /\
    match st with CHECKSUM_PARTIAL => c' ≅ c + diff | _ => c' ≅ c - diff end).
  { unfold c'. pose proof (onec_norm_range (c + diff)).
    pose proof (onec_norm_range (65535 - c + diff)).
    destruct st; (split; [lia|]); rewrite onec_norm_cong; try done;
      apply eq1c_iff; exists 0; lia. }
  destruct Hc' as [Hr Hcong]. destruct (Z.testbit flags 5); simpl; [|by split].
  destruct (Z.eqb_spec c' 0) as [E|E]; [|by repeat split; try lia].
  rewrite E in Hcong. repeat split; try lia.
  destruct st; by rewrite <- Hcong.
Qed.

Lemma ref_change_proto_4to6 s r s' :
  rs_protocol s = ETH_P_IP -> 34 <= zlen (ref_bytes s) ->
  ref_change_proto s (bpf_htons ETH_P_IPV6) 0 = (r, s') ->
  r = 0 /\ rs_protocol s' = ETH_P_IPV6 /\ rs_ip_summed s' = rs_ip_summed s /\
  exists hdr, zlen hdr = 40 /\
    ref_bytes s' = sub 0 ETH_HLEN (ref_bytes s) ++ hdr ++ drop 34 (ref_bytes s).
Proof.
  intros Hp Hz. unfold ref_change_proto; cbv zeta. rewrite Hp, !Z.eqb_refl. cbn [andb].
  intros [= <- <-]. split; [done|]. split; [done|]. split; [done|].
  exists (replicate 20 0 ++ sub 14 20 (ref_bytes s)). split.
  { rewrite zlen_app, zlen_replicate, zlen_sub; unfold ETH_HLEN in *; lia. }
  unfold ref_bytes at 1. cbn [rs_raw].
  rewrite map_u8_bytes by (pose proof (ref_bytes_ok s); solve_bytes).
  rewrite <- app_assoc. f_equal. f_equal.
  change 34%nat with (14 + 20)%nat. rewrite <- drop_drop. unfold sub. znat.
  apply (f_equal (app (replicate 20 0))). symmetry. apply take_drop.
Qed.

Lemma ref_change_proto_6to4 s r s' :
  rs_protocol s = ETH_P_IPV6 -> 54 <= zlen (ref_bytes s) ->
  ref_change_proto s (bpf_htons ETH_P_IP) 0 = (r, s') ->
  r = 0 /\ rs_protocol s' = ETH_P_IP /\ rs_ip_summed s' = rs_ip_summed s /\
  exists hdr, zlen hdr = 20 /\
    ref_bytes s' = sub 0 ETH_HLEN (ref_bytes s) ++ hdr ++ drop 54 (ref_bytes s).
Proof.
  intros Hp Hz. unfold ref_change_proto; cbv zeta. rewrite Hp, !Z.eqb_refl.
  change (ETH_P_IPV6 =? ETH_P_IP) with false. cbn [andb].
  intros [= <- <-]. split; [done|]. split; [done|]. split; [done|].
  exists (sub 34 20 (ref_bytes s)). split.
  { rewrite zlen_sub; unfold ETH_HLEN in *; lia. }
  unfold ref_bytes at 1. cbn [rs_raw].
  rewrite map_u8_bytes by (pose proof (ref_bytes_ok s); solve_bytes).
  f_equal. change 54%nat with (34 + 20)%nat. rewrite <- drop_drop. unfold sub. znat.
  symmetry. apply take_drop.
Qed.

#[global] Instance RefKernelSpec : KernelSpec False CNT_MAX RefKernel.
Proof.
  split; cbn [skb_bytes skb_headlen skb_protocol skb_ip_summed bpf_skb_pull_data
    bpf_skb_load_bytes bpf_skb_store_bytes bpf_skb_adjust_room bpf_skb_change_proto
    bpf_l4_csum_replace bpf_csum_diff bpf_map_lookup_elem RefKernel].
  - apply ref_bytes_ok.
  - intros s. pose proof (zlen_nonneg (ref_bytes s)). lia.
  - intros s len r s' Hl. unfold ref_pull_data.
    destruct (Z.leb_spec len (zlen (ref_bytes s))); intros [= <- <-].
    + split; [done|]. split; [done|]. intros _. left. split; [done|].
      unfold ref_bytes in *. cbn [rs_raw rs_headlen]. lia.
    + split; [done|]. split; [done|]. lia.
  - intros s off len r b H0 Hl E. eapply zero_or_neg; [done|]. revert E. unfold ref_load_bytes.
    destruct (Z.leb_spec (off + len) (zlen (ref_bytes s))); intros [= <- <-];
      [by left|right; unfold EFAULT; lia].
  - intros s off d flags r s' H0 Hl Hd E. eapply zero_or_neg; [done|]. revert E. unfold ref_store_bytes.
    destruct (Z.leb_spec (off + zlen d) (zlen (ref_bytes s))); intros [= <- <-];
      [left|right; unfold EFAULT; lia].
    rewrite ref_bytes_with by (apply bytes_splice; [done|apply ref_bytes_ok]). done.
  - intros s n flags r s' Hp Hn Hz Hf E. eapply zero_or_neg; [done|]. revert E. unfold ref_adjust_room; cbv zeta.
    destruct (Z.ltb_spec 0 n); [|lia]. intros [= <- <-]. left. split; [done|]. split; [done|].
    exists (replicate (Z.to_nat n) 0). split; [rewrite zlen_replicate; lia|].
    apply ref_bytes_with. pose proof (ref_bytes_ok s). solve_bytes.
  - intros s n flags r s' Hp Hn Hz Hf E. eapply zero_or_neg; [done|]. revert E. unfold ref_adjust_room; cbv zeta.
    set (off := ETH_HLEN + _) in *.
    destruct (Z.ltb_spec 0 (- n)); [lia|]. replace (off - - n) with (off + n) by lia.
    destruct (Z.leb_spec (off + n) (zlen (ref_bytes s))); intros [= <- <-];
      [left|right; unfold ENOTSUPP; lia].
    rewrite ref_bytes_with by (pose proof (ref_bytes_ok s); solve_bytes). done.
  - intros s r s' Hp Hz E. eapply zero_or_neg; [done|]. left. by eapply ref_change_proto_4to6.
  - intros s r s' Hp Hz E. eapply zero_or_neg; [done|]. left. by eapply ref_change_proto_6to4.
  - intros s off diff flags r s' Ho He Hd Hf Hp E. eapply zero_or_neg; [done|]. revert E.
    unfold ref_l4_csum_replace; cbv zeta.
    destruct (Z.leb_spec (off + 2) (zlen (ref_bytes s))); intros [= <- <-];
      [left|right; unfold EFAULT; lia].
    split; [done|]. split; [done|]. split; [done|].
    destruct (ref_l4_field_ok (rs_ip_summed s) flags (ld16 (ref_bytes s) off) diff)
      as [Hr Hu]; [apply ld16_range, ref_bytes_ok|lia|].
    eexists. split; [exact Hr|]. split; [|exact Hu].
    apply ref_bytes_with. pose proof (ref_bytes_ok s). solve_bytes.
  - intros from to seed Hf Ht _ _ _ Hs. unfold ref_csum_diff. split.
    + pose proof (onec_norm_range (seed + nsum to + (65535 * zlen from - nsum from))). lia.
    + rewrite onec_norm_cong. apply eq1c_iff. exists (zlen from). lia.
  - intros to seed Ht _ _ Hs Hnz. unfold ref_csum_diff. rewrite onec_norm_0.
    change (zlen []) with 0. cbn [nsum]. pose proof (nsum_bound to Ht). intros E.
    destruct Hnz as [?|Hnz]; [lia|]. apply Hnz, nsum_zero; [done|lia].
  - intros k Hk. unfold ref_map_lookup_elem.
    destruct (Z.leb_spec 0 k), (Z.ltb_spec k CNT_MAX); try lia. by eexists.
  - intros k1 k2 p. unfold ref_map_lookup_elem.
    destruct ((0 <=? k1) && _), ((0 <=? k2) && _); congruence.
Qed.
End Ref.
