(* ===== verification/Wire.v ===== *)
(** * Headers on the wire

    Lemmas that relate the native structs of the programs to the bytes of a
    frame: sizes, loads from a sub-range, comparisons of native fields as
    comparisons of wire values, and the sums of headers and pseudo-headers. *)

From S2P Require Import Prelude Endian Checksum Kernel Program Common.

(** ** Bit fields *)

Lemma testbit_eqb x k : 0 <= k -> Z.testbit x k = (x / 2 ^ k mod 2 =? 1).
Proof.
  intros. apply eq_true_iff_eq. rewrite Z.eqb_eq. by apply Z.testbit_true.
Qed.

Lemma land_pow2 x k : 0 <= k -> negb (Z.land x (2 ^ k) =? 0) = Z.testbit x k.
Proof.
  intros. rewrite <- Z.shiftl_1_l. destruct (Z.testbit x k) eqn:E.
  - apply negb_true_iff, Z.eqb_neq. intros E'.
    assert (Ht : Z.testbit (Z.land x (Z.shiftl 1 k)) k = true).
    { rewrite Z.land_spec, E, Z.shiftl_spec, Z.sub_diag by lia. done. }
    by rewrite E', Z.bits_0 in Ht.
  - apply negb_false_iff, Z.eqb_eq, Z.bits_inj'. intros n Hn.
    rewrite Z.land_spec, Z.shiftl_spec, Z.bits_0 by lia.
    destruct (Z.eq_dec n k) as [->|]; [by rewrite E|].
    destruct (Z.lt_ge_cases n k); [by rewrite (Z.testbit_neg_r 1), andb_false_r by lia|].
    change 1 with (Z.ones 1). by rewrite Z.ones_spec_high, andb_false_r by lia.
Qed.

(** A mask of [k] ones at bit [j] selects a field. *)
Lemma land_window x j k : 0 <= j -> 0 <= k ->
  Z.land x (Z.shiftl (Z.ones k) j) = x / 2 ^ j mod 2 ^ k * 2 ^ j.
Proof.
  intros. rewrite <- Z.land_ones, <- Z.shiftr_div_pow2, <- (Z.shiftl_mul_pow2 _ j) by lia.
  apply Z.bits_inj'. intros n Hn. rewrite !Z.land_spec, !Z.shiftl_spec by lia.
  destruct (Z.lt_ge_cases n j).
  - by rewrite !(Z.testbit_neg_r _ (n - j)), andb_false_r by lia.
  - rewrite Z.land_spec, Z.shiftr_spec by lia. do 2 f_equal. lia.
Qed.

Section Wire.
Context `{T : Target}.

(** ** Sizes *)

Lemma zlen_in6_bytes a : zlen (in6_bytes a) = 16.
Proof. unfold in6_bytes. len. Qed.

Lemma zlen_iphdr_bytes h : zlen (iphdr_bytes h) = 20.
Proof. unfold iphdr_bytes. len. Qed.

Lemma zlen_ipv6hdr_bytes h : zlen (ipv6hdr_bytes h) = 40.
Proof. unfold ipv6hdr_bytes. rewrite !zlen_app, !zlen_in6_bytes. len. Qed.

Lemma zlen_frag_hdr_bytes h : zlen (frag_hdr_bytes h) = 8.
Proof. unfold frag_hdr_bytes. len. Qed.

Lemma zlen_icmphdr_bytes h : zlen (icmphdr_bytes h) = 8.
Proof. unfold icmphdr_bytes. destruct (ic_un h); len. Qed.

Lemma zlen_pseudo6_bytes p : zlen (pseudo6_bytes p) = 40.
Proof. unfold pseudo6_bytes. rewrite !zlen_app, !zlen_in6_bytes. len. Qed.

Lemma u8_byte x : is_byte (u8 x).
Proof. apply u8_range. Qed.

Lemma bytes_in6_bytes a : bytes (in6_bytes a).
Proof. unfold in6_bytes. rewrite !bytes_app. auto using bytes_store32. Qed.

Lemma bytes_iphdr_bytes h : bytes (iphdr_bytes h).
Proof.
  unfold iphdr_bytes. rewrite !bytes_app, !bytes_cons.
  auto 20 using bytes_store32, bytes_store16, u8_byte, bytes_nil.
Qed.

Lemma bytes_ipv6hdr_bytes h : bytes (ipv6hdr_bytes h).
Proof.
  unfold ipv6hdr_bytes. rewrite !bytes_app, !bytes_cons.
  auto 20 using bytes_store32, bytes_store16, u8_byte, bytes_nil, bytes_in6_bytes.
Qed.

Lemma bytes_frag_hdr_bytes h : bytes (frag_hdr_bytes h).
Proof.
  unfold frag_hdr_bytes. rewrite !bytes_app, !bytes_cons.
  auto 20 using bytes_store32, bytes_store16, u8_byte, bytes_nil.
Qed.

Lemma bytes_icmphdr_bytes h : bytes (icmphdr_bytes h).
Proof.
  unfold icmphdr_bytes. rewrite !bytes_app, !bytes_cons.
  destruct (ic_un h); rewrite ?bytes_app;
    auto 20 using bytes_store32, bytes_store16, u8_byte, bytes_nil.
Qed.

Lemma bytes_pseudo6_bytes p : bytes (pseudo6_bytes p).
Proof.
  unfold pseudo6_bytes. rewrite !bytes_app. auto 20 using bytes_store32, bytes_in6_bytes.
Qed.

(** ** Loads from a sub-range *)

Lemma ld16_sub f off n i : 0 <= off -> 0 <= i -> i + 2 <= n -> off + n <= zlen f ->
  ld16 (sub off n f) i = ld16 f (off + i).
Proof.
  intros. unfold ld16. rewrite !byte_at_sub by lia. by rewrite Z.add_assoc.
Qed.

Lemma ld32_sub f off n i : 0 <= off -> 0 <= i -> i + 4 <= n -> off + n <= zlen f ->
  ld32 (sub off n f) i = ld32 f (off + i).
Proof.
  intros. unfold ld32. rewrite !byte_at_sub by lia. by rewrite !Z.add_assoc.
Qed.

Lemma rd16_sub f off n i : 0 <= off -> 0 <= i -> i + 2 <= n -> off + n <= zlen f ->
  rd16 (sub off n f) i = rd16 f (off + i).
Proof.
  intros. unfold rd16. rewrite !byte_at_sub by lia. by rewrite Z.add_assoc.
Qed.

Lemma iphdr_at_sub f off : 0 <= off -> off + 20 <= zlen f ->
  iphdr_at (sub off 20 f) 0 = iphdr_at f off.
Proof.
  intros. unfold iphdr_at. rewrite !ld16_sub, !ld32_sub, !byte_at_sub by lia.
  by rewrite !Z.add_0_r, !Z.add_0_l.
Qed.

Lemma in6_at_sub f off n i : 0 <= off -> 0 <= i -> i + 16 <= n -> off + n <= zlen f ->
  in6_at (sub off n f) i = in6_at f (off + i).
Proof.
  intros. unfold in6_at. rewrite !ld32_sub by lia. by rewrite !Z.add_assoc.
Qed.

Lemma ipv6hdr_at_sub f off : 0 <= off -> off + 40 <= zlen f ->
  ipv6hdr_at (sub off 40 f) 0 = ipv6hdr_at f off.
Proof.
  intros. unfold ipv6hdr_at. rewrite !ld16_sub, !ld32_sub, !byte_at_sub, !in6_at_sub by lia.
  by rewrite !Z.add_0_r, !Z.add_0_l.
Qed.

Lemma frag_hdr_at_sub f off : 0 <= off -> off + 8 <= zlen f ->
  frag_hdr_at (sub off 8 f) 0 = frag_hdr_at f off.
Proof.
  intros. unfold frag_hdr_at. rewrite !ld16_sub, !ld32_sub, !byte_at_sub by lia.
  by rewrite !Z.add_0_r, !Z.add_0_l.
Qed.

(** ** Native comparisons as wire comparisons *)

Lemma load16_inj a b c d : is_byte a -> is_byte b -> is_byte c -> is_byte d ->
  load16 a b = load16 c d <-> a = c /\ b = d.
Proof. unfold is_byte, load16. destruct little_endian; lia. Qed.

Lemma ld16_eqb_htons l i v : bytes l -> 0 <= v < 65536 ->
  (ld16 l i =? bpf_htons v) = (rd16 l i =? v).
Proof.
  intros Hl Hv. pose proof (byte_at_range l i Hl). pose proof (byte_at_range l (i + 1) Hl).
  rewrite bpf_htons_eq. unfold ld16, rd16, load16, builtin_bswap16, byte_n.
  destruct little_endian; cbn -[Z.modulo Z.div Z.mul Z.add Z.eqb];
    apply eq_true_iff_eq; rewrite !Z.eqb_eq; mlia.
Qed.

(** The value of four bytes in network order. *)
Lemma rd32_be32 v : 0 <= v < 4294967296 -> rd32 (be32 v) 0 = v.
Proof.
  intros. unfold rd32, be32, byte_at, byte_n. znat. cbn -[Z.modulo Z.div Z.mul]. mlia.
Qed.

Lemma be32_bytes a b c d : is_byte a -> is_byte b -> is_byte c -> is_byte d ->
  be32 (16777216 * a + 65536 * b + 256 * c + d) = [a; b; c; d].
Proof.
  unfold is_byte, be32, byte_n. intros. cbn -[Z.modulo Z.div Z.mul Z.add]. cons_eq; mlia.
Qed.

Lemma sub_4 l i : 0 <= i -> i + 4 <= zlen l ->
  sub i 4 l = [byte_at l i; byte_at l (i + 1); byte_at l (i + 2); byte_at l (i + 3)].
Proof.
  intros. rewrite !sub_cons by lia. rewrite sub_neg by lia. by rewrite <- !Z.add_assoc.
Qed.

Lemma store32_ld32 l i : bytes l -> 0 <= i -> i + 4 <= zlen l -> store32 (ld32 l i) = sub i 4 l.
Proof.
  intros Hl ??. rewrite sub_4 by lia. apply store32_load32; by apply byte_at_range.
Qed.

Lemma in6_bytes_at l i : bytes l -> 0 <= i -> i + 16 <= zlen l ->
  in6_bytes (in6_at l i) = sub i 16 l.
Proof.
  intros Hl Hi Hz. unfold in6_bytes, in6_at. cbn [u6_0 u6_1 u6_2 u6_3].
  rewrite !store32_ld32 by (done || lia). change 16 with (4 + (4 + (4 + 4))).
  rewrite !sub_split by lia. by rewrite <- !Z.add_assoc.
Qed.

Lemma store32_inj a b : 0 <= a < 4294967296 -> 0 <= b < 4294967296 ->
  store32 a = store32 b -> a = b.
Proof.
  intros Ha Hb E. pose proof (ld32_store32 a [] Ha) as Ea. rewrite E in Ea.
  by rewrite ld32_store32 in Ea by done.
Qed.

Lemma ld32_eqb l i v : bytes l -> 0 <= i -> i + 4 <= zlen l -> 0 <= v < 4294967296 ->
  (ld32 l i =? v) = bool_decide (sub i 4 l = store32 v).
Proof.
  intros Hl ?? Hv. rewrite <- store32_ld32 by done.
  destruct (Z.eqb_spec (ld32 l i) v) as [->|Hne]; [by rewrite bool_decide_eq_true_2|].
  rewrite bool_decide_eq_false_2; [done|]. intros E. apply Hne.
  apply store32_inj; [by apply ld32_range|done|done].
Qed.
Lemma ld32_eqb_htonl l i v : bytes l -> 0 <= i -> i + 4 <= zlen l -> 0 <= v < 4294967296 ->
  (ld32 l i =? bpf_htonl v) = (rd32 l i =? v).
Proof.
  intros Hl Hi Hz Hv. rewrite ld32_eqb by (try done; by apply bpf_htonl_range).
  rewrite store32_htonl. destruct (Z.eqb_spec (rd32 l i) v) as [<-|Hne].
  - apply bool_decide_eq_true_2. unfold rd32.
    rewrite be32_bytes by by apply byte_at_range. by apply sub_4.
  - apply bool_decide_eq_false_2. rewrite sub_4 by lia. intros E. apply Hne.
    rewrite <- (rd32_be32 v), <- E by done. unfold rd32, byte_at. znat. done.
Qed.

Lemma rd16_app_r a b i : zlen a <= i -> rd16 (a ++ b) i = rd16 b (i - zlen a).
Proof.
  intros. unfold rd16. rewrite !byte_at_app_r by lia. do 3 f_equal. lia.
Qed.

Lemma rd16_be16 v r : rd16 (be16 v ++ r) 0 = v mod 65536.
Proof. unfold rd16, be16, byte_at, byte_n. znat. cbn -[Z.modulo Z.div Z.mul]. mlia. Qed.

(** The Ethernet type of a rewritten frame. *)
Lemma rd16_type f v r : 12 <= zlen f -> 0 <= v < 65536 ->
  rd16 (sub 0 12 f ++ be16 v ++ r) 12 = v.
Proof.
  intros. rewrite rd16_app_r by (rewrite zlen_sub; lia). rewrite zlen_sub by lia.
  rewrite rd16_be16. by apply Z.mod_small.
Qed.

Lemma rd32_range l i : bytes l -> 0 <= rd32 l i < 4294967296.
Proof.
  intros Hl. unfold rd32. pose proof (byte_at_range l i Hl). pose proof (byte_at_range l (i + 1) Hl).
  pose proof (byte_at_range l (i + 2) Hl). pose proof (byte_at_range l (i + 3) Hl). lia.
Qed.

Lemma rd16_range l i : bytes l -> 0 <= rd16 l i < 65536.
Proof.
  intros Hl. unfold rd16. pose proof (byte_at_range l i Hl).
  pose proof (byte_at_range l (i + 1) Hl). lia.
Qed.

Lemma ld16_eqb_0 l i : bytes l -> (ld16 l i =? 0) = (rd16 l i =? 0).
Proof.
  intros Hl. rewrite <- (ld16_eqb_htons l i 0) by done. f_equal.
  rewrite bpf_htons_eq. by destruct little_endian.
Qed.

Lemma store16_nz c : 0 <= c < 65536 -> c <> 0 -> store16 c <> [0; 0].
Proof.
  intros Hc Hnz E. apply Hnz. rewrite <- (u16_id c), <- nsum_store16, E by done.
  unfold nsum, load16. by destruct little_endian.
Qed.
End Wire.

#[export] Hint Rewrite @zlen_in6_bytes @zlen_iphdr_bytes @zlen_ipv6hdr_bytes
  @zlen_frag_hdr_bytes @zlen_icmphdr_bytes @zlen_pseudo6_bytes : zlen.
#[export] Hint Resolve bytes_in6_bytes bytes_iphdr_bytes bytes_ipv6hdr_bytes
  bytes_frag_hdr_bytes bytes_icmphdr_bytes bytes_pseudo6_bytes : bytes.
