(* ===== verification/Rules.v ===== *)
(** * Rules shared by the proofs about the two programs

    Most steps of the programs act on a frame that is a known header part
    [hd] followed by the transport part [l].  The rules of this file restate
    the helpers' rules for such frames, and turn the update of a checksum field
    into a statement about the sum of the transport part. *)

From S2P Require Import Prelude Endian Checksum Kernel Program Common Wire.

(** ** Sums and overwritten fields *)

Lemma splice_parts off d l : 0 <= off -> off + zlen d <= zlen l ->
  splice off d l = sub 0 off l ++ d ++ drop (Z.to_nat (off + zlen d)) l.
Proof.
  intros. unfold splice, sub. rewrite drop_0. do 3 f_equal. unfold zlen in *. lia.
Qed.

Lemma sub_parts off n l : 0 <= off -> 0 <= n -> off + n <= zlen l ->
  l = sub 0 off l ++ sub off n l ++ drop (Z.to_nat (off + n)) l.
Proof.
  intros. rewrite app_assoc. change off with (0 + off) at 2.
  rewrite <- sub_split by lia. apply sub_drop. lia.
Qed.

Lemma byte_at_splice off d l i : 0 <= off -> off + zlen d <= zlen l -> 0 <= i < zlen d ->
  byte_at (splice off d l) (off + i) = byte_at d i.
Proof.
  intros. rewrite splice_parts, byte_at_app_r by (rewrite ?zlen_sub by lia; lia).
  rewrite zlen_sub, byte_at_app_l by lia. f_equal. lia.
Qed.

(** Writing twice to the same place. *)
Lemma splice_splice off d d' l : 0 <= off -> off + zlen d <= zlen l -> zlen d' = zlen d ->
  splice off d' (splice off d l) = splice off d' l.
Proof.
  intros. pose proof (zlen_nonneg d). rewrite (splice_parts off d l), (splice_parts off d' l) by lia.
  rewrite splice_app_r by (rewrite zlen_sub by lia; lia). rewrite zlen_sub by lia.
  replace (off - off) with 0 by lia. rewrite splice_app_0 by done. do 3 f_equal. lia.
Qed.

Lemma even_len_sub_0 off l : 0 <= off <= zlen l -> Z.even off = true -> even_len (sub 0 off l).
Proof. intros. unfold even_len. by rewrite zlen_sub by lia. Qed.

Section Sums.
Context `{T : Target}.

(** Overwriting an even range changes a sum by the difference of the two. *)
Lemma nsum_splice off d l :
  0 <= off -> off + zlen d <= zlen l -> Z.even off = true -> even_len d ->
  nsum (splice off d l) + nsum (sub off (zlen d) l) = nsum l + nsum d.
Proof.
  intros H0 Hz He Hd. pose proof (zlen_nonneg d).
  rewrite (sub_parts off (zlen d) l) at 3 by lia. rewrite splice_parts by lia.
  assert (even_len (sub 0 off l)) by (apply even_len_sub_0; [lia|done]).
  assert (even_len (sub off (zlen d) l)) by (unfold even_len; by rewrite zlen_sub by lia).
  rewrite !nsum_app by done. lia.
Qed.

Lemma nsum_sub_2 off l : 0 <= off -> off + 2 <= zlen l -> nsum (sub off 2 l) = ld16 l off.
Proof.
  intros. rewrite !sub_cons by lia. rewrite sub_neg by lia. unfold nsum, ld16. lia.
Qed.

(** An equation of native sums is an equation of network-order sums. *)
Lemma nsum_to_sum16 a b c d : nsum a + nsum b ≅ nsum c + nsum d ->
  sum16 a + sum16 b ≅ sum16 c + sum16 d.
Proof.
  intros H. rewrite !sum16_nsum, <- !Z.mul_add_distr_l. by rewrite H.
Qed.

Lemma sum16_app a b : even_len a -> sum16 (a ++ b) = sum16 a + sum16 b.
Proof.
  unfold even_len. revert a. apply (pair_ind (fun a => _ -> sum16 (a ++ b) = _)).
  - done.
  - intros x Hx. discriminate.
  - intros x y r IH Hr. cbn [app sum16]. rewrite IH; [lia|].
    rewrite !zlen_cons in Hr. replace (1 + (1 + zlen r)) with (zlen r + 2 * 1) in Hr by lia.
    by rewrite Z.even_add_mul_2 in Hr.
Qed.

Lemma sum16_splice off d l :
  0 <= off -> off + zlen d <= zlen l -> Z.even off = true -> even_len d ->
  sum16 (splice off d l) + sum16 (sub off (zlen d) l) = sum16 l + sum16 d.
Proof.
  intros H0 Hz He Hd. pose proof (zlen_nonneg d).
  rewrite (sub_parts off (zlen d) l) at 3 by lia. rewrite splice_parts by lia.
  assert (even_len (sub 0 off l)) by (apply even_len_sub_0; [lia|done]).
  assert (even_len (sub off (zlen d) l)) by (unfold even_len; by rewrite zlen_sub by lia).
  rewrite !sum16_app by done. lia.
Qed.

Lemma sum16_sub_2 off l : 0 <= off -> off + 2 <= zlen l -> sum16 (sub off 2 l) = rd16 l off.
Proof.
  intros. rewrite !sub_cons by lia. rewrite sub_neg by lia. unfold sum16, rd16. lia.
Qed.

Lemma sub_splice off d l n : 0 <= off -> off + zlen d <= n -> n <= zlen l ->
  sub 0 n (splice off d l) = splice off d (sub 0 n l).
Proof.
  intros. pose proof (zlen_nonneg d). rewrite (sub_drop n l) at 1 by lia.
  rewrite splice_app_l by (rewrite ?zlen_sub by lia; lia).
  apply sub_app_0. rewrite zlen_splice; rewrite ?zlen_sub by lia; lia.
Qed.

(** The first byte of a message, rewritten. *)
Lemma sum16_set_first t l : 1 <= zlen l ->
  sum16 (splice 0 [t] l) + 256 * byte_at l 0 = sum16 l + 256 * t.
Proof.
  intros Hl. destruct l as [|a [|b r]]; [done|unfold splice, byte_at; znat; simpl; lia|].
  unfold splice, byte_at. znat. cbn [take drop app length Nat.add nth sum16]. lia.
Qed.

Lemma nsum_set_first t l : 2 <= zlen l ->
  nsum (splice 0 [t] l) + nsum [byte_at l 0; byte_at l 1] = nsum l + nsum [t; byte_at l 1].
Proof.
  intros Hl. destruct l as [|a [|b r]]; [done|done|].
  unfold splice, byte_at. znat. cbn [take drop app length Nat.add nth nsum]. lia.
Qed.

(** A word that holds a type and a code in front of two zero bytes. *)
Lemma type_code_word t c : is_byte t -> is_byte c ->
  store32 (bpf_htonl (Z.lor (Z.shiftl t 24) (Z.shiftl c 16))) = [t; c; 0; 0].
Proof.
  unfold is_byte. intros Ht Hc. rewrite store32_htonl, !Z.shiftl_mul_pow2 by lia.
  change 24 with (8 + 16). rewrite Z.pow_add_r, Z.mul_assoc by lia.
  change (2 ^ 16) with 65536.
  replace (Z.lor (t * 2 ^ 8 * 65536) (c * 65536)) with ((t * 256 + c) * 65536).
  2: { change 65536 with (2 ^ 16). rewrite <- !Z.shiftl_mul_pow2, <- Z.shiftl_lor by lia.
       f_equal. rewrite Z.shiftl_mul_pow2, lor_add by lia. done. }
  rewrite <- be32_bytes by (unfold is_byte; lia). f_equal. lia.
Qed.
End Sums.

(** ** What happens to a transport checksum

    [P] and [P'] are the pseudo-headers (or the parts of them that change)
    before and after, [l] and [l'] the transport parts.  Where the field holds
    a complete checksum, the ones'-complement sum of pseudo-header and data is
    carried over, so a valid checksum stays valid and a wrong one stays wrong;
    where it holds the partial sum of the pseudo-header, the field moves with
    the pseudo-header. *)
Definition csum_carried (st : ip_summed_t) (co : Z) (P P' l l' : list Z) : Prop :=
  match st with
  | CHECKSUM_PARTIAL => rd16 l' co - sum16 P' ≅ rd16 l co - sum16 P
  | _ => sum16 P' + sum16 l' ≅ sum16 P + sum16 l
  end.

Section Rules.
Context {K : Kernel} `{T : Target} {may_fail : Prop} {KS : KernelSpec may_fail CNT_MAX K}.

(** Helper calls on a frame [hd ++ l], at offset [co] of [l]. *)

Lemma wp_load_at hd l co off len Q R w :
  frame w = hd ++ l -> off = zlen hd + co -> 0 <= co -> 0 < len ->
  (co + len <= zlen l -> Q (0, sub co len l) w) ->
  (forall r b, r < 0 -> (co + len <= zlen l -> may_fail) -> Q (r, b) w) ->
  wp (skb_load_bytes off len) Q R w.
Proof.
  intros Hw -> H0 Hl HQ Hf. pose proof (zlen_nonneg hd).
  apply wp_load_bytes; [lia|lia| |]; rewrite Hw, zlen_app.
  - intros Hz. rewrite sub_app_r by lia. replace (zlen hd + co - zlen hd) with co by lia.
    apply HQ. lia.
  - intros r b Hr Hz. apply Hf; [done|]. intros. apply Hz. lia.
Qed.

Lemma wp_store_at hd l co off d flags Q R w :
  frame w = hd ++ l -> off = zlen hd + co -> 0 <= co -> 0 < zlen d -> bytes d ->
  (forall w', co + zlen d <= zlen l -> frame w' = hd ++ splice co d l ->
     keeps (w_skb w) (w_skb w') -> w_slots w' = w_slots w -> Q 0 w') ->
  (forall r w', r < 0 -> (co + zlen d <= zlen l -> may_fail) ->
     w_slots w' = w_slots w -> Q r w') ->
  wp (skb_store_bytes off d flags) Q R w.
Proof.
  intros Hw -> H0 Hl Hb HQ Hf. pose proof (zlen_nonneg hd).
  apply wp_store_bytes; [lia|lia|done| |]; rewrite Hw, zlen_app.
  - intros w' Hz Hw'. rewrite splice_app_r in Hw' by lia.
    replace (zlen hd + co - zlen hd) with co in Hw' by lia. apply HQ; [lia|done].
  - intros r w' Hr Hz. apply Hf; [done|]. intros. apply Hz. lia.
Qed.

Lemma wp_csum_at hd l co off diff flags Q R w :
  frame w = hd ++ l -> off = zlen hd + co -> zlen hd <= 1000 -> 0 <= co <= 1000 ->
  Z.even (zlen hd + co) = true -> 0 <= diff < 4294967296 ->
  Z.land flags 15 = 0 -> Z.testbit flags 4 = true ->
  (forall w' c', co + 2 <= zlen l -> 0 <= c' < 65536 ->
     frame w' = hd ++ splice co (store16 c') l ->
     l4_field_update (skb_ip_summed (w_skb w)) flags (ld16 l co) diff c' ->
     keeps (w_skb w) (w_skb w') -> w_slots w' = w_slots w -> Q 0 w') ->
  (forall r w', r < 0 -> (co + 2 <= zlen l -> may_fail) ->
     w_slots w' = w_slots w -> Q r w') ->
  wp (l4_csum_replace off 0 diff flags) Q R w.
Proof.
  intros Hw -> Hhd Hco He Hd Hf Hp HQ Hfail. pose proof (zlen_nonneg hd).
  apply wp_l4_csum_replace; [lia|done|done|done|done| |]; rewrite Hw, zlen_app.
  - intros w' c' Hz Hc Hw' Hu. rewrite splice_app_r in Hw' by (len).
    replace (zlen hd + co - zlen hd) with co in Hw' by lia.
    unfold ld16 in Hu. rewrite !byte_at_app_r in Hu by lia.
    replace (zlen hd + co - zlen hd) with co in Hu by lia.
    replace (zlen hd + co + 1 - zlen hd) with (co + 1) in Hu by lia.
    apply (HQ w' c'); [lia|done|done|exact Hu].
  - intros r w' Hr Hz. apply Hfail; [done|]. intros. apply Hz. lia.
Qed.

(** Running on after a helper that reports errors with a negative value. *)
Lemma wp_check_ok c Q R w : Q tt w -> wp (when (0 <? 0) (DROP c)) Q R w.
Proof. done. Qed.

Lemma wp_check_fail r c Q R w :
  r < 0 -> R TC_ACT_SHOT (World (w_skb w) (bump c (w_slots w))) ->
  wp (when (r <? 0) (DROP c)) Q R w.
Proof. intros Hr HR. destruct (Z.ltb_spec r 0); [exact HR|lia]. Qed.

(** A conditional drop. *)
Lemma wp_when_drop (b : bool) c Q R w :
  (b = true -> R TC_ACT_SHOT (World (w_skb w) (bump c (w_slots w)))) ->
  (b = false -> Q tt w) -> wp (when b (DROP c)) Q R w.
Proof. destruct b; intros H1 H2; [exact (H1 eq_refl)|exact (H2 eq_refl)]. Qed.

(** The update of a field at an even offset, as a statement about sums. *)
Lemma field_update_carried st flags co diff c' P P' l :
  0 <= co -> co + 2 <= zlen l -> Z.even co = true -> bytes l -> 0 <= c' < 65536 ->
  (Z.testbit flags 5 = true -> Z.testbit flags 6 = false -> ld16 l co <> 0) ->
  diff ≅ nsum P' - nsum P -> l4_field_update st flags (ld16 l co) diff c' ->
  csum_carried st co P P' l (splice co (store16 c') l).
Proof.
  intros H0 Hz He Hb Hc Hnz Hd Hu. unfold l4_field_update in Hu.
  assert (E : Z.testbit flags 5 && negb (Z.testbit flags 6) && (ld16 l co =? 0) = false).
  { destruct (Z.testbit flags 5), (Z.testbit flags 6); try done.
    specialize (Hnz eq_refl eq_refl). simpl. by apply Z.eqb_neq. }
  rewrite E in Hu. destruct Hu as [Hu _].
  pose proof (nsum_splice co (store16 c') l H0) as Hs. rewrite zlen_store16 in Hs.
  specialize (Hs Hz He). unfold even_len in Hs. rewrite zlen_store16 in Hs.
  specialize (Hs eq_refl). rewrite nsum_sub_2, nsum_store16, u16_id in Hs by lia.
  assert (Hcase : st = CHECKSUM_PARTIAL /\ c' ≅ ld16 l co + diff \/
                  st <> CHECKSUM_PARTIAL /\ c' ≅ ld16 l co - diff).
  { destruct st; auto. }
  destruct Hcase as [[-> Hcc]|[Hst Hcc]].
  - unfold csum_carried.
    assert (Hrd : rd16 (splice co (store16 c') l) co = sum16 (store16 c')).
    { unfold rd16. replace (byte_at _ co) with (byte_at (store16 c') 0).
      2: { rewrite <- (byte_at_splice co _ l) by len. by rewrite Z.add_0_r. }
      rewrite byte_at_splice by len. unfold store16, byte_at.
      destruct little_endian; znat; cbn [nth sum16]; lia. }
    rewrite Hrd. assert (Hrl : rd16 l co = sum16 (sub co 2 l)).
    { rewrite !sub_cons by lia. rewrite sub_neg by lia. unfold rd16, sum16. lia. }
    rewrite Hrl, !sum16_nsum, nsum_store16, u16_id, nsum_sub_2 by lia.
    rewrite Hcc, Hd, <- !Z.mul_sub_distr_l. apply eq1c_iff. exists 0. lia.
  - assert (Hgoal : nsum P' + nsum (splice co (store16 c') l) ≅ nsum P + nsum l).
    { replace (nsum (splice co (store16 c') l)) with (nsum l + c' - ld16 l co) by lia.
      rewrite Hcc, Hd. apply eq1c_iff. exists 0. lia. }
    apply nsum_to_sum16 in Hgoal. by destruct st.
Qed.

(** ** Helper calls whose failure drops the packet *)

Lemma wp_store_or_drop hd l co off d flags c Q R w :
  frame w = hd ++ l -> off = zlen hd + co -> 0 <= co -> 0 < zlen d -> bytes d ->
  (forall w', co + zlen d <= zlen l -> frame w' = hd ++ splice co d l ->
     keeps (w_skb w) (w_skb w') -> w_slots w' = w_slots w -> Q tt w') ->
  ((co + zlen d <= zlen l -> may_fail) -> forall w', w_slots w' = w_slots w ->
     R TC_ACT_SHOT (World (w_skb w') (bump c (w_slots w')))) ->
  wp (r ← skb_store_bytes off d flags; when (r <? 0) (DROP c)) Q R w.
Proof.
  intros Hw Ho H0 Hd Hb HQ HR. apply wp_bind, (wp_store_at hd l co); try done.
  intros r w' Hr Hm Hs. apply wp_check_fail; [done|]. by apply HR.
Qed.

(** The checksum update keeps or moves the sum for every pair of
    pseudo-headers whose difference is [diff]. *)
Lemma wp_csum_or_drop hd l co off diff flags c Q R w :
  frame w = hd ++ l -> off = zlen hd + co -> zlen hd <= 1000 -> 0 <= co <= 1000 ->
  Z.even (zlen hd) = true -> Z.even co = true -> 0 <= diff < 4294967296 ->
  Z.land flags 15 = 0 -> Z.testbit flags 4 = true ->
  (Z.testbit flags 5 = true -> Z.testbit flags 6 = false -> ld16 l co <> 0) ->
  (forall w' d, co + 2 <= zlen l -> zlen d = 2 -> (Z.testbit flags 5 = true -> d <> [0; 0]) ->
     frame w' = hd ++ splice co d l ->
     (forall P P', diff ≅ nsum P' - nsum P ->
        csum_carried (skb_ip_summed (w_skb w)) co P P' l (splice co d l)) ->
     keeps (w_skb w) (w_skb w') -> w_slots w' = w_slots w -> Q tt w') ->
  ((co + 2 <= zlen l -> may_fail) -> forall w', w_slots w' = w_slots w ->
     R TC_ACT_SHOT (World (w_skb w') (bump c (w_slots w')))) ->
  wp (r ← l4_csum_replace off 0 diff flags; when (r <? 0) (DROP c)) Q R w.
Proof.
  intros Hw Ho Hhd Hco He1 He2 Hd Hf1 Hf2 Hnz HQ HR.
  destruct (frame_app_ok w _ _ Hw) as [_ Hl].
  apply wp_bind, (wp_csum_at hd l co); try done.
  - by rewrite Z.even_add, He1, He2.
  - intros w' c' Hz Hc Hw' Hu Hk Hs. apply wp_check_ok.
    apply (HQ w' (store16 c')); try done; [apply zlen_store16| |].
    + intros F5. apply store16_nz; [done|]. unfold l4_field_update in Hu. rewrite F5 in Hu.
      destruct (Z.testbit flags 6); cbn [negb andb] in Hu; [by apply Hu|].
      rewrite (proj2 (Z.eqb_neq _ _) (Hnz F5 eq_refl)) in Hu. by apply Hu.
    + intros P P' HP. eapply field_update_carried; [lia|done|done|done|done|done|exact HP|done].
  - intros r w' Hr Hm Hs. apply wp_check_fail; [done|]. by apply HR.
Qed.

(** ** Checksum differences of small changes *)

(** A difference of buffers of at most 512 bytes, on top of [seed]. *)
Lemma csum_diff_u32 from to seed :
  bytes from -> bytes to -> zlen from mod 4 = 0 -> zlen to mod 4 = 0 ->
  zlen from + zlen to <= 512 -> 0 <= seed < 4294967296 ->
  0 <= u32 (bpf_csum_diff from to seed) < 4294967296 /\
  u32 (bpf_csum_diff from to seed) ≅ seed + nsum to - nsum from.
Proof.
  intros H1 H2 H3 H4 H5 H6. destruct (csum_diff_ok from to seed H1 H2 H3 H4 H5 H6) as [Hr Hc].
  rewrite u32_id by lia. by split; [lia|].
Qed.

Lemma nsum_type_code t c : nsum [t; c; 0; 0] = nsum [t; c].
Proof. unfold nsum, load16. destruct little_endian; lia. Qed.

(** The type byte of an ICMP message changes from [t] to [t']. *)
Lemma csum_type_change t t' c seed :
  is_byte t -> is_byte t' -> is_byte c -> 0 <= seed < 4294967296 ->
  let word t := store32 (bpf_htonl (Z.lor (Z.shiftl t 24) (Z.shiftl c 16))) in
  let diff := u32 (bpf_csum_diff (word t) (word t') seed) in
  0 <= diff < 4294967296 /\ diff ≅ seed + nsum [t'; c] - nsum [t; c].
Proof.
  intros Ht Ht' Hc Hs word diff. unfold diff, word. rewrite !type_code_word by done.
  rewrite <- !(nsum_type_code _ c). apply csum_diff_u32; try done; solve_bytes.
Qed.

(** A 16-bit field changes from [oc] to [nc]. *)
Lemma csum_word_change oc nc d :
  0 <= oc < 65536 -> 0 <= nc < 65536 -> 0 <= d < 4294967296 ->
  let diff := u32 (bpf_csum_diff (store32 (word16 oc)) (store32 (word16 nc)) d) in
  0 <= diff < 4294967296 /\ diff ≅ d + nc - oc.
Proof.
  intros Ho Hn Hd diff. unfold diff.
  destruct (csum_diff_u32 (store32 (word16 oc)) (store32 (word16 nc)) d) as [Hr Hc];
    rewrite ?zlen_store32; try done; auto with bytes. split; [done|].
  rewrite Hc, !nsum_store32, !(u32_id (word16 _)) by apply word16_range.
  rewrite !word16_cong, !u16_id by done. done.
Qed.
End Rules.
