(* ===== verification/Options.v ===== *)
(** * IPv4 options (ip4_has_source_route of src/bpf/clat.c)

    The scan for a source-route option, against a reference parser of the
    option list, and the sufficiency of its bound of 40 iterations. *)

From Equations Require Import Equations.
From S2P Require Import Prelude Endian Checksum Kernel Program Common.

Section Scan.
Context {K : Kernel}.

(** The loop, [k] iterations from its end, at position [i]. *)
Fixpoint scan_options (k : nat) (optoff optlen i : Z) : M bool :=
  match k with
  | O => mret false
  | S k =>
      if optlen <=? i then mret false else
      '(r, b) ← skb_load_bytes (u32 (optoff + i)) 1;
      if r <? 0 then mret true else
      let t := byte_at b 0 in
      if t =? 0 then mret false else
      if t =? 1 then scan_options k optoff optlen (u32 (i + 1)) else
      if (t =? IPOPT_LSRR_T) || (t =? IPOPT_SSRR_T) then mret true else
      if optlen <=? u32 (i + 1) then mret true else
      '(r, b) ← skb_load_bytes (u32 (optoff + i + 1)) 1;
      if r <? 0 then mret true else
      let l := byte_at b 0 in
      if l <? 2 then mret true else
      scan_options k optoff optlen (u32 (i + l))
  end.

Definition ip4_has_source_route (optoff optlen : Z) : M bool :=
  if (optlen <? 4) || (40 <? optlen) || negb (Z.land optlen 3 =? 0) then mret true
  else scan_options 40 optoff optlen 0.
End Scan.

(** ** The reference parser *)

(** The types of the options of a list, up to the end-of-list option; [None]
    when an option other than end-of-list and no-op lacks its length byte or
    has a length below 2.  An option whose length runs past the list ends
    it. *)
#[local] Obligation Tactic := intros; cbn [length]; rewrite ?length_drop; lia.

Equations opt_types (opts : list Z) : option (list Z) by wf (length opts) lt :=
  opt_types [] := Some [];
  opt_types (t :: r) with t =? 0 => {
    | true => Some [];
    | false with t =? 1 => {
      | true => cons t <$> opt_types r;
      | false with r => {
        | [] => None;
        | l :: r' with l <? 2 => {
          | true => None;
          | false => cons t <$> opt_types (drop (Z.to_nat (l - 2)) r') } } } }.

Definition is_source_route (t : Z) : bool := (t =? IPOPT_LSRR_T) || (t =? IPOPT_SSRR_T).

(** The list parses and holds no source route. *)
Definition options_ok (opts : list Z) : bool :=
  match opt_types opts with
  | Some ts => negb (existsb is_source_route ts)
  | None => false
  end.

(** ** Lemmas *)

Lemma opt_types_cons t r :
  opt_types (t :: r) =
    if t =? 0 then Some [] else
    if t =? 1 then cons t <$> opt_types r else
    match r with
    | [] => None
    | l :: r' => if l <? 2 then None else cons t <$> opt_types (drop (Z.to_nat (l - 2)) r')
    end.
Proof.
  simp opt_types. destruct (t =? 0); simpl; [done|]. destruct (t =? 1); simpl; [done|].
  destruct r as [|l r']; simpl; [done|]. by destruct (l <? 2).
Qed.

Lemma options_ok_cons t r :
  options_ok (t :: r) =
    if t =? 0 then true else
    if t =? 1 then options_ok r else
    if is_source_route t then false else
    match r with
    | [] => false
    | l :: r' => if l <? 2 then false else options_ok (drop (Z.to_nat (l - 2)) r')
    end.
Proof.
  unfold options_ok. rewrite opt_types_cons.
  destruct (t =? 0); [done|]. destruct (Z.eqb_spec t 1) as [->|].
  { by destruct (opt_types r). }
  destruct r as [|l r']; [by destruct (is_source_route t)|].
  destruct (l <? 2); [by destruct (is_source_route t)|].
  destruct (opt_types _); cbn; by destruct (is_source_route t).
Qed.

Section Correct.
Context {K : Kernel} `{T : Target} {may_fail : Prop} {KS : KernelSpec may_fail CNT_MAX K}.

(** One byte of the packet, as the scan loads it. *)
Lemma wp_load_byte off Q R w :
  0 <= off -> off + 1 <= zlen (frame w) ->
  Q (0, [byte_at (frame w) off]) w ->
  (forall r b, r < 0 -> may_fail -> Q (r, b) w) ->
  wp (skb_load_bytes off 1) Q R w.
Proof.
  intros H0 Hz HQ Hf. apply wp_load_bytes; [lia|lia| |].
  - intros _. by rewrite sub_1 by lia.
  - intros r b Hr Hm. auto.
Qed.

Lemma wp_scan_options k optoff optlen i Q R w :
  0 <= optoff <= 1000 -> 0 <= i <= 300 -> optlen <= 40 -> optlen - i <= Z.of_nat k ->
  optoff + optlen <= zlen (frame w) ->
  Q (negb (options_ok (sub (optoff + i) (optlen - i) (frame w)))) w ->
  (may_fail -> Q true w) ->
  wp (scan_options k optoff optlen i) Q R w.
Proof.
  intros Ho Hi Hl Hk Hz. revert i Hi Hk. induction k as [|k IH]; intros i Hi Hk HQ Hm;
    cbn [scan_options].
  { rewrite sub_neg in HQ by lia. exact HQ. }
  destruct (Z.leb_spec optlen i) as [Hle|Hgt].
  { rewrite sub_neg in HQ by lia. exact HQ. }
  rewrite !u32_id by lia.
  apply wp_bind, wp_load_byte; [lia|lia| |].
  2: { intros r b Hr Hf. destruct (Z.ltb_spec r 0); [|lia]. by apply Hm. }
  change (0 <? 0) with false. cbv zeta.
  change (byte_at [byte_at (frame w) (optoff + i)] 0) with (byte_at (frame w) (optoff + i)).
  pose proof (byte_at_range _ (optoff + i) (frame_ok w)) as Ht.
  rewrite sub_cons, options_ok_cons in HQ by lia.
  set (t := byte_at (frame w) (optoff + i)) in *.
  destruct (t =? 0); [exact HQ|]. destruct (t =? 1).
  { apply IH; [lia|lia| |done].
    by rewrite Z.add_assoc, Z.sub_add_distr. }
  fold (is_source_route t). destruct (is_source_route t); [exact HQ|].
  destruct (Z.leb_spec optlen (i + 1)) as [Hle|Hgt'].
  { rewrite sub_neg in HQ by lia. exact HQ. }
  apply wp_bind, wp_load_byte; [lia|lia| |].
  2: { intros r b Hr Hf. destruct (Z.ltb_spec r 0); [|lia]. by apply Hm. }
  change (0 <? 0) with false.
  change (byte_at [byte_at (frame w) (optoff + i + 1)] 0)
    with (byte_at (frame w) (optoff + i + 1)).
  pose proof (byte_at_range _ (optoff + i + 1) (frame_ok w)) as Hlb.
  rewrite sub_cons in HQ by lia. set (l := byte_at (frame w) (optoff + i + 1)) in *.
  destruct (Z.ltb_spec l 2); [exact HQ|].
  rewrite u32_id by lia. apply IH; [lia|lia| |done].
  replace (optoff + (i + l)) with (optoff + i + 1 + 1 + (l - 2)) by lia.
  replace (optlen - (i + l)) with (optlen - i - 1 - 1 - (l - 2)) by lia.
  by rewrite sub_drop_l by lia.
Qed.

(** The option length that [ihl] allows passes the guard of the function. *)
Lemma optlen_guard n : 1 <= n <= 10 ->
  (4 * n <? 4) || (40 <? 4 * n) || negb (Z.land (4 * n) 3 =? 0) = false.
Proof.
  intros. change 3 with (Z.ones 2). rewrite Z.land_ones by lia.
  change (2 ^ 2) with 4. rewrite Z.mul_comm, Z_mod_mult.
  destruct (Z.ltb_spec (n * 4) 4), (Z.ltb_spec 40 (n * 4)); try lia; done.
Qed.

Lemma wp_has_source_route optoff n Q R w :
  0 <= optoff <= 1000 -> 1 <= n <= 10 -> optoff + 4 * n <= zlen (frame w) ->
  Q (negb (options_ok (sub optoff (4 * n) (frame w)))) w ->
  (may_fail -> Q true w) ->
  wp (ip4_has_source_route optoff (4 * n)) Q R w.
Proof.
  intros Ho Hn Hz HQ Hm. unfold ip4_has_source_route. rewrite optlen_guard by done.
  apply wp_scan_options; try lia; [|done]. by rewrite Z.add_0_r, Z.sub_0_r.
Qed.

(** On any frame the scan neither faults nor changes anything. *)
Lemma wp_scan_options_any k optoff optlen i Q R w :
  (forall b, Q b w) -> wp (scan_options k optoff optlen i) Q R w.
Proof.
  intros HQ. revert i. induction k as [|k IH]; intros i; cbn [scan_options]; [apply HQ|].
  destruct (optlen <=? i); [apply HQ|].
  apply wp_bind, wp_load_bytes_any. intros r b. destruct (r <? 0); [apply HQ|]. cbv zeta.
  destruct (_ =? 0); [apply HQ|]. destruct (_ =? 1); [apply IH|].
  destruct (_ || _); [apply HQ|]. destruct (optlen <=? _); [apply HQ|].
  apply wp_bind, wp_load_bytes_any. intros r' b'. destruct (r' <? 0); [apply HQ|].
  destruct (_ <? 2); [apply HQ|]. apply IH.
Qed.

Lemma wp_has_source_route_any optoff optlen Q R w :
  (forall b, Q b w) -> wp (ip4_has_source_route optoff optlen) Q R w.
Proof.
  intros HQ. unfold ip4_has_source_route. destruct (_ || _); [apply HQ|].
  by apply wp_scan_options_any.
Qed.
End Correct.

(** ** Properties *)

Section Theorems.
Context {K : Kernel} `{T : Target} {KS : KernelSpec False CNT_MAX K}.

(** C24: [ip4_has_source_route] agrees with the reference parser of option
    lists, for every option length an IPv4 header can have: it answers false
    exactly when the list parses and holds no source route.  Its 40 iterations
    are enough, and it changes nothing. *)
Theorem has_source_route_spec optoff n w :
  0 <= optoff <= 1000 -> 1 <= n <= 10 -> optoff + 4 * n <= zlen (frame w) ->
  ip4_has_source_route optoff (4 * n) w =
    (Next (negb (options_ok (sub optoff (4 * n) (frame w)))), w).
Proof.
  intros Ho Hn Hz.
  destruct (wp_Next (ip4_has_source_route optoff (4 * n))
    (fun b w' => b = negb (options_ok (sub optoff (4 * n) (frame w))) /\ w' = w) w)
    as (b & w' & E & -> & ->); [|done].
  apply wp_has_source_route; done.
Qed.

(** C33: An option whose length runs past the list is accepted, whatever its
    type but a source route, although the comment on the function counts a
    malformed list as a reason to drop. *)
Theorem overlong_option_accepted optoff n w :
  0 <= optoff <= 1000 -> 1 <= n <= 10 -> optoff + 4 * n <= zlen (frame w) ->
  1 < byte_at (frame w) optoff -> is_source_route (byte_at (frame w) optoff) = false ->
  4 * n <= byte_at (frame w) (optoff + 1) ->
  ip4_has_source_route optoff (4 * n) w = (Next false, w).
Proof.
  intros Ho Hn Hz Ht Hsr Hl.
  destruct (wp_Next (ip4_has_source_route optoff (4 * n))
    (fun b w' => b = negb (options_ok (sub optoff (4 * n) (frame w))) /\ w' = w) w)
    as (b & w' & E & -> & ->); [by apply wp_has_source_route|]. rewrite E. do 2 f_equal.
  rewrite sub_cons, sub_cons, options_ok_cons, Hsr by lia.
  destruct (Z.eqb_spec (byte_at (frame w) optoff) 0); [lia|].
  destruct (Z.eqb_spec (byte_at (frame w) optoff) 1); [lia|].
  destruct (Z.ltb_spec (byte_at (frame w) (optoff + 1)) 2); [lia|].
  rewrite drop_ge; [done|]. pose proof (zlen_sub (optoff + 1 + 1) (4 * n - 1 - 1) (frame w)).
  unfold zlen in *. lia.
Qed.
End Theorems.
