(* ===== verification/UdpCsum.v ===== *)
(** * The full UDP checksum (udp_full_csum of src/bpf/clat.c)

    The checksum of a whole UDP datagram, read in chunks of 256 bytes with a
    zero-padded tail, equals the ones'-complement sum of the datagram on top
    of the seed. *)

From S2P Require Import Prelude Endian Checksum Kernel Program Common.

Section Program.
Context {K : Kernel}.

(** The loop over whole chunks, [k] iterations from its end; [None] is the
    error return, [Some (off, sum)] the state after the loop. *)
Fixpoint csum_chunks (k : nat) (l4off ulen off sum : Z) : M (option (Z * Z)) :=
  match k with
  | O => mret (Some (off, sum))
  | S k =>
      if ulen <? u32 (off + CSUM_CHUNK) then mret (Some (off, sum)) else
      '(r, buf) ← skb_load_bytes (u32 (l4off + off)) CSUM_CHUNK;
      if r <? 0 then mret None else
      csum_chunks k l4off ulen (u32 (off + CSUM_CHUNK)) (u32 (bpf_csum_diff [] buf sum))
  end.

(** The checksum written through [out], or [None] for the return value -1. *)
Definition udp_full_csum (l4off ulen seed : Z) : M (option Z) :=
  if CSUM_CHUNK * CSUM_MAX_CHUNKS <? ulen then mret None else
  res ← csum_chunks (Z.to_nat CSUM_MAX_CHUNKS) l4off ulen 0 seed;
  match res with
  | None => mret None
  | Some (off, sum) =>
      let tail := Z.land (u32 (ulen - off)) (CSUM_CHUNK - 1) in
      sum' ←
        (if negb (tail =? 0) then
           '(r, b) ← skb_load_bytes (u32 (l4off + off)) tail;
           if r <? 0 then mret None else
           let buf := splice 0 b (replicate (Z.to_nat CSUM_CHUNK) 0) in
           mret (Some (u32 (bpf_csum_diff [] buf sum)))
         else mret (Some sum));
      match sum' with
      | None => mret None
      | Some sum =>
          let out := csum_fold sum in
          mret (Some (if out =? 0 then 0xffff else out))
      end
  end.
End Program.

Section Correct.
Context {K : Kernel} `{T : Target} {may_fail : Prop} {KS : KernelSpec may_fail CNT_MAX K}.

(** Pushing one buffer onto a running sum. *)
Lemma csum_push to sum :
  bytes to -> zlen to mod 4 = 0 -> zlen to <= 512 -> 0 <= sum < 4294967296 ->
  let r := u32 (bpf_csum_diff [] to sum) in
  0 <= r < 4294967296 /\ r ≅ sum + nsum to.
Proof.
  intros Hb Hm Hz Hs r. unfold r.
  destruct (csum_diff_ok [] to sum bytes_nil Hb eq_refl Hm Hz Hs) as [Hr Hc].
  rewrite u32_id by lia. split; [lia|]. rewrite Hc. cbn [nsum]. apply eq1c_iff. exists 0. lia.
Qed.

(** The state of the loop at offset [off]. *)
Definition chunk_inv (l : list Z) (ulen seed off sum : Z) : Prop :=
  off mod 256 = 0 /\ 0 <= off <= ulen /\ off <= zlen l /\ 0 <= sum < 4294967296 /\
  sum ≅ seed + nsum (sub 0 off l).

Lemma nsum_split off n l :
  off mod 256 = 0 -> 0 <= off -> 0 <= n -> off + n <= zlen l ->
  nsum (sub 0 (off + n) l) = nsum (sub 0 off l) + nsum (sub off n l).
Proof.
  intros. rewrite sub_split, nsum_app by (try lia; unfold even_len; rewrite zlen_sub by lia;
    rewrite <- Z.negb_odd, Zodd_mod; replace (off mod 2) with 0 by mlia; done).
  done.
Qed.

Lemma wp_csum_chunks k hd l ulen seed off sum Q R w :
  frame w = hd ++ l -> zlen hd <= 1000 -> 0 <= ulen <= 10240 ->
  chunk_inv l ulen seed off sum -> ulen - off <= 256 * Z.of_nat k ->
  (forall off' sum', chunk_inv l ulen seed off' sum' -> ulen < off' + 256 ->
     Q (Some (off', sum')) w) ->
  ((ulen <= zlen l -> may_fail) -> Q None w) ->
  wp (csum_chunks k (zlen hd) ulen off sum) Q R w.
Proof.
  intros Hw Hhd Hu. revert off sum. induction k as [|k IH]; intros off sum Hinv Hk HQ Hf;
    pose proof Hinv as (Hm & Ho & Hol & Hsum & Hc); cbn [csum_chunks].
  { apply HQ; [done|lia]. }
  unfold CSUM_CHUNK. rewrite (u32_id (off + 256)) by lia.
  destruct (Z.ltb_spec ulen (off + 256)) as [Hlt|Hge].
  { by apply HQ. }
  pose proof (zlen_nonneg hd). rewrite u32_id by lia.
  apply wp_bind, wp_load_bytes; [lia|lia| |].
  - rewrite Hw, zlen_app. intros Hz. change (0 <? 0) with false.
    rewrite sub_app_r by lia. replace (zlen hd + off - zlen hd) with off by lia.
    destruct (frame_app_ok _ _ _ Hw) as [_ Hl].
    destruct (csum_push (sub off 256 l) sum) as [Hr Hcs]; try lia.
    { by apply bytes_sub. }
    { by rewrite zlen_sub by lia. }
    { rewrite zlen_sub by lia. lia. }
    apply IH; try done; [|lia].
    split; [mlia|]. split; [lia|]. split; [lia|]. split; [done|].
    rewrite Hcs, Hc, nsum_split by lia. by rewrite Z.add_assoc.
  - intros r b Hr Hz. destruct (Z.ltb_spec r 0); [|lia]. apply Hf. intros Hul. apply Hz.
    rewrite Hw, zlen_app. lia.
Qed.

(** The checksum of a sum: never zero, and it cancels the sum. *)
Lemma csum_out sum : 0 <= sum < 4294967296 ->
  let out := if csum_fold sum =? 0 then 0xffff else csum_fold sum in
  0 < out < 65536 /\ out + sum ≅ 0.
Proof.
  intros Hs out. unfold out. pose proof (csum_fold_range sum). pose proof (csum_fold_cong sum Hs).
  destruct (Z.eqb_spec (csum_fold sum) 0) as [E|E]; split; try lia; [|done].
  rewrite E in *. eq1c_lia.
Qed.

(** The tail, padded with zeros to a whole chunk. *)
Lemma pad_tail b : zlen b <= 256 -> splice 0 b (replicate 256 0) = b ++ replicate (256 - length b) 0.
Proof.
  intros. unfold splice. rewrite take_0. cbn [app]. f_equal. unfold zlen in *.
  change (Z.to_nat 0 + length b)%nat with (length b). by rewrite drop_replicate.
Qed.

Lemma wp_udp_full_csum hd l ulen seed Q R w :
  frame w = hd ++ l -> zlen hd <= 1000 -> 0 <= ulen < 65536 -> 0 <= seed < 4294967296 ->
  (ulen <= 10240 -> ulen <= zlen l -> forall out, 0 < out < 65536 ->
     out + (seed + nsum (sub 0 ulen l)) ≅ 0 -> Q (Some out) w) ->
  ((ulen <= 10240 -> ulen <= zlen l -> may_fail) -> Q None w) ->
  wp (udp_full_csum (zlen hd) ulen seed) Q R w.
Proof.
  intros Hw Hhd Hu Hs HQ Hf. unfold udp_full_csum.
  change (CSUM_CHUNK * CSUM_MAX_CHUNKS) with 10240.
  destruct (Z.ltb_spec 10240 ulen) as [Hbig|Hle]; [apply Hf; lia|].
  destruct (frame_app_ok _ _ _ Hw) as [_ Hl]. pose proof (zlen_nonneg hd).
  pose proof (zlen_nonneg l). apply wp_bind.
  apply (wp_csum_chunks _ hd l _ seed); try done; [lia| | | |].
  { split; [done|]. split; [lia|]. split; [lia|]. split; [lia|].
    rewrite sub_neg by lia. cbn [nsum]. by rewrite Z.add_0_r. }
  { change (Z.of_nat (Z.to_nat CSUM_MAX_CHUNKS)) with 40. lia. }
  2: { intros Hm. apply Hf. auto. }
  intros off sum (Hm & Ho & Hol & Hsum & Hc) Hlt. unfold CSUM_CHUNK.
  rewrite (u32_id (ulen - off)), (u32_id (zlen hd + off)) by lia.
  change (256 - 1) with (Z.ones 8). rewrite Z.land_ones by lia. change (2 ^ 8) with 256.
  rewrite Z.mod_small by lia. cbv zeta. apply wp_bind.
  destruct (Z.eqb_spec (ulen - off) 0) as [E|E]; cbn [negb].
  - apply wp_ret. destruct (csum_out sum Hsum) as [Hr Hcs].
    apply HQ; [done|lia|exact Hr|]. replace ulen with off by lia. by rewrite <- Hc.
  - apply wp_bind, wp_load_bytes; [lia|lia| |].
    + rewrite Hw, zlen_app. intros Hz. change (0 <? 0) with false.
      rewrite sub_app_r by lia. replace (zlen hd + off - zlen hd) with off by lia.
      change (Z.to_nat 256) with 256%nat.
      rewrite pad_tail by (rewrite zlen_sub by lia; lia).
      set (pad := replicate _ 0).
      assert (Hlen : zlen (sub off (ulen - off) l ++ pad) = 256).
      { rewrite zlen_app. unfold pad. rewrite zlen_replicate, zlen_sub by lia.
        pose proof (zlen_sub off (ulen - off) l). unfold zlen in *. lia. }
      destruct (csum_push (sub off (ulen - off) l ++ pad) sum) as [Hr Hcs]; try lia.
      { unfold pad. solve_bytes. }
      { by rewrite Hlen. }
      unfold pad in Hcs at 2. rewrite nsum_pad in Hcs.
      apply wp_ret. destruct (csum_out _ Hr) as [Hro Hco].
      apply HQ; [done|lia|exact Hro|].
      replace (seed + nsum (sub 0 ulen l))
        with (seed + nsum (sub 0 off l) + nsum (sub off (ulen - off) l)).
      2: { pose proof (nsum_split off (ulen - off) l) as E'.
           replace (off + (ulen - off)) with ulen in E' by lia. lia. }
      by rewrite <- Hc, <- Hcs.
    + intros r b Hr Hz. destruct (Z.ltb_spec r 0); [|lia]. apply Hf.
      intros _ Hul. apply Hz. rewrite Hw, zlen_app. lia.
Qed.
End Correct.

(** ** Properties *)

Section Theorems.
Context {K : Kernel} `{T : Target} {KS : KernelSpec False CNT_MAX K}.

(** C25: [udp_full_csum] reads the datagram in chunks of 256 bytes with a
    zero-padded tail; for a datagram of up to 10240 bytes that the frame holds
    it yields the checksum, never zero, that cancels the seed and the whole
    datagram; for any other it reports an error.  It changes nothing. *)
Theorem udp_full_csum_spec hd l ulen seed w :
  frame w = hd ++ l -> zlen hd <= 1000 -> 0 <= ulen < 65536 -> 0 <= seed < 4294967296 ->
  (ulen <= 10240 /\ ulen <= zlen l /\ exists out,
     udp_full_csum (zlen hd) ulen seed w = (Next (Some out), w) /\ 0 < out < 65536 /\
     out + (seed + nsum (sub 0 ulen l)) ≅ 0) \/
  ((10240 < ulen \/ zlen l < ulen) /\ udp_full_csum (zlen hd) ulen seed w = (Next None, w)).
Proof.
  intros Hw Hhd Hu Hs.
  destruct (wp_Next (udp_full_csum (zlen hd) ulen seed)
    (fun o w' => w' = w /\ match o with
       | Some out => ulen <= 10240 /\ ulen <= zlen l /\ 0 < out < 65536 /\
           out + (seed + nsum (sub 0 ulen l)) ≅ 0
       | None => 10240 < ulen \/ zlen l < ulen
       end) w) as (o & w' & E & -> & Ho).
  - apply (wp_udp_full_csum hd l); try done.
    intros Hm. split; [done|]. destruct (Z.le_gt_cases ulen 10240), (Z.le_gt_cases ulen (zlen l)); auto.
    exfalso. auto.
  - destruct o as [out|]; [left|right; done]. destruct Ho as (H1 & H2 & H3 & H4).
    split; [done|]. split; [done|]. by exists out.
Qed.
End Theorems.
