(* ===== verification/IcmpMap.v ===== *)
(** * ICMPv6 errors as ICMPv4 errors (icmp6_to_icmp4 of src/bpf/clat.c)

    The nested switches of the C function, the table of src/DESIGN.md that they
    implement, and the tables of RFC 7915 section 5.2, from which they differ in
    two places. *)

From S2P Require Import Prelude Endian Checksum Kernel Program Common.

Record icmp_map := IcmpMap { m_type : Z; m_code : Z; m_ok : bool }.

(** The second component is the value of the variable behind the [pointer4]
    argument on return. *)
Definition icmp6_to_icmp4 (type code pointer6 pointer4 : Z) : icmp_map * Z :=
  if type =? ICMPV6_DEST_UNREACH then
    let code4 :=
      if (code =? ICMPV6_NOROUTE) || (code =? ICMPV6_NOT_NEIGHBOUR) ||
         (code =? ICMPV6_ADDR_UNREACH) then ICMP_HOST_UNREACH
      else if (code =? ICMPV6_ADM_PROHIBITED) || (code =? ICMPV6_POLICY_FAIL) ||
              (code =? ICMPV6_REJECT_ROUTE) then ICMP_HOST_ANO
      else if code =? ICMPV6_PORT_UNREACH then ICMP_PORT_UNREACH
      else ICMP_HOST_UNREACH in
    (IcmpMap ICMP_DEST_UNREACH code4 true, pointer4)
  else if type =? ICMPV6_PKT_TOOBIG then
    (IcmpMap ICMP_DEST_UNREACH ICMP_FRAG_NEEDED true, pointer4)
  else if type =? ICMPV6_TIME_EXCEED then
    (IcmpMap ICMP_TIME_EXCEEDED code true, pointer4)
  else if type =? ICMPV6_PARAMPROB then
    if code =? ICMPV6_UNK_NEXTHDR then
      (IcmpMap ICMP_DEST_UNREACH ICMP_PROT_UNREACH true, pointer4)
    else if negb (code =? ICMPV6_HDR_FIELD) then (IcmpMap 0 0 false, pointer4)
    else
      let m := IcmpMap ICMP_PARAMETERPROB 0 true in
      if pointer6 =? 0 then (m, 0)
      else if pointer6 =? 4 then (m, 2)
      else if pointer6 =? 6 then (m, 9)
      else if pointer6 =? 7 then (m, 8)
      else if pointer6 =? 8 then (m, 12)
      else if pointer6 =? 24 then (m, 16)
      else (IcmpMap ICMP_PARAMETERPROB 0 false, pointer4)
  else (IcmpMap 0 0 false, pointer4).

(** What the function makes of an error: type, code and pointer of the ICMPv4
    error, if there is one. *)
Definition error_of (r : icmp_map * Z) : option (Z * Z * Z) :=
  if m_ok r.1 then Some (m_type r.1, m_code r.1, r.2) else None.

(** ** The table of the design

    The rows for errors of the table of section ICMP of src/DESIGN.md, as it
    stands there: the ICMPv6 type and its codes ([None] for all others), and the
    ICMPv4 type and code ([None] for the code of the original).  The first row
    that applies counts; an error without a row is dropped. *)
Record error_row := ErrorRow {
  r_type6 : Z; r_codes6 : option (list Z); r_type4 : Z; r_code4 : option Z
}.

Definition design_table : list error_row := [
  ErrorRow 2 None 3 (Some 4);               (* packet too big: fragmentation needed *)
  ErrorRow 3 None 11 None;                  (* time exceeded *)
  ErrorRow 1 (Some [4]) 3 (Some 3);         (* port unreachable *)
  ErrorRow 1 (Some [1; 5; 6]) 3 (Some 10);  (* admin, policy, reject route: host prohibited *)
  ErrorRow 1 None 3 (Some 1);               (* other codes: host unreachable *)
  ErrorRow 4 (Some [0]) 12 (Some 0);        (* parameter problem, pointer mapped *)
  ErrorRow 4 (Some [1]) 3 (Some 2) ].       (* unknown next header: protocol unreachable *)

(** The pointers that are mapped, to the field of the IPv4 header with the same
    meaning: version, length, protocol, time to live, source, destination. *)
Definition design_pointers : list (Z * Z) := [(0, 0); (4, 2); (6, 9); (7, 8); (8, 12); (24, 16)].

Definition row_matches (t c : Z) (r : error_row) : bool :=
  (t =? r_type6 r) &&
  match r_codes6 r with Some cs => existsb (Z.eqb c) cs | None => true end.

Definition design_error (t c p : Z) : option (Z * Z * Z) :=
  match find (row_matches t c) design_table with
  | None => None
  | Some r =>
      let code4 := default c (r_code4 r) in
      if r_type4 r =? 12 then
        match find (fun q => p =? q.1) design_pointers with
        | Some q => Some (12, code4, q.2)
        | None => None
        end
      else Some (r_type4 r, code4, 0)
  end.

(** ** The tables of RFC 7915 section 5.2 *)

(** Figure 6: what the Pointer becomes. *)
Definition rfc7915_pointer (p : Z) : option Z :=
  if p =? 0 then Some 0
  else if p =? 1 then Some 1
  else if (4 <=? p) && (p <=? 5) then Some 2
  else if p =? 6 then Some 9
  else if p =? 7 then Some 8
  else if (8 <=? p) && (p <=? 23) then Some 12
  else if (24 <=? p) && (p <=? 39) then Some 16
  else None.

(** Destination Unreachable has five codes, others are dropped; of Parameter
    Problem, codes 0 and 1 are translated. *)
Definition rfc7915_error (t c p : Z) : option (Z * Z * Z) :=
  if t =? 1 then
    if (c =? 0) || (c =? 2) || (c =? 3) then Some (3, 1, 0)
    else if c =? 1 then Some (3, 10, 0)
    else if c =? 4 then Some (3, 3, 0)
    else None
  else if t =? 2 then Some (3, 4, 0)
  else if t =? 3 then Some (11, c, 0)
  else if t =? 4 then
    if c =? 0 then
      match rfc7915_pointer p with Some q => Some (12, 0, q) | None => None end
    else if c =? 1 then Some (3, 2, 0)
    else None
  else None.

(** Where the program leaves the RFC: Destination Unreachable with a code above
    4, and Parameter Problem whose pointer is inside a field, not at its
    start. *)
Definition new_unreachable (t c : Z) : bool := (t =? 1) && (4 <? c).
Definition inner_pointer (t c p : Z) : bool :=
  (t =? 4) && (c =? 0) &&
  ((p =? 1) || (p =? 5) || ((9 <=? p) && (p <=? 23)) || ((25 <=? p) && (p <=? 39))).

(** ** Properties *)

(** Case analysis on every comparison with a number. *)
Ltac number_cases x :=
  repeat match goal with
  | |- context [x =? ?k] => destruct (Z.eqb_spec x k) as [->|]; cbn [Z.eqb Pos.eqb andb orb negb]
  end.

#[local] Ltac unfold_errors :=
  unfold error_of, icmp6_to_icmp4, ICMPV6_DEST_UNREACH, ICMPV6_PKT_TOOBIG, ICMPV6_TIME_EXCEED,
    ICMPV6_PARAMPROB, ICMPV6_NOROUTE, ICMPV6_NOT_NEIGHBOUR, ICMPV6_ADDR_UNREACH,
    ICMPV6_ADM_PROHIBITED, ICMPV6_POLICY_FAIL, ICMPV6_REJECT_ROUTE, ICMPV6_PORT_UNREACH,
    ICMPV6_UNK_NEXTHDR, ICMPV6_HDR_FIELD, ICMP_DEST_UNREACH, ICMP_HOST_UNREACH, ICMP_HOST_ANO,
    ICMP_PORT_UNREACH, ICMP_FRAG_NEEDED, ICMP_TIME_EXCEEDED, ICMP_PROT_UNREACH, ICMP_PARAMETERPROB.

(** The nested switches are the table of the design. *)
Lemma error_of_design t c p : error_of (icmp6_to_icmp4 t c p 0) = design_error t c p.
Proof.
  unfold_errors. unfold design_error, design_table, design_pointers, row_matches.
  cbn [find r_type6 r_codes6 existsb].
  destruct (Z.eqb_spec t 1) as [->|]; [cbn [Z.eqb Pos.eqb andb]; by number_cases c|].
  destruct (Z.eqb_spec t 2) as [->|]; [done|].
  destruct (Z.eqb_spec t 3) as [->|]; [done|].
  destruct (Z.eqb_spec t 4) as [->|]; [|done]. cbn [andb].
  destruct (Z.eqb_spec c 1) as [->|]; [done|].
  destruct (Z.eqb_spec c 0) as [->|]; [|done]. cbn [andb orb negb r_type4 Z.eqb Pos.eqb fst].
  by number_cases p.
Qed.

Lemma unreachable_rfc c p : 0 <= c ->
  (error_of (icmp6_to_icmp4 1 c p 0) = rfc7915_error 1 c p <-> (4 <? c) = false) /\
  ((4 <? c) = true ->
     error_of (icmp6_to_icmp4 1 c p 0) = Some (3, if (c =? 5) || (c =? 6) then 10 else 1, 0)).
Proof.
  intros Hc. unfold_errors. unfold rfc7915_error.
  cbn [Z.eqb Pos.eqb fst snd m_type m_code m_ok]. number_cases c; try done.
  by destruct (Z.ltb_spec 4 c); [|lia].
Qed.

Lemma pointer_rfc p : 0 <= p ->
  (error_of (icmp6_to_icmp4 4 0 p 0) = rfc7915_error 4 0 p <-> inner_pointer 4 0 p = false) /\
  (inner_pointer 4 0 p = true -> error_of (icmp6_to_icmp4 4 0 p 0) = None).
Proof.
  intros Hp. unfold_errors. unfold rfc7915_error, rfc7915_pointer, inner_pointer.
  cbn [Z.eqb Pos.eqb andb negb]. number_cases p; try done.
  destruct (Z.leb_spec 4 p), (Z.leb_spec p 5), (Z.leb_spec 8 p), (Z.leb_spec p 23),
    (Z.leb_spec 24 p), (Z.leb_spec p 39), (Z.leb_spec 9 p), (Z.leb_spec 25 p); try lia; done.
Qed.

(** C26: Against RFC 7915 section 5.2, which the source names: the function gives
    what the RFC prescribes, drops included, for exactly the errors outside two
    classes.  Destination Unreachable with a code above 4, which the RFC drops,
    is translated (codes 5 and 6 to host prohibited, others to host
    unreachable); Parameter Problem with a pointer inside a field, which the RFC
    translates, is dropped. *)
Theorem icmp_map_rfc t c p :
  0 <= c -> 0 <= p ->
  (error_of (icmp6_to_icmp4 t c p 0) = rfc7915_error t c p <->
     new_unreachable t c = false /\ inner_pointer t c p = false) /\
  (new_unreachable t c = true ->
     error_of (icmp6_to_icmp4 t c p 0) = Some (3, if (c =? 5) || (c =? 6) then 10 else 1, 0)) /\
  (inner_pointer t c p = true -> error_of (icmp6_to_icmp4 t c p 0) = None).
Proof.
  intros Hc Hp. unfold new_unreachable. destruct (Z.eqb_spec t 1) as [->|]; cbn [andb].
  { destruct (unreachable_rfc c p Hc) as [H1 H2]. split; [|by split].
    rewrite H1. by change (inner_pointer 1 c p) with false; intuition. }
  destruct (Z.eqb_spec t 4) as [->|H4]; [destruct (Z.eqb_spec c 0) as [->|H0]|].
  - destruct (pointer_rfc p Hp) as [H1 H2]. rewrite H1. by intuition.
  - assert (E : inner_pointer 4 c p = false) by (unfold inner_pointer; by apply Z.eqb_neq in H0 as ->).
    rewrite E. unfold_errors. unfold rfc7915_error. cbn [Z.eqb Pos.eqb]. by number_cases c.
  - assert (E : inner_pointer t c p = false) by (unfold inner_pointer; by apply Z.eqb_neq in H4 as ->).
    rewrite E. unfold_errors. unfold rfc7915_error. by number_cases t.
Qed.
