(* ===== verification/Egress.v ===== *)
(** * The egress program: IPv4 to IPv6 (clat_egress of src/bpf/clat.c)

    The program as the C function composes it: parsing and admission
    ([egress_parse]), reshaping of the packet ([egress_reshape]), the new
    headers ([egress_headers]) and the transport checksum ([egress_l4]).
    Every [return] of the C function is [ret_act] or [DROP]. *)

From S2P Require Import Prelude Endian Checksum Kernel Program Common Options UdpCsum.

Section Program.
Context {K : Kernel} `{T : Target} (cfg : consts).

(** The local variables that outlive the parsing of the IPv4 header. *)
Record egress_ctx := EgressCtx {
  e_tos : Z; e_ttl : Z; e_proto : Z; e_id : Z; e_frag_off : Z;
  e_saddr : Z; e_daddr : Z; e_optlen : Z; e_l4len : Z;
  e_is_frag : bool; e_mf : bool; e_first : bool
}.

Definition egress_parse : M egress_ctx :=
  n ← linear_len;
  when (n <? ETH_HLEN) (ret_act TC_ACT_OK) ;;
  eth ← pkt_read 0 ETH_HLEN;
  when (negb (ld16 eth 12 =? bpf_htons ETH_P_IP)) (ret_act TC_ACT_OK) ;;

  ok ← ensure_linear (ETH_HLEN + IP4_HLEN);
  when (negb ok) (DROP CNT_EGRESS_DROP_TRUNCATED) ;;
  n ← linear_len;
  when (n <? ETH_HLEN + IP4_HLEN) (DROP CNT_EGRESS_DROP_TRUNCATED) ;;
  b ← pkt_read ETH_HLEN IP4_HLEN;
  let ip4 := iphdr_at b 0 in
  when (negb (i4_version ip4 =? 4)) (DROP CNT_EGRESS_DROP_TRUNCATED) ;;
  let ihl := i4_ihl ip4 * 4 in
  when (ihl <? IP4_HLEN) (DROP CNT_EGRESS_DROP_TRUNCATED) ;;

  let saddr := i4_saddr ip4 in
  let daddr := i4_daddr ip4 in
  when (negb (saddr =? POD_IP4 cfg)) (DROP CNT_EGRESS_DROP_BAD_SRC) ;;
  when ((Z.land daddr (bpf_htonl 0xf0000000) =? bpf_htonl 0xe0000000) ||
        (daddr =? bpf_htonl 0xffffffff)) (DROP CNT_EGRESS_DROP_MCAST) ;;

  let proto := i4_protocol ip4 in
  let tot_len := bpf_ntohs (i4_tot_len ip4) in
  let frag_off := bpf_ntohs (i4_frag_off ip4) in
  when (tot_len <? ihl) (DROP CNT_EGRESS_DROP_TRUNCATED) ;;

  let is_frag := negb (Z.land frag_off (Z.lor IP_MF IP_OFFSET) =? 0) in
  let mf := negb (Z.land frag_off IP_MF =? 0) in
  let first := Z.land frag_off IP_OFFSET =? 0 in
  let l4len := tot_len - ihl in
  when (is_frag && (proto =? IPPROTO_ICMP)) (DROP CNT_EGRESS_DROP_FRAG_NO_CSUM) ;;
  mret (EgressCtx (i4_tos ip4) (i4_ttl ip4) proto (i4_id ip4) frag_off saddr daddr
          (ihl - IP4_HLEN) l4len is_frag mf first).

Definition e_nh6 (e : egress_ctx) : Z :=
  if e_proto e =? IPPROTO_ICMP then IPPROTO_ICMPV6 else e_proto e.

(** Options out, room for the IPv6 header and, for a fragment, for the
    Fragment header. *)
Definition egress_reshape (e : egress_ctx) : M unit :=
  when (negb (e_optlen e =? 0)) (
    sr ← ip4_has_source_route (ETH_HLEN + IP4_HLEN) (e_optlen e);
    when sr (DROP CNT_EGRESS_DROP_SRCROUTE) ;;
    r ← skb_adjust_room (- e_optlen e) BPF_ADJ_ROOM_NET ROOM_FLAGS;
    when (r <? 0) (DROP CNT_EGRESS_DROP_HELPER)) ;;
  r ← skb_change_proto (bpf_htons ETH_P_IPV6) 0;
  when (r <? 0) (DROP CNT_EGRESS_DROP_HELPER) ;;
  when (e_is_frag e) (
    r ← skb_adjust_room FRAG_HLEN BPF_ADJ_ROOM_NET ROOM_FLAGS;
    when (r <? 0) (DROP CNT_EGRESS_DROP_HELPER)).

(** The new IPv6 header. *)
Definition egress_h6 (e : egress_ctx) : ipv6hdr :=
  let prefix := prefix_copy (CLAT_PREFIX cfg) in
  Ipv6Hdr
    (bpf_htonl (Z.lor 0x60000000 (u32 (Z.shiftl (e_tos e) 20))))
    (u16 (bpf_htons (e_l4len e + (if e_is_frag e then FRAG_HLEN else 0))))
    (if e_is_frag e then IPPROTO_FRAGMENT else e_nh6 e)
    (e_ttl e)
    (prefix_copy (POD_IP6 cfg))
    (In6 (u6_0 prefix) (u6_1 prefix) (u6_2 prefix) (e_daddr e)).

Definition egress_frag_hdr (e : egress_ctx) : frag_hdr :=
  FragHdr (e_nh6 e) 0
    (bpf_htons (Z.lor (Z.shiftl (Z.land (e_frag_off e) IP_OFFSET) 3) (if e_mf e then 1 else 0)))
    (bpf_htonl (bpf_ntohs (e_id e))).

(** Writes the headers and the Ethernet type; returns [l4off]. *)
Definition egress_headers (e : egress_ctx) : M Z :=
  r ← skb_store_bytes ETH_HLEN (ipv6hdr_bytes (egress_h6 e)) STORE_FLAGS;
  when (r <? 0) (DROP CNT_EGRESS_DROP_HELPER) ;;
  let l4off := ETH_HLEN + IP6_HLEN in
  l4off ←
    (if e_is_frag e then
       r ← skb_store_bytes l4off (frag_hdr_bytes (egress_frag_hdr e)) STORE_FLAGS;
       when (r <? 0) (DROP CNT_EGRESS_DROP_HELPER) ;;
       mret (l4off + FRAG_HLEN)
     else mret l4off);
  r ← skb_store_bytes 12 (store16 (bpf_htons ETH_P_IPV6)) 0;
  when (r <? 0) (DROP CNT_EGRESS_DROP_HELPER) ;;
  mret l4off.

(** The checksum difference between the two pseudo-headers. *)
Definition egress_addr_diff (e : egress_ctx) : Z :=
  let h6 := egress_h6 e in
  u32 (bpf_csum_diff (store32 (e_saddr e) ++ store32 (e_daddr e))
         (in6_bytes (i6_saddr h6) ++ in6_bytes (i6_daddr h6)) 0).

Definition egress_tcp (e : egress_ctx) (l4off : Z) : M unit :=
  r ← l4_csum_replace (l4off + 16) 0 (egress_addr_diff e) BPF_F_PSEUDO_HDR;
  when (r <? 0) (DROP CNT_EGRESS_DROP_HELPER).

Definition egress_pseudo6 (e : egress_ctx) (proto : Z) : pseudo6 :=
  let h6 := egress_h6 e in
  Pseudo6 (prefix_copy (i6_saddr h6)) (prefix_copy (i6_daddr h6))
    (bpf_htonl (e_l4len e)) (bpf_htonl proto).

(** The IPv4 pseudo-header of a UDP datagram, as four words. *)
Definition egress_p4 (e : egress_ctx) : list Z :=
  store32 (e_saddr e) ++ store32 (e_daddr e) ++ store32 (bpf_htonl IPPROTO_UDP) ++
  store32 (bpf_htonl (e_l4len e)).

Definition egress_udp (e : egress_ctx) (l4off : Z) : M unit :=
  '(r, b) ← skb_load_bytes (l4off + 6) 2;
  when (r <? 0) (DROP CNT_EGRESS_DROP_TRUNCATED) ;;
  let check := ld16 b 0 in
  if negb (check =? 0) then
    r ← l4_csum_replace (l4off + 6) 0 (egress_addr_diff e)
          (Z.lor BPF_F_PSEUDO_HDR BPF_F_MARK_MANGLED_0);
    when (r <? 0) (DROP CNT_EGRESS_DROP_HELPER)
  else if csum_fold (bpf_csum_diff [] (egress_p4 e) 0) =? 0 then
    r ← l4_csum_replace (l4off + 6) 0 (egress_addr_diff e)
          (Z.lor (Z.lor BPF_F_PSEUDO_HDR BPF_F_MARK_MANGLED_0) BPF_F_MARK_ENFORCE);
    when (r <? 0) (DROP CNT_EGRESS_DROP_HELPER)
  else
    when (e_is_frag e) (DROP CNT_EGRESS_DROP_FRAG_NO_CSUM) ;;
    let p6 := egress_pseudo6 e IPPROTO_UDP in
    let seed := u32 (bpf_csum_diff [] (pseudo6_bytes p6) 0) in
    full ← udp_full_csum l4off (e_l4len e) seed;
    match full with
    | None => DROP CNT_EGRESS_DROP_TOO_BIG
    | Some full =>
        r ← skb_store_bytes (l4off + 6) (store16 full) STORE_FLAGS;
        when (r <? 0) (DROP CNT_EGRESS_DROP_HELPER)
    end.

Definition egress_icmp (e : egress_ctx) (l4off : Z) : M unit :=
  '(r, tc) ← skb_load_bytes l4off 2;
  when (r <? 0) (DROP CNT_EGRESS_DROP_TRUNCATED) ;;
  let t4 := byte_at tc 0 in
  t6 ←
    (if t4 =? ICMP_ECHO then mret ICMPV6_ECHO_REQUEST
     else if t4 =? ICMP_ECHOREPLY then mret ICMPV6_ECHO_REPLY
     else DROP CNT_EGRESS_DROP_ICMP_UNSUPPORTED);
  let p6 := egress_pseudo6 e IPPROTO_ICMPV6 in
  let diff := u32 (bpf_csum_diff [] (pseudo6_bytes p6) 0) in
  let oldw := bpf_htonl (Z.lor (Z.shiftl t4 24) (Z.shiftl (byte_at tc 1) 16)) in
  let neww := bpf_htonl (Z.lor (Z.shiftl t6 24) (Z.shiftl (byte_at tc 1) 16)) in
  let diff := u32 (bpf_csum_diff (store32 oldw) (store32 neww) diff) in
  r ← skb_store_bytes l4off [t6] STORE_FLAGS;
  when (r <? 0) (DROP CNT_EGRESS_DROP_HELPER) ;;
  r ← l4_csum_replace (l4off + 2) 0 diff BPF_F_PSEUDO_HDR;
  when (r <? 0) (DROP CNT_EGRESS_DROP_HELPER).

(** The [switch] on the protocol; later fragments skip it. *)
Definition egress_l4 (e : egress_ctx) (l4off : Z) : M unit :=
  if negb (e_first e) then mret tt
  else if e_proto e =? IPPROTO_TCP then egress_tcp e l4off
  else if e_proto e =? IPPROTO_UDP then egress_udp e l4off
  else if e_proto e =? IPPROTO_ICMP then egress_icmp e l4off
  else mret tt.

Definition clat_egress : M Z :=
  e ← egress_parse;
  egress_reshape e ;;
  l4off ← egress_headers e;
  egress_l4 e l4off ;;
  count CNT_EGRESS_TRANSLATED ;;
  mret TC_ACT_OK.
End Program.
