(* ===== verification/Ingress.v ===== *)
(** * The ingress program: IPv6 to IPv4 (clat_ingress of src/bpf/clat.c)

    The program as the C function composes it: the match that selects CLAT
    return traffic ([ingress_match]), the fragment header and the admission
    checks ([ingress_parse]), reshaping ([ingress_reshape]), the new IPv4
    header ([ingress_headers]) and the transport part ([ingress_l4]), with the
    translation of ICMPv6 errors in [ingress_icmp_error]. *)

From S2P Require Import Prelude Endian Checksum Kernel Program Common IcmpMap.

Section Program.
Context {K : Kernel} `{T : Target} (cfg : consts).

(** An embedded IPv6 header that belongs to a CLAT flow of this pod. *)
Definition inner_is_clat (in6 : ipv6hdr) : bool :=
  negb (negb (i6_version in6 =? 6) || negb (addr6_eq (i6_saddr in6) (POD_IP6 cfg)) ||
        negb (in_prefix cfg (i6_daddr in6))).

(** Lets every packet that is not CLAT return traffic through. Returns the
    IPv6 header, [data_end - data] and [src_mapped]. *)
Definition ingress_match : M (ipv6hdr * Z * bool) :=
  n ← linear_len;
  when (n <? ETH_HLEN) (ret_act TC_ACT_OK) ;;
  eth ← pkt_read 0 ETH_HLEN;
  when (negb (ld16 eth 12 =? bpf_htons ETH_P_IPV6)) (ret_act TC_ACT_OK) ;;
  ok ← ensure_linear (ETH_HLEN + IP6_HLEN + FRAG_HLEN);
  when (negb ok) (ret_act TC_ACT_OK) ;;
  n ← linear_len;
  when (n <? ETH_HLEN + IP6_HLEN) (ret_act TC_ACT_OK) ;;
  b ← pkt_read ETH_HLEN IP6_HLEN;
  let ip6 := ipv6hdr_at b 0 in
  when (negb (i6_version ip6 =? 6)) (ret_act TC_ACT_OK) ;;
  when (negb (addr6_eq (i6_daddr ip6) (POD_IP6 cfg))) (ret_act TC_ACT_OK) ;;
  let src_mapped := in_prefix cfg (i6_saddr ip6) in
  n ←
    (if negb src_mapped then
       when (negb (i6_nexthdr ip6 =? IPPROTO_ICMPV6)) (ret_act TC_ACT_OK) ;;
       ok ← ensure_linear (ETH_HLEN + IP6_HLEN + 8 + IP6_HLEN);
       when (negb ok) (ret_act TC_ACT_OK) ;;
       n ← linear_len;
       when (n <? ETH_HLEN + IP6_HLEN + 8 + IP6_HLEN) (ret_act TC_ACT_OK) ;;
       icmp6 ← pkt_read (ETH_HLEN + IP6_HLEN) 8;
       when ((byte_at icmp6 0 <? ICMPV6_DEST_UNREACH) || (ICMPV6_PARAMPROB <? byte_at icmp6 0))
         (ret_act TC_ACT_OK) ;;
       b ← pkt_read (ETH_HLEN + IP6_HLEN + 8) IP6_HLEN;
       when (negb (inner_is_clat (ipv6hdr_at b 0))) (ret_act TC_ACT_OK) ;;
       mret n
     else mret n);
  b ← pkt_read ETH_HLEN IP6_HLEN;
  mret (ipv6hdr_at b 0, n, src_mapped).

(** The local variables that outlive the parsing of the IPv6 header. *)
Record ingress_ctx := IngressCtx {
  g_tos : Z; g_hop : Z; g_nh : Z; g_payload_len : Z; g_id : Z; g_frag4 : Z;
  g_is_frag : bool; g_first : bool; g_src_mapped : bool;
  g_saddr6 : in6_addr; g_daddr6 : in6_addr
}.

Definition ingress_parse (ip6 : ipv6hdr) (n : Z) (src_mapped : bool) : M ingress_ctx :=
  let tos := u8 (Z.shiftr (bpf_ntohl (i6_word0 ip6)) 20) in
  let hop := i6_hop_limit ip6 in
  let nh := i6_nexthdr ip6 in
  let payload_len := bpf_ntohs (i6_payload_len ip6) in
  g ←
    (if nh =? IPPROTO_FRAGMENT then
       when (n <? ETH_HLEN + IP6_HLEN + FRAG_HLEN) (DROP CNT_INGRESS_DROP_TRUNCATED) ;;
       when (payload_len <? FRAG_HLEN) (DROP CNT_INGRESS_DROP_TRUNCATED) ;;
       b ← pkt_read (ETH_HLEN + IP6_HLEN) FRAG_HLEN;
       let fh := frag_hdr_at b 0 in
       let fo := bpf_ntohs (fh_frag_off fh) in
       mret (IngressCtx tos hop (fh_nexthdr fh) (payload_len - FRAG_HLEN)
               (u16 (bpf_ntohl (fh_identification fh)))
               (Z.lor (Z.shiftr fo 3) (if negb (Z.land fo 1 =? 0) then IP_MF else 0))
               true (Z.shiftr fo 3 =? 0) src_mapped (i6_saddr ip6) (i6_daddr ip6))
     else
       mret (IngressCtx tos hop nh payload_len 0 IP_DF false true src_mapped
               (i6_saddr ip6) (i6_daddr ip6)));
  when (is_ext_hdr (g_nh g)) (DROP CNT_INGRESS_DROP_EXTHDR) ;;
  when ((g_nh g =? IPPROTO_ICMPV6) && g_is_frag g) (DROP CNT_INGRESS_DROP_FRAG_ICMP) ;;
  mret g.

Definition ingress_reshape (g : ingress_ctx) : M unit :=
  when (g_is_frag g) (
    r ← skb_adjust_room (- FRAG_HLEN) BPF_ADJ_ROOM_NET ROOM_FLAGS;
    when (r <? 0) (DROP CNT_INGRESS_DROP_HELPER)) ;;
  r ← skb_change_proto (bpf_htons ETH_P_IP) 0;
  when (r <? 0) (DROP CNT_INGRESS_DROP_HELPER).

(** [h4.check = csum_fold(bpf_csum_diff(NULL, 0, &h4, sizeof(h4), 0))], with
    [h4.check] zero while it is computed. *)
Definition with_check (h : iphdr) : iphdr :=
  let h0 := IpHdr (i4_version h) (i4_ihl h) (i4_tos h) (i4_tot_len h) (i4_id h)
              (i4_frag_off h) (i4_ttl h) (i4_protocol h) 0 (i4_saddr h) (i4_daddr h) in
  IpHdr (i4_version h) (i4_ihl h) (i4_tos h) (i4_tot_len h) (i4_id h)
    (i4_frag_off h) (i4_ttl h) (i4_protocol h)
    (csum_fold (bpf_csum_diff [] (iphdr_bytes h0) 0)) (i4_saddr h) (i4_daddr h).

Definition g_tot_len (g : ingress_ctx) : Z := u16 (g_payload_len g + IP4_HLEN).

Definition g_proto4 (g : ingress_ctx) : Z :=
  if g_nh g =? IPPROTO_ICMPV6 then IPPROTO_ICMP else g_nh g.

(** The new IPv4 header, for the total length [tot_len]. *)
Definition ingress_h4 (g : ingress_ctx) (tot_len : Z) : iphdr :=
  with_check (IpHdr 4 5 (g_tos g) (u16 (bpf_htons tot_len)) (bpf_htons (g_id g))
    (bpf_htons (g_frag4 g)) (g_hop g) (g_proto4 g) 0
    (if g_src_mapped g then u6_3 (g_saddr6 g) else ERR_IP4 cfg) (POD_IP4 cfg)).

Definition ingress_headers (g : ingress_ctx) : M unit :=
  r ← skb_store_bytes ETH_HLEN (iphdr_bytes (ingress_h4 g (g_tot_len g))) STORE_FLAGS;
  when (r <? 0) (DROP CNT_INGRESS_DROP_HELPER) ;;
  r ← skb_store_bytes 12 (store16 (bpf_htons ETH_P_IP)) 0;
  when (r <? 0) (DROP CNT_INGRESS_DROP_HELPER).

(** The checksum difference between the two pseudo-headers. *)
Definition ingress_addr_diff (g : ingress_ctx) : Z :=
  let h4 := ingress_h4 g (g_tot_len g) in
  u32 (bpf_csum_diff
         (in6_bytes (prefix_copy (g_saddr6 g)) ++ in6_bytes (prefix_copy (g_daddr6 g)))
         (store32 (i4_saddr h4) ++ store32 (i4_daddr h4)) 0).

Definition ingress_tcp (g : ingress_ctx) (l4off : Z) : M unit :=
  r ← l4_csum_replace (l4off + 16) 0 (ingress_addr_diff g) BPF_F_PSEUDO_HDR;
  when (r <? 0) (DROP CNT_INGRESS_DROP_HELPER).

Definition ingress_udp (g : ingress_ctx) (l4off : Z) : M unit :=
  '(r, b) ← skb_load_bytes (l4off + 6) 2;
  when (r <? 0) (DROP CNT_INGRESS_DROP_TRUNCATED) ;;
  when (ld16 b 0 =? 0) (DROP CNT_INGRESS_DROP_UDP_ZERO_CSUM) ;;
  r ← l4_csum_replace (l4off + 6) 0 (ingress_addr_diff g)
        (Z.lor BPF_F_PSEUDO_HDR BPF_F_MARK_MANGLED_0);
  when (r <? 0) (DROP CNT_INGRESS_DROP_HELPER).

(** ** ICMPv6 *)

(** A word whose first two bytes are a type and a code. *)
Definition type_word (t code : Z) : Z :=
  bpf_htonl (Z.lor (Z.shiftl t 24) (Z.shiftl code 16)).

(** Minus the sum of the ICMPv6 pseudo-header. *)
Definition ingress_pseudo_diff (g : ingress_ctx) : Z :=
  let p6 := Pseudo6 (prefix_copy (g_saddr6 g)) (prefix_copy (g_daddr6 g))
              (bpf_htonl (g_payload_len g)) (bpf_htonl IPPROTO_ICMPV6) in
  u32 (bpf_csum_diff (pseudo6_bytes p6) [] 0).

Definition ingress_echo (hdr : list Z) (diff l4off : Z) : M unit :=
  let t6 := byte_at hdr 0 in
  let code := byte_at hdr 1 in
  let t4 := if t6 =? ICMPV6_ECHO_REPLY then ICMP_ECHOREPLY else ICMP_ECHO in
  let diff := u32 (bpf_csum_diff (store32 (type_word t6 code)) (store32 (type_word t4 code)) diff) in
  r ← skb_store_bytes l4off [t4] STORE_FLAGS;
  when (r <? 0) (DROP CNT_INGRESS_DROP_HELPER) ;;
  r ← l4_csum_replace (l4off + 2) 0 diff BPF_F_PSEUDO_HDR;
  when (r <? 0) (DROP CNT_INGRESS_DROP_HELPER).

(** What the error path keeps of the quoted packet: the bytes of the struct
    [old] behind the ICMPv6 header, the quoted next header, the IPv4
    identification and fragment field, and whether a Fragment header was
    quoted. *)
Record inner_ctx := InnerCtx {
  q_in6 : list Z; q_infh : list Z; q_nh : Z; q_id : Z; q_frag4 : Z; q_frag : bool
}.

Definition inner_parse (l4off : Z) : M inner_ctx :=
  '(r, in6b) ← skb_load_bytes (l4off + 8) IP6_HLEN;
  when (r <? 0) (DROP CNT_INGRESS_DROP_ICMP_INNER) ;;
  let in6 := ipv6hdr_at in6b 0 in
  when (negb (inner_is_clat in6)) (DROP CNT_INGRESS_DROP_ICMP_INNER) ;;
  q ←
    (if i6_nexthdr in6 =? IPPROTO_FRAGMENT then
       '(r, infhb) ← skb_load_bytes (l4off + 8 + IP6_HLEN) FRAG_HLEN;
       when (r <? 0) (DROP CNT_INGRESS_DROP_ICMP_INNER) ;;
       let infh := frag_hdr_at infhb 0 in
       let fo := bpf_ntohs (fh_frag_off infh) in
       mret (InnerCtx in6b infhb (fh_nexthdr infh) (u16 (bpf_ntohl (fh_identification infh)))
               (Z.lor (Z.shiftr fo 3) (if negb (Z.land fo 1 =? 0) then IP_MF else 0)) true)
     else mret (InnerCtx in6b (replicate 8 0) (i6_nexthdr in6) 0 IP_DF false));
  when (is_ext_hdr (q_nh q)) (DROP CNT_INGRESS_DROP_ICMP_INNER) ;;
  mret q.

(** The MTU of a Packet Too Big message, for IPv4. *)
Definition mtu4 (mtu : Z) (in_frag : bool) : Z :=
  let hdrdiff := IP6_HLEN - IP4_HLEN + (if in_frag then FRAG_HLEN else 0) in
  let mtu := if 0xffff <? mtu then 0xffff else mtu in
  if hdrdiff + 68 <? mtu then mtu - hdrdiff else 68.

Definition new_icmp4 (m : icmp_map) (t6 rest6 pointer4 : Z) (in_frag : bool) : icmphdr :=
  IcmpHdr (m_type m) (m_code m) 0
    (if t6 =? ICMPV6_PKT_TOOBIG then UnFrag 0 (bpf_htons (u16 (mtu4 rest6 in_frag)))
     else if m_type m =? ICMP_PARAMETERPROB then UnGateway (bpf_htonl (u32 (Z.shiftl pointer4 24)))
     else UnGateway 0).

Definition new_in4 (q : inner_ctx) : iphdr :=
  let in6 := ipv6hdr_at (q_in6 q) 0 in
  with_check (IpHdr 4 5
    (u8 (Z.shiftr (bpf_ntohl (i6_word0 in6)) 20))
    (u16 (bpf_htons (bpf_ntohs (i6_payload_len in6) + IP4_HLEN -
                     (if q_frag q then FRAG_HLEN else 0))))
    (bpf_htons (q_id q)) (bpf_htons (q_frag4 q)) (i6_hop_limit in6)
    (if q_nh q =? IPPROTO_ICMPV6 then IPPROTO_ICMP else q_nh q) 0
    (POD_IP4 cfg) (u6_3 (i6_daddr in6))).

(** [sizeof(old) - sizeof(new)], the bytes the quoted headers shrink by. *)
Definition inner_shrink (q : inner_ctx) : Z := if q_frag q then 56 - 28 else 56 - FRAG_HLEN - 28.

(** The quoted Echo message: type and checksum, and the outer sum [d]. *)
Definition inner_echo (q : inner_ctx) (l4 d : Z) : M Z :=
  let in6 := ipv6hdr_at (q_in6 q) 0 in
  '(r, it) ← skb_load_bytes l4 2;
  when (r <? 0) (DROP CNT_INGRESS_DROP_ICMP_INNER) ;;
  let it0 := byte_at it 0 in
  if (it0 =? ICMPV6_ECHO_REQUEST) || (it0 =? ICMPV6_ECHO_REPLY) then
    let nt := if it0 =? ICMPV6_ECHO_REQUEST then ICMP_ECHO else ICMP_ECHOREPLY in
    let ip6 := Pseudo6 (prefix_copy (i6_saddr in6)) (prefix_copy (i6_daddr in6))
                 (bpf_htonl (bpf_ntohs (i6_payload_len in6))) (bpf_htonl IPPROTO_ICMPV6) in
    let idiff := u32 (bpf_csum_diff (pseudo6_bytes ip6) [] 0) in
    let ow := type_word it0 (byte_at it 1) in
    let nw := type_word nt (byte_at it 1) in
    let idiff := u32 (bpf_csum_diff (store32 ow) (store32 nw) idiff) in
    '(r, ocb) ← skb_load_bytes (l4 + 2) 2;
    when (r <? 0) (DROP CNT_INGRESS_DROP_ICMP_INNER) ;;
    let oc := ld16 ocb 0 in
    let nc := csum_fold (u32 (idiff + u16 (Z.lnot oc))) in
    r1 ← skb_store_bytes l4 [nt] STORE_FLAGS;
    when (r1 <? 0) (DROP CNT_INGRESS_DROP_HELPER) ;;
    r2 ← skb_store_bytes (l4 + 2) (store16 nc) STORE_FLAGS;
    when (r2 <? 0) (DROP CNT_INGRESS_DROP_HELPER) ;;
    let d := u32 (bpf_csum_diff (store32 ow) (store32 nw) d) in
    mret (u32 (bpf_csum_diff (store32 (word16 oc)) (store32 (word16 nc)) d))
  else mret d.

(** The quoted TCP or UDP checksum, at offset [coff], and the outer sum. *)
Definition inner_transport (q : inner_ctx) (l4 coff d : Z) : M Z :=
  let in6 := ipv6hdr_at (q_in6 q) 0 in
  let in4 := new_in4 q in
  let id6 := u32 (bpf_csum_diff
               (in6_bytes (prefix_copy (i6_saddr in6)) ++ in6_bytes (prefix_copy (i6_daddr in6)))
               (store32 (i4_saddr in4) ++ store32 (i4_daddr in4)) 0) in
  if negb (coff =? 0) && (Z.land (q_frag4 q) IP_OFFSET =? 0) then
    '(r, ocb) ← skb_load_bytes (l4 + coff) 2;
    if (r =? 0) && negb (ld16 ocb 0 =? 0) then
      let oc := ld16 ocb 0 in
      let nc := csum_fold (u32 (id6 + u16 (Z.lnot oc))) in
      r ← skb_store_bytes (l4 + coff) (store16 nc) STORE_FLAGS;
      when (r <? 0) (DROP CNT_INGRESS_DROP_HELPER) ;;
      mret (u32 (bpf_csum_diff (store32 (word16 oc)) (store32 (word16 nc)) d))
    else mret d
  else mret d.

Definition ingress_icmp_error (g : ingress_ctx) (hdr : list Z) (diff l4off : Z) : M unit :=
  let t6 := byte_at hdr 0 in
  let code := byte_at hdr 1 in
  let rest6 := bpf_ntohl (ld32 hdr 4) in
  let '(m, pointer4) := icmp6_to_icmp4 t6 code rest6 0 in
  when (negb (m_ok m)) (DROP CNT_INGRESS_DROP_ICMP_UNSUPPORTED) ;;
  q ← inner_parse l4off;
  let new := icmphdr_bytes (new_icmp4 m t6 rest6 pointer4 (q_frag q)) ++
             iphdr_bytes (new_in4 q) in
  let d :=
    if q_frag q then u32 (bpf_csum_diff (hdr ++ q_in6 q ++ q_infh q) new diff)
    else u32 (bpf_csum_diff (hdr ++ q_in6 q) new diff) in
  r ← skb_adjust_room (- inner_shrink q) BPF_ADJ_ROOM_NET ROOM_FLAGS;
  when (r <? 0) (DROP CNT_INGRESS_DROP_HELPER) ;;
  r ← skb_store_bytes l4off new STORE_FLAGS;
  when (r <? 0) (DROP CNT_INGRESS_DROP_HELPER) ;;
  r ← skb_store_bytes ETH_HLEN (iphdr_bytes (ingress_h4 g (g_tot_len g - inner_shrink q))) STORE_FLAGS;
  when (r <? 0) (DROP CNT_INGRESS_DROP_HELPER) ;;
  let l4 := l4off + 28 in
  let coff := if q_nh q =? IPPROTO_UDP then 6 else if q_nh q =? IPPROTO_TCP then 16 else 0 in
  d ← (if (q_nh q =? IPPROTO_ICMPV6) && negb (q_frag q) then inner_echo q l4 d else mret d);
  d ← inner_transport q l4 coff d;
  r ← l4_csum_replace (l4off + 2) 0 d BPF_F_PSEUDO_HDR;
  when (r <? 0) (DROP CNT_INGRESS_DROP_HELPER).

Definition ingress_icmp (g : ingress_ctx) (l4off : Z) : M unit :=
  '(r, hdr) ← skb_load_bytes l4off 8;
  when (r <? 0) (DROP CNT_INGRESS_DROP_TRUNCATED) ;;
  let t6 := byte_at hdr 0 in
  let diff := ingress_pseudo_diff g in
  if (t6 =? ICMPV6_ECHO_REPLY) || (t6 =? ICMPV6_ECHO_REQUEST)
  then ingress_echo hdr diff l4off
  else ingress_icmp_error g hdr diff l4off.

(** The [switch] on the next header; later fragments skip it. *)
Definition ingress_l4 (g : ingress_ctx) (l4off : Z) : M unit :=
  if negb (g_first g) then mret tt
  else if g_nh g =? IPPROTO_TCP then ingress_tcp g l4off
  else if g_nh g =? IPPROTO_UDP then ingress_udp g l4off
  else if g_nh g =? IPPROTO_ICMPV6 then ingress_icmp g l4off
  else mret tt.

Definition clat_ingress : M Z :=
  '(ip6, n, src_mapped) ← ingress_match;
  g ← ingress_parse ip6 n src_mapped;
  ingress_reshape g ;;
  ingress_headers g ;;
  ingress_l4 g (ETH_HLEN + IP4_HLEN) ;;
  count CNT_INGRESS_TRANSLATED ;;
  mret TC_ACT_OK.
End Program.
