(* ===== verification/Contract.v ===== *)
(** * Contracts: what a run of a program may do with a frame

    The abstract specification of a program is a verdict computed from the
    bytes of the frame (let it through, drop it under one of some counters,
    translate it) and a relation between the frame before and the frame after
    a translation, both stated on the wire, without native byte order. *)

From S2P Require Import Prelude Endian Checksum Kernel Program Common Wire Rules.

Inductive verdict := Pass | Drop (cs : list clat_counter) | Translate.

#[export] Instance verdict_eq_dec : EqDecision verdict.
Proof. solve_decision. Defined.

(** The drop counters of each direction. *)
Definition egress_drops : list clat_counter :=
  [CNT_EGRESS_DROP_TRUNCATED; CNT_EGRESS_DROP_BAD_SRC; CNT_EGRESS_DROP_MCAST;
   CNT_EGRESS_DROP_SRCROUTE; CNT_EGRESS_DROP_FRAG_NO_CSUM; CNT_EGRESS_DROP_ICMP_UNSUPPORTED;
   CNT_EGRESS_DROP_TOO_BIG; CNT_EGRESS_DROP_HELPER].

Definition ingress_drops : list clat_counter :=
  [CNT_INGRESS_DROP_TRUNCATED; CNT_INGRESS_DROP_EXTHDR; CNT_INGRESS_DROP_UDP_ZERO_CSUM;
   CNT_INGRESS_DROP_FRAG_ICMP; CNT_INGRESS_DROP_ICMP_UNSUPPORTED; CNT_INGRESS_DROP_ICMP_INNER;
   CNT_INGRESS_DROP_HELPER].

Inductive fate := Passed | Translated | Dropped.

#[export] Instance fate_eq_dec : EqDecision fate.
Proof. solve_decision. Defined.

(** ** Pseudo-headers on the wire *)

(** The pseudo-header of RFC 793 and RFC 768, for addresses of 4 bytes. *)
Definition pseudo4_wire (src dst : list Z) (proto len : Z) : list Z :=
  src ++ dst ++ [0; proto] ++ be16 len.

(** The pseudo-header of RFC 8200, for addresses of 16 bytes. *)
Definition pseudo6_wire (src dst : list Z) (nh len : Z) : list Z :=
  src ++ dst ++ be32 len ++ [0; 0; 0; nh].

(** Admissible per-pod constants: every word is a [__be32]. *)
Definition be32_ok (x : Z) : Prop := 0 <= x < 4294967296.
Definition in6_ok (a : in6_addr) : Prop :=
  be32_ok (u6_0 a) /\ be32_ok (u6_1 a) /\ be32_ok (u6_2 a) /\ be32_ok (u6_3 a).
Definition consts_ok (cfg : consts) : Prop :=
  in6_ok (CLAT_PREFIX cfg) /\ in6_ok (POD_IP6 cfg) /\ be32_ok (POD_IP4 cfg) /\
  be32_ok (ERR_IP4 cfg).

Section Contract.
Context {K : Kernel}.

(** The packet is dropped and exactly the counter [c] counts it. *)
Definition dropped (w : world) (c : clat_counter) (act : Z) (w' : world) : Prop :=
  act = TC_ACT_SHOT /\ w_slots w' = bump c (w_slots w).

Definition obeys (translated : clat_counter) (out : world -> world -> Prop) (v : verdict)
    (w : world) (act : Z) (w' : world) : Prop :=
  match v with
  | Pass => act = TC_ACT_OK /\ same_packet w w'
  | Drop cs => exists c, c ∈ cs /\ dropped w c act w'
  | Translate =>
      act = TC_ACT_OK /\ w_slots w' = bump translated (w_slots w) /\ out w w'
  end.

(** ** Accounting

    What a program did to a packet, as its caller sees it, and the counter
    that goes with it. *)

Definition fate_of (f : list Z) (act : Z) (f' : list Z) : fate :=
  if act =? TC_ACT_SHOT then Dropped
  else if bool_decide (f' = f) then Passed else Translated.

Definition accounted (translated : clat_counter) (drops : list clat_counter)
    (w : world) (act : Z) (w' : world) : Prop :=
  match fate_of (frame w) act (frame w') with
  | Passed => act = TC_ACT_OK /\ w_slots w' = w_slots w
  | Translated => act = TC_ACT_OK /\ w_slots w' = bump translated (w_slots w)
  | Dropped => exists c, c ∈ drops /\ w_slots w' = bump c (w_slots w)
  end.

(** A program that handles every packet and counts what it does. *)
Class Accountable (prog : M Z) (proto : Z) (translated : clat_counter)
    (drops : list clat_counter) : Prop :=
  accounts w : (rd16 (frame w) 12 = proto -> skb_protocol (w_skb w) = proto) ->
    exists act w', exec prog w = (Some act, w') /\ accounted translated drops w act w'.

Lemma accounted_pass translated drops w w' :
  frame w' = frame w -> w_slots w' = w_slots w -> accounted translated drops w TC_ACT_OK w'.
Proof.
  intros Hf Hs. unfold accounted, fate_of. by rewrite (bool_decide_eq_true_2 _ Hf).
Qed.

Lemma accounted_drop translated drops w c act w' :
  c ∈ drops -> dropped w c act w' -> accounted translated drops w act w'.
Proof. intros Hc [-> Hs]. unfold accounted, fate_of. by exists c. Qed.

Lemma accounted_translate translated drops w w' :
  frame w' <> frame w -> w_slots w' = bump translated (w_slots w) ->
  accounted translated drops w TC_ACT_OK w'.
Proof.
  intros Hf Hs. unfold accounted, fate_of. by rewrite (bool_decide_eq_false_2 _ Hf).
Qed.

(** ** Stages

    A stage of a program either runs on or ends the run.  [staged v] holds of
    a run that a stage ended for a reason in the frame, the verdict [v], or
    because a helper failed although its arguments were in range. *)
Context (may_fail : Prop) (drops : list clat_counter).

Definition failed (w : world) (act : Z) (w' : world) : Prop :=
  may_fail /\ exists c, c ∈ drops /\ dropped w c act w'.

Definition decided (v : verdict) (w : world) (act : Z) (w' : world) : Prop :=
  match v with
  | Pass => act = TC_ACT_OK /\ same_packet w w'
  | Drop cs => exists c, c ∈ cs /\ dropped w c act w'
  | Translate => False
  end.

Definition staged (v : option verdict) (w : world) (act : Z) (w' : world) : Prop :=
  (exists v', v = Some v' /\ decided v' w act w') \/ failed w act w'.

Lemma staged_drop_in v w c cs w1 : v = Some (Drop cs) -> c ∈ cs -> w_slots w1 = w_slots w ->
  staged v w TC_ACT_SHOT (World (w_skb w1) (bump c (w_slots w1))).
Proof.
  intros -> Hc E. left. eexists. split; [done|]. exists c. split; [done|]. split; [done|].
  by rewrite E.
Qed.

Lemma staged_drop v w c w1 : v = Some (Drop [c]) -> w_slots w1 = w_slots w ->
  staged v w TC_ACT_SHOT (World (w_skb w1) (bump c (w_slots w1))).
Proof. intros Hv E. eapply staged_drop_in; [done|in_list|done]. Qed.

Lemma staged_fail v w c w1 : may_fail -> c ∈ drops -> w_slots w1 = w_slots w ->
  staged v w TC_ACT_SHOT (World (w_skb w1) (bump c (w_slots w1))).
Proof.
  intros Hm Hc E. right. split; [done|]. exists c. split; [done|]. split; [done|].
  by rewrite E.
Qed.

(** A drop that the verdict names, or one that only a failing helper
    explains. *)
Lemma staged_either v c w w1 :
  (v = Drop [c] \/ may_fail) -> c ∈ drops -> w_slots w1 = w_slots w ->
  staged (Some v) w TC_ACT_SHOT (World (w_skb w1) (bump c (w_slots w1))).
Proof. intros [->|Hm] Hc Hs; [by apply staged_drop|by apply staged_fail]. Qed.

(** The counters a stage starts from are all it needs of an earlier state. *)
Lemma staged_slots v w w1 act w' :
  staged v w1 act w' -> w_slots w1 = w_slots w -> v <> Some Pass -> staged v w act w'.
Proof.
  intros [(v' & -> & Hd)|(Hm & c & Hc & Ha & Hb)] Hs Hv.
  - left. exists v'. split; [done|]. destruct v'; [done| |done].
    destruct Hd as (c & Hc & Ha & Hb). exists c. split; [done|]. split; [done|]. by rewrite Hb, Hs.
  - right. split; [done|]. exists c. split; [done|]. split; [done|]. by rewrite Hb, Hs.
Qed.

Lemma staged_obeys v translated out w act w' :
  staged (Some v) w act w' -> obeys translated out v w act w' \/ failed w act w'.
Proof.
  intros [(v' & [= <-] & Hd)|Hf]; [left|by right]. by destruct v.
Qed.

Lemma staged_None w act w' : staged None w act w' -> failed w act w'.
Proof. by intros [(? & [=] & _)|Hf]. Qed.
End Contract.

Section Pseudo.
Context `{T : Target}.

(** The twelve bytes of the /96 prefix. *)
Definition prefix_bytes (a : in6_addr) : list Z :=
  store32 (u6_0 a) ++ store32 (u6_1 a) ++ store32 (u6_2 a).

Lemma zlen_prefix_bytes a : zlen (prefix_bytes a) = 12.
Proof. unfold prefix_bytes. len. Qed.

Lemma bytes_prefix_bytes a : bytes (prefix_bytes a).
Proof. unfold prefix_bytes. solve_bytes. Qed.

Lemma in6_bytes_prefix a b c d :
  in6_bytes (In6 a b c d) = prefix_bytes (In6 a b c 0) ++ store32 d.
Proof. unfold in6_bytes, prefix_bytes. cbn [u6_0 u6_1 u6_2 u6_3]. by rewrite <- !app_assoc. Qed.
End Pseudo.

(** Addresses of the right size have the same sum in both pseudo-headers but
    for the addresses: length and protocol contribute alike. *)
Lemma sum16_pseudo4 src dst proto len :
  even_len src -> even_len dst -> 0 <= len < 65536 ->
  sum16 (pseudo4_wire src dst proto len) = sum16 (src ++ dst) + proto + len.
Proof.
  intros Hs Hd Hl. unfold pseudo4_wire. rewrite app_assoc, sum16_app by by apply even_len_app.
  unfold be16, byte_n. cbn [app sum16]. change (2 ^ (8 * 1)) with 256. change (2 ^ (8 * 0)) with 1.
  mlia.
Qed.

Lemma sum16_pseudo6 src dst proto len :
  even_len src -> even_len dst -> 0 <= len < 65536 ->
  sum16 (pseudo6_wire src dst proto len) = sum16 (src ++ dst) + proto + len.
Proof.
  intros Hs Hd Hl. unfold pseudo6_wire. rewrite app_assoc, sum16_app by by apply even_len_app.
  unfold be32, byte_n. cbn [app sum16]. change (2 ^ (8 * 3)) with 16777216.
  change (2 ^ (8 * 2)) with 65536. change (2 ^ (8 * 1)) with 256. change (2 ^ (8 * 0)) with 1.
  mlia.
Qed.

(** A message is valid under a pseudo-header that is not all zero exactly when
    the two sums cancel. *)
Lemma pseudo_inet_ok P l : even_len P -> bytes P -> bytes l -> (exists b, b ∈ P /\ b <> 0) ->
  inet_ok (P ++ l) <-> sum16 P + sum16 l ≅ 0.
Proof.
  intros He HP Hl (b & Hb & Hnz). rewrite inet_ok_iff, sum16_app by (try apply bytes_app; done).
  split; [tauto|]. intros H. split; [done|]. rewrite Forall_app. intros [H0 _].
  rewrite Forall_forall in H0. by apply Hnz, H0.
Qed.

#[export] Hint Rewrite @zlen_prefix_bytes : zlen.
#[export] Hint Resolve bytes_prefix_bytes : bytes.

(** ** The counters after a run *)

Section Counters.
Context {K : Kernel} `{T : Target} {may_fail : Prop} {KS : KernelSpec may_fail CNT_MAX K}.

(** Counter [c] has gone up by one, the others stand. *)
Definition counted (w : world) (c : clat_counter) (w' : world) : Prop :=
  forall c', counter w' c' = if decide (c' = c) then u64 (counter w c + 1) else counter w c'.

Lemma accounted_counters translated drops w act w' :
  accounted translated drops w act w' ->
  (act = TC_ACT_SHOT /\ exists c, c ∈ drops /\ counted w c w') \/
  (act = TC_ACT_OK /\ frame w' <> frame w /\ counted w translated w') \/
  (act = TC_ACT_OK /\ frame w' = frame w /\ forall c, counter w' c = counter w c).
Proof.
  unfold accounted, fate_of. destruct (Z.eqb_spec act TC_ACT_SHOT) as [->|].
  - intros (c & Hc & Hs). left. split; [done|]. exists c. split; [done|]. intros c'.
    by apply counter_bump.
  - case_bool_decide; intros [-> Hs]; right; [right|left].
    + split; [done|]. split; [done|]. intros c. unfold counter. by rewrite Hs.
    + split; [done|]. split; [done|]. intros c'. by apply counter_bump.
Qed.
End Counters.
