(* ===== verification/EgressSpec.v ===== *)
(** * Specification of the egress program, on the wire

    What clat_egress (src/bpf/clat.c) promises, in terms of the bytes of the
    IPv4 frame: which frames it lets through, which it drops and how it counts
    them, and which IPv6 frame it makes of the others. *)

From S2P Require Import Prelude Endian Checksum Kernel Program Common Wire Rules Contract Options.

Section Spec.
Context `{T : Target} (cfg : consts).

(** ** The fields of an IPv4 frame *)

Definition f4_hlen (f : list Z) : Z := 4 * (byte_at f 14 mod 16).
Definition f4_tos (f : list Z) : Z := byte_at f 15.
Definition f4_tot_len (f : list Z) : Z := rd16 f 16.
Definition f4_frag (f : list Z) : Z := rd16 f 20.
Definition f4_proto (f : list Z) : Z := byte_at f 23.
Definition f4_src (f : list Z) : list Z := sub 26 4 f.
Definition f4_dst (f : list Z) : list Z := sub 30 4 f.
Definition f4_l4len (f : list Z) : Z := f4_tot_len f - f4_hlen f.

(** More-fragments bit, fragment offset in units of 8 bytes. *)
Definition f4_mf (f : list Z) : bool := Z.testbit (f4_frag f) 13.
Definition f4_offset (f : list Z) : Z := f4_frag f mod 8192.
Definition f4_is_frag (f : list Z) : bool := f4_mf f || negb (f4_offset f =? 0).
Definition f4_first (f : list Z) : bool := f4_offset f =? 0.

(** The transport part: everything behind the header and its options. *)
Definition f4_l4 (f : list Z) : list Z := drop (Z.to_nat (14 + f4_hlen f)) f.

(** ** The IPv6 side *)

Definition e6_nh (f : list Z) : Z := if f4_proto f =? 1 then 58 else f4_proto f.
Definition e6_src : list Z := in6_bytes (POD_IP6 cfg).
Definition e6_dst (f : list Z) : list Z := prefix_bytes (CLAT_PREFIX cfg) ++ f4_dst f.

(** The IPv6 header: traffic class from the type of service, flow label
    zero, payload length, next header, hop limit, mapped addresses. *)
Definition e6_header (f : list Z) : list Z :=
  [96 + f4_tos f / 16; f4_tos f mod 16 * 16; 0; 0] ++
  be16 (f4_l4len f + (if f4_is_frag f then 8 else 0)) ++
  [if f4_is_frag f then 44 else e6_nh f; byte_at f 22] ++ e6_src ++ e6_dst f.

(** The Fragment header of a fragment: offset and more-fragments bit, and the
    identification extended with zeros. *)
Definition e6_frag (f : list Z) : list Z :=
  if f4_is_frag f then
    [e6_nh f; 0] ++ be16 (8 * f4_offset f + (if f4_mf f then 1 else 0)) ++ [0; 0] ++ sub 18 2 f
  else [].

(** ** The verdict *)

(** The test by which the program takes a UDP datagram for one sent without a
    checksum: the field is zero, and the IPv4 pseudo-header does not sum to zero
    modulo 65535.  A datagram without a checksum whose pseudo-header does is not
    recognised, since an offloaded checksum may look the same. *)
Definition e4_no_csum (f l : list Z) : bool :=
  (rd16 l 6 =? 0) &&
  negb (sum16 (pseudo4_wire (f4_src f) (f4_dst f) 17 (f4_l4len f)) mod 65535 =? 0).

Definition egress_l4_verdict (f : list Z) : verdict :=
  let l := f4_l4 f in
  if negb (f4_first f) then Translate
  else if f4_proto f =? 6 then
    if zlen l <? 18 then Drop [CNT_EGRESS_DROP_HELPER] else Translate
  else if f4_proto f =? 17 then
    if zlen l <? 8 then Drop [CNT_EGRESS_DROP_TRUNCATED]
    else if negb (e4_no_csum f l) then Translate
    else if f4_is_frag f then Drop [CNT_EGRESS_DROP_FRAG_NO_CSUM]
    else if (10240 <? f4_l4len f) || (zlen l <? f4_l4len f) then Drop [CNT_EGRESS_DROP_TOO_BIG]
    else Translate
  else if f4_proto f =? 1 then
    if zlen l <? 2 then Drop [CNT_EGRESS_DROP_TRUNCATED]
    else if negb ((byte_at l 0 =? 8) || (byte_at l 0 =? 0)) then
      Drop [CNT_EGRESS_DROP_ICMP_UNSUPPORTED]
    else if zlen l <? 4 then Drop [CNT_EGRESS_DROP_HELPER]
    else Translate
  else Translate.

(** The checks up to the change of the packet; [None] when all pass.
    [lin] is the length of the linear area. *)
Definition egress_admit (lin : Z) (f : list Z) : option verdict :=
  if lin <? 14 then Some Pass
  else if negb (rd16 f 12 =? ETH_P_IP) then Some Pass
  else if zlen f <? 34 then Some (Drop [CNT_EGRESS_DROP_TRUNCATED])
  else if negb (byte_at f 14 / 16 =? 4) then Some (Drop [CNT_EGRESS_DROP_TRUNCATED])
  else if f4_hlen f <? 20 then Some (Drop [CNT_EGRESS_DROP_TRUNCATED])
  else if negb (bool_decide (f4_src f = store32 (POD_IP4 cfg))) then
    Some (Drop [CNT_EGRESS_DROP_BAD_SRC])
  else if (byte_at f 30 / 16 =? 14) || (rd32 f 30 =? 0xffffffff) then
    Some (Drop [CNT_EGRESS_DROP_MCAST])
  else if f4_tot_len f <? f4_hlen f then Some (Drop [CNT_EGRESS_DROP_TRUNCATED])
  else if f4_is_frag f && (f4_proto f =? 1) then Some (Drop [CNT_EGRESS_DROP_FRAG_NO_CSUM])
  else None.

(** The options: a frame that ends inside them is dropped by the scan or by
    the helper that would remove them. *)
Definition egress_options (f : list Z) : option verdict :=
  if zlen f <? 14 + f4_hlen f then
    Some (Drop [CNT_EGRESS_DROP_SRCROUTE; CNT_EGRESS_DROP_HELPER])
  else if negb (options_ok (sub 34 (f4_hlen f - 20) f)) then
    Some (Drop [CNT_EGRESS_DROP_SRCROUTE])
  else None.

Definition egress_verdict (lin : Z) (f : list Z) : verdict :=
  match egress_admit lin f with
  | Some v => v
  | None =>
      match egress_options f with
      | Some v => v
      | None => egress_l4_verdict f
      end
  end.

(** ** The transport part after translation *)

Definition egress_l4_out (st : ip_summed_t) (f l l' : list Z) : Prop :=
  if negb (f4_first f) then l' = l
  else if f4_proto f =? 6 then
    exists d, zlen d = 2 /\ l' = splice 16 d l /\
      forall len, 0 <= len < 65536 ->
        csum_carried st 16 (pseudo4_wire (f4_src f) (f4_dst f) 6 len)
          (pseudo6_wire e6_src (e6_dst f) 6 len) l l'
  else if f4_proto f =? 17 then
    exists d, zlen d = 2 /\ d <> [0; 0] /\ l' = splice 6 d l /\
      if e4_no_csum f l then
        sum16 d + sum16 (pseudo6_wire e6_src (e6_dst f) 17 (f4_l4len f)) +
          sum16 (sub 0 (f4_l4len f) l) ≅ 0
      else
        forall len, 0 <= len < 65536 ->
          csum_carried st 6 (pseudo4_wire (f4_src f) (f4_dst f) 17 len)
            (pseudo6_wire e6_src (e6_dst f) 17 len) l l'
  else if f4_proto f =? 1 then
    exists d, zlen d = 2 /\
      l' = splice 2 d (splice 0 [if byte_at l 0 =? 8 then 128 else 129] l) /\
      (st <> CHECKSUM_PARTIAL ->
       sum16 (pseudo6_wire e6_src (e6_dst f) 58 (f4_l4len f)) + sum16 l' ≅ sum16 l)
  else l' = l.

(** The frame after translation. *)
Definition egress_out (st : ip_summed_t) (f f' : list Z) : Prop :=
  exists l', zlen l' = zlen (f4_l4 f) /\
    f' = sub 0 12 f ++ be16 ETH_P_IPV6 ++ e6_header f ++ e6_frag f ++ l' /\
    egress_l4_out st f (f4_l4 f) l'.
End Spec.
