(* ===== verification/EgressProof.v ===== *)
(** * The egress program meets its specification

    Each stage of [clat_egress] is related to the wire-level description of
    EgressSpec, and the stages are composed into one contract,
    [wp_clat_egress], from which the properties of the program follow. *)

From S2P Require Import Prelude Endian Checksum Kernel Program Common Wire Rules Contract.
From S2P Require Import Options UdpCsum EgressSpec Egress.

Section Proof.
Context {K : Kernel} `{T : Target} {may_fail : Prop} {KS : KernelSpec may_fail CNT_MAX K}.
Context (cfg : consts) (Hcfg : consts_ok cfg).

(** ** Parsing *)

(** The local variables of the program, read off the frame. *)
Definition ectx (f : list Z) : egress_ctx :=
  EgressCtx (f4_tos f) (byte_at f 22) (f4_proto f) (ld16 f 18) (f4_frag f)
    (ld32 f 26) (ld32 f 30) (f4_hlen f - 20) (f4_l4len f)
    (f4_is_frag f) (f4_mf f) (f4_first f).

Lemma mcast_wire l i : bytes l ->
  (Z.land (ld32 l i) (bpf_htonl 0xf0000000) =? bpf_htonl 0xe0000000) = (byte_at l i / 16 =? 14).
Proof.
  intros Hl. rewrite !bpf_htonl_eq. unfold ld32, load32.
  pose proof (byte_at_range l i Hl). pose proof (byte_at_range l (i + 1) Hl).
  pose proof (byte_at_range l (i + 2) Hl). pose proof (byte_at_range l (i + 3) Hl).
  destruct little_endian.
  - change (builtin_bswap32 0xf0000000) with (Z.shiftl (Z.ones 4) 4).
    change (builtin_bswap32 0xe0000000) with 224. rewrite land_window by lia.
    change (2 ^ 4) with 16. apply eq_true_iff_eq. rewrite !Z.eqb_eq. mlia.
  - change 0xf0000000 with (Z.shiftl (Z.ones 4) 28).
    change 0xe0000000 with (14 * 2 ^ 28). rewrite land_window by lia.
    change (2 ^ 4) with 16. change (2 ^ 28) with 268435456.
    apply eq_true_iff_eq. rewrite !Z.eqb_eq. mlia.
Qed.

(** The three flags the program derives from the fragment field. *)
Lemma frag_flags x : 0 <= x ->
  negb (Z.land x (Z.lor IP_MF IP_OFFSET) =? 0) = Z.testbit x 13 || negb (x mod 8192 =? 0) /\
  negb (Z.land x IP_MF =? 0) = Z.testbit x 13 /\
  (Z.land x IP_OFFSET =? 0) = (x mod 8192 =? 0).
Proof.
  intros Hx. split; [|split].
  - change (Z.lor IP_MF IP_OFFSET) with (Z.ones 14). rewrite Z.land_ones, testbit_eqb by lia.
    change (2 ^ 14) with 16384. change (2 ^ 13) with 8192.
    destruct (Z.eqb_spec (x mod 16384) 0), (Z.eqb_spec (x / 8192 mod 2) 1),
      (Z.eqb_spec (x mod 8192) 0); try done; exfalso; mlia.
  - by apply (land_pow2 x 13).
  - change IP_OFFSET with (Z.ones 13). by rewrite Z.land_ones by lia.
Qed.

#[local] Abbreviation stage := (staged may_fail egress_drops).

(** One test of the parser against the same test of the specification. *)
Ltac parse_check HQ HR :=
  let E := fresh "E" in
  apply wp_bind, wp_when_drop; intros E;
    [rewrite E in HR; by apply HR; [apply staged_drop|]|rewrite E in HQ, HR].

Lemma wp_egress_parse Q R w :
  (forall w', same_packet w w' -> egress_admit cfg (skb_headlen (w_skb w)) (frame w) = None ->
     Q (ectx (frame w)) w') ->
  (forall act w', stage (egress_admit cfg (skb_headlen (w_skb w)) (frame w)) w act w' ->
     (egress_admit cfg (skb_headlen (w_skb w)) (frame w) = Some Pass -> act = TC_ACT_OK) -> R act w') ->
  wp (egress_parse cfg) Q R w.
Proof.
  intros HQ HR. unfold egress_parse, ETH_HLEN, IP4_HLEN, IPPROTO_ICMP. set (f := frame w) in *.
  assert (Hf : bytes f) by apply frame_ok.
  pose proof (skb_headlen_ok (w_skb w)) as Hlin. fold (frame w) in Hlin. fold f in Hlin.
  unfold egress_admit, f4_src, f4_tot_len, f4_is_frag, f4_mf, f4_offset, f4_frag, f4_proto in HQ, HR.
  set (lin := skb_headlen (w_skb w)) in *.
  apply wp_bind, wp_linear_len. fold lin. apply wp_bind, wp_when.
  { intros E. rewrite E in HR. apply wp_ret_act, HR; [left; by eexists|done]. }
  intros E. rewrite E in HQ, HR. apply Z.ltb_ge in E.
  apply wp_bind, wp_pkt_read; [lia|fold lin; lia|]. fold f.
  rewrite ld16_sub, Z.add_0_l, ld16_eqb_htons by (try done; lia).
  apply wp_bind, wp_when.
  { intros E'. rewrite E' in HR. apply wp_ret_act, HR; [left; by eexists|done]. }
  intros E'. rewrite E' in HQ, HR.
  apply wp_bind, wp_ensure_linear; [done| |].
  2: { intros w' Hw Hm. apply wp_bind, wp_when; [intros _|done]. apply wp_DROP, HR.
       destruct Hw as (Hw & Hk & Hs). fold f in Hm.
       change (14 + 20) with 34 in Hm.
       2: { by destruct (Z.ltb_spec (zlen f) 34); repeat case_match. }
       destruct (Z.ltb_spec (zlen f) 34).
       - by apply staged_drop.
       - right. split; [by apply Hm|]. exists CNT_EGRESS_DROP_TRUNCATED.
         split; [in_list|]. split; [done|]. cbn [w_slots]. by rewrite Hs. }
  intros w1 Hw1 Hl1. change (14 + 20) with 34 in *.
  pose proof Hw1 as (Hf1 & Hk1 & Hs1). fold f in Hf1.
  apply wp_bind, wp_when; [done|intros _]. apply wp_bind, wp_linear_len.
  apply wp_bind, wp_when; [intros E1; apply Z.ltb_lt in E1; lia|intros _].
  pose proof (skb_headlen_ok (w_skb w1)) as Hlin1. fold (frame w1) in Hlin1. rewrite Hf1 in Hlin1.
  destruct (Z.ltb_spec (zlen f) 34); [lia|].
  apply wp_bind, wp_pkt_read; [lia|lia|].
  rewrite Hf1, iphdr_at_sub by lia.
  unfold iphdr_at. cbn [i4_version i4_ihl i4_tos i4_tot_len i4_id i4_frag_off i4_ttl i4_protocol
    i4_check i4_saddr i4_daddr]. cbv zeta. zlit.
  rewrite !ntohs_ld16 by done.
  destruct (frag_flags (rd16 f 20)) as (Ef1 & Ef2 & Ef3).
  { unfold rd16. pose proof (byte_at_range f 20 Hf). pose proof (byte_at_range f (20 + 1) Hf). lia. }
  rewrite Ef1, Ef2, Ef3, mcast_wire, ld32_eqb_htonl, ld32_eqb by (try done; try lia; apply Hcfg).
  rewrite (Z.mul_comm (byte_at f 14 mod 16) 4). fold (f4_hlen f).
  parse_check HQ HR. parse_check HQ HR. parse_check HQ HR. parse_check HQ HR.
  parse_check HQ HR. parse_check HQ HR.
  apply wp_ret. by apply HQ.
Qed.

(** ** Reshaping *)

(** What the options leave behind: the fixed header and the transport part. *)
Lemma wp_egress_options Q R w f :
  frame w = f -> skb_protocol (w_skb w) = ETH_P_IP -> 34 <= zlen f -> 20 <= f4_hlen f ->
  (egress_options f = None -> forall w', frame w' = sub 0 34 f ++ f4_l4 f ->
     keeps (w_skb w) (w_skb w') -> w_slots w' = w_slots w -> Q tt w') ->
  (forall act w', stage (egress_options f) w act w' -> R act w') ->
  wp (when (negb (f4_hlen f - 20 =? 0)) (
    sr ← ip4_has_source_route (ETH_HLEN + IP4_HLEN) (f4_hlen f - 20);
    when sr (DROP CNT_EGRESS_DROP_SRCROUTE) ;;
    r ← skb_adjust_room (- (f4_hlen f - 20)) BPF_ADJ_ROOM_NET ROOM_FLAGS;
    when (r <? 0) (DROP CNT_EGRESS_DROP_HELPER))) Q R w.
Proof.
  intros Hw Hp Hz Hh HQ HR. unfold egress_options in *.
  assert (Hf : bytes f) by (rewrite <- Hw; apply frame_ok).
  pose proof (byte_at_range f 14 Hf).
  assert (Hhl : exists n, f4_hlen f - 20 = 4 * n /\ 0 <= n <= 10).
  { exists (byte_at f 14 mod 16 - 5). unfold f4_hlen in *. mlia. }
  destruct Hhl as (n & Hn & Hnr). rewrite Hn in *. apply wp_when.
  2: { intros E. apply negb_false_iff, Z.eqb_eq in E. assert (n = 0) as -> by lia.
       destruct (Z.ltb_spec (zlen f) (14 + f4_hlen f)); [lia|].
       apply HQ; [done| |done|done]. rewrite Hw. unfold f4_l4.
       replace (14 + f4_hlen f) with 34 by lia. apply sub_drop. lia. }
  intros E. apply negb_true_iff, Z.eqb_neq in E. change (ETH_HLEN + IP4_HLEN) with 34.
  assert (Hshrink : forall w0, w0 = w -> 14 + f4_hlen f <= zlen f ->
    options_ok (sub 34 (4 * n) f) = true ->
    wp (r ← skb_adjust_room (- (4 * n)) BPF_ADJ_ROOM_NET ROOM_FLAGS;
        when (r <? 0) (DROP CNT_EGRESS_DROP_HELPER)) Q R w0).
  { intros w0 -> Hle Hok. rewrite Hok in HQ, HR.
    destruct (Z.ltb_spec (zlen f) (14 + f4_hlen f)); [lia|].
    apply wp_bind, wp_adjust_room_shrink; rewrite ?Hp, ?Hw; [by left|lia|done|done| |].
    - change (ETH_HLEN + net_base_len ETH_P_IP) with 34. intros w' Hl Hw' Hk Hs.
      apply wp_check_ok, HQ; [done| |done|done]. rewrite Hw'. unfold f4_l4. do 3 f_equal. lia.
    - change (ETH_HLEN + net_base_len ETH_P_IP) with 34. intros r w' Hr Hm Hs.
      apply wp_check_fail; [done|]. apply HR, staged_fail; [apply Hm; lia|in_list|done]. }
  destruct (Z.ltb_spec (zlen f) (14 + f4_hlen f)) as [Hlt|Hge].
  - apply wp_bind, wp_has_source_route_any. intros sr. apply wp_bind, wp_when_drop; intros _.
    { apply HR. eapply staged_drop_in; [done|in_list|done]. }
    apply wp_bind, wp_adjust_room_shrink; rewrite ?Hp, ?Hw; [by left|lia|done|done| |];
      change (ETH_HLEN + net_base_len ETH_P_IP) with 34.
    + intros w' Hl. lia.
    + intros r w' Hr Hm Hs. apply wp_check_fail; [done|].
      apply HR. eapply staged_drop_in; [done|in_list|done].
  - apply wp_bind, wp_has_source_route; rewrite ?Hw; [lia|lia|lia| |].
    + apply wp_bind, wp_when_drop; intros Eo; rewrite Eo in *.
      * apply HR, staged_drop; [done|done].
      * apply Hshrink; [done|lia|by apply negb_false_iff].
    + intros Hm. apply wp_bind, wp_when_drop; [intros _|done].
      apply HR, staged_fail; [done|in_list|done].
Qed.

(** The frame with room for the new headers. *)
Lemma wp_egress_reshape Q R w f :
  frame w = f -> skb_protocol (w_skb w) = ETH_P_IP -> 34 <= zlen f -> 20 <= f4_hlen f ->
  (egress_options f = None -> forall w' hdr room, zlen hdr = 40 ->
     zlen room = (if f4_is_frag f then 8 else 0) ->
     frame w' = sub 0 14 f ++ hdr ++ room ++ f4_l4 f ->
     skb_ip_summed (w_skb w') = skb_ip_summed (w_skb w) ->
     skb_protocol (w_skb w') = ETH_P_IPV6 -> w_slots w' = w_slots w -> Q tt w') ->
  (forall act w', stage (egress_options f) w act w' -> R act w') ->
  wp (egress_reshape (ectx f)) Q R w.
Proof.
  intros Hw Hp Hz Hh HQ HR. unfold egress_reshape.
  cbn [ectx e_optlen e_is_frag]. apply wp_bind, (wp_egress_options _ _ w f); try done.
  intros Hopt w1 Hw1 [Hp1 Hst1] Hs1.
  apply wp_bind, wp_change_proto_4to6; [congruence| | |].
  { rewrite Hw1, zlen_app, zlen_sub by lia. pose proof (zlen_nonneg (f4_l4 f)). lia. }
  2: { intros r w' Hr Hm Hs. apply wp_bind, wp_check_fail; [done|].
       apply HR, staged_fail; [done|in_list|congruence]. }
  intros w2 hdr Hhdr Hw2 Hp2 Hst2 Hs2. apply wp_bind, wp_check_ok.
  rewrite Hw1 in Hw2. rewrite sub_app_l, sub_sub in Hw2 by (rewrite ?zlen_sub by lia; unfold ETH_HLEN; lia).
  assert (Hd : drop 34 (sub 0 34 f ++ f4_l4 f) = f4_l4 f).
  { apply (drop_app_zlen 34), zlen_sub; lia. }
  rewrite Hd in Hw2. change (0 + 0) with 0 in Hw2. change ETH_HLEN with 14 in Hw2.
  apply wp_when; intros Ef; rewrite Ef in HQ.
  2: { apply (HQ Hopt w2 hdr []); try done; congruence. }
  assert (Hz2 : zlen (sub 0 14 f ++ hdr) = 54) by (rewrite zlen_app, zlen_sub by lia; lia).
  apply wp_bind, wp_adjust_room_grow; rewrite ?Hp2; [by right|done| |done| |];
    change (ETH_HLEN + net_base_len ETH_P_IPV6) with 54.
  { rewrite Hw2, app_assoc, zlen_app, Hz2. pose proof (zlen_nonneg (f4_l4 f)). lia. }
  - intros w3 room Hr Hw3 Hk3 Hs3. apply wp_check_ok.
    rewrite Hw2, (app_assoc (sub 0 14 f)), sub_app_0, drop_app_zlen, <- app_assoc in Hw3 by done.
    destruct Hk3.
    apply (HQ Hopt w3 hdr room); try done; congruence.
  - intros r w' Hr Hm Hs. apply wp_check_fail; [done|].
    apply HR, staged_fail; [done|in_list|congruence].
Qed.

(** ** The new headers *)

Lemma traffic_class_word tos : 0 <= tos < 256 ->
  store32 (bpf_htonl (Z.lor 0x60000000 (u32 (Z.shiftl tos 20)))) =
    [96 + tos / 16; tos mod 16 * 16; 0; 0].
Proof.
  intros. rewrite store32_htonl, Z.shiftl_mul_pow2, u32_id by (try lia; change (2 ^ 20) with 1048576; lia).
  change 0x60000000 with (6 * 2 ^ 28).
  rewrite lor_add by (change (2 ^ 20) with 1048576; change (2 ^ 28) with 268435456; lia).
  rewrite <- be32_bytes by (unfold is_byte; mlia). f_equal.
  change (2 ^ 20) with 1048576. change (2 ^ 28) with 268435456. mlia.
Qed.

Lemma e6_nh_eq f : e_nh6 (ectx f) = e6_nh f.
Proof. reflexivity. Qed.

Lemma e6_nh_range f : bytes f -> 0 <= e6_nh f < 256.
Proof. intros Hf. unfold e6_nh, f4_proto. pose proof (byte_at_range f 23 Hf). case_match; lia. Qed.

Lemma egress_dst_bytes f : bytes f -> 34 <= zlen f ->
  in6_bytes (i6_daddr (egress_h6 cfg (ectx f))) = e6_dst cfg f.
Proof.
  intros Hf Hz. unfold egress_h6. cbn [i6_daddr prefix_copy u6_0 u6_1 u6_2 ectx e_daddr].
  rewrite in6_bytes_prefix, store32_ld32 by (try done; lia). reflexivity.
Qed.

Lemma egress_src_bytes f : in6_bytes (i6_saddr (egress_h6 cfg (ectx f))) = e6_src cfg.
Proof. reflexivity. Qed.

Lemma egress_h6_wire f : bytes f -> 34 <= zlen f ->
  ipv6hdr_bytes (egress_h6 cfg (ectx f)) = e6_header cfg f.
Proof.
  intros Hf Hz. unfold ipv6hdr_bytes. rewrite egress_dst_bytes, egress_src_bytes by done.
  cbn [egress_h6 ectx i6_word0 i6_payload_len i6_nexthdr i6_hop_limit e_tos e_l4len e_is_frag e_ttl].
  rewrite traffic_class_word by by apply byte_at_range.
  rewrite store16_u16, store16_htons, e6_nh_eq. unfold e6_header, IPPROTO_FRAGMENT, FRAG_HLEN.
  pose proof (e6_nh_range f Hf). pose proof (byte_at_range f 22 Hf).
  by rewrite !u8_id by (repeat case_match; lia).
Qed.

Lemma egress_frag_wire f : bytes f -> 34 <= zlen f -> f4_is_frag f = true ->
  frag_hdr_bytes (egress_frag_hdr (ectx f)) = e6_frag f.
Proof.
  intros Hf Hz Ef. unfold frag_hdr_bytes, e6_frag. rewrite Ef.
  cbn [egress_frag_hdr fh_nexthdr fh_reserved fh_frag_off fh_identification].
  rewrite e6_nh_eq, !u8_id by (try done; by apply e6_nh_range). cbn [ectx e_frag_off e_mf e_id].
  rewrite ntohs_ld16, store16_htons, store32_htonl by done.
  change IP_OFFSET with (Z.ones 13). rewrite Z.land_ones, Z.shiftl_mul_pow2 by lia.
  rewrite lor_add by (try lia; change (2 ^ 3) with 8; case_match; lia).
  f_equal. f_equal; [f_equal; unfold f4_offset; change (2 ^ 3) with 8; change (2 ^ 13) with 8192; lia|].
  rewrite !sub_cons, sub_neg by lia. cbn [app].
  by rewrite <- be32_bytes by (try apply byte_at_range; try done).
Qed.

Definition egress_hd (f : list Z) : list Z :=
  sub 0 12 f ++ be16 ETH_P_IPV6 ++ e6_header cfg f ++ e6_frag f.

Lemma zlen_e6_header f : bytes f -> 34 <= zlen f -> zlen (e6_header cfg f) = 40.
Proof. intros. rewrite <- egress_h6_wire by done. apply zlen_ipv6hdr_bytes. Qed.

Lemma zlen_e6_frag f : bytes f -> 34 <= zlen f -> zlen (e6_frag f) = if f4_is_frag f then 8 else 0.
Proof.
  intros Hf Hz. destruct (f4_is_frag f) eqn:E.
  - rewrite <- egress_frag_wire by done. apply zlen_frag_hdr_bytes.
  - unfold e6_frag. by rewrite E.
Qed.

Lemma zlen_egress_hd f : bytes f -> 34 <= zlen f ->
  zlen (egress_hd f) = 54 + (if f4_is_frag f then 8 else 0).
Proof.
  intros Hf Hz. unfold egress_hd.
  rewrite !zlen_app, zlen_e6_header, zlen_e6_frag, zlen_sub, zlen_be16 by (try done; lia). lia.
Qed.

Lemma wp_egress_headers Q R w f hdr room :
  bytes f -> 34 <= zlen f -> zlen hdr = 40 -> zlen room = (if f4_is_frag f then 8 else 0) ->
  frame w = sub 0 14 f ++ hdr ++ room ++ f4_l4 f ->
  (forall w', frame w' = egress_hd f ++ f4_l4 f -> keeps (w_skb w) (w_skb w') ->
     w_slots w' = w_slots w -> Q (zlen (egress_hd f)) w') ->
  (may_fail -> forall w', w_slots w' = w_slots w ->
     R TC_ACT_SHOT (World (w_skb w') (bump CNT_EGRESS_DROP_HELPER (w_slots w')))) ->
  wp (egress_headers cfg (ectx f)) Q R w.
Proof.
  intros Hf Hz Hhdr Hroom Hw HQ HR. unfold egress_headers.
  rewrite egress_h6_wire by done.
  pose proof (zlen_e6_header f Hf Hz) as Hh6. pose proof (zlen_e6_frag f Hf Hz) as Hfr.
  assert (H14 : zlen (sub 0 14 f) = 14) by (apply zlen_sub; lia).
  apply wp_bind, (wp_store_at (sub 0 14 f) (hdr ++ room ++ f4_l4 f) 0);
    [done|by rewrite H14|done|lia| | |].
  { rewrite <- egress_h6_wire by done. apply bytes_ipv6hdr_bytes. }
  2: { intros r w' Hr Hm Hs. apply wp_bind, wp_check_fail; [done|]. apply HR; [|done].
       apply Hm. rewrite Hh6, zlen_app. pose proof (zlen_nonneg (room ++ f4_l4 f)). lia. }
  intros w1 _ Hw1 Hk1 Hs1. apply wp_bind, wp_check_ok.
  rewrite splice_app_0 in Hw1 by congruence.
  assert (Hend : forall w2, frame w2 = sub 0 14 f ++ e6_header cfg f ++ e6_frag f ++ f4_l4 f ->
    keeps (w_skb w) (w_skb w2) -> w_slots w2 = w_slots w -> forall n, n = zlen (egress_hd f) ->
    wp (r ← skb_store_bytes 12 (store16 (bpf_htons ETH_P_IPV6)) 0;
        when (r <? 0) (DROP CNT_EGRESS_DROP_HELPER) ;; mret n) Q R w2).
  { intros w2 Hw2 Hk2 Hs2 n ->. apply wp_bind, wp_store_bytes; [lia|len|auto with bytes| |].
    - intros w3 _ Hw3 Hk3 Hs3. apply wp_bind, wp_check_ok, wp_ret, HQ; [|split; destruct Hk2, Hk3; congruence|congruence].
      rewrite Hw3, Hw2. rewrite splice_app_l by len. unfold egress_hd. rewrite store16_htons.
      change 14 with (12 + 2). rewrite sub_split by lia.
      rewrite splice_app_r by (rewrite zlen_sub by lia; lia). rewrite zlen_sub by lia.
      rewrite splice_0 by (rewrite zlen_sub by lia; done). by rewrite <- !app_assoc.
    - intros r w3 Hr Hm Hs3. apply wp_bind, wp_check_fail; [done|]. apply HR; [|congruence].
      apply Hm. rewrite Hw2. autorewrite with zlen. rewrite H14. pose proof (zlen_nonneg (f4_l4 f)).
      pose proof (zlen_nonneg (e6_frag f)). lia. }
  cbn [ectx e_is_frag]. apply wp_bind. destruct (f4_is_frag f) eqn:Ef.
  2: { apply wp_ret, Hend; [|done|done|].
       - unfold e6_frag. rewrite Ef, Hw1. destruct room; [done|]. rewrite zlen_cons in Hroom.
         pose proof (zlen_nonneg room). lia.
       - rewrite zlen_egress_hd, Ef by done. reflexivity. }
  rewrite egress_frag_wire by done. rewrite app_assoc in Hw1.
  apply wp_bind, (wp_store_at (sub 0 14 f ++ e6_header cfg f) (room ++ f4_l4 f) 0);
    [done|by rewrite zlen_app, H14, Hh6|done|lia| | |].
  { rewrite <- egress_frag_wire by done. apply bytes_frag_hdr_bytes. }
  - intros w2 _ Hw2 Hk2 Hs2. apply wp_bind, wp_check_ok, wp_ret.
    rewrite splice_app_0, <- app_assoc in Hw2 by congruence. apply Hend; [done| |congruence|].
    + destruct Hk1, Hk2. split; congruence.
    + by rewrite zlen_egress_hd, Ef by done.
  - intros r w2 Hr Hm Hs2. apply wp_bind, wp_check_fail; [done|]. apply HR; [|congruence].
    apply Hm. rewrite Hfr, zlen_app. pose proof (zlen_nonneg (f4_l4 f)). lia.
Qed.

(** ** The transport part *)

Section L4.
Context (f : list Z) (Hf : bytes f) (Hz : 34 <= zlen f) (Hlen : 0 <= f4_l4len f).

Let l := f4_l4 f.

Lemma f4_l4_bytes : bytes l.
Proof. by apply bytes_drop. Qed.

Lemma zlen_f4_src : zlen (f4_src f) = 4.
Proof. apply zlen_sub; lia. Qed.

Lemma zlen_f4_dst : zlen (f4_dst f) = 4.
Proof. apply zlen_sub; lia. Qed.

Lemma zlen_e6_dst : zlen (e6_dst cfg f) = 16.
Proof. unfold e6_dst. rewrite zlen_app, zlen_prefix_bytes, zlen_f4_dst. lia. Qed.

Lemma bytes_e6_dst : bytes (e6_dst cfg f).
Proof. unfold e6_dst, f4_dst. solve_bytes. Qed.

Lemma f4_l4len_range : 0 <= f4_l4len f < 65536.
Proof.
  split; [done|]. unfold f4_l4len, f4_tot_len, f4_hlen. pose proof (rd16_range f 16 Hf).
  pose proof (byte_at_range f 14 Hf). mlia.
Qed.

Lemma hd_even : Z.even (zlen (egress_hd f)) = true.
Proof. rewrite zlen_egress_hd by done. by destruct (f4_is_frag f). Qed.

Lemma hd_bound : zlen (egress_hd f) <= 1000.
Proof. rewrite zlen_egress_hd by done. destruct (f4_is_frag f); lia. Qed.

(** The two pseudo-headers differ by their addresses. *)
Lemma nsum_pseudo_diff proto len : 0 <= len < 65536 ->
  nsum (pseudo6_wire (e6_src cfg) (e6_dst cfg f) proto len) -
    nsum (pseudo4_wire (f4_src f) (f4_dst f) proto len) ≅
  nsum (e6_src cfg ++ e6_dst cfg f) - nsum (f4_src f ++ f4_dst f).
Proof.
  intros Hl. rewrite !nsum_sum16, sum16_pseudo6, sum16_pseudo4; try done; unfold even_len;
    rewrite ?zlen_f4_src, ?zlen_f4_dst, ?zlen_e6_dst; try done.
  - apply eq1c_iff. exists 0. lia.
  - unfold e6_src. by rewrite zlen_in6_bytes.
Qed.

Lemma egress_addr_diff_ok :
  0 <= egress_addr_diff cfg (ectx f) < 4294967296 /\
  egress_addr_diff cfg (ectx f) ≅ nsum (e6_src cfg ++ e6_dst cfg f) - nsum (f4_src f ++ f4_dst f).
Proof.
  unfold egress_addr_diff. rewrite egress_dst_bytes, egress_src_bytes by done.
  cbn [ectx e_saddr e_daddr]. rewrite !store32_ld32 by (try done; lia).
  fold (f4_src f) (f4_dst f).
  destruct (csum_diff_ok (f4_src f ++ f4_dst f) (e6_src cfg ++ e6_dst cfg f) 0) as [Hr Hc].
  - unfold f4_src, f4_dst. solve_bytes.
  - apply bytes_app. split; [apply bytes_in6_bytes|apply bytes_e6_dst].
  - by rewrite zlen_app, zlen_f4_src, zlen_f4_dst.
  - unfold e6_src. by rewrite zlen_app, zlen_in6_bytes, zlen_e6_dst.
  - unfold e6_src. rewrite !zlen_app, zlen_f4_src, zlen_f4_dst, zlen_in6_bytes, zlen_e6_dst. lia.
  - done.
  - rewrite u32_id by lia. by split; [lia|].
Qed.

Lemma egress_pseudo6_wire proto : 0 <= proto < 256 ->
  pseudo6_bytes (egress_pseudo6 cfg (ectx f) proto) =
    pseudo6_wire (e6_src cfg) (e6_dst cfg f) proto (f4_l4len f).
Proof.
  intros Hp. unfold pseudo6_bytes, egress_pseudo6, pseudo6_wire.
  cbn [p6_saddr p6_daddr p6_len p6_nexthdr]. rewrite !store32_htonl.
  change (prefix_copy (i6_saddr (egress_h6 cfg (ectx f)))) with (i6_saddr (egress_h6 cfg (ectx f))).
  change (prefix_copy (i6_daddr (egress_h6 cfg (ectx f)))) with (i6_daddr (egress_h6 cfg (ectx f))).
  rewrite egress_dst_bytes, egress_src_bytes by done. do 3 f_equal.
  by rewrite <- be32_bytes by done.
Qed.

(** The seed of a checksum over the IPv6 pseudo-header. *)
Lemma pseudo6_seed proto : 0 <= proto < 256 ->
  let seed := u32 (bpf_csum_diff [] (pseudo6_bytes (egress_pseudo6 cfg (ectx f) proto)) 0) in
  0 <= seed < 4294967296 /\
  seed ≅ nsum (pseudo6_wire (e6_src cfg) (e6_dst cfg f) proto (f4_l4len f)).
Proof.
  intros Hp seed. unfold seed. rewrite <- egress_pseudo6_wire by done.
  destruct (csum_push (pseudo6_bytes (egress_pseudo6 cfg (ectx f) proto)) 0) as [Hr Hc];
    rewrite ?zlen_pseudo6_bytes; auto with bytes; try lia.
Qed.

(** [w'] comes from [w] by a change of the transport part only. *)
Definition l4_step (w w' : world) (l' : list Z) : Prop :=
  frame w' = egress_hd f ++ l' /\ keeps (w_skb w) (w_skb w') /\ w_slots w' = w_slots w.

Lemma wp_egress_tcp Q R w :
  frame w = egress_hd f ++ l ->
  (18 <= zlen l -> forall w' d, l4_step w w' (splice 16 d l) -> zlen d = 2 ->
     (forall len, 0 <= len < 65536 ->
        csum_carried (skb_ip_summed (w_skb w)) 16 (pseudo4_wire (f4_src f) (f4_dst f) 6 len)
          (pseudo6_wire (e6_src cfg) (e6_dst cfg f) 6 len) l (splice 16 d l)) -> Q tt w') ->
  ((18 <= zlen l -> may_fail) -> forall w', w_slots w' = w_slots w ->
     R TC_ACT_SHOT (World (w_skb w') (bump CNT_EGRESS_DROP_HELPER (w_slots w')))) ->
  wp (egress_tcp cfg (ectx f) (zlen (egress_hd f))) Q R w.
Proof.
  intros Hw HQ HR. unfold egress_tcp. destruct egress_addr_diff_ok as [Hr Hc].
  apply (wp_csum_or_drop (egress_hd f) l 16); try done; [apply hd_bound|apply hd_even|].
  intros w' d Hz' Hd _ Hw' Hcs Hk Hs. apply (HQ ltac:(lia) w' d); [by repeat split; try apply Hk|done|].
  intros len Hln. apply Hcs. by rewrite nsum_pseudo_diff, Hc.
Qed.

(** The test that tells a partial checksum from none at all. *)
Lemma egress_p4_test :
  (csum_fold (bpf_csum_diff [] (egress_p4 (ectx f)) 0) =? 0) =
  (sum16 (pseudo4_wire (f4_src f) (f4_dst f) 17 (f4_l4len f)) mod 65535 =? 0).
Proof.
  pose proof f4_l4len_range as Hll. unfold egress_p4. cbn [ectx e_saddr e_daddr e_l4len].
  rewrite !store32_ld32, !store32_htonl by (try done; lia). fold (f4_src f) (f4_dst f).
  set (p := _ ++ _). assert (Hp : bytes p).
  { unfold p, f4_src, f4_dst. solve_bytes. }
  assert (Hpz : zlen p = 16) by (unfold p; rewrite !zlen_app, zlen_f4_src, zlen_f4_dst; len).
  destruct (csum_diff_ok [] p 0 bytes_nil Hp eq_refl) as [Hr Hc]; rewrite ?Hpz; try done.
  assert (Hnz : bpf_csum_diff [] p 0 <> 0).
  { apply csum_diff_nz; rewrite ?Hpz; try done. right. unfold p. rewrite !Forall_app.
    intros (_ & _ & H17 & _). unfold be32 in H17. rewrite !Forall_cons in H17. by destruct H17 as (_ & _ & _ & ? & _). }
  assert (Hs : sum16 p = sum16 (pseudo4_wire (f4_src f) (f4_dst f) 17 (f4_l4len f))).
  {
    rewrite sum16_pseudo4 by (try done; unfold even_len; by rewrite ?zlen_f4_src, ?zlen_f4_dst).
    unfold p. rewrite app_assoc, sum16_app.
    2: { unfold even_len. by rewrite zlen_app, zlen_f4_src, zlen_f4_dst. }
    unfold be32, byte_n. cbn [app sum16]. change (2 ^ (8 * 3)) with 16777216.
    change (2 ^ (8 * 2)) with 65536. change (2 ^ (8 * 1)) with 256. change (2 ^ (8 * 0)) with 1.
    unfold IPPROTO_UDP. mlia. }
  rewrite <- Hs. apply eq_true_iff_eq. rewrite !Z.eqb_eq, csum_fold_0 by done.
  change (sum16 p mod 65535 = 0) with (sum16 p ≅ 0). rewrite <- nsum_sum16_0.
  assert (E : bpf_csum_diff [] p 0 ≅ nsum p).
  { rewrite Hc. cbn [nsum]. by replace (0 + nsum p - 0) with (nsum p) by lia. }
  split; [intros [_ H0]; by rewrite <- E|intros H0; split; [done|by rewrite E]].
Qed.

(** A helper that fails here fails the program. *)
#[local] Abbreviation fails_with R w := (may_fail -> forall w' : world, w_slots w' = w_slots w ->
  R TC_ACT_SHOT (World (w_skb w') (bump CNT_EGRESS_DROP_HELPER (w_slots w')))).

(** The incremental update of a UDP checksum, with either set of flags. *)
Lemma wp_udp_update flags Q (R : Z -> world -> Prop) w :
  frame w = egress_hd f ++ l -> 8 <= zlen l -> Z.land flags 15 = 0 -> Z.testbit flags 4 = true ->
  Z.testbit flags 5 = true -> (Z.testbit flags 6 = false -> ld16 l 6 <> 0) ->
  (forall w' d, l4_step w w' (splice 6 d l) -> zlen d = 2 -> d <> [0; 0] ->
     (forall len, 0 <= len < 65536 ->
        csum_carried (skb_ip_summed (w_skb w)) 6 (pseudo4_wire (f4_src f) (f4_dst f) 17 len)
          (pseudo6_wire (e6_src cfg) (e6_dst cfg f) 17 len) l (splice 6 d l)) -> Q tt w') ->
  fails_with R w ->
  wp (r ← l4_csum_replace (zlen (egress_hd f) + 6) 0 (egress_addr_diff cfg (ectx f)) flags;
      when (r <? 0) (DROP CNT_EGRESS_DROP_HELPER)) Q R w.
Proof.
  intros Hw Hz8 F1 F2 F3 F4 HQ HR. pose proof f4_l4_bytes as Hl. fold l in Hl.
  pose proof hd_bound. pose proof hd_even as He. destruct egress_addr_diff_ok as [Hr Hc].
  apply (wp_csum_or_drop (egress_hd f) l 6); try done.
  - intros w' d Hz6 Hd Hnz Hw' Hcs Hk Hs. apply (HQ w' d); [by repeat split; try apply Hk|done|by apply Hnz|].
    intros len Hln. apply Hcs. by rewrite nsum_pseudo_diff, Hc.
  - intros Hm. apply HR, Hm. lia.
Qed.

(** The checksum of a datagram that came without one. *)
Lemma wp_udp_full Q (R : Z -> world -> Prop) w :
  frame w = egress_hd f ++ l -> 8 <= zlen l ->
  (f4_l4len f <= 10240 -> f4_l4len f <= zlen l -> forall w' d,
     l4_step w w' (splice 6 d l) -> zlen d = 2 -> d <> [0; 0] ->
     sum16 d + sum16 (pseudo6_wire (e6_src cfg) (e6_dst cfg f) 17 (f4_l4len f)) +
       sum16 (sub 0 (f4_l4len f) l) ≅ 0 -> Q tt w') ->
  ((f4_l4len f <= 10240 -> f4_l4len f <= zlen l -> may_fail) ->
     R TC_ACT_SHOT (World (w_skb w) (bump CNT_EGRESS_DROP_TOO_BIG (w_slots w)))) ->
  fails_with R w ->
  wp (full ← udp_full_csum (zlen (egress_hd f)) (f4_l4len f)
        (u32 (bpf_csum_diff [] (pseudo6_bytes (egress_pseudo6 cfg (ectx f) IPPROTO_UDP)) 0));
      match full with
      | None => DROP CNT_EGRESS_DROP_TOO_BIG
      | Some full =>
          r ← skb_store_bytes (zlen (egress_hd f) + 6) (store16 full) STORE_FLAGS;
          when (r <? 0) (DROP CNT_EGRESS_DROP_HELPER)
      end) Q R w.
Proof.
  intros Hw Hz8 HQ HI HR. pose proof f4_l4len_range as Hll. pose proof hd_bound.
  destruct (pseudo6_seed IPPROTO_UDP ltac:(done)) as [Hsr Hsc].
  apply wp_bind, (wp_udp_full_csum (egress_hd f) l); try done.
  intros Hle Hle' out Ho Hoc.
  apply (wp_store_or_drop (egress_hd f) l 6); [done|done|done|len|auto with bytes| |].
  - intros w' _ Hw' Hk Hs. apply (HQ Hle Hle' w' (store16 out)); [by repeat split; try apply Hk|..].
    + apply zlen_store16.
    + apply store16_nz; lia.
    + rewrite !sum16_nsum, nsum_store16, u16_id, <- !Z.mul_add_distr_l by lia.
      rewrite <- Hsc, <- Z.add_assoc, Hoc. by rewrite Z.mul_0_r.
  - rewrite zlen_store16. intros Hm. apply HR, Hm. lia.
Qed.

Lemma wp_egress_udp Q R w :
  frame w = egress_hd f ++ l -> f4_first f = true -> f4_proto f = 17 ->
  (egress_l4_verdict f = Translate -> forall w' l', l4_step w w' l' -> zlen l' = zlen l ->
     egress_l4_out cfg (skb_ip_summed (w_skb w)) f l l' -> Q tt w') ->
  (forall act w', stage (Some (egress_l4_verdict f)) w act w' -> R act w') ->
  wp (egress_udp cfg (ectx f) (zlen (egress_hd f))) Q R w.
Proof.
  intros Hw H1 Hp HQ HR. unfold egress_udp, egress_l4_verdict, egress_l4_out in *.
  rewrite H1, Hp in *. cbn [negb Z.eqb Pos.eqb] in *. fold l in HQ, HR |- *.
  pose proof f4_l4_bytes as Hl. fold l in Hl. pose proof hd_bound.
  assert (Hfail : fails_with R w) by (intros Hm w' Hs; apply HR, staged_fail; [done|in_list|done]).
  apply wp_bind, (wp_load_at (egress_hd f) l 6); [done|done|done|done| |].
  2: { intros r b Hr' Hm. apply wp_bind, wp_check_fail; [done|]. apply HR, staged_either; [|in_list|done].
       destruct (Z.ltb_spec (zlen l) 8); [by left|right; apply Hm; lia]. }
  intros Hz'. destruct (Z.ltb_spec (zlen l) 8); [lia|]. apply wp_bind, wp_check_ok. cbv zeta.
  assert (Hzs : forall d, zlen d = 2 -> zlen (splice 6 d l) = zlen l)
    by (intros d Hd; apply zlen_splice; lia).
  rewrite ld16_sub, Z.add_0_r, ld16_eqb_0, egress_p4_test by (try done; lia).
  unfold e4_no_csum in *. destruct (Z.eqb_spec (rd16 l 6) 0) as [E0|E0]; cbn [negb andb] in *.
  2: { apply wp_udp_update; try done; [|intros w' d Hst Hd Hnz Hcs; by apply (HQ eq_refl w' _ Hst); eauto].
       intros _ E. apply E0. apply Z.eqb_eq. rewrite <- ld16_eqb_0 by done. by apply Z.eqb_eq. }
  destruct (sum16 _ mod 65535 =? 0) eqn:Es; cbn [negb] in *.
  { apply wp_udp_update; try done. intros w' d Hst Hd Hnz Hcs. apply (HQ eq_refl w' _ Hst); eauto. }
  cbn [ectx e_is_frag e_l4len] in *. apply wp_bind, wp_when_drop; intros Ef; rewrite Ef in HQ, HR.
  { apply HR, staged_either; [by left|in_list|done]. }
  apply wp_udp_full; try done.
  - intros Hle Hle' w' d Hst Hd Hnz Hs.
    rewrite (proj2 (Z.ltb_ge _ _) Hle), (proj2 (Z.ltb_ge _ _) Hle') in HQ.
    apply (HQ eq_refl w' _ Hst); eauto.
  - intros Hm. apply HR, staged_either; [|in_list|done].
    destruct (Z.ltb_spec 10240 (f4_l4len f)); [by left|].
    destruct (Z.ltb_spec (zlen l) (f4_l4len f)); [by left|]. right. by apply Hm.
Qed.

(** The difference for an Echo message whose type changes. *)
Lemma egress_echo_diff t4 t6 c : is_byte t4 -> is_byte t6 -> is_byte c ->
  let seed := u32 (bpf_csum_diff [] (pseudo6_bytes (egress_pseudo6 cfg (ectx f) IPPROTO_ICMPV6)) 0) in
  let word t := store32 (bpf_htonl (Z.lor (Z.shiftl t 24) (Z.shiftl c 16))) in
  let diff := u32 (bpf_csum_diff (word t4) (word t6) seed) in
  0 <= diff < 4294967296 /\
  diff ≅ nsum (pseudo6_wire (e6_src cfg) (e6_dst cfg f) 58 (f4_l4len f) ++ [t6; c]) - nsum [t4; c].
Proof.
  intros H4 H6 Hc seed word diff.
  destruct (pseudo6_seed IPPROTO_ICMPV6 ltac:(done)) as [Hr Hs]. fold seed in Hr, Hs.
  destruct (csum_type_change t4 t6 c seed H4 H6 Hc Hr) as [Hr' Hs']. split; [done|].
  unfold diff, word. rewrite Hs', Hs, nsum_app; [done|].
  unfold even_len, pseudo6_wire, e6_src. by rewrite !zlen_app, zlen_in6_bytes, zlen_e6_dst.
Qed.

(** The new type and the checksum of an Echo message. *)
Lemma wp_egress_echo t6 Q (R : Z -> world -> Prop) w :
  frame w = egress_hd f ++ l -> is_byte t6 -> 2 <= zlen l ->
  (4 <= zlen l -> forall w' d, l4_step w w' (splice 2 d (splice 0 [t6] l)) -> zlen d = 2 ->
     (skb_ip_summed (w_skb w) <> CHECKSUM_PARTIAL ->
      sum16 (pseudo6_wire (e6_src cfg) (e6_dst cfg f) 58 (f4_l4len f)) +
        sum16 (splice 2 d (splice 0 [t6] l)) ≅ sum16 l) -> Q tt w') ->
  ((4 <= zlen l -> may_fail) -> forall w', w_slots w' = w_slots w ->
     R TC_ACT_SHOT (World (w_skb w') (bump CNT_EGRESS_DROP_HELPER (w_slots w')))) ->
  wp (let p6 := egress_pseudo6 cfg (ectx f) IPPROTO_ICMPV6 in
      let diff := u32 (bpf_csum_diff [] (pseudo6_bytes p6) 0) in
      let oldw := bpf_htonl (Z.lor (Z.shiftl (byte_at l 0) 24) (Z.shiftl (byte_at l 1) 16)) in
      let neww := bpf_htonl (Z.lor (Z.shiftl t6 24) (Z.shiftl (byte_at l 1) 16)) in
      let diff := u32 (bpf_csum_diff (store32 oldw) (store32 neww) diff) in
      r ← skb_store_bytes (zlen (egress_hd f)) [t6] STORE_FLAGS;
      when (r <? 0) (DROP CNT_EGRESS_DROP_HELPER) ;;
      r ← l4_csum_replace (zlen (egress_hd f) + 2) 0 diff BPF_F_PSEUDO_HDR;
      when (r <? 0) (DROP CNT_EGRESS_DROP_HELPER)) Q R w.
Proof.
  intros Hw B6 Hz2 HQ HR. pose proof f4_l4_bytes as Hl. fold l in Hl.
  pose proof hd_bound. pose proof hd_even as He. cbv zeta.
  pose proof (byte_at_range l 0 Hl) as B0. pose proof (byte_at_range l 1 Hl) as B1.
  destruct (egress_echo_diff (byte_at l 0) t6 (byte_at l 1) B0 B6 B1) as [Hr Hc].
  cbv zeta in Hr, Hc. set (diff := u32 (bpf_csum_diff (store32 _) _ _)) in *.
  apply wp_assoc, wp_bind, (wp_store_or_drop (egress_hd f) l 0); try done; [lia|solve_bytes| |].
  2: { change (zlen [t6]) with 1. intros Hm. apply HR. intros. apply Hm. lia. }
  intros w1 _ Hw1 [Hk1 Hk1'] Hs1.
  assert (Hz1 : zlen (splice 0 [t6] l) = zlen l) by (apply zlen_splice; len).
  apply (wp_csum_or_drop (egress_hd f) (splice 0 [t6] l) 2); try done; rewrite ?Hz1, ?Hk1'.
  - intros w2 d Hz4 Hd _ Hw2 Hcs [Hk2 Hk2'] Hs2.
    apply (HQ ltac:(lia) w2 d); [split; [done|]; split; [split|]; congruence|done|].
    intros Hst. specialize (Hcs _ _ Hc). pose proof (sum16_set_first t6 l ltac:(lia)) as Hsf.
    unfold csum_carried in Hcs. destruct (skb_ip_summed (w_skb w)); try done;
      rewrite sum16_app in Hcs by (unfold even_len, pseudo6_wire, e6_src;
        by rewrite !zlen_app, zlen_in6_bytes, zlen_e6_dst);
      cbn [sum16] in Hcs; unfold eq1c in *; mlia.
  - intros Hm w' Hs. apply HR; [|congruence]. intros. apply Hm. lia.
Qed.

Lemma wp_egress_icmp Q R w :
  frame w = egress_hd f ++ l -> f4_first f = true -> f4_proto f = 1 ->
  (egress_l4_verdict f = Translate -> forall w' l', l4_step w w' l' -> zlen l' = zlen l ->
     egress_l4_out cfg (skb_ip_summed (w_skb w)) f l l' -> Q tt w') ->
  (forall act w', stage (Some (egress_l4_verdict f)) w act w' -> R act w') ->
  wp (egress_icmp cfg (ectx f) (zlen (egress_hd f))) Q R w.
Proof.
  intros Hw H1 Hp HQ HR. unfold egress_icmp, egress_l4_verdict, egress_l4_out in *.
  rewrite H1, Hp in *. cbn [negb Z.eqb Pos.eqb] in *. fold l in HQ, HR |- *.
  apply wp_bind, (wp_load_at (egress_hd f) l 0); [done|lia|done|done| |].
  2: { intros r b Hr' Hm. apply wp_bind, wp_check_fail; [done|]. apply HR, staged_either; [|in_list|done].
       destruct (Z.ltb_spec (zlen l) 2); [by left|right; apply Hm; lia]. }
  intros Hz'. destruct (Z.ltb_spec (zlen l) 2); [lia|]. apply wp_bind, wp_check_ok.
  rewrite !byte_at_sub by lia. change (0 + 0) with 0. change (0 + 1) with 1.
  unfold ICMP_ECHO, ICMP_ECHOREPLY, ICMPV6_ECHO_REQUEST, ICMPV6_ECHO_REPLY. apply wp_bind.
  set (t6 := if byte_at l 0 =? 8 then 128 else 129) in *.
  assert (B6 : is_byte t6) by (unfold t6, is_byte; destruct (byte_at l 0 =? 8); lia).
  destruct ((byte_at l 0 =? 8) || (byte_at l 0 =? 0)) eqn:E; cbn [negb] in *.
  2: { apply orb_false_iff in E as [-> ->]. apply wp_DROP, HR, staged_either; [by left|in_list|done]. }
  assert (Ht : (if byte_at l 0 =? 8 then mret 128 else if byte_at l 0 =? 0 then mret 129
                else DROP CNT_EGRESS_DROP_ICMP_UNSUPPORTED) = mret (M := M) t6).
  { unfold t6. destruct (byte_at l 0 =? 8); [done|]. cbn [orb] in E. by rewrite E. }
  rewrite Ht. apply wp_ret, wp_egress_echo; [done|done|lia|..].
  - intros Hz4 w' d Hst Hd Hs. rewrite (proj2 (Z.ltb_ge _ _) Hz4) in HQ.
    apply (HQ eq_refl w' _ Hst); [|by exists d].
    rewrite !zlen_splice; rewrite ?zlen_splice; change (zlen [t6]) with 1; lia.
  - intros Hm w' Hs. apply HR, staged_either; [|in_list|done].
    destruct (Z.ltb_spec (zlen l) 4); [by left|right; by apply Hm].
Qed.

Lemma wp_egress_l4 Q R w :
  frame w = egress_hd f ++ l ->
  (egress_l4_verdict f = Translate -> forall w' l', l4_step w w' l' -> zlen l' = zlen l ->
     egress_l4_out cfg (skb_ip_summed (w_skb w)) f l l' -> Q tt w') ->
  (forall act w', stage (Some (egress_l4_verdict f)) w act w' -> R act w') ->
  wp (egress_l4 cfg (ectx f) (zlen (egress_hd f))) Q R w.
Proof.
  intros Hw HQ HR. unfold egress_l4. cbn [ectx e_first e_proto].
  assert (Hsame : egress_l4_verdict f = Translate ->
    egress_l4_out cfg (skb_ip_summed (w_skb w)) f l l -> wp (mret tt) Q R w).
  { intros Hv Ho. apply wp_ret. by apply (HQ Hv w l). }
  destruct (f4_first f) eqn:H1; cbn [negb].
  2: { apply Hsame; unfold egress_l4_verdict, egress_l4_out; by rewrite H1. }
  unfold IPPROTO_TCP, IPPROTO_UDP, IPPROTO_ICMP.
  destruct (Z.eqb_spec (f4_proto f) 6) as [Ep|Ep].
  { unfold egress_l4_verdict, egress_l4_out in *. rewrite H1, Ep in *.
    cbn [negb Z.eqb Pos.eqb] in *. fold l in HQ, HR |- *. apply wp_egress_tcp; [done| |].
    - intros Hz' w' d Hst Hd Hcs. destruct (Z.ltb_spec (zlen l) 18); [lia|].
      apply (HQ eq_refl w' (splice 16 d l)); [done|apply zlen_splice; lia|by exists d].
    - intros Hm w' Hs. apply HR, staged_either; [|in_list|done].
      destruct (Z.ltb_spec (zlen l) 18); [by left|right; by apply Hm]. }
  destruct (Z.eqb_spec (f4_proto f) 17) as [Eu|Eu]; [by apply wp_egress_udp|].
  destruct (Z.eqb_spec (f4_proto f) 1) as [Ei|Ei]; [by apply wp_egress_icmp|].
  apply Z.eqb_neq in Ep, Eu, Ei.
  apply Hsame; unfold egress_l4_verdict, egress_l4_out; by rewrite H1, Ep, Eu, Ei.
Qed.
End L4.

(** ** The program *)

Definition egress_done (w w' : world) : Prop :=
  egress_out cfg (skb_ip_summed (w_skb w)) (frame w) (frame w') /\
  skb_protocol (w_skb w') = ETH_P_IPV6 /\
  skb_ip_summed (w_skb w') = skb_ip_summed (w_skb w).

Definition egress_contract (w : world) (act : Z) (w' : world) : Prop :=
  obeys CNT_EGRESS_TRANSLATED egress_done
    (egress_verdict cfg (skb_headlen (w_skb w)) (frame w)) w act w' \/
  egress_verdict cfg (skb_headlen (w_skb w)) (frame w) <> Pass /\
  failed may_fail egress_drops w act w'.

Lemma egress_admit_None lin f : bytes f -> egress_admit cfg lin f = None ->
  rd16 f 12 = ETH_P_IP /\ 34 <= zlen f /\ 20 <= f4_hlen f /\ 0 <= f4_l4len f.
Proof.
  intros Hf. unfold egress_admit, f4_l4len. intros H. repeat case_match; try done.
  repeat match goal with E : (_ <? _) = false |- _ => apply Z.ltb_ge in E end.
  match goal with E : negb (rd16 _ _ =? _) = false |- _ => apply negb_false_iff, Z.eqb_eq in E end.
  lia.
Qed.

(** Only the first tests let a packet through. *)
Lemma egress_verdict_Pass lin f :
  egress_verdict cfg lin f = Pass <-> egress_admit cfg lin f = Some Pass.
Proof.
  unfold egress_verdict. destruct (egress_admit cfg lin f) as [v|]; [by split; congruence|].
  split; [|done]. unfold egress_options, egress_l4_verdict. repeat case_match; congruence.
Qed.

Lemma stage_contract v w w1 act w' :
  stage v w1 act w' -> w_slots w1 = w_slots w -> (v = Some Pass -> w1 = w) ->
  (egress_admit cfg (skb_headlen (w_skb w)) (frame w) = Some Pass -> act = TC_ACT_OK) ->
  (forall v', v = Some v' -> egress_verdict cfg (skb_headlen (w_skb w)) (frame w) = v') ->
  egress_contract w act w'.
Proof.
  intros Hst Hs HP HO Hv.
  assert (Hst' : stage v w act w').
  { destruct (decide (v = Some Pass)) as [->|Hne]; [by rewrite <- HP|by eapply staged_slots]. }
  assert (Hnp : failed may_fail egress_drops w act w' ->
    egress_verdict cfg (skb_headlen (w_skb w)) (frame w) <> Pass).
  { intros (_ & c & _ & -> & _) E. apply egress_verdict_Pass in E. by specialize (HO E). }
  destruct v as [v|].
  - unfold egress_contract. rewrite (Hv v eq_refl) in *.
    destruct (staged_obeys _ _ _ CNT_EGRESS_TRANSLATED egress_done _ _ _ Hst'); auto.
  - right. apply staged_None in Hst'. auto.
Qed.

Lemma wp_clat_egress w :
  (rd16 (frame w) 12 = ETH_P_IP -> skb_protocol (w_skb w) = ETH_P_IP) ->
  wp (clat_egress cfg) (egress_contract w) (egress_contract w) w.
Proof.
  intros Hproto. set (f := frame w). assert (Hf : bytes f) by apply frame_ok.
  set (lin := skb_headlen (w_skb w)). unfold clat_egress.
  apply wp_bind, wp_egress_parse; fold f lin.
  2: { intros act w' Hst HO. eapply stage_contract; [done|done|done|done|].
       intros v' Ea. unfold egress_verdict. fold f lin. by rewrite Ea. }
  intros w1 (Hw1 & [Hp1 Hst1] & Hs1) Ea. fold f in Hw1.
  destruct (egress_admit_None lin f Hf Ea) as (Hip & Hz & Hh & Hl).
  apply wp_bind, (wp_egress_reshape _ _ _ f); try done; [by rewrite Hp1, Hproto| |].
  2: { intros act w' Hst. eapply stage_contract; [done|done| |by fold f lin; rewrite Ea|].
       - unfold egress_options. by repeat case_match.
       - intros v' Eo. unfold egress_verdict. fold f lin. by rewrite Ea, Eo. }
  intros Eo w2 hdr room Hhdr Hroom Hw2 Hst2 Hp2 Hs2.
  apply wp_bind, (wp_egress_headers _ _ _ f hdr room); try done.
  2: { intros Hm w' Hs'. right. split; [by rewrite egress_verdict_Pass; fold f lin; rewrite Ea|].
       split; [done|]. exists CNT_EGRESS_DROP_HELPER. split; [in_list|].
       split; [done|]. cbn [w_slots]. congruence. }
  intros w3 Hw3 [Hp3 Hst3] Hs3. apply wp_bind, wp_egress_l4; try done.
  - intros Ev w4 l' (Hw4 & [Hp4 Hst4] & Hs4) Hzl Hout. apply wp_bind, wp_count, wp_ret. left.
    unfold egress_verdict. fold f lin. rewrite Ea, Eo, Ev. split; [done|]. split.
    { cbn [w_slots]. congruence. }
    split; [|split; cbn [w_skb]; congruence].
    exists l'. split; [done|]. split.
    + change (frame w4 = sub 0 12 f ++ be16 ETH_P_IPV6 ++ e6_header cfg f ++ e6_frag f ++ l').
      rewrite Hw4. unfold egress_hd. by rewrite <- !app_assoc.
    + by replace (skb_ip_summed (w_skb w)) with (skb_ip_summed (w_skb w3)) by congruence.
  - intros act w' Hst. eapply stage_contract; [done|congruence| |by fold f lin; rewrite Ea|].
    + intros [= E]. unfold egress_l4_verdict in E. by repeat case_match.
    + intros v' [= <-]. unfold egress_verdict. fold f lin. by rewrite Ea, Eo.
Qed.
End Proof.
