(* ===== verification/IngressSpec.v ===== *)
(** * Specification of the ingress program, on the wire

    What clat_ingress (src/bpf/clat.c) promises, in terms of the bytes of the
    IPv6 frame: which frames are CLAT return traffic and which go through
    untouched, which are dropped and how they are counted, and which IPv4 frame
    is made of the others, the translation of ICMPv6 errors included. *)

From S2P Require Import Prelude Endian Checksum Kernel Program Common Wire Rules Contract.
From S2P Require Import IcmpMap.

(** ** The fields of an IPv6 header at offset [o] *)

Definition h6_version (f : list Z) (o : Z) : Z := byte_at f o / 16.
Definition h6_class (f : list Z) (o : Z) : Z := byte_at f o mod 16 * 16 + byte_at f (o + 1) / 16.
Definition h6_plen (f : list Z) (o : Z) : Z := rd16 f (o + 4).
Definition h6_nh (f : list Z) (o : Z) : Z := byte_at f (o + 6).
Definition h6_hop (f : list Z) (o : Z) : Z := byte_at f (o + 7).
Definition h6_src (f : list Z) (o : Z) : list Z := sub (o + 8) 16 f.
Definition h6_dst (f : list Z) (o : Z) : list Z := sub (o + 24) 16 f.

(** The four bytes of an IPv4 address mapped into the prefix. *)
Definition h6_src4 (f : list Z) (o : Z) : list Z := sub (o + 20) 4 f.
Definition h6_dst4 (f : list Z) (o : Z) : list Z := sub (o + 36) 4 f.

(** A Fragment header follows the IPv6 header; its fields. *)
Definition h6_is_frag (f : list Z) (o : Z) : bool := h6_nh f o =? 44.
Definition h6_fo (f : list Z) (o : Z) : Z := rd16 f (o + 42).
Definition h6_frag_len (f : list Z) (o : Z) : Z := if h6_is_frag f o then 8 else 0.

(** The next header behind a Fragment header, if any. *)
Definition h6_upper (f : list Z) (o : Z) : Z :=
  if h6_is_frag f o then byte_at f (o + 40) else h6_nh f o.

(** The IPv4 identification and fragment field: those of the Fragment header,
    or zero and Don't Fragment. *)
Definition h6_id (f : list Z) (o : Z) : Z := if h6_is_frag f o then rd16 f (o + 46) else 0.
Definition h6_frag4 (f : list Z) (o : Z) : Z :=
  if h6_is_frag f o then h6_fo f o / 8 + (if Z.odd (h6_fo f o) then 8192 else 0) else 16384.
Definition h6_first (f : list Z) (o : Z) : bool :=
  negb (h6_is_frag f o) || (h6_fo f o / 8 =? 0).

(** The IPv4 protocol of a next header. *)
Definition proto4 (nh : Z) : Z := if nh =? 58 then 1 else nh.

(** An IPv4 header without options, with checksum bytes [ck]. *)
Definition h4_wire (tos tot id frag ttl proto : Z) (ck src dst : list Z) : list Z :=
  [69; tos] ++ be16 tot ++ be16 id ++ be16 frag ++ [ttl; proto] ++ ck ++ src ++ dst.

Section Spec.
Context `{T : Target} (cfg : consts).

(** ** CLAT return traffic *)

Definition in_clat_prefix (a : list Z) : bool :=
  bool_decide (sub 0 12 a = prefix_bytes (CLAT_PREFIX cfg)).

Definition is_pod (a : list Z) : bool := bool_decide (a = in6_bytes (POD_IP6 cfg)).

(** A quoted IPv6 header of a packet this pod sent through the CLAT. *)
Definition quotes_clat (f : list Z) (o : Z) : bool :=
  (h6_version f o =? 6) && is_pod (h6_src f o) && in_clat_prefix (h6_dst f o).

(** To the pod, from a mapped address; or an ICMPv6 error from elsewhere that
    quotes a CLAT packet. *)
Definition is_return (lin : Z) (f : list Z) : bool :=
  (14 <=? lin) && (rd16 f 12 =? ETH_P_IPV6) && (62 <=? zlen f) && (h6_version f 14 =? 6) &&
  is_pod (h6_dst f 14) &&
  (in_clat_prefix (h6_src f 14) ||
   ((h6_nh f 14 =? 58) && (102 <=? zlen f) && (1 <=? byte_at f 54) && (byte_at f 54 <=? 4) &&
    quotes_clat f 62)).

(** The transport part. *)
Definition f6_l4 (f : list Z) : list Z := drop (Z.to_nat (54 + h6_frag_len f 14)) f.
Definition f6_l4len (f : list Z) : Z := h6_plen f 14 - h6_frag_len f 14.

(** ** The verdict *)

(** The next headers that are not translated: Hop-by-Hop, Routing, Fragment,
    Authentication, No Next Header, Destination Options, Mobility, HIP and
    Shim6, by their numbers. *)
Definition ext_headers : list Z := [0; 43; 44; 51; 59; 60; 135; 139; 140].
Definition has_ext_header (nh : Z) : bool := existsb (Z.eqb nh) ext_headers.

(** An ICMPv6 error message [l]: the quoted IPv6 header is at offset 8.  Which
    errors are translated, and to what, is the table of the design. *)
Definition icmp_error_verdict (l : list Z) : verdict :=
  if bool_decide (design_error (byte_at l 0) (byte_at l 1) (rd32 l 4) = None)
    then Drop [CNT_INGRESS_DROP_ICMP_UNSUPPORTED]
  else if zlen l <? 48 then Drop [CNT_INGRESS_DROP_ICMP_INNER]
  else if negb (quotes_clat l 8) then Drop [CNT_INGRESS_DROP_ICMP_INNER]
  else if h6_is_frag l 8 && (zlen l <? 56) then Drop [CNT_INGRESS_DROP_ICMP_INNER]
  else if has_ext_header (h6_upper l 8) then Drop [CNT_INGRESS_DROP_ICMP_INNER]
  else if (h6_upper l 8 =? 58) && negb (h6_is_frag l 8) &&
          ((zlen l <? 50) ||
           (((byte_at l 48 =? 128) || (byte_at l 48 =? 129)) && (zlen l <? 52)))
    then Drop [CNT_INGRESS_DROP_ICMP_INNER]
  else Translate.

Definition ingress_l4_verdict (f : list Z) : verdict :=
  let l := f6_l4 f in
  if negb (h6_first f 14) then Translate
  else if h6_upper f 14 =? 6 then
    if zlen l <? 18 then Drop [CNT_INGRESS_DROP_HELPER] else Translate
  else if h6_upper f 14 =? 17 then
    if zlen l <? 8 then Drop [CNT_INGRESS_DROP_TRUNCATED]
    else if rd16 l 6 =? 0 then Drop [CNT_INGRESS_DROP_UDP_ZERO_CSUM]
    else Translate
  else if h6_upper f 14 =? 58 then
    if zlen l <? 8 then Drop [CNT_INGRESS_DROP_TRUNCATED]
    else if (byte_at l 0 =? 129) || (byte_at l 0 =? 128) then Translate
    else icmp_error_verdict l
  else Translate.

(** The checks up to the change of the packet. *)
Definition ingress_admit (f : list Z) : option verdict :=
  if h6_is_frag f 14 && (h6_plen f 14 <? 8) then Some (Drop [CNT_INGRESS_DROP_TRUNCATED])
  else if has_ext_header (h6_upper f 14) then Some (Drop [CNT_INGRESS_DROP_EXTHDR])
  else if (h6_upper f 14 =? 58) && h6_is_frag f 14 then Some (Drop [CNT_INGRESS_DROP_FRAG_ICMP])
  else None.

Definition ingress_verdict (lin : Z) (f : list Z) : verdict :=
  if negb (is_return lin f) then Pass
  else match ingress_admit f with
       | Some v => v
       | None => ingress_l4_verdict f
       end.

(** ** The frame after translation *)

Definition g4_src (f : list Z) : list Z :=
  if in_clat_prefix (h6_src f 14) then h6_src4 f 14 else store32 (ERR_IP4 cfg).
Definition g4_dst : list Z := store32 (POD_IP4 cfg).

(** The IPv4 header for a total length of [tot]. *)
Definition g4_header (f : list Z) (tot : Z) (ck : list Z) : list Z :=
  h4_wire (h6_class f 14) tot (h6_id f 14) (h6_frag4 f 14) (h6_hop f 14)
    (proto4 (h6_upper f 14)) ck (g4_src f) g4_dst.

Definition g6_pseudo (f : list Z) (nh len : Z) : list Z :=
  pseudo6_wire (h6_src f 14) (h6_dst f 14) nh len.

(** *** ICMPv6 errors *)

(** The quoted packet as IPv4. *)
Definition q4_header (l ck : list Z) : list Z :=
  h4_wire (h6_class l 8) (h6_plen l 8 + 20 - h6_frag_len l 8) (h6_id l 8) (h6_frag4 l 8)
    (h6_hop l 8) (proto4 (h6_upper l 8)) ck g4_dst (h6_dst4 l 8).

(** The MTU reported to IPv4: what is left for an IPv4 packet by the larger IPv6
    header and the Fragment header, at least 68, and within 16 bits. *)
Definition reported_mtu (l : list Z) : Z :=
  Z.max 68 (Z.min 65535 (rd32 l 4) - 20 - h6_frag_len l 8).

(** The second word of the ICMPv4 header of type [type4]. *)
Definition q4_rest (l : list Z) (type4 pointer4 : Z) : list Z :=
  if byte_at l 0 =? 2 then [0; 0] ++ be16 (reported_mtu l)
  else if type4 =? 12 then [pointer4; 0; 0; 0]
  else [0; 0; 0; 0].

(** What the quoted headers shrink by. *)
Definition q_shrink (l : list Z) : Z := 20 + h6_frag_len l 8.

(** The quoted transport part. *)
Definition q_l4 (l : list Z) : list Z := drop (Z.to_nat (48 + h6_frag_len l 8)) l.

(** The offset of its checksum field, for UDP and TCP. *)
Definition q_coff (l : list Z) : Z :=
  if h6_upper l 8 =? 17 then 6 else if h6_upper l 8 =? 6 then 16 else 0.

Definition q_is_echo (l : list Z) : bool :=
  (h6_upper l 8 =? 58) && negb (h6_is_frag l 8) &&
  ((byte_at l 48 =? 128) || (byte_at l 48 =? 129)).

(** The quoted transport checksum is there to be updated. *)
Definition q_has_csum (l : list Z) : bool :=
  negb (q_coff l =? 0) && (h6_frag4 l 8 mod 8192 =? 0) &&
  (q_coff l + 2 <=? zlen (q_l4 l)) && negb (rd16 (q_l4 l) (q_coff l) =? 0).

(** The quoted transport part [r] becomes [r']; [exact] is the condition
    under which 32-bit additions of checksum differences do not wrap, and
    [skip] the one under which the program may fail to read the quoted
    checksum, which it then leaves alone. *)
Definition quoted_l4_out (exact skip : Prop) (l r r' : list Z) : Prop :=
  if q_is_echo l then
    exists d, zlen d = 2 /\
      r' = splice 2 d (splice 0 [if byte_at l 48 =? 128 then 8 else 0] r) /\
      (exact -> sum16 r' ≅ sum16 (pseudo6_wire (h6_src l 8) (h6_dst l 8) 58 (h6_plen l 8)) + sum16 r)
  else if q_has_csum l then
    (exists d, zlen d = 2 /\ r' = splice (q_coff l) d r /\
      (exact -> forall len, 0 <= len < 65536 ->
         sum16 (pseudo4_wire g4_dst (h6_dst4 l 8) (h6_upper l 8) len) + sum16 r' ≅
         sum16 (pseudo6_wire (h6_src l 8) (h6_dst l 8) (h6_upper l 8) len) + sum16 r)) \/
    (skip /\ r' = r)
  else r' = r.

Definition icmp_error_out (exact skip : Prop) (st : ip_summed_t) (f l l' : list Z) : Prop :=
  exists type4 code4 pointer4 ck ck4 r',
    design_error (byte_at l 0) (byte_at l 1) (rd32 l 4) = Some (type4, code4, pointer4) /\
    zlen ck = 2 /\ zlen ck4 = 2 /\
    l' = [type4; code4] ++ ck ++ q4_rest l type4 pointer4 ++ q4_header l ck4 ++ r' /\
    inet_ok (q4_header l ck4) /\ quoted_l4_out exact skip l (q_l4 l) r' /\
    (st <> CHECKSUM_PARTIAL -> sum16 l' ≅ sum16 (g6_pseudo f 58 (f6_l4len f)) + sum16 l).

(** *** All protocols *)

Definition is_icmp_error (f : list Z) : bool :=
  (h6_upper f 14 =? 58) && negb ((byte_at (f6_l4 f) 0 =? 129) || (byte_at (f6_l4 f) 0 =? 128)).

Definition ingress_l4_out (exact skip : Prop) (st : ip_summed_t) (f l l' : list Z) : Prop :=
  if negb (h6_first f 14) then l' = l
  else if h6_upper f 14 =? 6 then
    exists d, zlen d = 2 /\ l' = splice 16 d l /\
      forall len, 0 <= len < 65536 ->
        csum_carried st 16 (g6_pseudo f 6 len) (pseudo4_wire (g4_src f) g4_dst 6 len) l l'
  else if h6_upper f 14 =? 17 then
    exists d, zlen d = 2 /\ d <> [0; 0] /\ l' = splice 6 d l /\
      forall len, 0 <= len < 65536 ->
        csum_carried st 6 (g6_pseudo f 17 len) (pseudo4_wire (g4_src f) g4_dst 17 len) l l'
  else if h6_upper f 14 =? 58 then
    if is_icmp_error f then icmp_error_out exact skip st f l l'
    else exists d, zlen d = 2 /\
      l' = splice 2 d (splice 0 [if byte_at l 0 =? 129 then 0 else 8] l) /\
      (st <> CHECKSUM_PARTIAL -> sum16 l' ≅ sum16 (g6_pseudo f 58 (f6_l4len f)) + sum16 l)
  else l' = l.

(** The total length, in 16 bits. *)
Definition g4_tot_len (f : list Z) : Z :=
  (f6_l4len f + 20) mod 65536 - (if is_icmp_error f then q_shrink (f6_l4 f) else 0).

Definition ingress_out (exact skip : Prop) (st : ip_summed_t) (f f' : list Z) : Prop :=
  exists ck l', zlen ck = 2 /\
    f' = sub 0 12 f ++ be16 ETH_P_IP ++ g4_header f (g4_tot_len f) ck ++ l' /\
    inet_ok (g4_header f (g4_tot_len f) ck) /\
    ingress_l4_out exact skip st f (f6_l4 f) l'.
End Spec.
