(* ===== verification/IngressProof.v ===== *)
(** * The ingress program meets its specification

    Each stage of [clat_ingress] is related to the wire-level description of
    IngressSpec, and the stages are composed into one contract,
    [wp_clat_ingress] (in IngressContract), from which the properties follow. *)

From S2P Require Import Prelude Endian Checksum Kernel Program Common Wire Rules Contract.
From S2P Require Import UdpCsum IcmpMap Ingress IngressSpec.

(** ** Addresses *)

Lemma bool_decide_app (a b c d : list Z) : zlen a = zlen c ->
  bool_decide (a ++ b = c ++ d) = bool_decide (a = c) && bool_decide (b = d).
Proof.
  intros Hl. rewrite <- bool_decide_and. apply bool_decide_ext. split.
  - intros E. apply app_inj_1 in E; [done|]. unfold zlen in Hl. lia.
  - by intros [-> ->].
Qed.

Section Addresses.
Context `{T : Target} (cfg : consts) (Hcfg : consts_ok cfg).

Lemma addr6_eq_wire l i a : bytes l -> 0 <= i -> i + 16 <= zlen l -> in6_ok a ->
  addr6_eq (in6_at l i) a = bool_decide (sub i 16 l = in6_bytes a).
Proof.
  intros Hl Hi Hz (H0 & H1 & H2 & H3). unfold addr6_eq, in6_at, in6_bytes.
  cbn [u6_0 u6_1 u6_2 u6_3]. rewrite !ld32_eqb by (done || lia).
  change 16 with (4 + (4 + (4 + 4))). rewrite !sub_split by lia.
  rewrite !bool_decide_app by (rewrite zlen_sub, zlen_store32; lia).
  rewrite <- !Z.add_assoc. by rewrite !andb_assoc.
Qed.

Lemma in_prefix_wire l i : bytes l -> 0 <= i -> i + 16 <= zlen l ->
  in_prefix cfg (in6_at l i) = in_clat_prefix cfg (sub i 16 l).
Proof.
  intros Hl Hi Hz. destruct Hcfg as ((H0 & H1 & H2 & H3) & _).
  unfold in_prefix, in6_at, in_clat_prefix, prefix_bytes.
  cbn [u6_0 u6_1 u6_2]. rewrite !ld32_eqb by (done || lia). rewrite sub_sub by lia.
  change (sub (i + 0) 12 l) with (sub (i + 0) (4 + (4 + 4)) l). rewrite !sub_split by lia.
  rewrite !bool_decide_app by (rewrite zlen_sub, zlen_store32; lia).
  rewrite <- !Z.add_assoc, Z.add_0_r, Z.add_0_l. by rewrite !andb_assoc.
Qed.

Lemma i6_version_wire l i : bytes l -> 0 <= i -> i + 40 <= zlen l ->
  i6_version (ipv6hdr_at l i) = h6_version l i.
Proof.
  intros. unfold i6_version, ipv6hdr_at, h6_version. cbn [i6_word0].
  rewrite store32_ld32, byte_at_sub by (done || lia). by rewrite Z.add_0_r.
Qed.

Lemma inner_is_clat_wire l i : bytes l -> 0 <= i -> i + 40 <= zlen l ->
  inner_is_clat cfg (ipv6hdr_at l i) = quotes_clat cfg l i.
Proof.
  intros. unfold inner_is_clat, quotes_clat, is_pod. rewrite i6_version_wire by done.
  unfold ipv6hdr_at. cbn [i6_saddr i6_daddr].
  rewrite addr6_eq_wire, in_prefix_wire by (try done; try lia; apply Hcfg).
  by rewrite !negb_orb, !negb_involutive.
Qed.

Lemma h6_class_wire l i : bytes l ->
  u8 (Z.shiftr (bpf_ntohl (ld32 l i)) 20) = h6_class l i.
Proof.
  intros Hl. rewrite ntohl_ld32, Z.shiftr_div_pow2 by done. unfold u8, rd32, h6_class.
  pose proof (byte_at_range l i Hl). pose proof (byte_at_range l (i + 1) Hl).
  pose proof (byte_at_range l (i + 2) Hl). pose proof (byte_at_range l (i + 3) Hl).
  change (2 ^ 20) with 1048576. change (2 ^ 8) with 256. mlia.
Qed.

(** The IPv4 fragment field of a Fragment header's offset field. *)
Lemma frag4_wire fo : 0 <= fo < 65536 ->
  Z.lor (Z.shiftr fo 3) (if negb (Z.land fo 1 =? 0) then IP_MF else 0) =
    fo / 8 + (if Z.odd fo then 8192 else 0).
Proof.
  intros Hfo. rewrite Z.shiftr_div_pow2 by lia. change (2 ^ 3) with 8.
  change 1 with (2 ^ 0). rewrite land_pow2, Z.bit0_odd by lia.
  destruct (Z.odd fo); [|rewrite Z.lor_0_r; lia].
  change IP_MF with (1 * 2 ^ 13). rewrite Z.lor_comm, lor_add by (change (2 ^ 13) with 8192; mlia).
  change (2 ^ 13) with 8192. lia.
Qed.

(** The low half of the identification. *)
Lemma ident_wire l i : bytes l -> u16 (bpf_ntohl (ld32 l i)) = rd16 l (i + 2).
Proof.
  intros Hl. rewrite ntohl_ld32 by done. unfold u16, rd32, rd16.
  pose proof (byte_at_range l i Hl). pose proof (byte_at_range l (i + 1) Hl).
  pose proof (byte_at_range l (i + 2) Hl). pose proof (byte_at_range l (i + 3) Hl).
  replace (i + 2 + 1) with (i + 3) by lia. change (2 ^ 16) with 65536. mlia.
Qed.
End Addresses.

(** The switch over the extension headers is a search in their list. *)
Lemma is_ext_hdr_wire nh : is_ext_hdr nh = has_ext_header nh.
Proof.
  unfold is_ext_hdr, has_ext_header, ext_headers, IPPROTO_HOPOPTS, IPPROTO_ROUTING,
    IPPROTO_FRAGMENT, IPPROTO_DSTOPTS, IPPROTO_AH, IPPROTO_NONE, IPPROTO_MH.
  cbn [existsb]. by number_cases nh.
Qed.

(** ** IPv4 headers *)

Lemma h4_wire_parts tos tot id frag ttl proto ck src dst :
  h4_wire tos tot id frag ttl proto ck src dst =
    ([69; tos] ++ be16 tot ++ be16 id ++ be16 frag ++ [ttl; proto]) ++ ck ++ src ++ dst.
Proof. unfold h4_wire. by rewrite <- !app_assoc. Qed.

Section Header.
Context {K : Kernel} `{T : Target} {may_fail : Prop} {KS : KernelSpec may_fail CNT_MAX K}.
Context (tos tot id frag ttl proto s d : Z).
Context (Htos : is_byte tos) (Httl : is_byte ttl) (Hproto : is_byte proto).

Let h : iphdr :=
  IpHdr 4 5 tos (u16 (bpf_htons tot)) (bpf_htons id) (bpf_htons frag) ttl proto 0 s d.

Lemma iphdr_bytes_wire ck :
  iphdr_bytes (IpHdr 4 5 tos (u16 (bpf_htons tot)) (bpf_htons id) (bpf_htons frag) ttl proto ck s d) =
    h4_wire tos tot id frag ttl proto (store16 ck) (store32 s) (store32 d).
Proof.
  unfold iphdr_bytes, h4_wire.
  cbn [i4_version i4_ihl i4_tos i4_tot_len i4_id i4_frag_off i4_ttl i4_protocol i4_check
    i4_saddr i4_daddr]. rewrite store16_u16, !store16_htons, !u8_id by done. reflexivity.
Qed.

(** The header with its checksum passes the receiver's test. *)
Lemma with_check_ok :
  iphdr_bytes (with_check h) =
    h4_wire tos tot id frag ttl proto (store16 (i4_check (with_check h))) (store32 s) (store32 d) /\
  inet_ok (h4_wire tos tot id frag ttl proto (store16 (i4_check (with_check h))) (store32 s) (store32 d)).
Proof.
  assert (E : iphdr_bytes (with_check h) = h4_wire tos tot id frag ttl proto
    (store16 (i4_check (with_check h))) (store32 s) (store32 d)) by apply iphdr_bytes_wire.
  split; [done|]. rewrite <- E. apply inet_ok_iff; [apply bytes_iphdr_bytes|].
  rewrite E. split.
  2: { rewrite h4_wire_parts, !Forall_app, !Forall_cons. intros [[[? _] _] _]. discriminate. }
  apply nsum_sum16_0. rewrite h4_wire_parts.
  set (A := [69; tos] ++ _). assert (HA : even_len A) by (unfold even_len, A; len; done).
  assert (H16 : forall c, even_len (store16 c)) by (intros; unfold even_len; by rewrite zlen_store16).
  rewrite !nsum_app by done.
  unfold with_check, h. cbn [i4_version i4_ihl i4_tos i4_tot_len i4_id i4_frag_off i4_ttl i4_protocol
    i4_check i4_saddr i4_daddr].
  set (b0 := iphdr_bytes _). assert (Hb0 : bytes b0) by apply bytes_iphdr_bytes.
  destruct (csum_diff_ok [] b0 0 bytes_nil Hb0 eq_refl) as [Hr Hc];
    unfold b0 in *; rewrite ?zlen_iphdr_bytes; try done. fold b0 in Hr, Hc |- *.
  pose proof (csum_fold_cong (bpf_csum_diff [] b0 0) Hr) as Hf.
  pose proof (csum_fold_range (bpf_csum_diff [] b0 0)).
  rewrite nsum_store16, u16_id by lia.
  generalize dependent (csum_fold (bpf_csum_diff [] b0 0)). intros ck Hf Hck. rewrite Hc in Hf.
  unfold b0 in Hf. rewrite iphdr_bytes_wire, h4_wire_parts in Hf. fold A in Hf.
  rewrite !nsum_app, nsum_store16 in Hf by done. change (u16 0) with 0 in Hf. cbn [nsum] in Hf.
  rewrite <- Hf. apply eq1c_iff. exists 0. lia.
Qed.
End Header.

Section Proof.
Context {K : Kernel} `{T : Target} {may_fail : Prop} {KS : KernelSpec may_fail CNT_MAX K}.
Context (cfg : consts) (Hcfg : consts_ok cfg).

#[local] Abbreviation stage := (staged may_fail ingress_drops).

(** ** The match *)

(** A test that lets the packet through, against a conjunct of the match. *)
Ltac pass_unless HQ HR :=
  let E := fresh "E" in
  apply wp_bind, wp_when; intros E;
  [apply negb_true_iff in E; rewrite E in HR; apply wp_ret_act, HR; [by left|done]
  |apply negb_false_iff in E; rewrite E in HQ, HR; cbn [andb] in HQ, HR].

(** A linearised buffer holds a frame of at least that length. *)
Lemma linear_frame w f n : frame w = f -> n <= skb_headlen (w_skb w) -> n <= zlen f.
Proof.
  intros Hw Hn. pose proof (skb_headlen_ok (w_skb w)) as H. fold (frame w) in H.
  rewrite Hw in H. lia.
Qed.

(** The test for an ICMPv6 error that quotes a CLAT packet. *)
Lemma wp_match_quoted Q R w f :
  bytes f -> frame w = f -> 54 <= zlen f ->
  let quoted := (h6_nh f 14 =? 58) && (102 <=? zlen f) && (1 <=? byte_at f 54) &&
                (byte_at f 54 <=? 4) && quotes_clat cfg f 62 in
  (quoted = true -> forall w', same_packet w w' -> 102 <= skb_headlen (w_skb w') ->
     Q (skb_headlen (w_skb w')) w') ->
  (forall w', (quoted = false \/ may_fail) -> same_packet w w' -> R TC_ACT_OK w') ->
  wp (when (negb (h6_nh f 14 =? 58)) (ret_act TC_ACT_OK) ;;
      ok ← ensure_linear 102;
      when (negb ok) (ret_act TC_ACT_OK) ;;
      n ← linear_len;
      when (n <? 102) (ret_act TC_ACT_OK) ;;
      icmp6 ← pkt_read 54 8;
      when ((byte_at icmp6 0 <? 1) || (4 <? byte_at icmp6 0)) (ret_act TC_ACT_OK) ;;
      b ← pkt_read 62 40;
      when (negb (inner_is_clat cfg (ipv6hdr_at b 0))) (ret_act TC_ACT_OK) ;;
      mret n) Q R w.
Proof.
  intros Hf Hw Hz quoted HQ HR. unfold quoted in *. clear quoted. pass_unless HQ HR.
  apply wp_bind, wp_ensure_linear; [done| |].
  2: { intros w2 Hw2 Hm. rewrite Hw in Hm. apply wp_bind, wp_when; [intros _|done].
       apply wp_ret_act, HR; [|done].
       destruct (Z.leb_spec 102 (zlen f)); [right; by apply Hm|by left]. }
  intros w2 Hw2 Hl2. assert (Hf2 : frame w2 = f) by (rewrite <- Hw; apply Hw2).
  pose proof (linear_frame w2 f 102 Hf2 Hl2).
  rewrite (proj2 (Z.leb_le 102 (zlen f))) in HQ, HR by lia. cbn [andb] in HQ, HR.
  apply wp_bind, wp_when; [done|intros _]. apply wp_bind, wp_linear_len.
  apply wp_bind, wp_when; [intros E'; apply Z.ltb_lt in E'; lia|intros _].
  apply wp_bind, wp_pkt_read; [lia|lia|]. rewrite Hf2, byte_at_sub, Z.add_0_r by lia.
  apply wp_bind, wp_when; intros E7.
  { apply wp_ret_act, HR; [left|done].
    destruct (Z.leb_spec 1 (byte_at f 54)), (Z.leb_spec (byte_at f 54) 4); try done.
    apply orb_true_iff in E7 as [E7|E7]; apply Z.ltb_lt in E7; lia. }
  apply orb_false_iff in E7 as [E7 E7']. apply Z.ltb_ge in E7, E7'.
  rewrite (proj2 (Z.leb_le 1 _)), (proj2 (Z.leb_le _ 4)) in HQ, HR by lia. cbn [andb] in HQ, HR.
  apply wp_bind, wp_pkt_read; [lia|lia|].
  rewrite Hf2, ipv6hdr_at_sub, inner_is_clat_wire by (try done; lia).
  pass_unless HQ HR. apply wp_ret. by apply HQ.
Qed.

Lemma wp_ingress_match Q R w :
  (is_return cfg (skb_headlen (w_skb w)) (frame w) = true -> forall w', same_packet w w' ->
     62 <= skb_headlen (w_skb w') ->
     Q (ipv6hdr_at (frame w) 14, skb_headlen (w_skb w'),
        in_clat_prefix cfg (h6_src (frame w) 14)) w') ->
  (forall w', (is_return cfg (skb_headlen (w_skb w)) (frame w) = false \/ may_fail) ->
     same_packet w w' -> R TC_ACT_OK w') ->
  wp (ingress_match cfg) Q R w.
Proof.
  intros HQ HR. unfold ingress_match, ETH_HLEN, IP6_HLEN, FRAG_HLEN, IPPROTO_ICMPV6,
    ICMPV6_DEST_UNREACH, ICMPV6_PARAMPROB. zlit.
  set (f := frame w) in *. assert (Hf : bytes f) by apply frame_ok.
  unfold is_return in *. set (lin := skb_headlen (w_skb w)) in *.
  apply wp_bind, wp_linear_len. fold lin. apply wp_bind, wp_when; intros E1.
  { apply wp_ret_act, HR; [left|done]. apply Z.ltb_lt in E1.
    by rewrite (proj2 (Z.leb_gt 14 lin)) by lia. }
  apply Z.ltb_ge in E1. rewrite (proj2 (Z.leb_le 14 lin)) in HQ, HR by lia.
  pose proof (linear_frame w f 14 eq_refl E1).
  apply wp_bind, wp_pkt_read; [lia|lia|]. fold f.
  rewrite ld16_sub, Z.add_0_l, ld16_eqb_htons by (try done; lia). cbn [andb] in HQ, HR.
  pass_unless HQ HR.
  apply wp_bind, wp_ensure_linear; [done| |].
  2: { intros w1 Hw1 Hm. apply wp_bind, wp_when; [intros _|done]. apply wp_ret_act, HR; [|done].
       destruct (Z.leb_spec 62 (zlen f)); [right; by apply Hm|by left]. }
  intros w1 Hw1 Hl1. pose proof Hw1 as (Hf1 & _ & _). fold f in Hf1.
  pose proof (linear_frame w1 f 62 Hf1 Hl1).
  rewrite (proj2 (Z.leb_le 62 (zlen f))) in HQ, HR by lia. cbn [andb] in HQ, HR.
  apply wp_bind, wp_when; [done|intros _]. apply wp_bind, wp_linear_len.
  apply wp_bind, wp_when; [intros E'; apply Z.ltb_lt in E'; lia|intros _].
  apply wp_bind, wp_pkt_read; [lia|lia|]. rewrite Hf1, ipv6hdr_at_sub by lia. cbv zeta.
  rewrite i6_version_wire by (try done; lia). pass_unless HQ HR.
  change (i6_daddr (ipv6hdr_at f 14)) with (in6_at f 38).
  rewrite addr6_eq_wire by (try done; try lia; apply Hcfg).
  change (sub 38 16 f) with (h6_dst f 14). fold (is_pod cfg (h6_dst f 14)). pass_unless HQ HR.
  replace (in_prefix cfg (i6_saddr (ipv6hdr_at f 14))) with (in_clat_prefix cfg (h6_src f 14)).
  2: { symmetry. unfold ipv6hdr_at. cbn [i6_saddr]. apply in_prefix_wire; try done; lia. }
  destruct (in_clat_prefix cfg (h6_src f 14)) eqn:E5; cbn [negb orb] in HQ, HR |- *.
  { apply wp_bind, wp_ret, wp_bind, wp_pkt_read; [lia|lia|].
    rewrite Hf1, ipv6hdr_at_sub by lia. apply wp_ret. by apply HQ. }
  change (i6_nexthdr (ipv6hdr_at f 14)) with (h6_nh f 14).
  apply wp_bind, wp_match_quoted; [done|done|lia| |].
  - intros Eq w2 Hw2 Hl2. assert (Hw02 : same_packet w w2) by by eapply same_packet_trans.
    pose proof Hw02 as (Hf2 & _ & _). fold f in Hf2. apply wp_bind, wp_pkt_read; [lia|lia|].
    rewrite Hf2, ipv6hdr_at_sub by lia. apply wp_ret, HQ; [done|done|lia].
  - intros w2 Hq Hw2. apply HR; [done|by eapply same_packet_trans].
Qed.

(** ** Parsing *)

(** The local variables of the program, read off the frame. *)
Definition gctx (f : list Z) : ingress_ctx :=
  IngressCtx (h6_class f 14) (h6_hop f 14) (h6_upper f 14) (f6_l4len f) (h6_id f 14)
    (h6_frag4 f 14) (h6_is_frag f 14) (h6_first f 14) (in_clat_prefix cfg (h6_src f 14))
    (in6_at f 22) (in6_at f 38).

Lemma wp_ingress_parse Q R w f :
  frame w = f -> 62 <= skb_headlen (w_skb w) ->
  (ingress_admit f = None -> Q (gctx f) w) ->
  (forall act w', stage (ingress_admit f) w act w' -> R act w') ->
  wp (ingress_parse (ipv6hdr_at f 14) (skb_headlen (w_skb w)) (in_clat_prefix cfg (h6_src f 14))) Q R w.
Proof.
  intros Hw Hl HQ HR. assert (Hf : bytes f) by (rewrite <- Hw; apply frame_ok).
  pose proof (linear_frame w f 62 Hw Hl).
  unfold ingress_parse, ETH_HLEN, IP6_HLEN, FRAG_HLEN, IPPROTO_ICMPV6, IPPROTO_FRAGMENT. zlit.
  unfold ingress_admit in *. cbv zeta.
  change (i6_nexthdr (ipv6hdr_at f 14)) with (h6_nh f 14). fold (h6_is_frag f 14).
  assert (Hend : (h6_is_frag f 14 && (h6_plen f 14 <? 8)) = false ->
    wp (when (is_ext_hdr (h6_upper f 14)) (DROP CNT_INGRESS_DROP_EXTHDR) ;;
        when ((h6_upper f 14 =? 58) && h6_is_frag f 14) (DROP CNT_INGRESS_DROP_FRAG_ICMP) ;;
        mret (gctx f)) Q R w).
  { intros E. rewrite E in HQ, HR. rewrite is_ext_hdr_wire.
    apply wp_bind, wp_when_drop; intros E1; rewrite E1 in HQ, HR; [by apply HR, staged_drop|].
    apply wp_bind, wp_when_drop; intros E2; rewrite E2 in HQ, HR; [by apply HR, staged_drop|].
    by apply wp_ret, HQ. }
  unfold ipv6hdr_at. cbn [i6_word0 i6_hop_limit i6_payload_len i6_saddr i6_daddr]. zlit.
  rewrite h6_class_wire, ntohs_ld16 by done. fold (h6_plen f 14).
  change (rd16 f 18) with (h6_plen f 14). apply wp_bind.
  destruct (h6_is_frag f 14) eqn:Ef; cbn [andb] in *.
  - apply wp_bind, wp_when_drop; intros E1; [apply Z.ltb_lt in E1; lia|].
    apply wp_bind, wp_when_drop; intros E2.
    { rewrite E2 in HR. by apply HR, staged_drop. }
    apply wp_bind, wp_pkt_read; [lia|lia|]. rewrite Hw, frag_hdr_at_sub by lia.
    unfold frag_hdr_at. cbn [fh_nexthdr fh_frag_off fh_identification]. zlit.
    rewrite ntohs_ld16, ident_wire, frag4_wire by (try done; by apply rd16_range). zlit.
    rewrite Z.shiftr_div_pow2 by lia. apply wp_ret. specialize (Hend E2).
    unfold gctx, f6_l4len, h6_frag_len, h6_upper, h6_id, h6_frag4, h6_first in Hend.
    rewrite Ef in Hend. exact Hend.
  - apply wp_ret. specialize (Hend eq_refl).
    unfold gctx, f6_l4len, h6_frag_len, h6_upper, h6_id, h6_frag4, h6_first in Hend.
    rewrite Ef, Z.sub_0_r in Hend. exact Hend.
Qed.

(** ** Reshaping *)

Lemma wp_ingress_reshape Q R w f :
  frame w = f -> skb_protocol (w_skb w) = ETH_P_IPV6 -> 62 <= zlen f ->
  (forall w' hdr, zlen hdr = 20 -> frame w' = sub 0 14 f ++ hdr ++ f6_l4 f ->
     skb_ip_summed (w_skb w') = skb_ip_summed (w_skb w) ->
     skb_protocol (w_skb w') = ETH_P_IP -> w_slots w' = w_slots w -> Q tt w') ->
  (may_fail -> forall w', w_slots w' = w_slots w ->
     R TC_ACT_SHOT (World (w_skb w') (bump CNT_INGRESS_DROP_HELPER (w_slots w')))) ->
  wp (ingress_reshape (gctx f)) Q R w.
Proof.
  intros Hw Hp Hz HQ HR. unfold ingress_reshape. cbn [gctx g_is_frag].
  assert (Hchange : forall w1, frame w1 = sub 0 54 f ++ f6_l4 f -> keeps (w_skb w) (w_skb w1) ->
    w_slots w1 = w_slots w ->
    wp (r ← skb_change_proto (bpf_htons ETH_P_IP) 0;
        when (r <? 0) (DROP CNT_INGRESS_DROP_HELPER)) Q R w1).
  { intros w1 Hw1 [Hp1 Hst1] Hs1. pose proof (zlen_nonneg (f6_l4 f)).
    assert (H54 : zlen (sub 0 54 f) = 54) by (apply zlen_sub; lia).
    apply wp_bind, wp_change_proto_6to4; [congruence|rewrite Hw1, zlen_app; lia| |].
    - intros w2 hdr Hhdr Hw2 Hp2 Hst2 Hs2. apply wp_check_ok.
      rewrite Hw1 in Hw2. change 54%nat with (Z.to_nat 54) in Hw2.
      rewrite drop_app_zlen, sub_app_l, sub_sub in Hw2 by (rewrite ?H54; unfold ETH_HLEN; lia).
      apply (HQ w2 hdr); try done; congruence.
    - intros r w' Hr Hm Hs. apply wp_check_fail; [done|]. apply HR; [done|congruence]. }
  apply wp_bind, wp_when; intros Ef.
  - apply wp_bind, wp_adjust_room_shrink; rewrite ?Hp, ?Hw; [by right|done|change (54 <= zlen f); lia|done| |];
      change (ETH_HLEN + net_base_len ETH_P_IPV6) with 54; change FRAG_HLEN with 8.
    + intros w1 Hl Hw1 Hk Hs. apply wp_check_ok, Hchange; [|done|done].
      rewrite Hw1. unfold f6_l4, h6_frag_len. by rewrite Ef.
    + intros r w' Hr Hm Hs. apply wp_check_fail; [done|]. apply HR; [apply Hm; lia|done].
  - apply Hchange; [|done|done]. rewrite Hw. unfold f6_l4, h6_frag_len. rewrite Ef.
    apply sub_drop. lia.
Qed.

(** ** The new header *)

Section Headers.
Context (f : list Z) (Hf : bytes f) (Hz : 62 <= zlen f).

Definition h4_ck (tot : Z) : list Z := store16 (i4_check (ingress_h4 cfg (gctx f) tot)).

Definition ingress_hd (tot : Z) : list Z :=
  sub 0 12 f ++ be16 ETH_P_IP ++ g4_header cfg f tot (h4_ck tot).

Lemma h6_class_range l o : bytes l -> is_byte (h6_class l o).
Proof.
  intros Hl. unfold h6_class, is_byte. pose proof (byte_at_range l o Hl).
  pose proof (byte_at_range l (o + 1) Hl). mlia.
Qed.

Lemma proto4_range l o : bytes l -> is_byte (proto4 (h6_upper l o)).
Proof.
  intros Hl. unfold proto4, h6_upper, h6_nh, is_byte. pose proof (byte_at_range l (o + 6) Hl).
  pose proof (byte_at_range l (o + 40) Hl). repeat case_match; lia.
Qed.

Lemma ingress_h4_wire tot :
  iphdr_bytes (ingress_h4 cfg (gctx f) tot) = g4_header cfg f tot (h4_ck tot) /\
  inet_ok (g4_header cfg f tot (h4_ck tot)).
Proof.
  unfold h4_ck, g4_header.
  destruct (with_check_ok (h6_class f 14) tot (h6_id f 14) (h6_frag4 f 14) (h6_hop f 14)
    (proto4 (h6_upper f 14))
    (if in_clat_prefix cfg (h6_src f 14) then ld32 f 34 else ERR_IP4 cfg) (POD_IP4 cfg)) as [E Hok];
    [by apply h6_class_range|by apply byte_at_range|by apply proto4_range|].
  assert (Hsrc : store32 (if in_clat_prefix cfg (h6_src f 14) then ld32 f 34 else ERR_IP4 cfg) =
    g4_src cfg f).
  { unfold g4_src. case_match; [|done]. by rewrite store32_ld32 by (done || lia). }
  rewrite Hsrc in E, Hok. by split.
Qed.

Lemma zlen_g4_header tot : zlen (g4_header cfg f tot (h4_ck tot)) = 20.
Proof. rewrite <- (proj1 (ingress_h4_wire tot)). apply zlen_iphdr_bytes. Qed.

Lemma zlen_ingress_hd tot : zlen (ingress_hd tot) = 34.
Proof. unfold ingress_hd. rewrite !zlen_app, zlen_g4_header, zlen_sub, zlen_be16 by lia. lia. Qed.

(** Overwriting the header in a frame that already has one. *)
Lemma splice_ingress_hd tot tot' l :
  splice 14 (g4_header cfg f tot' (h4_ck tot')) (ingress_hd tot ++ l) = ingress_hd tot' ++ l.
Proof.
  unfold ingress_hd. rewrite <- !app_assoc, (app_assoc (sub 0 12 f)).
  assert (E : zlen (sub 0 12 f ++ be16 ETH_P_IP) = 14) by (rewrite zlen_app, zlen_sub by lia; done).
  rewrite splice_app_r, E by lia. rewrite splice_app_0 by by rewrite !zlen_g4_header.
  by rewrite <- !app_assoc.
Qed.

Lemma wp_ingress_headers Q R w hdr :
  zlen hdr = 20 -> frame w = sub 0 14 f ++ hdr ++ f6_l4 f ->
  (forall w', frame w' = ingress_hd (g_tot_len (gctx f)) ++ f6_l4 f ->
     keeps (w_skb w) (w_skb w') -> w_slots w' = w_slots w -> Q tt w') ->
  (may_fail -> forall w', w_slots w' = w_slots w ->
     R TC_ACT_SHOT (World (w_skb w') (bump CNT_INGRESS_DROP_HELPER (w_slots w')))) ->
  wp (ingress_headers cfg (gctx f)) Q R w.
Proof.
  intros Hhdr Hw HQ HR. unfold ingress_headers. set (tot := g_tot_len (gctx f)) in *.
  rewrite (proj1 (ingress_h4_wire tot)). pose proof (zlen_g4_header tot) as Hh.
  assert (H14 : zlen (sub 0 14 f) = 14) by (apply zlen_sub; lia).
  pose proof (zlen_nonneg (f6_l4 f)).
  apply wp_assoc, wp_bind, (wp_store_or_drop (sub 0 14 f) (hdr ++ f6_l4 f) 0); try done.
  { by rewrite H14. }
  { rewrite <- (proj1 (ingress_h4_wire tot)). apply bytes_iphdr_bytes. }
  2: { intros Hm. apply HR, Hm. rewrite Hh, zlen_app. lia. }
  intros w1 _ Hw1 [Hp1 Hst1] Hs1. rewrite splice_app_0 in Hw1 by congruence.
  apply (wp_store_or_drop [] (frame w1) 12); try done; [len|auto with bytes| |].
  - intros w2 _ Hw2 [Hp2 Hst2] Hs2. apply HQ; [|split; congruence|congruence].
    rewrite Hw2, Hw1. rewrite splice_app_l by len. unfold ingress_hd. rewrite store16_htons.
    change 14 with (12 + 2). rewrite sub_split by lia.
    rewrite splice_app_r by (rewrite zlen_sub by lia; lia). rewrite zlen_sub by lia.
    rewrite splice_0 by (rewrite zlen_sub by lia; done). by rewrite <- !app_assoc.
  - intros Hm w' Hs. apply HR; [|congruence]. apply Hm. rewrite Hw1, zlen_store16, !zlen_app. lia.
Qed.
End Headers.

(** ** The transport part *)

Section L4.
Context (f : list Z) (Hf : bytes f) (Hz : 62 <= zlen f).

Let l := f6_l4 f.
Let hd := ingress_hd f (g_tot_len (gctx f)).

Lemma f6_l4_bytes : bytes l.
Proof. by apply bytes_drop. Qed.

Lemma zlen_hd : zlen hd = 34.
Proof. by apply zlen_ingress_hd. Qed.

Lemma zlen_g4_src : zlen (g4_src cfg f) = 4.
Proof.
  unfold g4_src, h6_src4. case_match; [rewrite zlen_sub by lia; done|apply zlen_store32].
Qed.

Lemma bytes_g4_src : bytes (g4_src cfg f).
Proof. unfold g4_src, h6_src4. case_match; auto with bytes. Qed.

Lemma zlen_h6_src : zlen (h6_src f 14) = 16.
Proof. apply zlen_sub; lia. Qed.

Lemma zlen_h6_dst : zlen (h6_dst f 14) = 16.
Proof. apply zlen_sub; lia. Qed.

Lemma g6_pseudo_even nh len : even_len (g6_pseudo f nh len).
Proof. unfold even_len, g6_pseudo, pseudo6_wire. by rewrite !zlen_app, zlen_h6_src, zlen_h6_dst. Qed.

Lemma ingress_nsum_pseudo_diff proto len : 0 <= len < 65536 ->
  nsum (pseudo4_wire (g4_src cfg f) (g4_dst cfg) proto len) - nsum (g6_pseudo f proto len) ≅
  nsum (g4_src cfg f ++ g4_dst cfg) - nsum (h6_src f 14 ++ h6_dst f 14).
Proof.
  intros Hl. unfold g6_pseudo. rewrite !nsum_sum16, sum16_pseudo6, sum16_pseudo4; try done;
    unfold even_len, g4_dst; rewrite ?zlen_g4_src, ?zlen_h6_src, ?zlen_h6_dst, ?zlen_store32; try done.
  apply eq1c_iff. exists 0. lia.
Qed.

Lemma ingress_addr_diff_ok :
  0 <= ingress_addr_diff cfg (gctx f) < 4294967296 /\
  ingress_addr_diff cfg (gctx f) ≅
    nsum (g4_src cfg f ++ g4_dst cfg) - nsum (h6_src f 14 ++ h6_dst f 14).
Proof.
  unfold ingress_addr_diff. cbn [gctx g_saddr6 g_daddr6].
  change (prefix_copy (in6_at f 22)) with (in6_at f 22).
  change (prefix_copy (in6_at f 38)) with (in6_at f 38).
  rewrite !in6_bytes_at by (done || lia).
  assert (Hs : store32 (i4_saddr (ingress_h4 cfg (gctx f) (g_tot_len (gctx f)))) = g4_src cfg f).
  { unfold ingress_h4, with_check, g4_src. cbn [i4_saddr gctx g_src_mapped g_saddr6 u6_3 in6_at].
    zlit. case_match; [|done]. by rewrite store32_ld32 by (done || lia). }
  rewrite Hs. change (sub 22 16 f) with (h6_src f 14). change (sub 38 16 f) with (h6_dst f 14).
  change (store32 (i4_daddr _)) with (g4_dst cfg).
  assert (Hz4 : zlen (g4_src cfg f ++ g4_dst cfg) = 8)
    by (unfold g4_dst; by rewrite zlen_app, zlen_g4_src, zlen_store32).
  destruct (csum_diff_u32 (h6_src f 14 ++ h6_dst f 14) (g4_src cfg f ++ g4_dst cfg) 0) as [Hr Hc];
    rewrite ?Hz4, ?zlen_app, ?zlen_h6_src, ?zlen_h6_dst; try done.
  - unfold h6_src, h6_dst. solve_bytes.
  - apply bytes_app. split; [apply bytes_g4_src|apply bytes_store32].
Qed.

(** Minus the ICMPv6 pseudo-header. *)
Lemma ingress_pseudo_diff_ok :
  0 <= ingress_pseudo_diff (gctx f) < 4294967296 /\
  ingress_pseudo_diff (gctx f) ≅ 0 - nsum (g6_pseudo f 58 (f6_l4len f)).
Proof.
  unfold ingress_pseudo_diff. set (p := Pseudo6 _ _ _ _).
  assert (E : pseudo6_bytes p = g6_pseudo f 58 (f6_l4len f)).
  { unfold pseudo6_bytes, p, g6_pseudo, pseudo6_wire. cbn [p6_saddr p6_daddr p6_len p6_nexthdr gctx
      g_saddr6 g_daddr6 g_payload_len]. rewrite !store32_htonl.
    change (prefix_copy (in6_at f 22)) with (in6_at f 22).
    change (prefix_copy (in6_at f 38)) with (in6_at f 38).
    by rewrite !in6_bytes_at by (done || lia). }
  destruct (csum_diff_u32 (pseudo6_bytes p) [] 0) as [Hr Hc]; rewrite ?zlen_pseudo6_bytes;
    auto with bytes; try done.
  split; [done|]. rewrite Hc, E. done.
Qed.

(** [w'] comes from [w] by a change of the transport part only. *)
Definition in_step (tot : Z) (w w' : world) (l' : list Z) : Prop :=
  frame w' = ingress_hd f tot ++ l' /\ keeps (w_skb w) (w_skb w') /\ w_slots w' = w_slots w.

Let exact := csum_folded (K:=K).

(** What every protocol's branch establishes. *)
Definition l4_done (w : world) (Q : unit -> world -> Prop) : Prop :=
  ingress_l4_verdict cfg f = Translate -> forall w' l', in_step (g4_tot_len f) w w' l' ->
    ingress_l4_out cfg exact may_fail (skb_ip_summed (w_skb w)) f l l' -> Q tt w'.

Lemma g4_tot_len_plain : is_icmp_error f = false -> g4_tot_len f = g_tot_len (gctx f).
Proof. intros E. unfold g4_tot_len. rewrite E, Z.sub_0_r. reflexivity. Qed.

Lemma wp_ingress_tcp Q R w :
  frame w = hd ++ l -> h6_first f 14 = true -> h6_upper f 14 = 6 -> l4_done w Q ->
  (forall act w', stage (Some (ingress_l4_verdict cfg f)) w act w' -> R act w') ->
  wp (ingress_tcp cfg (gctx f) 34) Q R w.
Proof.
  intros Hw H1 Hp HQ HR. unfold l4_done in HQ. rewrite g4_tot_len_plain in HQ.
  2: { unfold is_icmp_error. by rewrite Hp. }
  unfold ingress_tcp, ingress_l4_verdict, ingress_l4_out in *.
  rewrite H1, Hp in *. cbn [negb Z.eqb Pos.eqb] in *. fold l in HQ, HR |- *.
  destruct ingress_addr_diff_ok as [Hr Hc].
  apply (wp_csum_or_drop hd l 16); try done; rewrite ?zlen_hd; try done.
  - intros w' d Hz' Hd _ Hw' Hcs Hk Hs. destruct (Z.ltb_spec (zlen l) 18); [lia|].
    apply (HQ eq_refl w' (splice 16 d l)); [by repeat split; try apply Hk|].
    exists d. split; [done|]. split; [done|]. intros len Hln. apply Hcs.
    by rewrite ingress_nsum_pseudo_diff, Hc.
  - intros Hm w' Hs. apply HR, staged_either; [|in_list|done].
    destruct (Z.ltb_spec (zlen l) 18); [by left|right; apply Hm; lia].
Qed.

Lemma wp_ingress_udp Q R w :
  frame w = hd ++ l -> h6_first f 14 = true -> h6_upper f 14 = 17 -> l4_done w Q ->
  (forall act w', stage (Some (ingress_l4_verdict cfg f)) w act w' -> R act w') ->
  wp (ingress_udp cfg (gctx f) 34) Q R w.
Proof.
  intros Hw H1 Hp HQ HR. unfold l4_done in HQ. rewrite g4_tot_len_plain in HQ.
  2: { unfold is_icmp_error. by rewrite Hp. }
  unfold ingress_udp, ingress_l4_verdict, ingress_l4_out in *.
  rewrite H1, Hp in *. cbn [negb Z.eqb Pos.eqb] in *. fold l in HQ, HR |- *.
  destruct ingress_addr_diff_ok as [Hr Hc]. pose proof f6_l4_bytes as Hl. fold l in Hl.
  apply wp_bind, (wp_load_at hd l 6); try done; rewrite ?zlen_hd; try done.
  2: { intros r b Hr' Hm. apply wp_bind, wp_check_fail; [done|]. apply HR, staged_either; [|in_list|done].
       destruct (Z.ltb_spec (zlen l) 8); [by left|right; apply Hm; lia]. }
  intros Hz'. destruct (Z.ltb_spec (zlen l) 8); [lia|]. apply wp_bind, wp_check_ok.
  rewrite ld16_sub, Z.add_0_r, ld16_eqb_0 by (try done; lia).
  apply wp_bind, wp_when_drop; intros E; rewrite E in HQ, HR; [by apply HR, staged_drop|].
  apply (wp_csum_or_drop hd l 6); try done; rewrite ?zlen_hd; try done.
  - intros _ _ E'. apply Z.eqb_neq in E. apply E, Z.eqb_eq. rewrite <- ld16_eqb_0 by done.
    by apply Z.eqb_eq.
  - intros w' d _ Hd Hnz Hw' Hcs Hk Hs.
    apply (HQ eq_refl w' (splice 6 d l)); [by repeat split; try apply Hk|].
    exists d. split; [done|]. split; [by apply Hnz|]. split; [done|]. intros len Hln. apply Hcs.
    by rewrite ingress_nsum_pseudo_diff, Hc.
  - intros Hm w' Hs. apply HR, staged_either; [right; apply Hm; lia|in_list|done].
Qed.

Lemma wp_ingress_echo Q R w :
  frame w = hd ++ l -> h6_first f 14 = true -> h6_upper f 14 = 58 -> 8 <= zlen l ->
  (byte_at l 0 =? 129) || (byte_at l 0 =? 128) = true -> l4_done w Q ->
  (forall act w', stage (Some (ingress_l4_verdict cfg f)) w act w' -> R act w') ->
  wp (ingress_echo (sub 0 8 l) (ingress_pseudo_diff (gctx f)) 34) Q R w.
Proof.
  intros Hw H1 Hp Hz8 E HQ HR. unfold l4_done in HQ.
  assert (Hne : is_icmp_error f = false) by (unfold is_icmp_error; fold l; by rewrite E, andb_false_r).
  rewrite g4_tot_len_plain in HQ by done.
  unfold ingress_echo, ingress_l4_verdict, ingress_l4_out in *.
  rewrite H1, Hp, Hne in *. cbn [negb Z.eqb Pos.eqb] in *. fold l in HQ, HR |- *. rewrite E in HQ, HR.
  destruct (Z.ltb_spec (zlen l) 8); [lia|].
  pose proof f6_l4_bytes as Hl. fold l in Hl.
  rewrite !byte_at_sub by lia. zlit. unfold ICMPV6_ECHO_REPLY, ICMP_ECHOREPLY, ICMP_ECHO.
  set (t4 := if byte_at l 0 =? 129 then 0 else 8) in *. cbv zeta. unfold type_word.
  pose proof (byte_at_range l 0 Hl) as B0. pose proof (byte_at_range l 1 Hl) as B1.
  assert (B4 : is_byte t4) by (unfold t4, is_byte; destruct (byte_at l 0 =? 129); lia).
  destruct ingress_pseudo_diff_ok as [Hpr Hpc].
  destruct (csum_type_change (byte_at l 0) t4 (byte_at l 1) _ B0 B4 B1 Hpr) as [Hr Hc].
  cbv zeta in Hr, Hc. set (diff := u32 (bpf_csum_diff (store32 _) _ _)) in *.
  apply wp_assoc, wp_bind, (wp_store_or_drop hd l 0); rewrite ?zlen_hd; try done; [solve_bytes| |].
  2: { intros Hm w' Hs. apply HR, staged_either; [right; apply Hm; change (zlen [t4]) with 1; lia|in_list|done]. }
  intros w1 _ Hw1 [Hk1 Hk1'] Hs1.
  assert (Hz1 : zlen (splice 0 [t4] l) = zlen l) by (apply zlen_splice; len).
  apply (wp_csum_or_drop hd (splice 0 [t4] l) 2); rewrite ?zlen_hd; try done; rewrite ?Hz1, ?Hk1'.
  - intros w2 d Hz2 Hd _ Hw2 Hcs [Hk2 Hk2'] Hs2.
    apply (HQ eq_refl w2 (splice 2 d (splice 0 [t4] l))).
    { split; [done|]. split; [split|]; congruence. }
    exists d. split; [done|]. split; [done|]. intros Hst.
    specialize (Hcs (g6_pseudo f 58 (f6_l4len f) ++ [byte_at l 0; byte_at l 1]) [t4; byte_at l 1]).
    pose proof (sum16_set_first t4 l ltac:(lia)) as Hsf.
    unfold csum_carried in Hcs. rewrite sum16_app, nsum_app in Hcs by apply g6_pseudo_even.
    assert (Hd' : diff ≅ nsum [t4; byte_at l 1] -
      (nsum (g6_pseudo f 58 (f6_l4len f)) + nsum [byte_at l 0; byte_at l 1])).
    { rewrite Hc, Hpc. apply eq1c_iff. exists 0. lia. }
    specialize (Hcs Hd'). cbn [sum16] in Hcs.
    destruct (skb_ip_summed (w_skb w)); try done; unfold eq1c in *; mlia.
  - intros Hm w' Hs. apply HR, staged_either; [right; apply Hm; lia|in_list|congruence].
Qed.
End L4.
End Proof.
