(* ===== verification/IcmpError.v ===== *)
(** * Translation of ICMPv6 errors

    The quoted packet inside an ICMPv6 error becomes the quoted IPv4 packet of
    an ICMPv4 error ([inner_parse], [inner_echo], [inner_transport] and
    [ingress_icmp_error] of Ingress); the sum of the whole message, which the
    program maintains in [d], is what the outer checksum is made of. *)

From S2P Require Import Prelude Endian Checksum Kernel Program Common Wire Rules Contract.
From S2P Require Import UdpCsum IcmpMap Ingress IngressSpec IngressProof.

(** ** The MTU *)

Lemma mtu4_reported l : mtu4 (rd32 l 4) (h6_is_frag l 8) = reported_mtu l.
Proof.
  unfold mtu4, reported_mtu, h6_frag_len, IP6_HLEN, IP4_HLEN, FRAG_HLEN. repeat case_match; lia.
Qed.

Lemma reported_mtu_range l : 68 <= reported_mtu l < 65536.
Proof. unfold reported_mtu, h6_frag_len. case_match; lia. Qed.

(** A packet of the new MTU fits the old one after translation. *)
Lemma reported_mtu_fits l :
  68 <= reported_mtu l /\
  (reported_mtu l = 68 \/ reported_mtu l + 20 + h6_frag_len l 8 <= rd32 l 4).
Proof. unfold reported_mtu. lia. Qed.

Section Quoted.
Context {K : Kernel} `{T : Target} {may_fail : Prop} {KS : KernelSpec may_fail CNT_MAX K}.
Context (cfg : consts) (Hcfg : consts_ok cfg).
Context (l : list Z) (Hl : bytes l).

(** What the program keeps of the quoted packet. *)
Definition qctx : inner_ctx :=
  InnerCtx (sub 8 40 l) (if h6_is_frag l 8 then sub 48 8 l else replicate 8 0) (h6_upper l 8)
    (h6_id l 8) (h6_frag4 l 8) (h6_is_frag l 8).

(** The quoted headers are complete, of a CLAT packet, and translatable. *)
Definition quoted_ok : bool :=
  (48 <=? zlen l) && quotes_clat cfg l 8 && (negb (h6_is_frag l 8) || (56 <=? zlen l)) &&
  negb (has_ext_header (h6_upper l 8)).

Lemma quoted_ok_len : quoted_ok = true -> 48 + h6_frag_len l 8 <= zlen l.
Proof.
  unfold quoted_ok, h6_frag_len. intros H. apply andb_true_iff in H as [H _].
  apply andb_true_iff in H as [H H1]. apply andb_true_iff in H as [H _]. apply Z.leb_le in H.
  destruct (h6_is_frag l 8); [|lia]. apply Z.leb_le in H1. lia.
Qed.

Lemma wp_inner_parse hd Q R w :
  frame w = hd ++ l -> zlen hd = 34 ->
  (quoted_ok = true -> Q qctx w) ->
  ((quoted_ok = true -> may_fail) ->
     R TC_ACT_SHOT (World (w_skb w) (bump CNT_INGRESS_DROP_ICMP_INNER (w_slots w)))) ->
  wp (inner_parse cfg 34) Q R w.
Proof.
  intros Hw Hhd HQ HR. unfold inner_parse, IP6_HLEN, FRAG_HLEN, IPPROTO_FRAGMENT. zlit.
  unfold quoted_ok in *.
  apply wp_bind, (wp_load_at hd l 8); try done; rewrite ?Hhd; try done.
  2: { intros r b Hr Hm. apply wp_bind, wp_check_fail; [done|]. apply HR.
       destruct (Z.leb_spec 48 (zlen l)); [intros _; apply Hm; lia|done]. }
  intros Hz. rewrite (proj2 (Z.leb_le 48 (zlen l))) in HQ, HR by lia. cbn [andb] in HQ, HR.
  apply wp_bind, wp_check_ok. rewrite ipv6hdr_at_sub, inner_is_clat_wire by (try done; lia). cbv zeta.
  apply wp_bind, wp_when_drop; intros E1.
  { apply HR. apply negb_true_iff in E1. by rewrite E1. }
  apply negb_false_iff in E1. rewrite E1 in HQ, HR. cbn [andb] in HQ, HR.
  change (i6_nexthdr (ipv6hdr_at l 8)) with (h6_nh l 8). fold (h6_is_frag l 8).
  assert (Hend : negb (h6_is_frag l 8) || (56 <=? zlen l) = true ->
    wp (when (is_ext_hdr (h6_upper l 8)) (DROP CNT_INGRESS_DROP_ICMP_INNER) ;; mret qctx) Q R w).
  { intros E. rewrite E in HQ, HR. rewrite is_ext_hdr_wire.
    apply wp_bind, wp_when_drop; intros E2; rewrite E2 in HQ, HR;
      [by apply HR|by apply wp_ret, HQ]. }
  unfold qctx, h6_upper, h6_id, h6_frag4 in Hend.
  apply wp_bind. destruct (h6_is_frag l 8) eqn:Ef; cbn [negb orb] in *.
  2: { apply wp_ret. by specialize (Hend eq_refl). }
  apply wp_bind, (wp_load_at hd l 48); try done; rewrite ?Hhd; try done.
  2: { intros r b Hr Hm. apply wp_bind, wp_check_fail; [done|]. apply HR.
       destruct (Z.leb_spec 56 (zlen l)); [intros _; apply Hm; lia|done]. }
  intros Hz'. apply wp_bind, wp_check_ok. rewrite frag_hdr_at_sub by lia.
  unfold frag_hdr_at. cbn [fh_nexthdr fh_frag_off fh_identification]. zlit.
  rewrite ntohs_ld16, ident_wire, frag4_wire by (try done; by apply rd16_range). zlit.
  apply wp_ret. apply Hend, Z.leb_le. lia.
Qed.

(** ** The new headers *)

Section Headers.
Context (Hz : 48 + h6_frag_len l 8 <= zlen l).

Lemma frag_len_cases : h6_frag_len l 8 = if h6_is_frag l 8 then 8 else 0.
Proof. reflexivity. Qed.

Lemma q_len : 48 <= zlen l.
Proof. rewrite frag_len_cases in Hz. destruct (h6_is_frag l 8); lia. Qed.

Lemma qctx_in6 : ipv6hdr_at (q_in6 qctx) 0 = ipv6hdr_at l 8.
Proof. apply ipv6hdr_at_sub; [done|]. pose proof q_len. lia. Qed.

Definition q_ck : list Z := store16 (i4_check (new_in4 cfg qctx)).

Lemma new_in4_wire :
  iphdr_bytes (new_in4 cfg qctx) = q4_header cfg l q_ck /\ inet_ok (q4_header cfg l q_ck).
Proof.
  unfold q_ck, q4_header, new_in4. rewrite qctx_in6. pose proof q_len.
  cbn [i6_word0 i6_payload_len i6_hop_limit i6_daddr ipv6hdr_at u6_3 in6_at
    qctx q_id q_frag4 q_nh q_frag]. zlit.
  rewrite h6_class_wire, ntohs_ld16 by done. change (rd16 l 12) with (h6_plen l 8).
  unfold FRAG_HLEN, IP4_HLEN, IPPROTO_ICMPV6, IPPROTO_ICMP. fold (h6_frag_len l 8).
  fold (proto4 (h6_upper l 8)).
  destruct (with_check_ok (h6_class l 8) (h6_plen l 8 + 20 - h6_frag_len l 8) (h6_id l 8)
    (h6_frag4 l 8) (h6_hop l 8) (proto4 (h6_upper l 8)) (POD_IP4 cfg) (ld32 l 44)) as [E Hok];
    [by apply h6_class_range|by apply byte_at_range|by apply proto4_range|].
  rewrite (store32_ld32 l 44) in E, Hok by (done || lia).
  by split.
Qed.

Context (m : icmp_map) (pointer4 : Z).
Context (Hm : is_byte (m_type m)) (Hm' : is_byte (m_code m)) (Hp4 : is_byte pointer4).

Lemma new_icmp4_wire :
  icmphdr_bytes (new_icmp4 m (byte_at l 0) (rd32 l 4) pointer4 (q_frag qctx)) =
    [m_type m; m_code m; 0; 0] ++ q4_rest l (m_type m) pointer4.
Proof.
  unfold icmphdr_bytes, new_icmp4, q4_rest, ICMPV6_PKT_TOOBIG, ICMP_PARAMETERPROB.
  cbn [ic_type ic_code ic_checksum ic_un qctx q_frag]. rewrite !u8_id by done.
  assert (H0 : store16 0 = [0; 0]) by (unfold store16; by destruct little_endian).
  rewrite H0. cbn [app]. do 4 f_equal. destruct (byte_at l 0 =? 2).
  - rewrite H0, store16_htons, mtu4_reported, u16_id; [done|].
    pose proof (reported_mtu_range l). lia.
  - destruct (m_type m =? 12).
    + unfold is_byte in Hp4. rewrite store32_htonl, Z.shiftl_mul_pow2, u32_id
        by (try lia; change (2 ^ 24) with 16777216; lia).
      change (2 ^ 24) with 16777216. rewrite <- be32_bytes by (unfold is_byte; lia). f_equal. lia.
    + unfold store32. by destruct little_endian.
Qed.

Definition q_new : list Z :=
  [m_type m; m_code m; 0; 0] ++ q4_rest l (m_type m) pointer4 ++ q4_header cfg l q_ck.

Lemma q_new_bytes :
  icmphdr_bytes (new_icmp4 m (byte_at l 0) (rd32 l 4) pointer4 (q_frag qctx)) ++
    iphdr_bytes (new_in4 cfg qctx) = q_new.
Proof. rewrite new_icmp4_wire, (proj1 new_in4_wire). unfold q_new. by rewrite <- app_assoc. Qed.

Lemma zlen_q_new : zlen q_new = 28.
Proof. rewrite <- q_new_bytes, zlen_app, zlen_icmphdr_bytes, zlen_iphdr_bytes. lia. Qed.

Lemma bytes_q_new : bytes q_new.
Proof. rewrite <- q_new_bytes. apply bytes_app. auto with bytes. Qed.

(** The outer sum after the headers were exchanged. *)
Lemma error_diff_ok diff : 0 <= diff < 4294967296 ->
  let d := if q_frag qctx
    then u32 (bpf_csum_diff (sub 0 8 l ++ q_in6 qctx ++ q_infh qctx) q_new diff)
    else u32 (bpf_csum_diff (sub 0 8 l ++ q_in6 qctx) q_new diff) in
  0 <= d < 4294967296 /\ d ≅ diff + nsum q_new - nsum (sub 0 (48 + h6_frag_len l 8) l).
Proof.
  intros Hd d. unfold d. pose proof zlen_q_new as Hn. pose proof bytes_q_new as Hb.
  cbn [qctx q_frag q_in6 q_infh]. rewrite frag_len_cases in *.
  destruct (h6_is_frag l 8).
  - replace (sub 0 (48 + 8) l) with (sub 0 8 l ++ sub 8 40 l ++ sub 48 8 l)
      by (change (48 + 8) with (8 + (40 + 8)); by rewrite !sub_split by lia).
    apply csum_diff_u32; rewrite ?Hn, ?zlen_app, ?zlen_sub by lia; try done. solve_bytes.
  - replace (sub 0 (48 + 0) l) with (sub 0 8 l ++ sub 8 40 l)
      by (change (48 + 0) with (8 + 40); by rewrite !sub_split by lia).
    apply csum_diff_u32; rewrite ?Hn, ?zlen_app, ?zlen_sub by lia; try done. solve_bytes.
Qed.
End Headers.

(** ** The quoted transport part *)

(** The checksum of a quoted packet: [oc] with the difference [id] taken
    off, provided the 32-bit addition does not wrap. *)
Lemma quoted_csum id oc : 0 <= id < 4294967296 -> 0 <= oc < 65536 ->
  let nc := csum_fold (u32 (id + u16 (Z.lnot oc))) in
  0 <= nc < 65536 /\ (id <= 65535 -> nc ≅ oc - id).
Proof.
  intros Hid Hoc nc. unfold nc. split; [apply csum_fold_range|]. intros Hsmall.
  assert (E : u16 (Z.lnot oc) = 65535 - oc).
  { unfold u16, Z.lnot. change (2 ^ 16) with 65536. mlia. }
  rewrite E, u32_id by lia. pose proof (csum_fold_cong (id + (65535 - oc)) ltac:(lia)).
  unfold eq1c in *. mlia.
Qed.

Lemma folded_u32 from to seed : csum_folded (K:=K) -> u32 (bpf_csum_diff from to seed) <= 65535.
Proof. intros H. specialize (H from to seed). rewrite u32_id by lia. lia. Qed.

Let r := q_l4 l.
Let exact := csum_folded (K:=K).

Context (Hz : 48 + h6_frag_len l 8 <= zlen l).

Lemma r_bytes : bytes r.
Proof. by apply bytes_drop. Qed.

Lemma zlen_r : zlen r = zlen l - (48 + h6_frag_len l 8).
Proof.
  unfold r, q_l4. rewrite zlen_drop. unfold h6_frag_len in *. destruct (h6_is_frag l 8); lia.
Qed.

(** The state after the quoted transport part became [r']. *)
Definition q_step (hd : list Z) (d : Z) (w : world) (d' : Z) (w' : world) (r' : list Z) : Prop :=
  frame w' = hd ++ r' /\ zlen r' = zlen r /\ 0 <= d' < 4294967296 /\
  d' ≅ d + nsum r' - nsum r /\ keeps (w_skb w) (w_skb w') /\ w_slots w' = w_slots w.

Lemma q_src_dst :
  in6_bytes (prefix_copy (i6_saddr (ipv6hdr_at l 8))) = h6_src l 8 /\
  in6_bytes (prefix_copy (i6_daddr (ipv6hdr_at l 8))) = h6_dst l 8.
Proof.
  pose proof (q_len Hz). unfold ipv6hdr_at. cbn [i6_saddr i6_daddr].
  change (prefix_copy (in6_at l (8 + 8))) with (in6_at l 16).
  change (prefix_copy (in6_at l (8 + 24))) with (in6_at l 32).
  by rewrite !in6_bytes_at by (done || lia).
Qed.

(** Minus the pseudo-header of the quoted ICMPv6 packet. *)
Lemma quoted_pseudo_diff :
  let p := Pseudo6 (prefix_copy (i6_saddr (ipv6hdr_at l 8))) (prefix_copy (i6_daddr (ipv6hdr_at l 8)))
             (bpf_htonl (bpf_ntohs (i6_payload_len (ipv6hdr_at l 8)))) (bpf_htonl IPPROTO_ICMPV6) in
  let idiff := u32 (bpf_csum_diff (pseudo6_bytes p) [] 0) in
  0 <= idiff < 4294967296 /\
  idiff ≅ 0 - nsum (pseudo6_wire (h6_src l 8) (h6_dst l 8) 58 (h6_plen l 8)).
Proof.
  intros p idiff. unfold idiff.
  assert (E : pseudo6_bytes p = pseudo6_wire (h6_src l 8) (h6_dst l 8) 58 (h6_plen l 8)).
  { unfold pseudo6_bytes, p, pseudo6_wire. cbn [p6_saddr p6_daddr p6_len p6_nexthdr].
    destruct q_src_dst as [-> ->]. rewrite !store32_htonl. cbn [i6_payload_len ipv6hdr_at]. zlit.
    by rewrite ntohs_ld16 by done. }
  destruct (csum_diff_u32 (pseudo6_bytes p) [] 0) as [Hr Hc]; rewrite ?zlen_pseudo6_bytes;
    auto with bytes; try done.
  split; [done|]. rewrite Hc, E. done.
Qed.

(** A checksum field rewritten. *)
Lemma nsum_field co nc k : 0 <= co -> co + 2 <= zlen k -> Z.even co = true -> 0 <= nc < 65536 ->
  nsum (splice co (store16 nc) k) = nsum k + nc - ld16 k co.
Proof.
  intros H0 Hco He Hnc. pose proof (nsum_splice co (store16 nc) k) as E. unfold even_len in E.
  rewrite zlen_store16, nsum_store16, u16_id, nsum_sub_2 in E by lia.
  specialize (E ltac:(lia) ltac:(lia) He eq_refl). lia.
Qed.

Definition q_echo_type (t : Z) : Z := if t =? 128 then 8 else 0.

(** The sum of an Echo message with a new type and checksum. *)
Lemma nsum_echo_rewrite nt nc : 4 <= zlen r -> 0 <= nc < 65536 ->
  nsum (splice 2 (store16 nc) (splice 0 [nt] r)) =
    nsum r + nsum [nt; byte_at r 1] - nsum [byte_at r 0; byte_at r 1] + nc - ld16 r 2.
Proof.
  intros Hz4 Hnc. assert (Hz1 : zlen (splice 0 [nt] r) = zlen r) by (apply zlen_splice; len).
  pose proof (nsum_field 2 nc (splice 0 [nt] r) ltac:(lia) ltac:(lia) eq_refl Hnc) as E.
  pose proof (nsum_set_first nt r ltac:(lia)) as E1.
  assert (Eo : ld16 (splice 0 [nt] r) 2 = ld16 r 2).
  { unfold ld16. f_equal; unfold splice; change (Z.to_nat 0 + length [nt])%nat with 1%nat;
      rewrite take_0; cbn [app]; change (nt :: drop 1 r) with ([nt] ++ drop 1 r);
      rewrite byte_at_app_r by done; rewrite byte_at_drop by done; reflexivity. }
  rewrite Eo in E. lia.
Qed.

(** The numbers of the Echo branch: the new checksum [nc], and the outer sum
    after type and checksum have changed. *)
Lemma quoted_echo_sums d : 4 <= zlen r -> 0 <= d < 4294967296 ->
  let in6 := ipv6hdr_at l 8 in
  let p := Pseudo6 (prefix_copy (i6_saddr in6)) (prefix_copy (i6_daddr in6))
             (bpf_htonl (bpf_ntohs (i6_payload_len in6))) (bpf_htonl IPPROTO_ICMPV6) in
  let nt := q_echo_type (byte_at r 0) in
  let ow := store32 (type_word (byte_at r 0) (byte_at r 1)) in
  let nw := store32 (type_word nt (byte_at r 1)) in
  let idiff := u32 (bpf_csum_diff ow nw (u32 (bpf_csum_diff (pseudo6_bytes p) [] 0))) in
  let nc := csum_fold (u32 (idiff + u16 (Z.lnot (ld16 r 2)))) in
  let d' := u32 (bpf_csum_diff (store32 (word16 (ld16 r 2))) (store32 (word16 nc))
                   (u32 (bpf_csum_diff ow nw d))) in
  let r' := splice 2 (store16 nc) (splice 0 [nt] r) in
  0 <= nc < 65536 /\ 0 <= d' < 4294967296 /\ d' ≅ d + nsum r' - nsum r /\
  (exact -> sum16 r' ≅
     sum16 (pseudo6_wire (h6_src l 8) (h6_dst l 8) 58 (h6_plen l 8)) + sum16 r).
Proof.
  intros Hz4 Hd in6 p nt ow nw idiff nc d' r'. pose proof r_bytes as Hr.
  pose proof (byte_at_range r 0 Hr) as B0. pose proof (byte_at_range r 1 Hr) as B1.
  assert (Bn : is_byte nt) by (unfold nt, q_echo_type, is_byte; case_match; lia).
  assert (Hoc : 0 <= ld16 r 2 < 65536) by by apply ld16_range.
  destruct quoted_pseudo_diff as [Hp1 Hp2]. cbv zeta in Hp1, Hp2. fold in6 p in Hp1, Hp2.
  destruct (csum_type_change (byte_at r 0) nt (byte_at r 1) _ B0 Bn B1 Hp1) as [Hi1 Hi2].
  destruct (quoted_csum idiff (ld16 r 2) Hi1 Hoc) as [Hnc Hncc].
  destruct (csum_type_change (byte_at r 0) nt (byte_at r 1) d B0 Bn B1 Hd) as [Hd1 Hd1c].
  destruct (csum_word_change (ld16 r 2) nc _ Hoc Hnc Hd1) as [Hd2 Hd2c].
  pose proof (nsum_echo_rewrite nt nc Hz4 Hnc) as Hns. fold r' in Hns.
  split; [done|]. split; [exact Hd2|]. split.
  - etrans; [exact Hd2c|]. rewrite Hd1c, Hns. apply eq1c_iff. exists 0. lia.
  - intros Hex. specialize (Hncc (folded_u32 _ _ _ Hex)). fold nc in Hncc.
    rewrite !sum16_nsum, <- Z.mul_add_distr_l, Hns.
    assert (E : nc - ld16 r 2 ≅ nsum (pseudo6_wire (h6_src l 8) (h6_dst l 8) 58 (h6_plen l 8)) -
      nsum [nt; byte_at r 1] + nsum [byte_at r 0; byte_at r 1]).
    { rewrite Hncc. unfold idiff, ow, nw, type_word. rewrite Hi2, Hp2. apply eq1c_iff. exists 0. lia. }
    apply eq1c_mul; [done|]. unfold eq1c in *. mlia.
Qed.

(** The Echo branch writes type and checksum and adds both to the sum. *)
Lemma wp_inner_echo hd d Q R w :
  frame w = hd ++ r -> zlen hd = 62 -> 0 <= d < 4294967296 ->
  h6_upper l 8 = 58 -> h6_is_frag l 8 = false ->
  (2 <= zlen r -> (q_is_echo l = true -> 4 <= zlen r) -> forall d' w' r',
     q_step hd d w d' w' r' -> quoted_l4_out cfg exact may_fail l r r' -> Q d' w') ->
  ((2 <= zlen r -> (q_is_echo l = true -> 4 <= zlen r) -> may_fail) ->
     R TC_ACT_SHOT (World (w_skb w) (bump CNT_INGRESS_DROP_ICMP_INNER (w_slots w)))) ->
  (may_fail -> forall w', w_slots w' = w_slots w ->
     R TC_ACT_SHOT (World (w_skb w') (bump CNT_INGRESS_DROP_HELPER (w_slots w')))) ->
  wp (inner_echo (qctx) 62 d) Q R w.
Proof.
  intros Hw Hhd Hd Hup Hfr HQ HI HH. unfold inner_echo. rewrite qctx_in6 by done.
  pose proof r_bytes as Hr. pose proof zlen_r as Hzr.
  assert (Hb48 : byte_at l 48 = byte_at r 0).
  { unfold r, q_l4, h6_frag_len. rewrite Hfr. by rewrite byte_at_drop by lia. }
  assert (Hecho : q_is_echo l = (byte_at r 0 =? 128) || (byte_at r 0 =? 129)).
  { unfold q_is_echo. by rewrite Hup, Hfr, Hb48. }
  apply wp_bind, (wp_load_at hd r 0); try done; rewrite ?Hhd; try done.
  2: { intros rc b Hrc Hm. apply wp_bind, wp_check_fail; [done|]. apply HI. intros. apply Hm. lia. }
  intros Hz2. apply wp_bind, wp_check_ok. rewrite !byte_at_sub by lia. zlit.
  unfold ICMPV6_ECHO_REQUEST, ICMPV6_ECHO_REPLY, ICMP_ECHO, ICMP_ECHOREPLY. cbv zeta.
  rewrite <- Hecho. destruct (q_is_echo l) eqn:Eq.
  2: { apply wp_ret. apply (HQ ltac:(lia) ltac:(done) d w r).
       - split; [done|]. split; [done|]. split; [done|]. split; [|by repeat split].
         apply eq1c_iff. exists 0. lia.
       - unfold quoted_l4_out, q_has_csum, q_coff. by rewrite Eq, Hup. }
  fold (q_echo_type (byte_at r 0)).
  apply wp_bind, (wp_load_at hd r 2); try done; rewrite ?Hhd; try done.
  2: { intros rc b Hrc Hm. apply wp_bind, wp_check_fail; [done|]. apply HI. intros _ H4.
       apply Hm. specialize (H4 eq_refl). lia. }
  intros Hz4. apply wp_bind, wp_check_ok. rewrite ld16_sub by lia. change (2 + 0) with 2.
  destruct (quoted_echo_sums d ltac:(lia) Hd) as (Hnc & Hd' & Hdc & Hsum).
  cbv zeta in Hnc, Hd', Hdc, Hsum.
  set (nt := q_echo_type (byte_at r 0)) in *. set (nc := csum_fold (u32 (_ + u16 (Z.lnot _)))) in *.
  assert (Bn : is_byte nt) by (unfold nt, q_echo_type, is_byte; case_match; lia).
  apply wp_assoc, wp_bind, (wp_store_or_drop hd r 0); rewrite ?Hhd; try done; [solve_bytes| |].
  2: { intros Hm. apply HH, Hm. change (zlen [nt]) with 1. lia. }
  intros w1 _ Hw1 [Hk1 Hk1'] Hs1.
  assert (Hz1 : zlen (splice 0 [nt] r) = zlen r) by (apply zlen_splice; len).
  apply wp_assoc, wp_bind, (wp_store_or_drop hd (splice 0 [nt] r) 2); rewrite ?Hhd; try done;
    [len|auto with bytes| |].
  2: { rewrite zlen_store16, Hz1. intros Hm w' Hs. apply HH; [apply Hm; lia|congruence]. }
  intros w2 _ Hw2 [Hk2 Hk2'] Hs2. apply wp_ret.
  apply (HQ ltac:(lia) ltac:(lia) _ w2 (splice 2 (store16 nc) (splice 0 [nt] r))).
  - split; [done|]. split; [rewrite zlen_splice; rewrite ?zlen_store16; lia|].
    split; [done|]. split; [done|split; [split|]; congruence].
  - unfold quoted_l4_out. rewrite Eq, Hb48. exists (store16 nc).
    split; [apply zlen_store16|]. by split.
Qed.

(** ** A quoted TCP or UDP checksum *)

Lemma quoted_addr_diff :
  let id6 := u32 (bpf_csum_diff
    (in6_bytes (prefix_copy (i6_saddr (ipv6hdr_at l 8))) ++
     in6_bytes (prefix_copy (i6_daddr (ipv6hdr_at l 8))))
    (store32 (i4_saddr (new_in4 cfg qctx)) ++ store32 (i4_daddr (new_in4 cfg qctx))) 0) in
  0 <= id6 < 4294967296 /\
  id6 ≅ nsum (g4_dst cfg ++ h6_dst4 l 8) - nsum (h6_src l 8 ++ h6_dst l 8).
Proof.
  intros id6. unfold id6. destruct q_src_dst as [-> ->]. pose proof (q_len Hz).
  assert (E : store32 (i4_saddr (new_in4 cfg qctx)) ++ store32 (i4_daddr (new_in4 cfg qctx)) =
    g4_dst cfg ++ h6_dst4 l 8).
  { unfold new_in4, with_check. rewrite qctx_in6 by done.
    cbn [i4_saddr i4_daddr i6_daddr ipv6hdr_at u6_3 in6_at]. zlit.
    by rewrite store32_ld32 by (done || lia). }
  rewrite E. unfold g4_dst.
  destruct (csum_diff_u32 (h6_src l 8 ++ h6_dst l 8) (store32 (POD_IP4 cfg) ++ h6_dst4 l 8) 0) as [H1 H2];
    unfold h6_src, h6_dst, h6_dst4; rewrite ?zlen_app, ?zlen_sub, ?zlen_store32 by lia; try done;
    try solve_bytes.
Qed.

Lemma quoted_pseudo_shift proto len : 0 <= len < 65536 ->
  nsum (pseudo4_wire (g4_dst cfg) (h6_dst4 l 8) proto len) -
    nsum (pseudo6_wire (h6_src l 8) (h6_dst l 8) proto len) ≅
  nsum (g4_dst cfg ++ h6_dst4 l 8) - nsum (h6_src l 8 ++ h6_dst l 8).
Proof.
  intros Hl'. pose proof (q_len Hz).
  rewrite !nsum_sum16, sum16_pseudo6, sum16_pseudo4; try done;
    unfold even_len, g4_dst, h6_dst4, h6_src, h6_dst; rewrite ?zlen_store32, ?zlen_sub by lia; try done.
  apply eq1c_iff. exists 0. lia.
Qed.

Lemma wp_inner_transport hd d Q R w :
  frame w = hd ++ r -> zlen hd = 62 -> 0 <= d < 4294967296 -> q_is_echo l = false ->
  (forall d' w' r', q_step hd d w d' w' r' -> quoted_l4_out cfg exact may_fail l r r' -> Q d' w') ->
  (may_fail -> forall w', w_slots w' = w_slots w ->
     R TC_ACT_SHOT (World (w_skb w') (bump CNT_INGRESS_DROP_HELPER (w_slots w')))) ->
  wp (inner_transport cfg qctx 62 (q_coff l) d) Q R w.
Proof.
  intros Hw Hhd Hd Hne HQ HH. unfold inner_transport. rewrite qctx_in6 by done.
  pose proof r_bytes as Hr. destruct quoted_addr_diff as [Hi Hic]. cbv zeta in Hi, Hic.
  pose proof (folded_u32 (in6_bytes (prefix_copy (i6_saddr (ipv6hdr_at l 8))) ++
     in6_bytes (prefix_copy (i6_daddr (ipv6hdr_at l 8))))
    (store32 (i4_saddr (new_in4 cfg qctx)) ++ store32 (i4_daddr (new_in4 cfg qctx))) 0) as Hfold.
  cbv zeta. set (id6 := u32 (bpf_csum_diff (_ ++ _) _ 0)) in *.
  unfold quoted_l4_out in HQ. rewrite Hne in HQ.
  change IP_OFFSET with (Z.ones 13). rewrite Z.land_ones by lia. change (2 ^ 13) with 8192.
  change (q_frag4 qctx) with (h6_frag4 l 8).
  assert (Hco : q_coff l = 0 \/ q_coff l = 6 \/ q_coff l = 16) by (unfold q_coff; repeat case_match; auto).
  assert (Hskip : q_has_csum l = false \/ may_fail -> Q d w).
  { intros E. apply (HQ d w r); [|destruct E as [->|Hm]; [done|case_match; auto]].
    split; [done|]. split; [done|]. split; [done|]. split; [|by repeat split].
    apply eq1c_iff. exists 0. lia. }
  unfold q_has_csum in HQ, Hskip. fold r in HQ, Hskip.
  destruct (negb (q_coff l =? 0) && (h6_frag4 l 8 mod 8192 =? 0)) eqn:E1; cbn [andb] in HQ, Hskip.
  2: { apply wp_ret, Hskip. by left. }
  assert (Hc0 : q_coff l <> 0) by (intros E; rewrite E in E1; done).
  apply wp_bind, (wp_load_at hd r (q_coff l)); rewrite ?Hhd; try done; [lia| |].
  2: { intros rc b Hrc Hm. destruct (Z.eqb_spec rc 0); [lia|]. cbn [andb]. apply wp_ret.
       apply Hskip. destruct (Z.leb_spec (q_coff l + 2) (zlen r)); [right; apply Hm; lia|by left]. }
  intros Hz2. rewrite (proj2 (Z.leb_le _ (zlen r))) in HQ, Hskip by lia. cbn [andb Z.eqb] in HQ, Hskip |- *.
  rewrite ld16_sub, Z.add_0_r, ld16_eqb_0 by (try done; lia).
  destruct (rd16 r (q_coff l) =? 0) eqn:E2; cbn [negb] in HQ, Hskip |- *.
  { apply wp_ret, Hskip. by left. }
  clear Hskip. set (oc := ld16 r (q_coff l)). assert (Hoc : 0 <= oc < 65536) by by apply ld16_range.
  destruct (quoted_csum id6 oc Hi Hoc) as [Hnc Hncc]. cbv zeta in Hnc, Hncc.
  set (nc := csum_fold (u32 (id6 + u16 (Z.lnot oc)))) in *.
  destruct (csum_word_change oc nc d Hoc Hnc Hd) as [Hd2 Hd2c]. cbv zeta in Hd2, Hd2c.
  apply wp_assoc, wp_bind, (wp_store_or_drop hd r (q_coff l)); rewrite ?Hhd; try done;
    [lia|len|auto with bytes| |].
  2: { rewrite zlen_store16. intros Hm. apply HH, Hm. lia. }
  intros w1 _ Hw1 Hk1 Hs1. apply wp_ret.
  pose proof (nsum_field (q_coff l) nc r ltac:(lia) ltac:(lia)
    ltac:(destruct Hco as [->|[->| ->]]; done) Hnc) as Hns. fold oc in Hns.
  apply (HQ _ w1 (splice (q_coff l) (store16 nc) r)).
  - split; [done|]. split; [apply zlen_splice; rewrite ?zlen_store16; lia|]. split; [done|].
    split; [|by split]. rewrite Hd2c, Hns. apply eq1c_iff. exists 0. lia.
  - left. exists (store16 nc). split; [apply zlen_store16|]. split; [done|]. intros Hex len Hln.
    specialize (Hncc (Hfold Hex)). apply nsum_to_sum16. rewrite Hns.
    pose proof (quoted_pseudo_shift (h6_upper l 8) len Hln) as Hps. rewrite <- Hic in Hps.
    unfold eq1c in *. mlia.
Qed.
End Quoted.

(** ** The whole message *)

Lemma icmp_map_bytes t c p : is_byte c ->
  let '(m, p4) := icmp6_to_icmp4 t c p 0 in is_byte (m_type m) /\ is_byte (m_code m) /\ is_byte p4.
Proof.
  intros Hc. unfold icmp6_to_icmp4, is_byte in *. cbv zeta.
  repeat match goal with |- context [if ?b then _ else _] => destruct b end;
    cbn [m_type m_code]; unfold ICMP_DEST_UNREACH, ICMP_TIME_EXCEEDED, ICMP_PARAMETERPROB,
    ICMP_HOST_UNREACH, ICMP_HOST_ANO, ICMP_PORT_UNREACH, ICMP_FRAG_NEEDED, ICMP_PROT_UNREACH; lia.
Qed.

Section Error.
Context {K : Kernel} `{T : Target} {may_fail : Prop} {KS : KernelSpec may_fail CNT_MAX K}.
Context (cfg : consts) (Hcfg : consts_ok cfg).
Context (f : list Z) (Hf : bytes f) (Hz : 62 <= zlen f).

#[local] Abbreviation stage := (staged may_fail ingress_drops).

Let l := f6_l4 f.
Let exact := csum_folded (K:=K).

(** The room the shorter quoted headers leave is closed. *)
Lemma wp_error_shrink tot n c Q R w k :
  frame w = ingress_hd cfg f tot ++ k -> skb_protocol (w_skb w) = ETH_P_IP -> 0 < n < 100 ->
  (n <= zlen k -> forall w', frame w' = ingress_hd cfg f tot ++ drop (Z.to_nat n) k ->
     keeps (w_skb w) (w_skb w') -> w_slots w' = w_slots w -> Q tt w') ->
  ((n <= zlen k -> may_fail) -> forall w', w_slots w' = w_slots w ->
     R TC_ACT_SHOT (World (w_skb w') (bump c (w_slots w')))) ->
  wp (r ← skb_adjust_room (- n) BPF_ADJ_ROOM_NET ROOM_FLAGS; when (r <? 0) (DROP c)) Q R w.
Proof.
  intros Hw Hp Hn HQ HR. pose proof (zlen_ingress_hd cfg f Hf Hz tot) as Hhd.
  pose proof (zlen_nonneg k).
  apply wp_bind, wp_adjust_room_shrink; rewrite ?Hp, ?Hw, ?zlen_app, ?Hhd; [by left|lia| |done| |];
    change (ETH_HLEN + net_base_len ETH_P_IP) with 34; [lia| |].
  - intros w' Hl Hw' Hk Hs. apply wp_check_ok, HQ; [lia| |done|done].
    rewrite Hw'. rewrite sub_app_0 by done. f_equal.
    rewrite drop_app_ge by (unfold zlen in Hhd; lia). f_equal. unfold zlen in Hhd. lia.
  - intros r w' Hr Hm Hs. apply wp_check_fail; [done|]. apply HR; [|done]. intros. apply Hm. lia.
Qed.

(** The quoted headers of 48 or 56 bytes are replaced by 28 bytes. *)
Lemma drop_shrink k :
  48 + h6_frag_len k 8 <= zlen k ->
  drop (Z.to_nat (q_shrink k)) k = sub (q_shrink k) 28 k ++ q_l4 k.
Proof.
  intros Hk. unfold q_shrink, q_l4, sub. unfold h6_frag_len in *.
  assert (E : drop (Z.to_nat (48 + (if h6_is_frag k 8 then 8 else 0))) k =
    drop 28 (drop (Z.to_nat (20 + (if h6_is_frag k 8 then 8 else 0))) k)).
  { rewrite drop_drop. f_equal. destruct (h6_is_frag k 8); lia. }
  rewrite E. symmetry. apply (take_drop 28).
Qed.

(** A quoted ICMPv6 message that is too short for its Echo checksum. *)
Definition quoted_short (k : list Z) : bool :=
  (h6_upper k 8 =? 58) && negb (h6_is_frag k 8) &&
  ((zlen k <? 50) ||
   (((byte_at k 48 =? 128) || (byte_at k 48 =? 129)) && (zlen k <? 52))).

Lemma wp_quoted_l4 k hd d Q R w :
  bytes k -> 48 + h6_frag_len k 8 <= zlen k -> frame w = hd ++ q_l4 k -> zlen hd = 62 ->
  0 <= d < 4294967296 ->
  (quoted_short k = false -> forall d' w' r', q_step k hd d w d' w' r' ->
     quoted_l4_out cfg exact may_fail k (q_l4 k) r' -> Q d' w') ->
  (quoted_short k = true \/ may_fail ->
     R TC_ACT_SHOT (World (w_skb w) (bump CNT_INGRESS_DROP_ICMP_INNER (w_slots w)))) ->
  (may_fail -> forall w', w_slots w' = w_slots w ->
     R TC_ACT_SHOT (World (w_skb w') (bump CNT_INGRESS_DROP_HELPER (w_slots w')))) ->
  wp (d ← (if (h6_upper k 8 =? 58) && negb (h6_is_frag k 8) then inner_echo (qctx k) 62 d else mret d);
      inner_transport cfg (qctx k) 62 (q_coff k) d) Q R w.
Proof.
  intros Hk Hkz Hw Hhd Hd HQ HI HH. unfold quoted_short in *.
  destruct ((h6_upper k 8 =? 58) && negb (h6_is_frag k 8)) eqn:E; cbn [andb] in *.
  2: { apply wp_bind, wp_ret, (wp_inner_transport cfg k Hk Hkz hd); try done; [|by apply HQ].
       unfold q_is_echo. by rewrite E. }
  pose proof E as E'. apply andb_true_iff in E' as [E1 E2]. apply Z.eqb_eq in E1.
  apply negb_true_iff in E2.
  assert (Hzr : zlen (q_l4 k) = zlen k - 48).
  { rewrite zlen_r by done. unfold h6_frag_len. rewrite E2. lia. }
  assert (Hecho : q_is_echo k = (byte_at k 48 =? 128) || (byte_at k 48 =? 129)).
  { unfold q_is_echo. by rewrite E. }
  rewrite <- Hecho in *.
  apply wp_bind, (wp_inner_echo cfg k Hk Hkz hd d); try done.
  - intros H2 H4 d' w' r' Hst Hout. unfold inner_transport, q_coff. rewrite E1. cbv zeta.
    cbn [Z.eqb Pos.eqb negb andb]. apply wp_ret. apply (HQ ltac:(
      destruct (Z.ltb_spec (zlen k) 50); [lia|]; destruct (q_is_echo k); [|done];
      destruct (Z.ltb_spec (zlen k) 52); [specialize (H4 eq_refl); lia|done]) d' w' r'); done.
  - intros Hm. apply HI. destruct (Z.ltb_spec (zlen k) 50); [by left|].
    destruct (q_is_echo k); cbn [orb andb].
    + destruct (Z.ltb_spec (zlen k) 52); [by left|]. right. apply Hm; lia.
    + right. apply Hm; [lia|done].
Qed.

Lemma error_verdict k : 8 <= zlen k ->
  icmp_error_verdict cfg k =
    if negb (m_ok (icmp6_to_icmp4 (byte_at k 0) (byte_at k 1) (rd32 k 4) 0).1)
    then Drop [CNT_INGRESS_DROP_ICMP_UNSUPPORTED]
    else if negb (quoted_ok cfg k) then Drop [CNT_INGRESS_DROP_ICMP_INNER]
    else if quoted_short k then Drop [CNT_INGRESS_DROP_ICMP_INNER]
    else Translate.
Proof.
  intros Hk. unfold icmp_error_verdict, quoted_ok. rewrite <- error_of_design. unfold error_of.
  destruct (m_ok _); cbn [negb]; [rewrite bool_decide_eq_false_2 by done|done]. fold (quoted_short k).
  destruct (Z.ltb_spec (zlen k) 48), (Z.leb_spec 48 (zlen k)); try lia; cbn [andb negb]; [done|].
  destruct (quotes_clat cfg k 8); cbn [andb negb]; [|done].
  destruct (h6_is_frag k 8); cbn [andb negb orb].
  - destruct (Z.ltb_spec (zlen k) 56), (Z.leb_spec 56 (zlen k)); try lia; cbn [andb negb]; [done|].
    by destruct (has_ext_header _).
  - by destruct (has_ext_header _).
Qed.

Lemma nsum_quoted_split k : 48 + h6_frag_len k 8 <= zlen k ->
  nsum k = nsum (sub 0 (48 + h6_frag_len k 8) k) + nsum (q_l4 k).
Proof.
  intros Hk. assert (Hfl : h6_frag_len k 8 = 0 \/ h6_frag_len k 8 = 8)
    by (unfold h6_frag_len; destruct (h6_is_frag k 8); auto).
  rewrite (sub_drop (48 + h6_frag_len k 8) k) at 1 by lia. fold (q_l4 k).
  apply nsum_app. unfold even_len. rewrite zlen_sub by lia. by destruct Hfl as [->| ->].
Qed.

(** The quoted headers of [l] make room for [new], and the outer header is
    written again for the shorter packet. *)
Lemma wp_error_rewrite {A} (rest : M A) tot new Q R w :
  frame w = ingress_hd cfg f tot ++ l -> skb_protocol (w_skb w) = ETH_P_IP ->
  bytes new -> zlen new = 28 -> 48 + h6_frag_len l 8 <= zlen l ->
  (forall w', frame w' = ingress_hd cfg f (tot - q_shrink l) ++ new ++ q_l4 l ->
     keeps (w_skb w) (w_skb w') -> w_slots w' = w_slots w -> wp rest Q R w') ->
  (may_fail -> forall w', w_slots w' = w_slots w ->
     R TC_ACT_SHOT (World (w_skb w') (bump CNT_INGRESS_DROP_HELPER (w_slots w')))) ->
  wp (r ← skb_adjust_room (- q_shrink l) BPF_ADJ_ROOM_NET ROOM_FLAGS;
      when (r <? 0) (DROP CNT_INGRESS_DROP_HELPER) ;;
      r ← skb_store_bytes 34 new STORE_FLAGS;
      when (r <? 0) (DROP CNT_INGRESS_DROP_HELPER) ;;
      r ← skb_store_bytes ETH_HLEN
            (iphdr_bytes (ingress_h4 cfg (gctx cfg f) (tot - q_shrink l))) STORE_FLAGS;
      when (r <? 0) (DROP CNT_INGRESS_DROP_HELPER) ;; rest) Q R w.
Proof.
  intros Hw Hp Hnb Hnz Hlz HQ HH. pose proof (zlen_ingress_hd cfg f Hf Hz) as Hhd.
  assert (Hsr : 0 < q_shrink l < 100)
    by (unfold q_shrink, h6_frag_len; destruct (h6_is_frag l 8); lia).
  apply wp_assoc, wp_bind, (wp_error_shrink tot _ _ _ _ w l); try done.
  2: { intros Hm. apply HH, Hm. unfold q_shrink. lia. }
  intros Hsl w1 Hw1 [Hp1 Hst1] Hs1. rewrite drop_shrink in Hw1 by done.
  assert (H28 : zlen (sub (q_shrink l) 28 l) = 28) by (apply zlen_sub; unfold q_shrink in *; lia).
  apply wp_assoc, wp_bind, (wp_store_or_drop (ingress_hd cfg f tot) (sub (q_shrink l) 28 l ++ q_l4 l) 0);
    rewrite ?Hhd; try done; [lia| |].
  2: { intros Hm w' Hs. apply HH; [|congruence]. apply Hm. rewrite Hnz, zlen_app.
       pose proof (zlen_nonneg (q_l4 l)). lia. }
  intros w2 _ Hw2 [Hp2 Hst2] Hs2. rewrite splice_app_0 in Hw2 by congruence.
  rewrite (proj1 (ingress_h4_wire cfg f Hf Hz (tot - q_shrink l))).
  apply wp_assoc, wp_bind, (wp_store_or_drop [] (frame w2) 14); try done.
  { rewrite <- (proj1 (ingress_h4_wire cfg f Hf Hz _)). apply bytes_iphdr_bytes. }
  2: { intros Hm w' Hs. apply HH; [|congruence]. apply Hm.
       rewrite Hw2, (zlen_g4_header cfg f Hf Hz), zlen_app, Hhd.
       pose proof (zlen_nonneg (new ++ q_l4 l)). lia. }
  intros w3 _ Hw3 [Hp3 Hst3] Hs3. cbn [app] in Hw3. rewrite Hw2, splice_ingress_hd in Hw3 by done.
  apply HQ; [done|split; congruence|congruence].
Qed.

(** The message with its outer checksum [ck] in place. *)
Lemma error_out_ok m p4 st r' ck :
  bytes l -> 48 + h6_frag_len l 8 <= zlen l ->
  icmp6_to_icmp4 (byte_at l 0) (byte_at l 1) (rd32 l 4) 0 = (m, p4) -> m_ok m = true ->
  is_byte (m_type m) -> is_byte (m_code m) -> is_byte p4 -> zlen ck = 2 ->
  quoted_l4_out cfg exact may_fail l (q_l4 l) r' ->
  csum_carried st 2 (g6_pseudo f 58 (f6_l4len f) ++ l) (q_new cfg l m p4 ++ r')
    (q_new cfg l m p4 ++ r') (splice 2 ck (q_new cfg l m p4 ++ r')) ->
  icmp_error_out cfg exact may_fail st f l (splice 2 ck (q_new cfg l m p4 ++ r')).
Proof.
  intros Hl Hlz Em Hok Hmt Hmc Hp4 Hck Hout Hc. exists (m_type m), (m_code m), p4, ck, (q_ck cfg l), r'.
  split; [by rewrite <- error_of_design, Em; unfold error_of; cbn [fst snd]; rewrite Hok|].
  split; [done|]. split; [apply zlen_store16|].
  split; [|split; [|split; [done|]]].
  - unfold q_new. rewrite <- !app_assoc.
    change [m_type m; m_code m; 0; 0] with ([m_type m; m_code m] ++ [0; 0]).
    rewrite <- !app_assoc. rewrite splice_app_r by done.
    change (2 - zlen [m_type m; m_code m]) with 0. by rewrite splice_app_0.
  - apply (proj2 (new_in4_wire cfg l Hl Hlz)).
  - intros Hst. rewrite <- (sum16_app (g6_pseudo _ _ _)) by by apply g6_pseudo_even.
    unfold csum_carried in Hc. destruct st; try done; unfold eq1c in *; mlia.
Qed.

Lemma wp_ingress_icmp_error Q R w :
  frame w = ingress_hd cfg f (g_tot_len (gctx cfg f)) ++ l -> skb_protocol (w_skb w) = ETH_P_IP ->
  h6_first f 14 = true -> h6_upper f 14 = 58 -> 8 <= zlen l ->
  (byte_at l 0 =? 129) || (byte_at l 0 =? 128) = false -> l4_done (may_fail := may_fail) cfg f w Q ->
  (forall act w', stage (Some (ingress_l4_verdict cfg f)) w act w' -> R act w') ->
  wp (ingress_icmp_error cfg (gctx cfg f) (sub 0 8 l) (ingress_pseudo_diff (gctx cfg f)) 34) Q R w.
Proof.
  intros Hw Hp H1 Hup Hz8 He HQ HR.
  assert (Hl : bytes l) by by apply bytes_drop.
  assert (Her : is_icmp_error f = true) by (unfold is_icmp_error; fold l; by rewrite Hup, He).
  assert (Hv : ingress_l4_verdict cfg f = icmp_error_verdict cfg l).
  { unfold ingress_l4_verdict. fold l. rewrite H1, Hup, He. cbn [negb Z.eqb Pos.eqb].
    destruct (Z.ltb_spec (zlen l) 8); [lia|done]. }
  unfold l4_done in HQ. unfold ingress_l4_out in HQ. rewrite H1, Hup, Her in HQ.
  cbn [negb Z.eqb Pos.eqb] in HQ. rewrite Hv, error_verdict in HQ, HR by done. fold l in HQ.
  unfold ingress_icmp_error. rewrite !byte_at_sub, ld32_sub, ntohl_ld32 by (try done; lia). zlit.
  pose proof (icmp_map_bytes (byte_at l 0) (byte_at l 1) (rd32 l 4) (byte_at_range l 1 Hl)) as Hmb.
  destruct (icmp6_to_icmp4 (byte_at l 0) (byte_at l 1) (rd32 l 4) 0) as [m p4] eqn:Emap.
  cbn [fst] in HQ, HR. destruct Hmb as (Hmt & Hmc & Hp4).
  apply wp_bind, wp_when_drop; intros Em; rewrite Em in HQ, HR.
  { by apply HR, staged_drop. }
  pose proof (zlen_ingress_hd cfg f Hf Hz) as Hhd. set (tot := g_tot_len (gctx cfg f)) in *.
  apply wp_bind, (wp_inner_parse cfg Hcfg l Hl (ingress_hd cfg f tot)); [done|done| |].
  2: { intros Hq. apply HR, staged_either; [|in_list|done].
       destruct (quoted_ok cfg l); [right; by apply Hq|by left]. }
  intros Hq. rewrite Hq in HQ, HR. cbn [negb] in HQ, HR.
  pose proof (quoted_ok_len cfg l Hq) as Hlz.
  rewrite (q_new_bytes cfg l Hl Hlz m p4 Hmt Hmc Hp4). set (new := q_new cfg l m p4).
  pose proof (zlen_q_new cfg l Hl Hlz m p4 Hmt Hmc Hp4) as Hnz.
  pose proof (bytes_q_new cfg l Hl Hlz m p4 Hmt Hmc Hp4) as Hnb. fold new in Hnz, Hnb.
  destruct (ingress_pseudo_diff_ok cfg f Hf Hz) as [Hdr Hdc].
  destruct (error_diff_ok cfg l Hl Hlz m p4 Hmt Hmc Hp4 _ Hdr) as [Hd0 Hd0c].
  cbv zeta in Hd0, Hd0c |- *. fold new in Hd0, Hd0c. set (d0 := if q_frag (qctx l) then _ else _) in *.
  assert (Hsh : inner_shrink (qctx l) = q_shrink l).
  { unfold inner_shrink, q_shrink, h6_frag_len. cbn [qctx q_frag]. by destruct (h6_is_frag l 8). }
  rewrite Hsh.
  assert (Hfail : may_fail -> forall w', w_slots w' = w_slots w ->
    R TC_ACT_SHOT (World (w_skb w') (bump CNT_INGRESS_DROP_HELPER (w_slots w')))).
  { intros Hm w' Hs. apply HR, staged_fail; [done|in_list|done]. }
  apply wp_error_rewrite; try done. intros w3 Hw3 [Hp3 Hst3] Hs3. rewrite app_assoc in Hw3.
  assert (H62 : zlen (ingress_hd cfg f (tot - q_shrink l) ++ new) = 62) by (rewrite zlen_app, Hhd; lia).
  apply wp_assoc, wp_bind, (wp_quoted_l4 l (ingress_hd cfg f (tot - q_shrink l) ++ new)); try done.
  2: { intros Hs. apply HR, staged_either; [|in_list|congruence].
       destruct Hs as [->|Hm]; [by left|by right]. }
  2: { intros Hm w' Hs. apply Hfail; [done|congruence]. }
  intros Eqs d' w4 r' (Hw4 & Hzr' & Hd' & Hd'c & [Hp4' Hst4] & Hs4) Hout. rewrite Eqs in HQ, HR.
  rewrite <- app_assoc in Hw4.
  apply (wp_csum_or_drop (ingress_hd cfg f (tot - q_shrink l)) (new ++ r') 2); rewrite ?Hhd; try done.
  - intros w5 ck Hz2 Hck _ Hw5 Hcs [Hp5 Hst5] Hs5.
    apply (HQ eq_refl w5 (splice 2 ck (new ++ r'))).
    { split; [|split; [split|]; congruence]. rewrite Hw5. unfold g4_tot_len. by rewrite Her. }
    apply error_out_ok; try done; [by apply negb_false_iff|]. fold new.
    replace (skb_ip_summed (w_skb w)) with (skb_ip_summed (w_skb w4)) by congruence.
    apply Hcs. rewrite !nsum_app; [|by apply g6_pseudo_even|unfold even_len; by rewrite Hnz].
    rewrite Hd'c, Hd0c, Hdc, (nsum_quoted_split l) by done. apply eq1c_iff. exists 0. lia.
  - intros Hm w' Hs. apply Hfail; [|congruence]. apply Hm. rewrite zlen_app, Hnz.
    pose proof (zlen_nonneg r'). lia.
Qed.
End Error.
