(* ===== verification/IngressContract.v ===== *)
(** * The contract of the ingress program

    The transport part of [clat_ingress] protocol by protocol, and the stages of
    the program composed into its contract, [wp_clat_ingress]. *)

From S2P Require Import Prelude Endian Checksum Kernel Program Common Wire Rules Contract.
From S2P Require Import IcmpMap Ingress IngressSpec IngressProof IcmpError.

Section Proof.
Context {K : Kernel} `{T : Target} {may_fail : Prop} {KS : KernelSpec may_fail CNT_MAX K}.
Context (cfg : consts) (Hcfg : consts_ok cfg).

#[local] Abbreviation stage := (staged may_fail ingress_drops).

Section L4.
Context (f : list Z) (Hf : bytes f) (Hz : 62 <= zlen f).

Let l := f6_l4 f.
Let hd := ingress_hd cfg f (g_tot_len (gctx cfg f)).

Lemma wp_ingress_icmp Q R w :
  frame w = hd ++ l -> skb_protocol (w_skb w) = ETH_P_IP ->
  h6_first f 14 = true -> h6_upper f 14 = 58 -> l4_done (may_fail := may_fail) cfg f w Q ->
  (forall act w', stage (Some (ingress_l4_verdict cfg f)) w act w' -> R act w') ->
  wp (ingress_icmp cfg (gctx cfg f) 34) Q R w.
Proof.
  intros Hw Hp H1 Hup HQ HR. unfold ingress_icmp.
  assert (Hhd : zlen hd = 34) by by apply zlen_ingress_hd.
  apply wp_bind, (wp_load_at hd l 0); rewrite ?Hhd; try done.
  2: { intros r b Hr Hm. apply wp_bind, wp_check_fail; [done|]. apply HR, staged_either; [|in_list|done].
       unfold ingress_l4_verdict. fold l. rewrite H1, Hup. cbn [negb Z.eqb Pos.eqb].
       destruct (Z.ltb_spec (zlen l) 8); [by left|right; apply Hm; lia]. }
  intros Hz8. apply wp_bind, wp_check_ok. cbv zeta. rewrite byte_at_sub by lia. change (0 + 0) with 0.
  unfold ICMPV6_ECHO_REPLY, ICMPV6_ECHO_REQUEST.
  destruct ((byte_at l 0 =? 129) || (byte_at l 0 =? 128)) eqn:E.
  - by apply wp_ingress_echo.
  - by apply wp_ingress_icmp_error.
Qed.

Lemma wp_ingress_l4 Q R w :
  frame w = hd ++ l -> skb_protocol (w_skb w) = ETH_P_IP -> ingress_admit f = None ->
  l4_done (may_fail := may_fail) cfg f w Q ->
  (forall act w', stage (Some (ingress_l4_verdict cfg f)) w act w' -> R act w') ->
  wp (ingress_l4 cfg (gctx cfg f) 34) Q R w.
Proof.
  intros Hw Hp Ha HQ HR. unfold ingress_l4. cbn [gctx g_first g_nh].
  assert (Hsame : is_icmp_error f = false -> ingress_l4_verdict cfg f = Translate ->
    ingress_l4_out cfg (csum_folded (K:=K)) may_fail (skb_ip_summed (w_skb w)) f l l ->
    wp (mret tt) Q R w).
  { intros He Hv Ho. apply wp_ret. apply (HQ Hv w l); [|done].
    split; [|by repeat split]. rewrite (g4_tot_len_plain cfg) by done. done. }
  destruct (h6_first f 14) eqn:H1; cbn [negb].
  2: { apply Hsame; [|unfold ingress_l4_verdict; by rewrite H1|unfold ingress_l4_out; by rewrite H1].
       unfold ingress_admit in Ha. unfold h6_first in H1. unfold is_icmp_error.
       destruct (h6_upper f 14 =? 58); [|done]. destruct (h6_is_frag f 14); [|done].
       by repeat case_match. }
  unfold IPPROTO_TCP, IPPROTO_UDP, IPPROTO_ICMPV6.
  destruct (Z.eqb_spec (h6_upper f 14) 6) as [Ep|Ep]; [by apply wp_ingress_tcp|].
  destruct (Z.eqb_spec (h6_upper f 14) 17) as [Eu|Eu]; [by apply wp_ingress_udp|].
  destruct (Z.eqb_spec (h6_upper f 14) 58) as [Ei|Ei]; [by apply wp_ingress_icmp|].
  apply Z.eqb_neq in Ep, Eu, Ei.
  apply Hsame; unfold is_icmp_error, ingress_l4_verdict, ingress_l4_out;
    by rewrite ?H1, ?Ep, ?Eu, ?Ei.
Qed.
End L4.

Definition ingress_done (w w' : world) : Prop :=
  ingress_out cfg (csum_folded (K:=K)) may_fail (skb_ip_summed (w_skb w)) (frame w) (frame w') /\
  skb_protocol (w_skb w') = ETH_P_IP /\
  skb_ip_summed (w_skb w') = skb_ip_summed (w_skb w).

(** A kernel that fails to linearise the buffer makes the program let a
    packet through that it would translate. *)
Definition ingress_contract (w : world) (act : Z) (w' : world) : Prop :=
  obeys CNT_INGRESS_TRANSLATED ingress_done
    (ingress_verdict cfg (skb_headlen (w_skb w)) (frame w)) w act w' \/
  is_return cfg (skb_headlen (w_skb w)) (frame w) = true /\
  (failed may_fail ingress_drops w act w' \/
   (may_fail /\ act = TC_ACT_OK /\ same_packet w w')).

Lemma ingress_stage_contract v w w1 act w' :
  stage v w1 act w' -> w_slots w1 = w_slots w -> v <> Some Pass ->
  is_return cfg (skb_headlen (w_skb w)) (frame w) = true ->
  (forall v', v = Some v' -> ingress_verdict cfg (skb_headlen (w_skb w)) (frame w) = v') ->
  ingress_contract w act w'.
Proof.
  intros Hst Hs HP Hr Hv. apply (staged_slots _ _ v w) in Hst; [|done|done].
  destruct v as [v|].
  - unfold ingress_contract. rewrite (Hv v eq_refl).
    destruct (staged_obeys _ _ _ CNT_INGRESS_TRANSLATED ingress_done _ _ _ Hst) as [?|?]; auto.
  - right. split; [done|]. left. by apply staged_None.
Qed.

Lemma wp_clat_ingress w :
  (rd16 (frame w) 12 = ETH_P_IPV6 -> skb_protocol (w_skb w) = ETH_P_IPV6) ->
  wp (clat_ingress cfg) (ingress_contract w) (ingress_contract w) w.
Proof.
  intros Hproto. set (f := frame w). assert (Hf : bytes f) by apply frame_ok.
  set (lin := skb_headlen (w_skb w)). unfold clat_ingress.
  apply wp_bind, wp_ingress_match; [done| |]; fold f lin.
  2: { intros w' Hr Hw'. destruct (is_return cfg lin f) eqn:Er.
       - right. split; [done|]. right. destruct Hr as [?|?]; done.
       - left. unfold ingress_verdict. fold f lin. by rewrite Er. }
  intros Hr w1 (Hw1 & [Hp1 Hst1] & Hs1) Hl1. fold f in Hw1.
  pose proof (linear_frame w1 f 62 Hw1 Hl1) as Hz.
  assert (Hv6 : rd16 f 12 = ETH_P_IPV6).
  { unfold is_return in Hr. rewrite !andb_true_iff in Hr.
    destruct Hr as [[[[[_ Hr] _] _] _] _]. by apply Z.eqb_eq in Hr. }
  apply wp_bind, wp_ingress_parse; [done|done| |].
  2: { intros act w' Hst. eapply ingress_stage_contract; [done|done| |done|].
       - unfold ingress_admit. by repeat case_match.
       - intros v' Ea. unfold ingress_verdict. fold f lin. by rewrite Hr, Ea. }
  intros Ea. apply wp_bind, wp_ingress_reshape; [done|by rewrite Hp1, Hproto|done| |].
  2: { intros Hm w' Hs'. right. split; [done|]. left. split; [done|]. exists CNT_INGRESS_DROP_HELPER. split; [in_list|].
       split; [done|]. cbn [w_slots]. congruence. }
  intros w2 hdr Hhdr Hw2 Hst2 Hp2 Hs2.
  apply wp_bind, (wp_ingress_headers cfg f Hf Hz _ _ _ hdr); try done.
  2: { intros Hm w' Hs'. right. split; [done|]. left. split; [done|]. exists CNT_INGRESS_DROP_HELPER. split; [in_list|].
       split; [done|]. cbn [w_slots]. congruence. }
  intros w3 Hw3 [Hp3 Hst3] Hs3. change (ETH_HLEN + IP4_HLEN) with 34.
  apply wp_bind, wp_ingress_l4; try done; [congruence| |].
  - intros Ev w4 l' (Hw4 & [Hp4 Hst4] & Hs4) Hout. apply wp_bind, wp_count, wp_ret. left.
    unfold ingress_verdict. fold f lin. rewrite Hr, Ea, Ev. cbn [negb]. split; [done|]. split.
    { cbn [w_slots]. congruence. }
    split; [|split; cbn [w_skb]; congruence].
    exists (h4_ck cfg f (g4_tot_len f)), l'. split; [apply zlen_store16|]. split; [|split].
    + change (frame w4 = sub 0 12 f ++ be16 ETH_P_IP ++
        g4_header cfg f (g4_tot_len f) (h4_ck cfg f (g4_tot_len f)) ++ l').
      rewrite Hw4. unfold ingress_hd. by rewrite <- !app_assoc.
    + by apply ingress_h4_wire.
    + by replace (skb_ip_summed (w_skb w)) with (skb_ip_summed (w_skb w3)) by congruence.
  - intros act w' Hst. eapply ingress_stage_contract; [done|congruence| |done|].
    + intros [= E]. unfold ingress_l4_verdict, icmp_error_verdict in E. by repeat case_match.
    + intros v' [= <-]. unfold ingress_verdict. fold f lin. by rewrite Hr, Ea.
Qed.
End Proof.
