(* ===== verification/EgressTheorems.v ===== *)
(** * Properties of the egress program

    Consequences of [wp_clat_egress]: first what holds on any kernel (the
    contract, the accounting, frames that pass untouched), then what becomes of
    a frame on a kernel whose helpers succeed on arguments in range (reasons for
    drops, checksums, payload). *)

From S2P Require Import Prelude Endian Checksum Kernel Program Common Wire Rules Contract.
From S2P Require Import Options EgressSpec Egress EgressProof.

Section Lemmas.
Context {K : Kernel} `{T : Target} (cfg : consts).

Lemma e6_pseudo_facts f nh len : bytes f -> 34 <= zlen f -> is_byte nh -> nh <> 0 ->
  even_len (pseudo6_wire (e6_src cfg) (e6_dst cfg f) nh len) /\
  bytes (pseudo6_wire (e6_src cfg) (e6_dst cfg f) nh len) /\
  (exists b, b ∈ pseudo6_wire (e6_src cfg) (e6_dst cfg f) nh len /\ b <> 0).
Proof.
  intros Hf Hz Hn Hnz. unfold pseudo6_wire, e6_src. split; [|split].
  - unfold even_len. by rewrite !zlen_app, zlen_in6_bytes, zlen_e6_dst.
  - pose proof (bytes_e6_dst cfg f Hf). solve_bytes.
  - exists nh. split; [|done]. rewrite !elem_of_app. right. right. right. in_list.
Qed.

Lemma f4_pseudo_facts f proto len : bytes f -> 34 <= zlen f -> is_byte proto -> proto <> 0 ->
  even_len (pseudo4_wire (f4_src f) (f4_dst f) proto len) /\
  bytes (pseudo4_wire (f4_src f) (f4_dst f) proto len) /\
  (exists b, b ∈ pseudo4_wire (f4_src f) (f4_dst f) proto len /\ b <> 0).
Proof.
  intros Hf Hz Hn Hnz. unfold pseudo4_wire. split; [|split].
  - unfold even_len. by rewrite !zlen_app, zlen_f4_src, zlen_f4_dst.
  - unfold f4_src, f4_dst. solve_bytes.
  - exists proto. split; [|done]. rewrite !elem_of_app. right. right. left. in_list.
Qed.

Lemma egress_verdict_drops lin f cs c :
  egress_verdict cfg lin f = Drop cs -> c ∈ cs -> c ∈ egress_drops.
Proof.
  intros Hv. assert (HF : Forall (fun c => c ∈ egress_drops) cs).
  { unfold egress_verdict, egress_admit, egress_options, egress_l4_verdict in Hv.
    repeat case_match; simplify_eq; repeat constructor; in_list. }
  rewrite Forall_forall in HF. apply HF.
Qed.

Lemma egress_translate_header lin f : bytes f -> egress_verdict cfg lin f = Translate ->
  rd16 f 12 = ETH_P_IP /\ 34 <= zlen f /\ 20 <= f4_hlen f /\ 0 <= f4_l4len f.
Proof.
  intros Hf Hv. destruct (egress_admit cfg lin f) as [v|] eqn:Ea; [|by eapply egress_admit_None].
  unfold egress_verdict in Hv. rewrite Ea in Hv. subst v. unfold egress_admit in Ea.
  by repeat case_match.
Qed.

(** A translated datagram without checksum is whole and unfragmented. *)
Lemma no_csum_zero_field f l :
  rd16 l 6 = 0 -> ~ sum16 (pseudo4_wire (f4_src f) (f4_dst f) 17 (f4_l4len f)) ≅ 0 ->
  e4_no_csum f l = true.
Proof.
  intros H0 Hps. unfold e4_no_csum. rewrite H0. unfold eq1c in Hps. cbn [Z.eqb andb].
  apply negb_true_iff. by apply Z.eqb_neq.
Qed.

Lemma egress_no_csum_translate lin f :
  egress_verdict cfg lin f = Translate -> f4_first f = true -> f4_proto f = 17 ->
  e4_no_csum f (f4_l4 f) = true -> f4_is_frag f = false /\ f4_l4len f <= zlen (f4_l4 f).
Proof.
  unfold egress_verdict. intros Hv H1 Hp Hn.
  destruct (egress_admit _ _ _) as [v|] eqn:Ea.
  { subst v. unfold egress_admit in Ea. by repeat case_match. }
  destruct (egress_options _) as [v|] eqn:Eo.
  { subst v. unfold egress_options in Eo. by repeat case_match. }
  unfold egress_l4_verdict in Hv. rewrite H1, Hp, Hn in Hv. cbn [negb Z.eqb Pos.eqb] in Hv.
  destruct (zlen (f4_l4 f) <? 8); [done|]. destruct (f4_is_frag f); [done|]. split; [done|].
  destruct (10240 <? f4_l4len f); [done|].
  destruct (Z.ltb_spec (zlen (f4_l4 f)) (f4_l4len f)); [done|lia].
Qed.

Lemma f4_not_frag_first f : f4_is_frag f = false -> f4_first f = true.
Proof. unfold f4_is_frag. intros [_ H]%orb_false_iff. by apply negb_false_iff in H. Qed.

Lemma egress_icmp_not_frag lin f :
  egress_verdict cfg lin f = Translate -> f4_proto f = 1 -> f4_is_frag f = false.
Proof.
  unfold egress_verdict. intros Hv Hp. destruct (f4_is_frag f) eqn:Ef; [|done]. exfalso.
  destruct (egress_admit _ _ _) as [v|] eqn:Ea.
  - subst v. unfold egress_admit in Ea. by repeat case_match.
  - unfold egress_admit in Ea. rewrite Ef, Hp in Ea. cbn in Ea. by repeat case_match.
Qed.
End Lemmas.

(** ** Any kernel *)

Section AnyKernel.
Context {K : Kernel} `{T : Target} {may_fail : Prop} {KS : KernelSpec may_fail CNT_MAX K}.
Context (cfg : consts) (Hcfg : consts_ok cfg).

(** C1: On every frame, and whatever the helpers do within their documented
    behaviour, [clat_egress] terminates without a fault and meets its
    contract: it lets through, drops (counting the reason) or translates the
    frame as [egress_verdict] says, and what it makes of a translated frame is
    related to the input by [egress_out]; where a helper fails for a reason of
    its own, the frame is dropped under one egress counter. *)
Theorem egress_correct w :
  (rd16 (frame w) 12 = ETH_P_IP -> skb_protocol (w_skb w) = ETH_P_IP) ->
  exists act w', exec (clat_egress cfg) w = (Some act, w') /\
    egress_contract (may_fail := may_fail) cfg w act w'.
Proof. intros Hp. by apply wp_exec, wp_clat_egress. Qed.

#[export] Instance egress_accountable :
  Accountable (clat_egress cfg) ETH_P_IP CNT_EGRESS_TRANSLATED egress_drops.
Proof.
  intros w Hp.
  destruct (proj1 (wp_exec _ _ _) (wp_clat_egress (may_fail := may_fail) cfg Hcfg w Hp))
    as (act & w' & E & Hc).
  exists act, w'. split; [done|].
  destruct Hc as [Ho|(_ & _ & c & Hin & Hd)]; [|by eapply accounted_drop].
  destruct (egress_verdict _ _ _) as [|cs|] eqn:Ev; cbn [obeys] in Ho.
  - destruct Ho as (-> & Hf & _ & Hs). by apply accounted_pass.
  - destruct Ho as (c & Hin & Hd). eapply accounted_drop; [|done]. by eapply egress_verdict_drops.
  - destruct Ho as (-> & Hs & (l' & _ & Hw' & _) & _). apply accounted_translate; [|done].
    intros Hf. apply egress_translate_header in Ev as (H12 & Hz & _); [|apply frame_ok].
    rewrite <- Hf, Hw' in H12. by rewrite rd16_type in H12 by (done || lia).
Qed.

(** C4: Accounting of the egress program, on any kernel: the action is OK or
    SHOT; a dropped packet raises exactly one egress drop counter, by one; a
    packet that is passed on changed raises exactly the counter of translated
    packets, by one, and one that is passed on unchanged raises none. *)
Theorem egress_accounting w :
  (rd16 (frame w) 12 = ETH_P_IP -> skb_protocol (w_skb w) = ETH_P_IP) ->
  exists act w', exec (clat_egress cfg) w = (Some act, w') /\
    ((act = TC_ACT_SHOT /\ exists c, c ∈ egress_drops /\ counted w c w') \/
     (act = TC_ACT_OK /\ frame w' <> frame w /\ counted w CNT_EGRESS_TRANSLATED w') \/
     (act = TC_ACT_OK /\ frame w' = frame w /\ forall c, counter w' c = counter w c)).
Proof.
  intros Hp. destruct (accounts w Hp) as (act & w' & E & Ha). exists act, w'.
  split; [done|]. by apply accounted_counters.
Qed.

(** C8: Traffic that is not IPv4 passes the egress program untouched, on any
    kernel: action OK, same bytes, no counter. *)
Theorem egress_pass_through w :
  rd16 (frame w) 12 <> ETH_P_IP ->
  exists w', exec (clat_egress cfg) w = (Some TC_ACT_OK, w') /\ same_packet w w'.
Proof.
  intros Hn.
  assert (Hv : egress_verdict cfg (skb_headlen (w_skb w)) (frame w) = Pass).
  { apply egress_verdict_Pass. unfold egress_admit. apply Z.eqb_neq in Hn. rewrite Hn. by case_match. }
  destruct (proj1 (wp_exec _ _ _) (wp_clat_egress (may_fail := may_fail) cfg Hcfg w ltac:(done)))
    as (act & w' & E & [Ho|[Hne _]]); [|done].
  rewrite Hv in Ho. destruct Ho as [-> Hs]. by exists w'.
Qed.
End AnyKernel.

(** ** Kernels whose helpers succeed on arguments in range *)

Section Reliable.
Context {K : Kernel} `{T : Target} {KS : KernelSpec False CNT_MAX K}.
Context (cfg : consts) (Hcfg : consts_ok cfg).
Context (w : world) (Hp : skb_protocol (w_skb w) = ETH_P_IP).

Let f := frame w.

Lemma egress_run v : egress_verdict cfg (skb_headlen (w_skb w)) f = v ->
  exists act w', exec (clat_egress cfg) w = (Some act, w') /\
    obeys CNT_EGRESS_TRANSLATED (egress_done cfg) v w act w'.
Proof.
  intros <-. destruct (proj1 (wp_exec _ _ _) (wp_clat_egress cfg Hcfg w ltac:(done)))
    as (act & w' & E & [Ho|(_ & [] & _)]). eauto.
Qed.

Lemma egress_translate_len : egress_verdict cfg (skb_headlen (w_skb w)) f = Translate ->
  34 <= zlen f /\ 0 <= f4_l4len f < 65536.
Proof.
  intros Hv. destruct (egress_translate_header cfg _ f (frame_ok w) Hv) as (_ & Hz & _ & Hl).
  split; [done|]. by apply f4_l4len_range; [apply frame_ok|].
Qed.

(** C9: On a kernel whose helpers succeed on arguments in range the frame
    alone decides: the program drops a frame exactly when [egress_verdict]
    says so, and then raises one counter, one that the verdict names. *)
Theorem egress_drop_reason :
  exists act w', exec (clat_egress cfg) w = (Some act, w') /\
    (act = TC_ACT_SHOT <-> exists cs, egress_verdict cfg (skb_headlen (w_skb w)) f = Drop cs) /\
    (forall cs, egress_verdict cfg (skb_headlen (w_skb w)) f = Drop cs -> exists c, c ∈ cs /\
       counted w c w').
Proof.
  destruct (egress_run _ eq_refl) as (act & w' & E & Ho). exists act, w'. split; [done|].
  destruct (egress_verdict cfg (skb_headlen (w_skb w)) f) as [|cs|]; cbn [obeys] in Ho.
  - destruct Ho as [-> _]. split; [split; [discriminate|by intros [? [=]]]|discriminate].
  - destruct Ho as (c & Hc & -> & Hs). split; [split; eauto|]. intros cs' [= <-].
    exists c. split; [done|]. intros c'. by apply counter_bump.
  - destruct Ho as [-> _]. split; [split; [discriminate|by intros [? [=]]]|discriminate].
Qed.

(** ** Translated frames *)

Context (Hv : egress_verdict cfg (skb_headlen (w_skb w)) f = Translate).

Let l := f4_l4 f.

Lemma egress_translated : exists w' l',
  exec (clat_egress cfg) w = (Some TC_ACT_OK, w') /\
  frame w' = sub 0 12 f ++ be16 ETH_P_IPV6 ++ e6_header cfg f ++ e6_frag f ++ l' /\
  zlen l' = zlen l /\ egress_l4_out cfg (skb_ip_summed (w_skb w)) f l l' /\ bytes l'.
Proof.
  destruct (egress_run _ Hv) as (act & w' & E & -> & _ & (l' & Hl & Hw' & Ho) & _).
  exists w', l'. split; [done|]. split; [done|]. split; [done|]. split; [done|].
  pose proof (frame_ok w') as Hb. rewrite Hw' in Hb. rewrite !bytes_app in Hb. tauto.
Qed.

(** C11: A TCP segment, or a UDP datagram with a checksum, in an unfragmented
    packet whose IPv4 transport checksum is right, leaves the program with a
    right IPv6 transport checksum. *)
Theorem egress_transport_checksum :
  f4_is_frag f = false -> f4_proto f = 6 \/ f4_proto f = 17 /\ e4_no_csum f l = false ->
  skb_ip_summed (w_skb w) <> CHECKSUM_PARTIAL ->
  inet_ok (pseudo4_wire (f4_src f) (f4_dst f) (f4_proto f) (f4_l4len f) ++ l) ->
  exists w' l', exec (clat_egress cfg) w = (Some TC_ACT_OK, w') /\
    frame w' = sub 0 12 f ++ be16 ETH_P_IPV6 ++ e6_header cfg f ++ l' /\
    inet_ok (pseudo6_wire (e6_src cfg) (e6_dst cfg f) (f4_proto f) (f4_l4len f) ++ l').
Proof.
  intros Hfr Hpr Hst Hok. pose proof (frame_ok w) as Hf. fold f in Hf.
  destruct (egress_translate_len Hv) as [Hz Hll].
  destruct egress_translated as (w' & l' & E & Hw' & Hl' & Ho & Hb').
  exists w', l'. split; [done|]. unfold e6_frag in Hw'. rewrite Hfr in Hw'. split; [done|].
  assert (Hpb : is_byte (f4_proto f) /\ f4_proto f <> 0).
  { unfold is_byte. destruct Hpr as [->|[-> _]]; lia. }
  destruct (e6_pseudo_facts cfg f (f4_proto f) (f4_l4len f) Hf Hz (proj1 Hpb) (proj2 Hpb)) as (P1 & P2 & P3).
  destruct (f4_pseudo_facts f (f4_proto f) (f4_l4len f) Hf Hz (proj1 Hpb) (proj2 Hpb)) as (R1 & R2 & R3).
  apply pseudo_inet_ok; try done.
  apply pseudo_inet_ok in Hok; [|done|done|by apply bytes_drop|done].
  assert (Hcar : csum_carried (skb_ip_summed (w_skb w)) (if f4_proto f =? 6 then 16 else 6)
    (pseudo4_wire (f4_src f) (f4_dst f) (f4_proto f) (f4_l4len f))
    (pseudo6_wire (e6_src cfg) (e6_dst cfg f) (f4_proto f) (f4_l4len f)) l l').
  { unfold egress_l4_out in Ho. rewrite (f4_not_frag_first f Hfr) in Ho.
    destruct Hpr as [Hpr|[Hpr Hnc]]; rewrite Hpr in Ho |- *; cbn [negb Z.eqb Pos.eqb] in Ho |- *.
    - destruct Ho as (d & _ & _ & Hc). by apply Hc.
    - destruct Ho as (d & _ & _ & _ & Hc). fold l in Hnc. rewrite Hnc in Hc. by apply Hc. }
  unfold csum_carried in Hcar. destruct (skb_ip_summed (w_skb w)); try done; by rewrite Hcar.
Qed.

(** C13: With checksum offload the field of a TCP segment or UDP datagram holds
    the sum of the pseudo-header; a field that agrees with the IPv4
    pseudo-header is made to agree with the IPv6 one, for whatever length the
    offload fills in. *)
Theorem egress_partial_checksum len :
  0 <= len < 65536 ->
  f4_first f = true -> f4_proto f = 6 \/ f4_proto f = 17 /\ e4_no_csum f l = false ->
  skb_ip_summed (w_skb w) = CHECKSUM_PARTIAL ->
  let co := if f4_proto f =? 6 then 16 else 6 in
  rd16 l co ≅ sum16 (pseudo4_wire (f4_src f) (f4_dst f) (f4_proto f) len) ->
  exists w' l', exec (clat_egress cfg) w = (Some TC_ACT_OK, w') /\
    frame w' = sub 0 12 f ++ be16 ETH_P_IPV6 ++ e6_header cfg f ++ e6_frag f ++ l' /\
    rd16 l' co ≅ sum16 (pseudo6_wire (e6_src cfg) (e6_dst cfg f) (f4_proto f) len).
Proof.
  intros Hlen Hfst Hpr Hst co Hfield.
  destruct egress_translated as (w' & l' & E & Hw' & Hl' & Ho & Hb').
  exists w', l'. split; [done|]. split; [done|]. unfold egress_l4_out in Ho. rewrite Hfst, Hst in Ho.
  unfold co in *. unfold csum_carried in Ho.
  destruct Hpr as [Hpr|[Hpr Hnc]]; rewrite Hpr in *; cbn [negb Z.eqb Pos.eqb] in *.
  - destruct Ho as (d & _ & _ & Hc). specialize (Hc len Hlen). unfold eq1c in *. mlia.
  - destruct Ho as (d & _ & _ & _ & Hc). fold l in Hnc. rewrite Hnc in Hc.
    specialize (Hc len Hlen). unfold eq1c in *. mlia.
Qed.

(** C14: A UDP datagram sent without a checksum, which IPv6 forbids, gets one
    that is right for the whole datagram, provided its IPv4 pseudo-header does
    not sum to zero modulo 65535; its other bytes stay.  (The program takes the
    zero field of a datagram outside this condition for a checksum.) *)
Theorem egress_udp_full_checksum :
  f4_first f = true -> f4_proto f = 17 -> rd16 l 6 = 0 ->
  ~ sum16 (pseudo4_wire (f4_src f) (f4_dst f) 17 (f4_l4len f)) ≅ 0 -> 8 <= f4_l4len f ->
  exists w' d, exec (clat_egress cfg) w = (Some TC_ACT_OK, w') /\ zlen d = 2 /\ d <> [0; 0] /\
    frame w' = sub 0 12 f ++ be16 ETH_P_IPV6 ++ e6_header cfg f ++ splice 6 d l /\
    inet_ok (pseudo6_wire (e6_src cfg) (e6_dst cfg f) 17 (f4_l4len f) ++
             sub 0 (f4_l4len f) (splice 6 d l)).
Proof.
  intros Hfst Hpr H0 Hps H8. pose proof (frame_ok w) as Hf. fold f in Hf.
  pose proof (no_csum_zero_field f l H0 Hps) as Hnc.
  destruct (egress_translate_len Hv) as [Hz Hll].
  destruct egress_translated as (w' & l' & E & Hw' & Hl' & Ho & Hb').
  unfold egress_l4_out in Ho. rewrite Hfst, Hpr in Ho. cbn [negb Z.eqb Pos.eqb] in Ho.
  destruct Ho as (d & Hd & Hdn & -> & Hs). fold l in Hs. rewrite Hnc in Hs.
  destruct (egress_no_csum_translate cfg (skb_headlen (w_skb w)) f Hv Hfst Hpr Hnc) as [Hfr Hle].
  exists w', d. split; [done|]. split; [done|]. split; [done|].
  unfold e6_frag in Hw'. rewrite Hfr in Hw'. split; [done|].
  destruct (e6_pseudo_facts cfg f 17 (f4_l4len f) Hf Hz ltac:(done) ltac:(done)) as (P1 & P2 & P3).
  apply pseudo_inet_ok; [done|done|by apply bytes_sub|done|]. fold l in Hle.
  rewrite sub_splice by lia.
  pose proof (sum16_splice 6 d (sub 0 (f4_l4len f) l)) as Hsp. rewrite zlen_sub, Hd in Hsp by lia.
  rewrite sub_sub, sum16_sub_2 in Hsp by lia. unfold even_len in Hsp. rewrite Hd in Hsp.
  specialize (Hsp ltac:(lia) ltac:(lia) eq_refl eq_refl). change (0 + 6) with 6 in Hsp.
  rewrite H0 in Hsp. etrans; [|exact Hs]. apply eq1c_iff. exists 0. lia.
Qed.

(** C31: The test for a partial checksum misreads some datagrams.  A datagram
    sent without a checksum whose IPv4 pseudo-header sums to zero modulo 65535
    is not given a full checksum: the difference of the pseudo-headers is added
    to the zero field as if it were a checksum, and the result is right only if
    the datagram itself sums to zero. *)
Theorem egress_zero_field_misread :
  f4_is_frag f = false -> f4_proto f = 17 -> skb_ip_summed (w_skb w) <> CHECKSUM_PARTIAL ->
  rd16 l 6 = 0 -> sum16 (pseudo4_wire (f4_src f) (f4_dst f) 17 (f4_l4len f)) ≅ 0 ->
  exists w' l', exec (clat_egress cfg) w = (Some TC_ACT_OK, w') /\
    frame w' = sub 0 12 f ++ be16 ETH_P_IPV6 ++ e6_header cfg f ++ l' /\
    (inet_ok (pseudo6_wire (e6_src cfg) (e6_dst cfg f) 17 (f4_l4len f) ++ l') <-> sum16 l ≅ 0).
Proof.
  intros Hfr Hpr Hst H0 Hps. pose proof (frame_ok w) as Hf. fold f in Hf.
  destruct (egress_translate_len Hv) as [Hz Hll].
  destruct egress_translated as (w' & l' & E & Hw' & Hl' & Ho & Hb').
  exists w', l'. split; [done|]. unfold e6_frag in Hw'. rewrite Hfr in Hw'. split; [done|].
  assert (Hnc : e4_no_csum f l = false).
  { unfold e4_no_csum. unfold eq1c in Hps. rewrite Hps. by rewrite andb_false_r. }
  unfold egress_l4_out in Ho. rewrite (f4_not_frag_first f Hfr), Hpr in Ho.
  cbn [negb Z.eqb Pos.eqb] in Ho. destruct Ho as (d & _ & _ & _ & Hc).
  fold l in Hnc. rewrite Hnc in Hc. specialize (Hc _ Hll). unfold csum_carried in Hc.
  destruct (e6_pseudo_facts cfg f 17 (f4_l4len f) Hf Hz ltac:(done) ltac:(done)) as (P1 & P2 & P3).
  rewrite pseudo_inet_ok by done.
  destruct (skb_ip_summed (w_skb w)); try done; rewrite Hc, Hps; done.
Qed.

(** C15: An Echo message with a right ICMPv4 checksum leaves the program as the
    Echo message of ICMPv6 with a right ICMPv6 checksum, which covers the
    pseudo-header; only type and checksum change. *)
Theorem egress_echo_checksum :
  f4_proto f = 1 -> skb_ip_summed (w_skb w) <> CHECKSUM_PARTIAL -> inet_ok l ->
  exists w' d, exec (clat_egress cfg) w = (Some TC_ACT_OK, w') /\ zlen d = 2 /\
    let l' := splice 2 d (splice 0 [if byte_at l 0 =? 8 then 128 else 129] l) in
    frame w' = sub 0 12 f ++ be16 ETH_P_IPV6 ++ e6_header cfg f ++ l' /\
    inet_ok (pseudo6_wire (e6_src cfg) (e6_dst cfg f) 58 (f4_l4len f) ++ l').
Proof.
  intros Hpr Hst Hok. pose proof (frame_ok w) as Hf. fold f in Hf.
  destruct (egress_translate_len Hv) as [Hz Hll].
  pose proof (egress_icmp_not_frag cfg (skb_headlen (w_skb w)) f Hv Hpr) as Hfr.
  destruct egress_translated as (w' & l' & E & Hw' & Hl' & Ho & Hb').
  pose proof (f4_not_frag_first f Hfr) as Hfst.
  unfold egress_l4_out in Ho. rewrite Hfst, Hpr in Ho. cbn [negb Z.eqb Pos.eqb] in Ho.
  destruct Ho as (d & Hd & -> & Hs). exists w', d. split; [done|]. split; [done|].
  unfold e6_frag in Hw'. rewrite Hfr in Hw'. split; [done|].
  destruct (e6_pseudo_facts cfg f 58 (f4_l4len f) Hf Hz ltac:(done) ltac:(done)) as (P1 & P2 & P3).
  apply pseudo_inet_ok; [done|done|done|done|]. rewrite Hs by done.
  apply inet_ok_iff in Hok as [? _]; [done|by apply bytes_drop].
Qed.

(** C22: Later fragments, and packets of protocols without a pseudo-header in
    their checksum, keep every byte behind the IP header. *)
Theorem egress_payload_untouched :
  f4_first f = false \/ (f4_proto f <> 6 /\ f4_proto f <> 17 /\ f4_proto f <> 1) ->
  exists w', exec (clat_egress cfg) w = (Some TC_ACT_OK, w') /\
    frame w' = sub 0 12 f ++ be16 ETH_P_IPV6 ++ e6_header cfg f ++ e6_frag f ++ l.
Proof.
  intros Hpr. destruct egress_translated as (w' & l' & E & Hw' & Hl' & Ho & Hb').
  exists w'. split; [done|]. unfold egress_l4_out in Ho.
  destruct Hpr as [Hfst|(H6 & H17 & H1)].
  - rewrite Hfst in Ho. cbn [negb] in Ho. by subst l'.
  - apply Z.eqb_neq in H6, H17, H1. rewrite H6, H17, H1 in Ho. destruct (negb _); by subst l'.
Qed.
End Reliable.
