(* ===== verification/IngressTheorems.v ===== *)
(** * Properties of the ingress program

    Consequences of [wp_clat_ingress], in the order of EgressTheorems: what holds
    on any kernel, then what becomes of a frame on a kernel whose helpers succeed
    on arguments in range, ICMPv6 errors and lengths included. *)

From S2P Require Import Prelude Endian Checksum Kernel Program Common Wire Rules Contract.
From S2P Require Import IcmpMap Ingress IngressSpec IngressProof IcmpError IngressContract.

Section Lemmas.
Context `{T : Target} (cfg : consts).

Lemma g6_pseudo_facts f nh len : bytes f -> 62 <= zlen f -> is_byte nh -> nh <> 0 ->
  even_len (g6_pseudo f nh len) /\ bytes (g6_pseudo f nh len) /\
  (exists b, b ∈ g6_pseudo f nh len /\ b <> 0).
Proof.
  intros Hf Hz Hn Hnz. split; [by apply g6_pseudo_even|]. unfold g6_pseudo, pseudo6_wire. split.
  - unfold h6_src, h6_dst. solve_bytes.
  - exists nh. split; [|done]. rewrite !elem_of_app. right. right. right. in_list.
Qed.

Lemma g4_pseudo_facts f proto len : bytes f -> 62 <= zlen f -> is_byte proto -> proto <> 0 ->
  even_len (pseudo4_wire (g4_src cfg f) (g4_dst cfg) proto len) /\
  bytes (pseudo4_wire (g4_src cfg f) (g4_dst cfg) proto len) /\
  (exists b, b ∈ pseudo4_wire (g4_src cfg f) (g4_dst cfg) proto len /\ b <> 0).
Proof.
  intros Hf Hz Hn Hnz. unfold pseudo4_wire. split; [|split].
  - unfold even_len, g4_dst. by rewrite !zlen_app, zlen_g4_src, zlen_store32.
  - pose proof (bytes_g4_src cfg f Hf). unfold g4_dst. solve_bytes.
  - exists proto. split; [|done]. rewrite !elem_of_app. right. right. left. in_list.
Qed.

Lemma ingress_verdict_drops lin f cs c :
  ingress_verdict cfg lin f = Drop cs -> c ∈ cs -> c ∈ ingress_drops.
Proof.
  intros Hv. assert (HF : Forall (fun c => c ∈ ingress_drops) cs).
  { unfold ingress_verdict, ingress_admit, ingress_l4_verdict, icmp_error_verdict in Hv.
    repeat case_match; simplify_eq; repeat constructor; in_list. }
  rewrite Forall_forall in HF. apply HF.
Qed.

Lemma is_return_len lin f : is_return cfg lin f = true -> rd16 f 12 = ETH_P_IPV6 /\ 62 <= zlen f.
Proof.
  unfold is_return. rewrite !andb_true_iff. intros [[[[[_ H1] H2] _] _] _].
  apply Z.eqb_eq in H1. apply Z.leb_le in H2. done.
Qed.

(** What a translation says about the frame. *)
Lemma is_return_type lin f : is_return cfg lin f = true -> rd16 f 12 = ETH_P_IPV6.
Proof. unfold is_return. rewrite !andb_true_iff, Z.eqb_eq. tauto. Qed.

Lemma ingress_translate_facts lin f :
  ingress_verdict cfg lin f = Translate ->
  is_return cfg lin f = true /\ 62 <= zlen f /\ ingress_admit f = None /\
  ingress_l4_verdict cfg f = Translate.
Proof.
  unfold ingress_verdict. destruct (is_return cfg lin f) eqn:Er; cbn [negb]; [|done].
  destruct (is_return_len _ _ Er) as [_ Hz].
  destruct (ingress_admit f) as [v|] eqn:Ea; [|done].
  intros ->. unfold ingress_admit in Ea. by repeat case_match.
Qed.

Lemma f6_l4len_range f : bytes f -> ingress_admit f = None -> 0 <= f6_l4len f < 65536.
Proof.
  intros Hf Ha. unfold f6_l4len, h6_plen, h6_frag_len. pose proof (rd16_range f (14 + 4) Hf).
  unfold ingress_admit, h6_plen in Ha.
  destruct (h6_is_frag f 14); [|lia]. cbn [andb] in Ha.
  destruct (Z.ltb_spec (rd16 f (14 + 4)) 8); [done|lia].
Qed.

(** Only a fragment can be a later one; ICMPv6 never is. *)
Lemma not_frag_first f : h6_is_frag f 14 = false -> h6_first f 14 = true.
Proof. intros E. unfold h6_first. by rewrite E. Qed.

Lemma icmp_not_frag f : ingress_admit f = None -> h6_upper f 14 = 58 -> h6_is_frag f 14 = false.
Proof.
  unfold ingress_admit. intros Ha Hu. rewrite Hu in Ha. destruct (h6_is_frag f 14); [|done].
  cbn in Ha. by repeat case_match.
Qed.

(** A translated error quotes a whole IPv6 header. *)
Lemma error_translate_len f :
  ingress_l4_verdict cfg f = Translate -> h6_first f 14 = true -> h6_upper f 14 = 58 ->
  is_icmp_error f = true -> 48 <= zlen (f6_l4 f).
Proof.
  intros Hv H1 Hu He. unfold ingress_l4_verdict in Hv. rewrite H1, Hu in Hv.
  cbn [negb Z.eqb Pos.eqb] in Hv. unfold is_icmp_error in He. rewrite Hu in He.
  apply negb_true_iff in He. destruct (zlen (f6_l4 f) <? 8); [done|]. rewrite He in Hv.
  unfold icmp_error_verdict in Hv. case_bool_decide; [done|].
  destruct (Z.ltb_spec (zlen (f6_l4 f)) 48); [done|lia].
Qed.

(** Lengths after translation. *)
Lemma quoted_out_len exact k r' : 48 + h6_frag_len k 8 <= zlen k -> quoted_short k = false ->
  quoted_l4_out cfg exact False k (q_l4 k) r' -> zlen r' = zlen (q_l4 k).
Proof.
  intros Hk Hs Ho. unfold quoted_l4_out in Ho. destruct (q_is_echo k) eqn:Ee.
  - destruct Ho as (d & Hd & -> & _). pose proof Ee as Ee'. unfold q_is_echo in Ee'.
    unfold quoted_short in Hs. apply andb_true_iff in Ee' as [E1 E2]. rewrite E1, E2 in Hs.
    cbn [andb] in Hs. apply orb_false_iff in Hs as [_ Hs]. apply Z.ltb_ge in Hs.
    apply andb_true_iff in E1 as [_ E1]. apply negb_true_iff in E1.
    assert (Hr : zlen (q_l4 k) = zlen k - 48)
      by (unfold q_l4, h6_frag_len; rewrite E1, zlen_drop; lia).
    rewrite zlen_splice; rewrite ?zlen_splice; rewrite ?Hd; try lia;
      change (zlen [_]) with 1; lia.
  - destruct (q_has_csum k) eqn:Eh; [|by subst r'].
    destruct Ho as [(d & Hd & -> & _)|[[] _]]. unfold q_has_csum in Eh.
    rewrite !andb_true_iff in Eh. destruct Eh as [[_ Eh] _]. apply Z.leb_le in Eh.
    apply zlen_splice; [|lia]. unfold q_coff. repeat case_match; lia.
Qed.

Lemma ingress_out_len exact st f l' :
  ingress_admit f = None -> ingress_l4_verdict cfg f = Translate ->
  ingress_l4_out cfg exact False st f (f6_l4 f) l' ->
  zlen l' = zlen (f6_l4 f) - (if is_icmp_error f then q_shrink (f6_l4 f) else 0) /\
  (is_icmp_error f = true -> 48 <= zlen (f6_l4 f) /\ 20 <= q_shrink (f6_l4 f) <= 28).
Proof.
  intros Ha Hv Ho. pose proof (error_translate_len f Hv) as H48.
  unfold ingress_l4_verdict in Hv. unfold ingress_l4_out in Ho.
  destruct (h6_first f 14) eqn:Hfst; cbn [negb] in Hv, Ho.
  2: { subst l'. assert (Her : is_icmp_error f = false).
       { unfold is_icmp_error. destruct (Z.eqb_spec (h6_upper f 14) 58) as [Hu|]; [|done].
         by rewrite (not_frag_first f (icmp_not_frag f Ha Hu)) in Hfst. }
       rewrite Her. split; [lia|done]. }
  assert (Hne : h6_upper f 14 <> 58 -> is_icmp_error f = false).
  { intros Hu. unfold is_icmp_error. by rewrite (proj2 (Z.eqb_neq _ _) Hu). }
  destruct (Z.eqb_spec (h6_upper f 14) 6) as [H6|H6].
  { rewrite Hne by lia. destruct Ho as (d & Hd & -> & _). split; [|done].
    destruct (Z.ltb_spec (zlen (f6_l4 f)) 18); [done|]. rewrite zlen_splice; lia. }
  destruct (Z.eqb_spec (h6_upper f 14) 17) as [H17|H17].
  { rewrite Hne by lia. destruct Ho as (d & Hd & _ & -> & _). split; [|done].
    destruct (Z.ltb_spec (zlen (f6_l4 f)) 8); [done|]. rewrite zlen_splice; lia. }
  destruct (Z.eqb_spec (h6_upper f 14) 58) as [H58|H58].
  2: { rewrite Hne by done. subst l'. split; [lia|done]. }
  destruct (Z.ltb_spec (zlen (f6_l4 f)) 8); [done|]. destruct (is_icmp_error f) eqn:Her.
  2: { destruct Ho as (d & Hd & -> & _). split; [|done].
       rewrite zlen_splice; rewrite ?zlen_splice; rewrite ?Hd; try lia; change (zlen [_]) with 1; lia. }
  unfold is_icmp_error in Her. rewrite H58 in Her. apply negb_true_iff in Her. rewrite Her in Hv.
  rewrite error_verdict in Hv by done. unfold icmp_error_out in Ho.
  destruct Ho as (t4 & c4 & p4 & ck & ckq & r' & _ & Hck & Hckq & -> & _ & Hq & _).
  destruct (negb (m_ok _)); [done|]. destruct (quoted_ok cfg (f6_l4 f)) eqn:Eq; [|done].
  cbn [negb] in Hv. destruct (quoted_short (f6_l4 f)) eqn:Es; [done|].
  pose proof (quoted_ok_len _ _ Eq) as Hk. apply quoted_out_len in Hq; [|done|done].
  specialize (H48 eq_refl H58 eq_refl).
  assert (Hsh : 20 <= q_shrink (f6_l4 f) <= 28)
    by (unfold q_shrink, h6_frag_len; destruct (h6_is_frag (f6_l4 f) 8); lia).
  split; [|done].
  assert (Hrest : zlen (q4_rest (f6_l4 f) t4 p4) = 4) by (unfold q4_rest; by repeat case_match).
  unfold q4_header, h4_wire, g4_dst, h6_dst4. unfold q_l4 in Hq. rewrite zlen_drop in Hq.
  rewrite !zlen_app, !zlen_be16, !zlen_store32, !zlen_sub, Hck, Hckq, Hrest, Hq by lia.
  change (zlen [_; _]) with 2. unfold q_shrink in *. lia.
Qed.

Lemma zlen_out f tot ck l' : 62 <= zlen f -> zlen ck = 2 ->
  zlen (sub 0 12 f ++ be16 ETH_P_IP ++ g4_header cfg f tot ck ++ l') = 34 + zlen l'.
Proof.
  intros Hz Hck. unfold g4_header, h4_wire, g4_dst.
  rewrite !zlen_app, !zlen_be16, !zlen_store32, zlen_g4_src, zlen_sub, Hck by lia.
  change (zlen [_; _]) with 2. lia.
Qed.

(** The total length of the new header. *)
Lemma out_total_length f ck l' : 62 <= zlen f ->
  rd16 (sub 0 12 f ++ be16 ETH_P_IP ++ g4_header cfg f (g4_tot_len f) ck ++ l') 16 =
    g4_tot_len f mod 65536.
Proof.
  intros Hz. unfold g4_header, h4_wire. rewrite <- !app_assoc.
  rewrite rd16_app_r by (rewrite zlen_sub; lia). rewrite zlen_sub by lia.
  rewrite rd16_app_r by (rewrite zlen_be16; lia). rewrite zlen_be16.
  rewrite rd16_app_r by done. apply rd16_be16.
Qed.
End Lemmas.

(** ** Any kernel *)

Section AnyKernel.
Context {K : Kernel} `{T : Target} {may_fail : Prop} {KS : KernelSpec may_fail CNT_MAX K}.
Context (cfg : consts) (Hcfg : consts_ok cfg).

(** C2: On every frame, and whatever the helpers do within their documented
    behaviour, [clat_ingress] terminates without a fault and meets its
    contract: it lets through, drops (counting the reason) or translates the
    frame as [ingress_verdict] says, and what it makes of a translated frame
    is related to the input by [ingress_out]; where a helper fails for a
    reason of its own, CLAT return traffic is dropped under one ingress counter
    or, while it is still unchanged, let through. *)
Theorem ingress_correct w :
  (rd16 (frame w) 12 = ETH_P_IPV6 -> skb_protocol (w_skb w) = ETH_P_IPV6) ->
  exists act w', exec (clat_ingress cfg) w = (Some act, w') /\
    ingress_contract (may_fail := may_fail) cfg w act w'.
Proof. intros Hp. by apply wp_exec, wp_clat_ingress. Qed.

#[export] Instance ingress_accountable :
  Accountable (clat_ingress cfg) ETH_P_IPV6 CNT_INGRESS_TRANSLATED ingress_drops.
Proof.
  intros w Hp.
  destruct (proj1 (wp_exec _ _ _) (wp_clat_ingress (may_fail := may_fail) cfg Hcfg w Hp))
    as (act & w' & E & Hc).
  exists act, w'. split; [done|].
  destruct Hc as [Ho|[_ [(_ & c & Hin & Hd)|(_ & -> & Hf & _ & Hs)]]];
    [|by eapply accounted_drop|by apply accounted_pass].
  destruct (ingress_verdict _ _ _) as [|cs|] eqn:Ev; cbn [obeys] in Ho.
  - destruct Ho as (-> & Hf & _ & Hs). by apply accounted_pass.
  - destruct Ho as (c & Hin & Hd). eapply accounted_drop; [|done]. by eapply ingress_verdict_drops.
  - destruct Ho as (-> & Hs & (ck & l' & _ & Hw' & _) & _). apply accounted_translate; [|done].
    intros Hf. apply ingress_translate_facts in Ev as (Hr & Hz & _).
    apply is_return_type in Hr. rewrite <- Hf, Hw' in Hr. by rewrite rd16_type in Hr by (done || lia).
Qed.

(** C5: Accounting of the ingress program, on any kernel: the action is OK or
    SHOT; a dropped packet raises exactly one ingress drop counter, by one; a
    packet that is passed on changed raises exactly the counter of translated
    packets, by one, and one that is passed on unchanged raises none. *)
Theorem ingress_accounting w :
  (rd16 (frame w) 12 = ETH_P_IPV6 -> skb_protocol (w_skb w) = ETH_P_IPV6) ->
  exists act w', exec (clat_ingress cfg) w = (Some act, w') /\
    ((act = TC_ACT_SHOT /\ exists c, c ∈ ingress_drops /\ counted w c w') \/
     (act = TC_ACT_OK /\ frame w' <> frame w /\ counted w CNT_INGRESS_TRANSLATED w') \/
     (act = TC_ACT_OK /\ frame w' = frame w /\ forall c, counter w' c = counter w c)).
Proof.
  intros Hp. destruct (accounts w Hp) as (act & w' & E & Ha). exists act, w'.
  split; [done|]. by apply accounted_counters.
Qed.

(** C7: Native IPv6 is left alone: a packet that is not CLAT return traffic
    (to another address, from outside the CLAT prefix and not an ICMPv6 error
    that quotes a CLAT packet, or not IPv6 at all) passes the ingress program
    untouched and uncounted, on any kernel. *)
Theorem ingress_native_untouched w :
  (rd16 (frame w) 12 = ETH_P_IPV6 -> skb_protocol (w_skb w) = ETH_P_IPV6) ->
  is_return cfg (skb_headlen (w_skb w)) (frame w) = false ->
  exists w', exec (clat_ingress cfg) w = (Some TC_ACT_OK, w') /\ same_packet w w'.
Proof.
  intros Hp Hn.
  destruct (proj1 (wp_exec _ _ _) (wp_clat_ingress (may_fail := may_fail) cfg Hcfg w Hp))
    as (act & w' & E & [Ho|[Hr _]]); [|congruence].
  unfold ingress_verdict in Ho. rewrite Hn in Ho. destruct Ho as [-> Hs]. by exists w'.
Qed.
End AnyKernel.

(** ** Kernels whose helpers succeed on arguments in range *)

Section Reliable.
Context {K : Kernel} `{T : Target} {KS : KernelSpec False CNT_MAX K}.
Context (cfg : consts) (Hcfg : consts_ok cfg).
Context (w : world) (Hp : skb_protocol (w_skb w) = ETH_P_IPV6).

Let f := frame w.

Lemma ingress_run v : ingress_verdict cfg (skb_headlen (w_skb w)) f = v ->
  exists act w', exec (clat_ingress cfg) w = (Some act, w') /\
    obeys CNT_INGRESS_TRANSLATED (ingress_done (may_fail := False) cfg) v w act w'.
Proof.
  intros <-. destruct (proj1 (wp_exec _ _ _) (wp_clat_ingress cfg Hcfg w ltac:(done)))
    as (act & w' & E & [Ho|(_ & [([] & _)|([] & _)])]). eauto.
Qed.

(** C10: On a kernel whose helpers succeed on arguments in range the frame
    alone decides: the program drops a frame exactly when [ingress_verdict]
    says so, and then raises one counter, one that the verdict names. *)
Theorem ingress_drop_reason :
  exists act w', exec (clat_ingress cfg) w = (Some act, w') /\
    (act = TC_ACT_SHOT <-> exists cs, ingress_verdict cfg (skb_headlen (w_skb w)) f = Drop cs) /\
    (forall cs, ingress_verdict cfg (skb_headlen (w_skb w)) f = Drop cs -> exists c, c ∈ cs /\
       counted w c w').
Proof.
  destruct (ingress_run _ eq_refl) as (act & w' & E & Ho). exists act, w'. split; [done|].
  destruct (ingress_verdict cfg (skb_headlen (w_skb w)) f) as [|cs|]; cbn [obeys] in Ho.
  - destruct Ho as [-> _]. split; [split; [discriminate|by intros [? [=]]]|discriminate].
  - destruct Ho as (c & Hc & -> & Hs). split; [split; eauto|]. intros cs' [= <-].
    exists c. split; [done|]. intros c'. by apply counter_bump.
  - destruct Ho as [-> _]. split; [split; [discriminate|by intros [? [=]]]|discriminate].
Qed.

(** ** Translated frames *)

Context (Hv : ingress_verdict cfg (skb_headlen (w_skb w)) f = Translate).

Let l := f6_l4 f.

Lemma ingress_translated : exists w' ck l',
  exec (clat_ingress cfg) w = (Some TC_ACT_OK, w') /\ zlen ck = 2 /\
  frame w' = sub 0 12 f ++ be16 ETH_P_IP ++ g4_header cfg f (g4_tot_len f) ck ++ l' /\
  inet_ok (g4_header cfg f (g4_tot_len f) ck) /\
  ingress_l4_out cfg (csum_folded (K:=K)) False (skb_ip_summed (w_skb w)) f l l' /\ bytes l'.
Proof.
  destruct (ingress_run _ Hv) as (act & w' & E & -> & _ & (ck & l' & Hck & Hw' & Hok & Ho) & _).
  exists w', ck, l'. split; [done|]. split; [done|]. split; [done|]. split; [done|]. split; [done|].
  pose proof (frame_ok w') as Hb. rewrite Hw' in Hb. rewrite !bytes_app in Hb. tauto.
Qed.

(** C12: A TCP segment or UDP datagram in an unfragmented packet whose IPv6
    transport checksum is right leaves the program behind an IPv4 header with
    a right header checksum and with a right transport checksum; for UDP the
    two bytes of the checksum are all that changes in the datagram, and they
    are never the value zero that means no checksum in IPv4. *)
Theorem ingress_transport_checksum :
  h6_is_frag f 14 = false -> h6_upper f 14 = 6 \/ h6_upper f 14 = 17 ->
  skb_ip_summed (w_skb w) <> CHECKSUM_PARTIAL ->
  inet_ok (g6_pseudo f (h6_upper f 14) (f6_l4len f) ++ l) ->
  exists w' ck l', exec (clat_ingress cfg) w = (Some TC_ACT_OK, w') /\
    frame w' = sub 0 12 f ++ be16 ETH_P_IP ++ g4_header cfg f (g4_tot_len f) ck ++ l' /\
    inet_ok (g4_header cfg f (g4_tot_len f) ck) /\
    inet_ok (pseudo4_wire (g4_src cfg f) (g4_dst cfg) (h6_upper f 14) (f6_l4len f) ++ l') /\
    (h6_upper f 14 = 17 -> exists d, zlen d = 2 /\ d <> [0; 0] /\ l' = splice 6 d l).
Proof.
  intros Hfr Hpr Hst Hok. pose proof (frame_ok w) as Hf. fold f in Hf.
  destruct (ingress_translate_facts _ _ _ Hv) as (_ & Hz & Ha & _).
  pose proof (f6_l4len_range f Hf Ha) as Hll. pose proof (not_frag_first f Hfr) as Hfst.
  destruct ingress_translated as (w' & ck & l' & E & Hck & Hw' & Hh & Ho & Hb').
  exists w', ck, l'. split; [done|]. split; [done|]. split; [done|].
  assert (Hpb : is_byte (h6_upper f 14) /\ h6_upper f 14 <> 0).
  { unfold is_byte. destruct Hpr as [->| ->]; lia. }
  destruct (g6_pseudo_facts f (h6_upper f 14) (f6_l4len f) Hf Hz (proj1 Hpb) (proj2 Hpb)) as (P1 & P2 & P3).
  destruct (g4_pseudo_facts cfg f (h6_upper f 14) (f6_l4len f) Hf Hz (proj1 Hpb) (proj2 Hpb)) as (R1 & R2 & R3).
  apply pseudo_inet_ok in Hok; [|done|done|by apply bytes_drop|done].
  unfold ingress_l4_out in Ho. rewrite Hfst in Ho. unfold csum_carried in Ho.
  destruct Hpr as [Hpr|Hpr]; rewrite Hpr in *; cbn [negb Z.eqb Pos.eqb] in Ho.
  - destruct Ho as (d & _ & -> & Hc). split; [|done]. apply pseudo_inet_ok; try done.
    specialize (Hc _ Hll). destruct (skb_ip_summed (w_skb w)); try done; by rewrite Hc.
  - destruct Ho as (d & Hd2 & Hd & -> & Hc). split; [|by eauto]. apply pseudo_inet_ok; try done.
    specialize (Hc _ Hll). destruct (skb_ip_summed (w_skb w)); try done; by rewrite Hc.
Qed.

(** C16: An ICMPv6 Echo message with a right checksum leaves the program as an
    ICMPv4 Echo message with a right checksum, which no longer covers the
    pseudo-header; only type and checksum change. *)
Theorem ingress_echo_checksum :
  h6_upper f 14 = 58 -> byte_at l 0 = 128 \/ byte_at l 0 = 129 ->
  skb_ip_summed (w_skb w) <> CHECKSUM_PARTIAL ->
  inet_ok (g6_pseudo f 58 (f6_l4len f) ++ l) ->
  exists w' ck d, exec (clat_ingress cfg) w = (Some TC_ACT_OK, w') /\
    let l' := splice 2 d (splice 0 [if byte_at l 0 =? 129 then 0 else 8] l) in
    frame w' = sub 0 12 f ++ be16 ETH_P_IP ++ g4_header cfg f (g4_tot_len f) ck ++ l' /\
    zlen d = 2 /\ sum16 l' ≅ 0 /\
    (~ Forall (fun b => b = 0) l' -> inet_ok l').
Proof.
  intros Hu Ht Hst Hok. pose proof (frame_ok w) as Hf. fold f in Hf.
  destruct (ingress_translate_facts _ _ _ Hv) as (_ & Hz & Ha & _).
  pose proof (not_frag_first f (icmp_not_frag f Ha Hu)) as Hfst.
  destruct ingress_translated as (w' & ck & l' & E & Hck & Hw' & Hh & Ho & Hb').
  unfold ingress_l4_out in Ho. rewrite Hfst, Hu in Ho. cbn [negb Z.eqb Pos.eqb] in Ho.
  assert (Her : is_icmp_error f = false).
  { unfold is_icmp_error. fold l. rewrite Hu. by destruct Ht as [->| ->]. }
  rewrite Her in Ho. destruct Ho as (d & Hd & -> & Hs). exists w', ck, d. split; [done|].
  split; [done|]. split; [done|].
  destruct (g6_pseudo_facts f 58 (f6_l4len f) Hf Hz ltac:(done) ltac:(done)) as (P1 & P2 & P3).
  apply pseudo_inet_ok in Hok; [|done|done|by apply bytes_drop|done].
  assert (H0 : sum16 (splice 2 d (splice 0 [if byte_at l 0 =? 129 then 0 else 8] l)) ≅ 0)
    by by rewrite Hs.
  split; [done|]. intros Hnz. by apply inet_ok_iff.
Qed.

Lemma ingress_error_translated : is_icmp_error f = true -> exists w' ck4 l',
  exec (clat_ingress cfg) w = (Some TC_ACT_OK, w') /\ zlen ck4 = 2 /\
  frame w' = sub 0 12 f ++ be16 ETH_P_IP ++ g4_header cfg f (g4_tot_len f) ck4 ++ l' /\
  inet_ok (g4_header cfg f (g4_tot_len f) ck4) /\
  icmp_error_out cfg (csum_folded (K:=K)) False (skb_ip_summed (w_skb w)) f l l' /\ bytes l' /\
  48 <= zlen l.
Proof.
  intros Her. destruct (ingress_translate_facts _ _ _ Hv) as (_ & _ & Ha & Hv4).
  pose proof Her as Hu. unfold is_icmp_error in Hu. apply andb_true_iff in Hu as [Hu _].
  apply Z.eqb_eq in Hu.
  pose proof (not_frag_first f (icmp_not_frag f Ha Hu)) as Hfst.
  destruct ingress_translated as (w' & ck4 & l' & E & Hck & Hw' & Hh & Ho & Hb').
  unfold ingress_l4_out in Ho. rewrite Hfst, Hu, Her in Ho. cbn [negb Z.eqb Pos.eqb] in Ho.
  exists w', ck4, l'. split_and!; try done. by eapply error_translate_len.
Qed.

(** C17: An ICMPv6 error with a right checksum becomes an ICMPv4 error with a
    right checksum: new type, code and second word, a quoted IPv4 header whose
    own checksum is right, and the quoted data behind it; the outer IPv4
    header, rewritten for the shorter packet, has a right checksum too. *)
Theorem ingress_error_checksum :
  is_icmp_error f = true -> skb_ip_summed (w_skb w) <> CHECKSUM_PARTIAL ->
  inet_ok (g6_pseudo f 58 (f6_l4len f) ++ l) ->
  exists w' type4 code4 pointer4 ck4 ck ckq r',
    exec (clat_ingress cfg) w = (Some TC_ACT_OK, w') /\
    design_error (byte_at l 0) (byte_at l 1) (rd32 l 4) = Some (type4, code4, pointer4) /\
    zlen ck4 = 2 /\ zlen ck = 2 /\ zlen ckq = 2 /\
    let l' := [type4; code4] ++ ck ++ q4_rest l type4 pointer4 ++ q4_header cfg l ckq ++ r' in
    frame w' = sub 0 12 f ++ be16 ETH_P_IP ++ g4_header cfg f (g4_tot_len f) ck4 ++ l' /\
    inet_ok (g4_header cfg f (g4_tot_len f) ck4) /\ inet_ok (q4_header cfg l ckq) /\ inet_ok l'.
Proof.
  intros Her Hst Hok. pose proof (frame_ok w) as Hf. fold f in Hf.
  destruct (ingress_translate_facts _ _ _ Hv) as (_ & Hz & Ha & _).
  destruct (ingress_error_translated Her)
    as (w' & ck4 & l' & E & Hck & Hw' & Hh & Ho & Hb' & H48).
  destruct Ho as (t4 & c4 & p4 & ck & ckq & r' & Hde & Hck' & Hckq & -> & Hq & Hquo & Hs).
  exists w', t4, c4, p4, ck4, ck, ckq, r'. do 8 (split; [done|]).
  destruct (g6_pseudo_facts f 58 (f6_l4len f) Hf Hz ltac:(done) ltac:(done)) as (P1 & P2 & P3).
  apply pseudo_inet_ok in Hok; [|done|done|by apply bytes_drop|done].
  apply inet_ok_iff; [done|]. split; [by rewrite Hs|].
  rewrite !Forall_app. intros (_ & _ & _ & Hq0 & _). apply inet_ok_iff in Hq as [_ Hq]; [done|].
  rewrite !bytes_app in Hb'. tauto.
Qed.

(** C18: The packet an error quotes is translated as well: a quoted Echo
    message changes its type and loses the pseudo-header from its checksum; the
    checksum of a quoted TCP segment or UDP datagram, where it is there, keeps
    its relation to the data under the new pseudo-header; every other byte
    behind the quoted header, past these two or three, stays.  For the checksums, on a kernel that folds checksum
    differences to 16 bits. *)
Theorem ingress_error_quoted :
  is_icmp_error f = true -> csum_folded (K:=K) ->
  exists w' hd r', exec (clat_ingress cfg) w = (Some TC_ACT_OK, w') /\
    frame w' = hd ++ r' /\ zlen hd = 62 /\ let r := q_l4 l in
    if q_is_echo l then
      exists d, zlen d = 2 /\
        r' = splice 2 d (splice 0 [if byte_at l 48 =? 128 then 8 else 0] r) /\
        sum16 r' ≅ sum16 (pseudo6_wire (h6_src l 8) (h6_dst l 8) 58 (h6_plen l 8)) + sum16 r
    else if q_has_csum l then
      exists d, zlen d = 2 /\ r' = splice (q_coff l) d r /\ forall len, 0 <= len < 65536 ->
        sum16 (pseudo4_wire (g4_dst cfg) (h6_dst4 l 8) (h6_upper l 8) len) + sum16 r' ≅
        sum16 (pseudo6_wire (h6_src l 8) (h6_dst l 8) (h6_upper l 8) len) + sum16 r
    else r' = r.
Proof.
  intros Her Hfold. pose proof (frame_ok w) as Hf. fold f in Hf.
  destruct (ingress_translate_facts _ _ _ Hv) as (_ & Hz & Ha & Hv4).
  destruct (ingress_error_translated Her)
    as (w' & ck4 & l' & E & Hck & Hw' & Hh & Ho & Hb' & H48).
  destruct Ho as (t4 & c4 & p4 & ck & ckq & r' & _ & Hck' & Hckq & -> & Hq & Hquo & Hs).
  exists w', (sub 0 12 f ++ be16 ETH_P_IP ++ g4_header cfg f (g4_tot_len f) ck4 ++
    [t4; c4] ++ ck ++ q4_rest l t4 p4 ++ q4_header cfg l ckq), r'.
  split; [done|]. split; [rewrite Hw'; by rewrite <- !app_assoc|]. split.
  { assert (Hrest : zlen (q4_rest l t4 p4) = 4) by (unfold q4_rest; by repeat case_match).
    unfold g4_header, q4_header, h4_wire, g4_dst, h6_dst4.
    rewrite !zlen_app, !zlen_be16, zlen_g4_src, !zlen_store32, !zlen_sub, Hck, Hck', Hckq, Hrest by lia.
    reflexivity. }
  unfold quoted_l4_out in Hquo. fold l in Hquo. destruct (q_is_echo l).
  - destruct Hquo as (d & Hd & Hr & Hc). exists d. split; [done|]. split; [done|by apply Hc].
  - destruct (q_has_csum l); [|done]. destruct Hquo as [(d & Hd & Hr & Hc)|[[] _]].
    exists d. split; [done|]. split; [done|by apply Hc].
Qed.

(** C19: Path MTU.  A Packet Too Big message becomes Fragmentation Needed with
    an MTU of at least 68, the least IPv4 allows, and either of 68 or such that
    an IPv4 packet of that size, after egress has exchanged its header for the
    larger IPv6 header (and added a Fragment header, if the quoted packet had
    one), fits the MTU that was reported. *)
Theorem ingress_too_big_mtu :
  is_icmp_error f = true -> byte_at l 0 = 2 ->
  exists w', exec (clat_ingress cfg) w = (Some TC_ACT_OK, w') /\
    sub 34 2 (frame w') = [3; 4] /\
    let mtu := rd16 (frame w') 40 in
    68 <= mtu /\ (mtu = 68 \/ mtu + 20 + h6_frag_len l 8 <= rd32 l 4).
Proof.
  intros Her H2. destruct (ingress_translate_facts _ _ _ Hv) as (_ & Hz & _ & _).
  destruct (ingress_error_translated Her)
    as (w' & ck4 & l' & E & Hck & Hw' & _ & Ho & _ & H48).
  exists w'. split; [done|]. unfold icmp_error_out in Ho. fold l in Ho. rewrite H2 in Ho.
  destruct Ho as (t4 & c4 & p4 & ck & ckq & r' & [= <- <- <-] & Hck' & _ & -> & _).
  unfold q4_rest in Hw'. rewrite H2 in Hw'. cbn [Z.eqb Pos.eqb] in Hw'.
  pose proof (zlen_out cfg f (g4_tot_len f) ck4 [] Hz Hck) as Hhd. rewrite app_nil_r in Hhd.
  set (hd := sub 0 12 f ++ be16 ETH_P_IP ++ g4_header cfg f (g4_tot_len f) ck4) in *.
  set (v := reported_mtu l) in *.
  assert (Hmtu : rd16 (frame w') 40 = v /\ sub 34 2 (frame w') = [3; 4]).
  { rewrite Hw'. replace (sub 0 12 f ++ _) with
      (hd ++ [3; 4] ++ ck ++ ([0; 0] ++ be16 v) ++ q4_header cfg l ckq ++ r')
      by (unfold hd; by rewrite <- !app_assoc).
    change (34 + zlen []) with 34 in Hhd. split.
    - rewrite <- !app_assoc, rd16_app_r, Hhd by lia. rewrite rd16_app_r by done.
      rewrite rd16_app_r, Hck' by (rewrite Hck'; done). rewrite rd16_app_r by done.
      change (rd16 (be16 v ++ q4_header cfg l ckq ++ r') 0 = v).
      rewrite rd16_be16. apply Z.mod_small. pose proof (reported_mtu_range l) as Hr.
      fold v in Hr. lia.
    - rewrite sub_app_r, Hhd by lia. reflexivity. }
  destruct Hmtu as [-> ->]. split; [done|].
  apply reported_mtu_fits.
Qed.

(** C23: Later fragments, and packets of protocols without a pseudo-header in
    their checksum, keep every byte behind the IP headers. *)
Theorem ingress_payload_untouched :
  h6_first f 14 = false \/ (h6_upper f 14 <> 6 /\ h6_upper f 14 <> 17 /\ h6_upper f 14 <> 58) ->
  exists w' ck, exec (clat_ingress cfg) w = (Some TC_ACT_OK, w') /\
    frame w' = sub 0 12 f ++ be16 ETH_P_IP ++ g4_header cfg f ((f6_l4len f + 20) mod 65536) ck ++ l /\
    inet_ok (g4_header cfg f ((f6_l4len f + 20) mod 65536) ck).
Proof.
  intros Hpr. destruct (ingress_translate_facts _ _ _ Hv) as (_ & Hz & Ha & _).
  destruct ingress_translated as (w' & ck & l' & E & Hck & Hw' & Hh & Ho & Hb').
  assert (Her : is_icmp_error f = false).
  { unfold is_icmp_error. destruct (Z.eqb_spec (h6_upper f 14) 58) as [Hu|]; [|done].
    destruct Hpr as [Hfst|(_ & _ & ?)]; [|done].
    by rewrite (not_frag_first f (icmp_not_frag f Ha Hu)) in Hfst. }
  exists w', ck. split; [done|]. unfold g4_tot_len in Hw', Hh. rewrite Her, Z.sub_0_r in Hw', Hh.
  split; [|done]. unfold ingress_l4_out in Ho.
  destruct Hpr as [Hfst|(H6 & H17 & H58)].
  - rewrite Hfst in Ho. cbn [negb] in Ho. by subst l'.
  - apply Z.eqb_neq in H6, H17, H58. rewrite H6, H17, H58 in Ho. destruct (negb _); by subst l'.
Qed.

(** C21: Where the IPv6 payload length agrees with the frame and the IPv4 packet
    can have that length, the total length of the IPv4 header agrees with the
    frame that leaves the program, for ICMP errors too, which shrink. *)
Theorem ingress_length :
  zlen f = 54 + h6_plen f 14 -> f6_l4len f <= 65515 ->
  exists w', exec (clat_ingress cfg) w = (Some TC_ACT_OK, w') /\
    rd16 (frame w') 16 = zlen (frame w') - 14.
Proof.
  intros Hlen Hmax. pose proof (frame_ok w) as Hf. fold f in Hf.
  destruct (ingress_translate_facts _ _ _ Hv) as (_ & Hz & Ha & Hv4).
  pose proof (f6_l4len_range f Hf Ha) as Hll.
  destruct ingress_translated as (w' & ck & l' & E & Hck & Hw' & Hh & Ho & Hb').
  exists w'. split; [done|].
  pose proof (ingress_out_len cfg _ _ f l' Ha Hv4 Ho) as [Hl' Hsl]. fold l in Hl', Hsl.
  assert (Hl : zlen l = f6_l4len f).
  { unfold l, f6_l4, f6_l4len. rewrite zlen_drop. unfold h6_frag_len.
    unfold ingress_admit in Ha. destruct (h6_is_frag f 14); cbn [andb] in Ha.
    - destruct (Z.ltb_spec (h6_plen f 14) 8); [done|lia].
    - lia. }
  rewrite Hw', (out_total_length cfg f ck l' Hz). unfold g4_tot_len.
  rewrite (Z.mod_small (f6_l4len f + 20)) by lia. fold l in Hsl, Hl' |- *.
  rewrite Z.mod_small by (destruct (is_icmp_error f); lia).
  rewrite (zlen_out cfg f _ ck l' Hz Hck), Hl', Hl. destruct (is_icmp_error f); lia.
Qed.

(** C32: A payload of more than 65515 bytes does not fit an IPv4 packet; the
    program translates it all the same, with a total length that is 65536 too
    small. *)
Theorem ingress_length_wraps :
  zlen f = 54 + h6_plen f 14 -> 65515 < f6_l4len f -> is_icmp_error f = false ->
  exists w', exec (clat_ingress cfg) w = (Some TC_ACT_OK, w') /\
    rd16 (frame w') 16 = zlen (frame w') - 14 - 65536.
Proof.
  intros Hlen Hmax Her. pose proof (frame_ok w) as Hf. fold f in Hf.
  destruct (ingress_translate_facts _ _ _ Hv) as (_ & Hz & Ha & Hv4).
  pose proof (f6_l4len_range f Hf Ha) as Hll.
  destruct ingress_translated as (w' & ck & l' & E & Hck & Hw' & Hh & Ho & Hb').
  exists w'. split; [done|].
  pose proof (ingress_out_len cfg _ _ f l' Ha Hv4 Ho) as [Hl' _]. fold l in Hl'.
  assert (Hl : zlen l = f6_l4len f).
  { unfold l, f6_l4, f6_l4len in *. rewrite zlen_drop. unfold h6_frag_len in *.
    destruct (h6_is_frag f 14); lia. }
  rewrite Hw', (out_total_length cfg f ck l' Hz). unfold g4_tot_len. rewrite Her in *.
  rewrite (zlen_out cfg f _ ck l' Hz Hck), Hl', Hl. mlia.
Qed.
End Reliable.
