(* ===== verification/RoundTrip.v ===== *)
(** * Egress and ingress together

    The IPv6 frame that [clat_egress] makes, read back field by field; and the
    round trip: a peer that answers with the same packet, addresses exchanged,
    sends a frame that [clat_ingress] turns into the IPv4 packet with exchanged
    addresses. *)

From S2P Require Import Prelude Endian Checksum Kernel Program Common Wire Rules Contract.
From S2P Require Import IcmpMap Options EgressSpec Egress EgressProof EgressTheorems Ingress.
From S2P Require Import IngressSpec IngressProof IngressContract IngressTheorems.

(** ** Frames in parts *)

(** Ethernet header, first eight bytes of the IPv6 header, addresses, rest. *)
Definition frame6 (eth h src dst r : list Z) : list Z := eth ++ h ++ src ++ dst ++ r.

(** The answer of a peer that exchanges the addresses. *)
Definition mirror6 (f : list Z) : list Z :=
  sub 0 22 f ++ sub 38 16 f ++ sub 22 16 f ++ drop 54 f.

Section Frame6.
Context (eth h src dst r : list Z).
Context (He : zlen eth = 14) (Hh : zlen h = 8) (Hs : zlen src = 16) (Hd : zlen dst = 16).

Let f := frame6 eth h src dst r.

Lemma zlen_frame6 : zlen f = 54 + zlen r.
Proof. unfold f, frame6. rewrite !zlen_app. lia. Qed.

Lemma frame6_h k : 0 <= k < 8 -> byte_at f (14 + k) = byte_at h k.
Proof.
  intros. unfold f, frame6. rewrite byte_at_app_r, byte_at_app_l by lia. f_equal. lia.
Qed.

Lemma frame6_src : sub 22 16 f = src.
Proof.
  unfold f, frame6. rewrite sub_app_r, sub_app_r by lia. rewrite He, Hh. change (22 - 14 - 8) with 0.
  by apply sub_app_0.
Qed.

Lemma frame6_dst : sub 38 16 f = dst.
Proof.
  unfold f, frame6. rewrite !sub_app_r by lia. rewrite He, Hh, Hs. change (38 - 14 - 8 - 16) with 0.
  by apply sub_app_0.
Qed.

Lemma frame6_split : f = (eth ++ h ++ src ++ dst) ++ r.
Proof. unfold f, frame6. by rewrite <- !app_assoc. Qed.

Lemma zlen_frame6_hd : zlen (eth ++ h ++ src ++ dst) = 54.
Proof. rewrite !zlen_app. lia. Qed.

Lemma frame6_rest k : 0 <= k -> byte_at f (54 + k) = byte_at r k.
Proof.
  intros. rewrite frame6_split, byte_at_app_r; rewrite zlen_frame6_hd; [f_equal|]; lia.
Qed.

Lemma frame6_drop k : 0 <= k -> drop (Z.to_nat (54 + k)) f = drop (Z.to_nat k) r.
Proof.
  intros. rewrite frame6_split, Z2Nat.inj_add, <- drop_drop by lia.
  by rewrite drop_app_zlen by apply zlen_frame6_hd.
Qed.

Lemma frame6_eth : sub 0 12 f = sub 0 12 eth.
Proof. unfold f, frame6. apply sub_app_l; lia. Qed.

Lemma frame6_hd : sub 0 22 f = eth ++ h.
Proof. unfold f, frame6. rewrite app_assoc. apply sub_app_0. rewrite zlen_app. lia. Qed.
End Frame6.

Lemma mirror6_frame6 eth h src dst r :
  zlen eth = 14 -> zlen h = 8 -> zlen src = 16 -> zlen dst = 16 ->
  mirror6 (frame6 eth h src dst r) = frame6 eth h dst src r.
Proof.
  intros He Hh Hs Hd. unfold mirror6. rewrite frame6_src, frame6_dst, frame6_hd by done.
  pose proof (frame6_drop eth h src dst r He Hh Hs Hd 0 ltac:(lia)) as Hr.
  change (Z.to_nat (54 + 0)) with 54%nat in Hr. rewrite Hr, drop_0.
  unfold frame6. by rewrite <- !app_assoc.
Qed.

(** ** The fields of a translated frame *)

Section Fields.
Context `{T : Target} (cfg : consts).
Context (f : list Z) (Hf : bytes f) (Hz : 34 <= zlen f) (Hl : 0 <= f4_l4len f)
  (Hh : 20 <= f4_hlen f).

(** The first eight bytes of the header that egress writes. *)
Definition e6_first8 : list Z :=
  [96 + f4_tos f / 16; f4_tos f mod 16 * 16; 0; 0] ++
  be16 (f4_l4len f + (if f4_is_frag f then 8 else 0)) ++
  [if f4_is_frag f then 44 else e6_nh f; byte_at f 22].

(** A frame with these header bytes and any addresses. *)
Context (src dst l' : list Z) (Hs : zlen src = 16) (Hd : zlen dst = 16).

Let eth := sub 0 12 f ++ be16 ETH_P_IPV6.
Let g := frame6 eth e6_first8 src dst (e6_frag f ++ l').

Lemma zlen_eth : zlen eth = 14.
Proof. unfold eth. rewrite zlen_app, zlen_sub by lia. done. Qed.

Lemma l4len_bound : f4_l4len f <= 65515.
Proof. unfold f4_l4len, f4_tot_len in *. pose proof (rd16_range f 16 Hf). lia. Qed.

Lemma rt_ethertype : rd16 g 12 = ETH_P_IPV6.
Proof.
  unfold g, frame6, eth. rewrite <- app_assoc.
  rewrite rd16_app_r by (rewrite zlen_sub; lia). rewrite zlen_sub by lia.
  by rewrite rd16_be16.
Qed.

Lemma rt_version : h6_version g 14 = 6.
Proof.
  unfold h6_version, g. change (byte_at (frame6 eth e6_first8 src dst (e6_frag f ++ l')) 14)
    with (byte_at (frame6 eth e6_first8 src dst (e6_frag f ++ l')) (14 + 0)).
  rewrite frame6_h by (done || apply zlen_eth || lia).
  unfold e6_first8, byte_at. znat. cbn [app nth]. unfold f4_tos.
  pose proof (byte_at_range f 15 Hf). mlia.
Qed.

Lemma rt_class : h6_class g 14 = f4_tos f.
Proof.
  unfold h6_class, g. change (byte_at (frame6 eth e6_first8 src dst (e6_frag f ++ l')) 14)
    with (byte_at (frame6 eth e6_first8 src dst (e6_frag f ++ l')) (14 + 0)).
  rewrite !frame6_h by (done || apply zlen_eth || lia).
  unfold e6_first8, byte_at. znat. cbn [app nth]. unfold f4_tos.
  pose proof (byte_at_range f 15 Hf). mlia.
Qed.

Lemma rt_plen : h6_plen g 14 = f4_l4len f + (if f4_is_frag f then 8 else 0).
Proof.
  pose proof l4len_bound. unfold h6_plen, rd16, g. rewrite <- !Z.add_assoc.
  rewrite !frame6_h by (done || apply zlen_eth || lia).
  change (4 + 1) with 5. unfold e6_first8, byte_at, be16, byte_n. znat. cbn [app nth].
  change (2 ^ (8 * 1)) with 256. change (2 ^ (8 * 0)) with 1. destruct (f4_is_frag f); mlia.
Qed.

Lemma rt_hop : h6_hop g 14 = byte_at f 22.
Proof.
  unfold h6_hop, g. rewrite frame6_h by (done || apply zlen_eth || lia).
  unfold e6_first8. by destruct (f4_is_frag f).
Qed.

Lemma rt_nh : h6_nh g 14 = if f4_is_frag f then 44 else e6_nh f.
Proof.
  unfold h6_nh, g. rewrite frame6_h by (done || apply zlen_eth || lia).
  unfold e6_first8, byte_at. znat. reflexivity.
Qed.

Lemma rt_src : h6_src g 14 = src.
Proof. apply frame6_src; try done. apply zlen_eth. Qed.

Lemma rt_dst : h6_dst g 14 = dst.
Proof. apply frame6_dst; try done. apply zlen_eth. Qed.

(** An IPv4 packet of protocol 44 would be read as a fragment. *)
Context (H44 : e6_nh f <> 44).

Lemma rt_is_frag : h6_is_frag g 14 = f4_is_frag f.
Proof. unfold h6_is_frag. rewrite rt_nh. destruct (f4_is_frag f); [done|]. by apply Z.eqb_neq. Qed.

Lemma rt_upper : h6_upper g 14 = e6_nh f.
Proof.
  unfold h6_upper. rewrite rt_is_frag, rt_nh. destruct (f4_is_frag f) eqn:Ef; [|done].
  change (14 + 40) with (54 + 0). unfold g.
  rewrite frame6_rest by (done || apply zlen_eth || lia). unfold e6_frag. by rewrite Ef.
Qed.

Lemma rt_fo : f4_is_frag f = true -> h6_fo g 14 = 8 * f4_offset f + (if f4_mf f then 1 else 0).
Proof.
  intros Ef. unfold h6_fo, rd16, g. change (14 + 42 + 1) with (54 + 3). change (14 + 42) with (54 + 2).
  rewrite !frame6_rest by (done || apply zlen_eth || lia). unfold e6_frag. rewrite Ef.
  unfold be16, byte_n, byte_at. znat. cbn [app nth]. change (2 ^ (8 * 1)) with 256.
  change (2 ^ (8 * 0)) with 1. unfold f4_offset. destruct (f4_mf f); mlia.
Qed.

Lemma rt_first : h6_first g 14 = f4_first f.
Proof.
  unfold h6_first. rewrite rt_is_frag. destruct (f4_is_frag f) eqn:Ef; cbn [negb orb].
  - rewrite rt_fo by done. unfold f4_first. f_equal. unfold f4_offset. destruct (f4_mf f); mlia.
  - unfold f4_is_frag in Ef. apply orb_false_iff in Ef as [_ Ef]. by apply negb_false_iff in Ef.
Qed.

(** Identification and fragment field as IPv4 would have them. *)
Definition f4_id_kept : Z := if f4_is_frag f then rd16 f 18 else 0.
Definition f4_frag_kept : Z :=
  if f4_is_frag f then f4_offset f + (if f4_mf f then 8192 else 0) else 16384.

Lemma rt_frag4 : h6_frag4 g 14 = f4_frag_kept.
Proof.
  unfold h6_frag4, f4_frag_kept. rewrite rt_is_frag. destruct (f4_is_frag f) eqn:Ef; [|done].
  rewrite rt_fo by done.
  replace (8 * f4_offset f) with (2 * (4 * f4_offset f)) by lia.
  rewrite (Z.add_comm (2 * _)), Z.odd_add_mul_2. destruct (f4_mf f); cbn [Z.odd]; mlia.
Qed.

Lemma rt_id : h6_id g 14 = f4_id_kept.
Proof.
  unfold h6_id, f4_id_kept. rewrite rt_is_frag. destruct (f4_is_frag f) eqn:Ef; [|done].
  unfold rd16, g. change (14 + 46 + 1) with (54 + 7). change (14 + 46) with (54 + 6).
  rewrite !frame6_rest by (done || apply zlen_eth || lia). unfold e6_frag. rewrite Ef.
  rewrite !sub_cons, sub_neg by lia. unfold byte_at at 1 2. znat. reflexivity.
Qed.

Lemma rt_frag_len : h6_frag_len g 14 = if f4_is_frag f then 8 else 0.
Proof. unfold h6_frag_len. by rewrite rt_is_frag. Qed.

Lemma rt_l4 : f6_l4 g = l'.
Proof.
  unfold f6_l4. rewrite rt_frag_len. unfold g.
  rewrite frame6_drop by (done || apply zlen_eth || destruct (f4_is_frag f); lia).
  apply drop_app_zlen. unfold e6_frag. destruct (f4_is_frag f); [|done].
  rewrite !zlen_app, zlen_sub by lia. reflexivity.
Qed.

Lemma rt_l4len : f6_l4len g = f4_l4len f.
Proof. unfold f6_l4len. rewrite rt_plen, rt_frag_len. lia. Qed.
End Fields.

Section Theorems.
Context {K : Kernel} `{T : Target} {KS : KernelSpec False CNT_MAX K}.
Context (cfg : consts) (Hcfg : consts_ok cfg).

Lemma egress_translate_admit lin f : bytes f -> egress_verdict cfg lin f = Translate ->
  34 <= zlen f /\ 20 <= f4_hlen f /\ 0 <= f4_l4len f /\ f4_src f = store32 (POD_IP4 cfg) /\
  14 + f4_hlen f <= zlen f.
Proof.
  intros Hf Hv. destruct (egress_admit cfg lin f) as [v|] eqn:Ea.
  { unfold egress_verdict in Hv. rewrite Ea in Hv. subst v. unfold egress_admit in Ea.
    by repeat case_match. }
  destruct (egress_admit_None cfg lin f Hf Ea) as (_ & Hz & Hh & Hl).
  split; [done|]. split; [done|]. split; [done|]. split.
  - unfold egress_admit in Ea. destruct (bool_decide _) eqn:E; [by apply bool_decide_eq_true in E|].
    by repeat case_match.
  - unfold egress_verdict in Hv. rewrite Ea in Hv. unfold egress_options in Hv.
    destruct (Z.ltb_spec (zlen f) (14 + f4_hlen f)); [done|lia].
Qed.

(** The translated frame in parts. *)
Lemma egress_frame6 f l' :
  sub 0 12 f ++ be16 ETH_P_IPV6 ++ e6_header cfg f ++ e6_frag f ++ l' =
  frame6 (sub 0 12 f ++ be16 ETH_P_IPV6) (e6_first8 f) (e6_src cfg) (e6_dst cfg f) (e6_frag f ++ l').
Proof. unfold frame6, e6_header, e6_first8. by rewrite <- !app_assoc. Qed.

(** C20: The header that egress writes, read back as IPv6: version 6, traffic
    class, hop limit and protocol of the IPv4 packet, the pod's IPv6 address and
    the destination inside the CLAT prefix, a Fragment header exactly for a
    fragment, with its offset, more-fragments bit and identification; and a
    payload length that agrees with the frame when the IPv4 total length did. *)
Theorem egress_header_fields w :
  skb_protocol (w_skb w) = ETH_P_IP -> let f := frame w in
  egress_verdict cfg (skb_headlen (w_skb w)) f = Translate -> e6_nh f <> 44 ->
  exists w', exec (clat_egress cfg) w = (Some TC_ACT_OK, w') /\ let f' := frame w' in
    rd16 f' 12 = ETH_P_IPV6 /\ h6_version f' 14 = 6 /\ h6_class f' 14 = f4_tos f /\
    h6_hop f' 14 = byte_at f 22 /\ h6_upper f' 14 = e6_nh f /\
    h6_src f' 14 = in6_bytes (POD_IP6 cfg) /\
    h6_dst f' 14 = prefix_bytes (CLAT_PREFIX cfg) ++ f4_dst f /\
    h6_is_frag f' 14 = f4_is_frag f /\ h6_id f' 14 = f4_id_kept f /\
    h6_frag4 f' 14 = f4_frag_kept f /\
    (zlen f = 14 + f4_tot_len f -> h6_plen f' 14 = zlen f' - 54).
Proof.
  intros Hp f Hv H44. pose proof (frame_ok w) as Hf. fold f in Hf.
  destruct (egress_translate_admit _ _ Hf Hv) as (Hz & Hh & Hl & _ & Hzh).
  destruct (egress_translated cfg Hcfg w Hp Hv) as (w' & l' & E & Hw' & Hl' & _ & _). fold f in Hw', Hl'.
  exists w'. split; [done|]. cbv zeta. rewrite Hw', egress_frame6.
  assert (Hs : zlen (e6_src cfg) = 16) by apply zlen_in6_bytes.
  assert (Hd : zlen (e6_dst cfg f) = 16) by by apply zlen_e6_dst.
  rewrite rt_ethertype, rt_version, rt_class, rt_hop, rt_upper, rt_src, rt_dst, rt_is_frag, rt_id,
    rt_frag4, rt_plen by done.
  repeat (split; [done|]). intros Hlen. rewrite zlen_frame6 by (done || by apply zlen_eth).
  rewrite zlen_app, zlen_e6_frag by (done || lia). rewrite Hl'. unfold f4_l4.
  rewrite zlen_drop. unfold f4_l4len in *. lia.
Qed.

(** ** The round trip *)

(** The offset of the transport checksum. *)
Definition csum_off (proto : Z) : Z := if proto =? 6 then 16 else if proto =? 17 then 6 else 2.

(** [l'] is [l] but for the transport checksum, where there is one. *)
Definition same_but_csum (f l l' : list Z) : Prop :=
  if f4_first f && ((f4_proto f =? 6) || (f4_proto f =? 17) || (f4_proto f =? 1))
  then exists d, zlen d = 2 /\ l' = splice (csum_off (f4_proto f)) d l
  else l' = l.

(** A checksum carried there and back. *)
Lemma carried_back st st2 co P P' Q Q' l l' l3 :
  csum_carried st co P Q l l' -> csum_carried st2 co Q' P' l' l3 ->
  st <> CHECKSUM_PARTIAL -> st2 <> CHECKSUM_PARTIAL ->
  sum16 P' = sum16 P -> sum16 Q' = sum16 Q -> sum16 l3 ≅ sum16 l.
Proof.
  intros H1 H2 Hst Hst2 HP HQ.
  assert (H1' : sum16 Q + sum16 l' ≅ sum16 P + sum16 l) by by destruct st.
  assert (H2' : sum16 P' + sum16 l3 ≅ sum16 Q' + sum16 l') by by destruct st2.
  rewrite HP, HQ, H1' in H2'. unfold eq1c in *. mlia.
Qed.

Section Mirror.
Context (f l' : list Z) (Hf : bytes f) (Hl'b : bytes l').
Context (st : ip_summed_t) (lin lin' : Z).
Context (Hv : egress_verdict cfg lin f = Translate).
Context (Hext : has_ext_header (e6_nh f) = false) (H58 : f4_proto f <> 58).
Context (Hlen : zlen l' = zlen (f4_l4 f)).
Context (Hout : egress_l4_out cfg st f (f4_l4 f) l').

Let l := f4_l4 f.
Let m := frame6 (sub 0 12 f ++ be16 ETH_P_IPV6) (e6_first8 f) (e6_dst cfg f) (e6_src cfg)
           (e6_frag f ++ l').

Lemma ext_not_44 : e6_nh f <> 44.
Proof. intros E. by rewrite E in Hext. Qed.

Lemma upper_cases : (e6_nh f =? 6) = (f4_proto f =? 6) /\ (e6_nh f =? 17) = (f4_proto f =? 17) /\
  (e6_nh f =? 58) = (f4_proto f =? 1).
Proof.
  unfold e6_nh. destruct (Z.eqb_spec (f4_proto f) 1) as [->|]; [done|].
  split; [done|]. split; [done|]. by apply Z.eqb_neq.
Qed.

Lemma egress_l4_translate : egress_l4_verdict f = Translate.
Proof.
  unfold egress_verdict in Hv. destruct (egress_admit cfg lin f) as [v|] eqn:Ea.
  { subst v. unfold egress_admit in Ea. by repeat case_match. }
  destruct (egress_options f) as [v|] eqn:Eo; [|done].
  subst v. unfold egress_options in Eo. by repeat case_match.
Qed.

Lemma mirror_is_return : 14 <= lin' -> 62 <= zlen m -> is_return cfg lin' m = true.
Proof.
  intros Hlin Hm. destruct (egress_translate_admit _ _ Hf Hv) as (Hz & Hh & Hl & _ & _).
  assert (Hs : zlen (e6_src cfg) = 16) by apply zlen_in6_bytes.
  assert (Hd : zlen (e6_dst cfg f) = 16) by by apply zlen_e6_dst.
  unfold is_return. unfold m at 1 3 4 5. rewrite rt_ethertype, rt_version, rt_dst, rt_src by done.
  rewrite (proj2 (Z.leb_le _ _) Hlin), (proj2 (Z.leb_le _ _) Hm).
  unfold is_pod. rewrite bool_decide_eq_true_2 by done.
  unfold in_clat_prefix, e6_dst. rewrite sub_app_0 by apply zlen_prefix_bytes.
  by rewrite bool_decide_eq_true_2.
Qed.

Lemma mirror_verdict : 14 <= lin' -> 62 <= zlen m -> ingress_verdict cfg lin' m = Translate.
Proof.
  intros Hlin Hm. destruct (egress_translate_admit _ _ Hf Hv) as (Hz & Hh & Hl & _ & _).
  assert (Hs : zlen (e6_src cfg) = 16) by apply zlen_in6_bytes.
  assert (Hd : zlen (e6_dst cfg f) = 16) by by apply zlen_e6_dst.
  pose proof ext_not_44 as H44. destruct upper_cases as (U6 & U17 & U58).
  unfold ingress_verdict. rewrite mirror_is_return by done. cbn [negb].
  unfold ingress_admit. unfold m at 1 2 3 4 5.
  rewrite rt_is_frag, rt_plen, rt_upper, Hext, U58 by done.
  assert (E1 : f4_is_frag f && (f4_l4len f + (if f4_is_frag f then 8 else 0) <? 8) = false).
  { destruct (f4_is_frag f); [|done]. apply Z.ltb_ge. lia. }
  rewrite E1. assert (E2 : (f4_proto f =? 1) && f4_is_frag f = false).
  { destruct (Z.eqb_spec (f4_proto f) 1) as [Hp1|]; [|done].
    by rewrite (egress_icmp_not_frag cfg lin f Hv Hp1). }
  rewrite E2. unfold ingress_l4_verdict. unfold m. rewrite rt_first, rt_upper, rt_l4 by done.
  rewrite U6, U17, U58. pose proof egress_l4_translate as Hv4. unfold egress_l4_verdict in Hv4.
  unfold m in Hm. rewrite zlen_frame6, zlen_app in Hm by (done || by apply zlen_eth).
  unfold egress_l4_out in Hout. destruct (f4_first f) eqn:Hfst; cbn [negb] in Hv4, Hout |- *; [|done].
  destruct (f4_proto f =? 6).
  { rewrite Hlen. by destruct (zlen (f4_l4 f) <? 18). }
  destruct (f4_proto f =? 17) eqn:E17.
  { rewrite Hlen. destruct (Z.ltb_spec (zlen (f4_l4 f)) 8); [done|].
    destruct Hout as (d & Hdz & Hnz & -> & _).
    destruct (Z.eqb_spec (rd16 (splice 6 d (f4_l4 f)) 6) 0) as [E0|]; [|done].
    exfalso. apply Hnz. apply zlen_2 in Hdz as (a & b & ->).
    pose proof (byte_at_splice 6 [a; b] (f4_l4 f) 0) as B0. change (6 + 0) with 6 in B0.
    pose proof (byte_at_splice 6 [a; b] (f4_l4 f) 1) as B1. change (zlen [a; b]) with 2 in B0, B1.
    unfold rd16 in E0. rewrite B0, B1 in E0 by lia.
    assert (Hab : is_byte a /\ is_byte b).
    { rewrite splice_parts in Hl'b by (try done; change (zlen [a; b]) with 2; lia).
      rewrite !bytes_app, !bytes_cons in Hl'b. tauto. }
    unfold byte_at in E0. change (Z.to_nat 0) with O in E0. change (Z.to_nat 1) with 1%nat in E0.
    cbn [nth] in E0. unfold is_byte in Hab. f_equal; [lia|f_equal; lia]. }
  destruct (Z.eqb_spec (f4_proto f) 1) as [Hp1|]; [|done].
  pose proof (egress_icmp_not_frag cfg lin f Hv Hp1) as Hnf.
  unfold e6_frag in Hm. rewrite Hnf in Hm. change (zlen []) with 0 in Hm.
  destruct (Z.ltb_spec (zlen l') 8); [lia|].
  destruct Hout as (d & Hdz & -> & _).
  assert (Hb : byte_at (splice 2 d (splice 0 [if byte_at (f4_l4 f) 0 =? 8 then 128 else 129] (f4_l4 f))) 0 =
    if byte_at (f4_l4 f) 0 =? 8 then 128 else 129).
  { destruct (f4_l4 f) as [|x k]; [done|]. unfold splice, byte_at. znat. reflexivity. }
  rewrite Hb. by destruct (byte_at (f4_l4 f) 0 =? 8).
Qed.

Lemma e6_byte_after_egress : f4_first f = true -> f4_proto f = 1 -> 4 <= zlen (f4_l4 f) ->
  byte_at l' 0 = if byte_at (f4_l4 f) 0 =? 8 then 128 else 129.
Proof.
  intros Hfst Hp1 H4. unfold egress_l4_out in Hout. rewrite Hfst, Hp1 in Hout.
  cbn [negb Z.eqb Pos.eqb] in Hout. destruct Hout as (d & _ & -> & _).
  destruct (f4_l4 f) as [|x k]; [done|]. unfold splice, byte_at. znat. reflexivity.
Qed.

(** The Echo type comes back. *)
Lemma echo_type_back : f4_first f = true -> f4_proto f = 1 -> 4 <= zlen (f4_l4 f) /\
  (if byte_at l' 0 =? 129 then 0 else 8) = byte_at (f4_l4 f) 0 /\
  negb ((byte_at l' 0 =? 129) || (byte_at l' 0 =? 128)) = false.
Proof.
  intros Hfst Hp1. pose proof egress_l4_translate as Hv4. unfold egress_l4_verdict in Hv4.
  rewrite Hfst, Hp1 in Hv4. cbn [negb Z.eqb Pos.eqb] in Hv4.
  destruct (zlen (f4_l4 f) <? 2); [done|]. destruct (Z.ltb_spec (zlen (f4_l4 f)) 4).
  { by destruct (negb _). }
  split; [done|]. rewrite e6_byte_after_egress by done.
  destruct (Z.eqb_spec (byte_at (f4_l4 f) 0) 8) as [->|]; [done|].
  destruct (Z.eqb_spec (byte_at (f4_l4 f) 0) 0) as [->|]; done.
Qed.

Lemma mirror_not_error : is_icmp_error m = false.
Proof.
  destruct (egress_translate_admit _ _ Hf Hv) as (Hz & Hh & Hl & _ & _).
  assert (Hs : zlen (e6_src cfg) = 16) by apply zlen_in6_bytes.
  assert (Hd : zlen (e6_dst cfg f) = 16) by by apply zlen_e6_dst.
  pose proof ext_not_44 as H44. destruct upper_cases as (_ & _ & U58).
  unfold is_icmp_error, m. rewrite rt_upper, rt_l4, U58 by done.
  destruct (Z.eqb_spec (f4_proto f) 1) as [Hp1|]; [|done]. cbn [andb].
  assert (Hfst : f4_first f = true).
  { by eapply f4_not_frag_first, egress_icmp_not_frag. }
  by destruct (echo_type_back Hfst Hp1) as (_ & _ & ?).
Qed.

(** The source address that comes back. *)
Lemma mirror_src4 : g4_src cfg m = f4_dst f.
Proof.
  destruct (egress_translate_admit _ _ Hf Hv) as (Hz & _ & _ & _ & _).
  assert (Hs : zlen (e6_src cfg) = 16) by apply zlen_in6_bytes.
  assert (Hd : zlen (e6_dst cfg f) = 16) by by apply zlen_e6_dst.
  unfold g4_src, h6_src4, m. rewrite rt_src by done.
  assert (Hpre : in_clat_prefix cfg (e6_dst cfg f) = true).
  { unfold in_clat_prefix, e6_dst. rewrite sub_app_0 by apply zlen_prefix_bytes.
    by rewrite bool_decide_eq_true_2. }
  rewrite Hpre. change (14 + 20) with (22 + 12).
  rewrite <- (sub_sub 22 16 12 4), frame6_src by (done || lia || by apply zlen_eth).
  unfold e6_dst. rewrite sub_app_r, zlen_prefix_bytes by (rewrite zlen_prefix_bytes; lia).
  apply sub_0. by apply zlen_f4_dst.
Qed.

(** The header that comes back. *)
Lemma mirror_header ck :
  g4_header cfg m (g4_tot_len m) ck =
    h4_wire (f4_tos f) (f4_l4len f + 20) (f4_id_kept f) (f4_frag_kept f) (byte_at f 22)
      (f4_proto f) ck (f4_dst f) (f4_src f).
Proof.
  destruct (egress_translate_admit _ _ Hf Hv) as (Hz & Hh & Hl & Hsrc & _).
  assert (Hs : zlen (e6_src cfg) = 16) by apply zlen_in6_bytes.
  assert (Hd : zlen (e6_dst cfg f) = 16) by by apply zlen_e6_dst.
  pose proof ext_not_44 as H44. pose proof (l4len_bound f Hf Hh).
  unfold g4_header, g4_tot_len. rewrite mirror_not_error, Z.sub_0_r. unfold m.
  rewrite rt_class, rt_id, rt_frag4, rt_hop, rt_upper, rt_l4len by done.
  rewrite Z.mod_small by lia. fold m. rewrite mirror_src4.
  unfold g4_dst. rewrite <- Hsrc. f_equal. unfold proto4, e6_nh.
  destruct (Z.eqb_spec (f4_proto f) 1) as [->|]; [done|]. by rewrite (proj2 (Z.eqb_neq _ _) H58).
Qed.

(** The transport part that comes back. *)
Lemma mirror_l4 exact st2 l3 :
  ingress_l4_out cfg exact False st2 m l' l3 -> same_but_csum f (f4_l4 f) l3.
Proof.
  intros Ho. destruct (egress_translate_admit _ _ Hf Hv) as (Hz & Hh & Hl & _ & _).
  assert (Hs : zlen (e6_src cfg) = 16) by apply zlen_in6_bytes.
  assert (Hd : zlen (e6_dst cfg f) = 16) by by apply zlen_e6_dst.
  pose proof ext_not_44 as H44. destruct upper_cases as (U6 & U17 & U58).
  pose proof egress_l4_translate as Hv4.
  unfold ingress_l4_out in Ho. rewrite mirror_not_error in Ho. unfold m in Ho.
  rewrite rt_first, rt_upper, U6, U17, U58 in Ho by done. pose proof Hout as He.
  unfold egress_l4_out in He. unfold egress_l4_verdict in Hv4. unfold same_but_csum, csum_off.
  destruct (f4_first f) eqn:Hfst; cbn [negb andb] in *; [|congruence].
  destruct (f4_proto f =? 6); cbn [orb].
  { destruct He as (d1 & Hd1 & -> & _), Ho as (d2 & Hd2 & -> & _). exists d2. split; [done|].
    destruct (Z.ltb_spec (zlen (f4_l4 f)) 18); [done|]. apply splice_splice; lia. }
  destruct (f4_proto f =? 17); cbn [orb].
  { destruct He as (d1 & Hd1 & _ & -> & _), Ho as (d2 & Hd2 & _ & -> & _). exists d2. split; [done|].
    destruct (Z.ltb_spec (zlen (f4_l4 f)) 8); [done|]. apply splice_splice; lia. }
  destruct (Z.eqb_spec (f4_proto f) 1) as [Hp1|]; [|congruence].
  destruct (echo_type_back Hfst Hp1) as (H4 & Ht & _).
  destruct He as (d1 & Hd1 & El' & _), Ho as (d2 & Hd2 & -> & _). exists d2. split; [done|].
  rewrite Ht. rewrite El'. clear -H4 Hd1 Hd2. destruct (f4_l4 f) as [|x [|c [|a [|b k]]]]; try done.
  apply zlen_2 in Hd1 as (p & q & ->). apply zlen_2 in Hd2 as (p' & q' & ->).
  unfold splice, byte_at. znat. reflexivity.
Qed.

(** Exchanging the addresses does not change the sum of a pseudo-header. *)
Lemma mirror_pseudo6 nh len :
  sum16 (g6_pseudo m nh len) = sum16 (pseudo6_wire (e6_src cfg) (e6_dst cfg f) nh len).
Proof.
  destruct (egress_translate_admit _ _ Hf Hv) as (Hz & _ & _ & _ & _).
  assert (Hs : zlen (e6_src cfg) = 16) by apply zlen_in6_bytes.
  assert (Hd : zlen (e6_dst cfg f) = 16) by by apply zlen_e6_dst.
  unfold g6_pseudo, m. rewrite rt_src, rt_dst by done.
  unfold pseudo6_wire. rewrite !sum16_app by (unfold even_len; by rewrite ?Hs, ?Hd). lia.
Qed.

Lemma mirror_pseudo4 proto len :
  sum16 (pseudo4_wire (g4_src cfg m) (g4_dst cfg) proto len) =
  sum16 (pseudo4_wire (f4_src f) (f4_dst f) proto len).
Proof.
  destruct (egress_translate_admit _ _ Hf Hv) as (Hz & _ & _ & Hsrc & _).
  rewrite mirror_src4. unfold g4_dst. rewrite <- Hsrc. unfold pseudo4_wire.
  rewrite !sum16_app by (unfold even_len; by rewrite ?zlen_f4_src, ?zlen_f4_dst). lia.
Qed.

(** The sum of the transport part that comes back. *)
Lemma mirror_sum exact st2 l3 :
  st <> CHECKSUM_PARTIAL -> st2 <> CHECKSUM_PARTIAL ->
  f4_first f && (f4_proto f =? 17) && e4_no_csum f l = false ->
  ingress_l4_out cfg exact False st2 m l' l3 -> sum16 l3 ≅ sum16 l.
Proof.
  intros Hst Hst2 Hnc Ho. destruct (egress_translate_admit _ _ Hf Hv) as (Hz & Hh & Hl & _ & _).
  assert (Hs : zlen (e6_src cfg) = 16) by apply zlen_in6_bytes.
  assert (Hd : zlen (e6_dst cfg f) = 16) by by apply zlen_e6_dst.
  pose proof ext_not_44 as H44. destruct upper_cases as (U6 & U17 & U58).
  pose proof (f4_l4len_range f Hf Hl) as Hlr.
  unfold ingress_l4_out in Ho. rewrite mirror_not_error in Ho.
  assert (Hm : h6_first m 14 = f4_first f /\ h6_upper m 14 = e6_nh f /\ f6_l4len m = f4_l4len f)
    by (unfold m; by rewrite rt_first, rt_upper, rt_l4len).
  destruct Hm as (Hm1 & Hm2 & Hm3). rewrite Hm1, Hm2, Hm3, U6, U17, U58 in Ho.
  pose proof Hout as He. unfold egress_l4_out in He. fold l in He.
  destruct (f4_first f); cbn [negb andb] in *; [|congruence].
  destruct (f4_proto f =? 6).
  { destruct He as (d1 & _ & _ & He), Ho as (d2 & _ & _ & Ho).
    eapply carried_back; [apply (He 0)|apply (Ho 0)|..]; try done;
      [by rewrite mirror_pseudo4|by rewrite mirror_pseudo6]. }
  destruct (f4_proto f =? 17); cbn [andb] in *.
  { rewrite Hnc in He. destruct He as (d1 & _ & _ & _ & He), Ho as (d2 & _ & _ & _ & Ho).
    eapply carried_back; [apply (He 0)|apply (Ho 0)|..]; try done;
      [by rewrite mirror_pseudo4|by rewrite mirror_pseudo6]. }
  destruct (f4_proto f =? 1); [|congruence].
  destruct He as (d1 & _ & _ & He), Ho as (d2 & _ & _ & Ho).
  rewrite (Ho Hst2), mirror_pseudo6. by apply He.
Qed.
End Mirror.

(** C3: Round trip.  Let egress translate an IPv4 packet, and let the peer
    answer with the same IPv6 packet, addresses exchanged.  Ingress then makes
    an IPv4 packet from the original destination to the original source, with
    the type of service, time to live and protocol of the original, its
    identification, fragment offset and more-fragments bit if it was a fragment
    (identification 0 and don't-fragment if not), a header checksum that is
    right, a total length for a header without options, and the transport part
    of the original but for its checksum; and the checksum, where it was there
    and not left to offload, is the original one modulo 65535: it is right if
    the original was.  Left out are protocols ingress does not translate back:
    extension headers, and ICMPv6 inside IPv4. *)
Theorem clat_round_trip w :
  skb_protocol (w_skb w) = ETH_P_IP -> let f := frame w in
  egress_verdict cfg (skb_headlen (w_skb w)) f = Translate ->
  has_ext_header (e6_nh f) = false -> f4_proto f <> 58 ->
  exists w1, exec (clat_egress cfg) w = (Some TC_ACT_OK, w1) /\
  forall w2, frame w2 = mirror6 (frame w1) -> skb_protocol (w_skb w2) = ETH_P_IPV6 ->
    14 <= skb_headlen (w_skb w2) -> 62 <= zlen (frame w2) ->
    exists w3 ck l3, exec (clat_ingress cfg) w2 = (Some TC_ACT_OK, w3) /\
      let h := h4_wire (f4_tos f) (f4_l4len f + 20) (f4_id_kept f) (f4_frag_kept f)
                 (byte_at f 22) (f4_proto f) ck (f4_dst f) (f4_src f) in
      frame w3 = sub 0 12 f ++ be16 ETH_P_IP ++ h ++ l3 /\ inet_ok h /\
      same_but_csum f (f4_l4 f) l3 /\
      (skb_ip_summed (w_skb w) <> CHECKSUM_PARTIAL ->
       skb_ip_summed (w_skb w2) <> CHECKSUM_PARTIAL ->
       f4_first f && (f4_proto f =? 17) && e4_no_csum f (f4_l4 f) = false ->
       sum16 l3 ≅ sum16 (f4_l4 f)).
Proof.
  intros Hp f Hv Hext H58. pose proof (frame_ok w) as Hf. fold f in Hf.
  destruct (egress_translate_admit _ _ Hf Hv) as (Hz & Hh & Hl & _ & _).
  assert (Hs : zlen (e6_src cfg) = 16) by apply zlen_in6_bytes.
  assert (Hd : zlen (e6_dst cfg f) = 16) by by apply zlen_e6_dst.
  destruct (egress_translated cfg Hcfg w Hp Hv) as (w1 & l' & E & Hw' & Hl' & Hout & Hb').
  fold f in Hw', Hl', Hout. exists w1. split; [done|]. intros w2 Hw2 Hp2 Hlin Hz2.
  rewrite Hw', egress_frame6, mirror6_frame6 in Hw2 by (done || by apply zlen_eth).
  rewrite Hw2 in Hz2.
  pose proof (mirror_verdict f l' Hf Hb' _ _ _ Hv Hext H58 Hl' Hout Hlin Hz2) as Hvi.
  rewrite <- Hw2 in Hvi.
  destruct (ingress_translated cfg Hcfg w2 Hp2 Hvi) as (w3 & ck & l3 & E3 & Hck & Hw3 & Hok & Ho & _).
  rewrite Hw2 in Hw3, Hok, Ho. rewrite (mirror_header f l' Hf Hb' _ _ Hv Hext H58 Hl' Hout) in Hw3, Hok.
  rewrite rt_l4 in Ho by (done || by eapply ext_not_44).
  exists w3, ck, l3. split; [done|]. split; [|split; [done|split]].
  - rewrite Hw3. f_equal. rewrite frame6_eth by (done || by apply zlen_eth).
    apply sub_app_0. by rewrite zlen_sub by lia.
  - by eapply mirror_l4.
  - intros Hst Hst2 Hnc. by eapply mirror_sum.
Qed.
End Theorems.
