(* ===== verification/System.v ===== *)
(** * Both programs at work: packets on several CPUs

    The counter map of src/bpf/clat.c is a per-CPU array, so the state the two
    programs share is a set of slots for every CPU.  A step runs one program on
    one packet on one CPU.  That a run reaches only the slots of the CPU it is
    on is what the kernel promises of such a map ([step] assumes it, it is no
    result), so any interleaving of packets is a sequence of steps.  The
    transitions use nothing of the programs but [Accountable]. *)

From stdpp Require Import functions.
From S2P Require Import Prelude Endian Checksum Kernel Program Common Wire Rules Contract.
From S2P Require Import Egress Ingress EgressTheorems IngressTheorems.

Inductive direction := ToNetwork | ToPod.

#[export] Instance direction_eq_dec : EqDecision direction.
Proof. solve_decision. Defined.

(** What happened to one packet. *)
Record event := Event { ev_cpu : nat; ev_dir : direction; ev_fate : fate }.

#[export] Instance event_eq_dec : EqDecision event.
Proof. solve_decision. Defined.

(** The Ethernet type a program translates, and its counters. *)
Definition dir_proto (d : direction) : Z :=
  match d with ToNetwork => ETH_P_IP | ToPod => ETH_P_IPV6 end.
Definition dir_translated (d : direction) : clat_counter :=
  match d with ToNetwork => CNT_EGRESS_TRANSLATED | ToPod => CNT_INGRESS_TRANSLATED end.
Definition dir_drops (d : direction) : list clat_counter :=
  match d with ToNetwork => egress_drops | ToPod => ingress_drops end.

(** The counters that a fate adds to. *)
Definition fate_counters (d : direction) (o : fate) : list clat_counter :=
  match o with Passed => [] | Translated => [dir_translated d] | Dropped => dir_drops d end.

(** A counter belongs to one direction and one fate. *)
Definition counter_owner (c : clat_counter) : direction * fate :=
  if bool_decide (c ∈ egress_drops) then (ToNetwork, Dropped)
  else if bool_decide (c ∈ ingress_drops) then (ToPod, Dropped)
  else if bool_decide (c = CNT_EGRESS_TRANSLATED) then (ToNetwork, Translated)
  else (ToPod, Translated).

(** The packets of a trace with the same fate. *)
Definition events (e : event) (tr : list event) : Z :=
  zlen (filter (fun e' => e' = e) tr).

Section System.
Context {K : Kernel} `{T : Target} {may_fail : Prop} {KS : KernelSpec may_fail CNT_MAX K}.
Context (cfg : consts) (Hcfg : consts_ok cfg).

Definition dir_prog (d : direction) : M Z :=
  match d with ToNetwork => clat_egress cfg | ToPod => clat_ingress cfg end.

(** The state holds the counter slots of every CPU. *)
#[local] Abbreviation cpu_slots := (nat -> gmap Z Z).

(** One packet: the program of its direction runs on the slots of one CPU, to an
    action; the slots of the other CPUs are out of its reach. *)
Inductive step (s : cpu_slots) : event -> cpu_slots -> Prop :=
| step_packet cpu d k act w' :
    (rd16 (skb_bytes k) 12 = dir_proto d -> skb_protocol k = dir_proto d) ->
    exec (dir_prog d) (World k (s cpu)) = (Some act, w') ->
    step s (Event cpu d (fate_of (skb_bytes k) act (frame w'))) (<[cpu := w_slots w']> s).

Inductive reachable : cpu_slots -> list event -> Prop :=
| reachable_init : reachable (fun _ => ∅) []
| reachable_step s tr e s' : reachable s tr -> step s e s' -> reachable s' (e :: tr).

(** The sum of some counters of a CPU. *)
Definition total (slots : gmap Z Z) (cs : list clat_counter) : Z :=
  u64 (foldr (fun c n => slot_value slots c + n) 0 cs).

#[export] Instance dir_accountable d :
  Accountable (dir_prog d) (dir_proto d) (dir_translated d) (dir_drops d).
Proof. destruct d; [by apply egress_accountable|by apply ingress_accountable]. Qed.

(** ** Counting in the sums *)

Lemma u64_add a b : u64 (u64 a + b) = u64 (a + b).
Proof. unfold u64. by rewrite Zplus_mod_idemp_l. Qed.

Lemma total_cons slots c cs : total slots (c :: cs) = u64 (slot_value slots c + total slots cs).
Proof. unfold total. cbn [foldr]. by rewrite Z.add_comm, <- u64_add, Z.add_comm. Qed.

Lemma total_bump_notin slots c cs : c ∉ cs -> total (bump c slots) cs = total slots cs.
Proof.
  induction cs as [|c' cs IH]; [done|]. rewrite not_elem_of_cons. intros [Hne Hn].
  rewrite !total_cons, slot_value_bump, decide_False, IH by done. done.
Qed.

Lemma total_bump_in slots c cs : NoDup cs -> c ∈ cs ->
  total (bump c slots) cs = u64 (total slots cs + 1).
Proof.
  induction 1 as [|c' cs Hn Hd IH]; [by intros ?%elem_of_nil|]. rewrite !total_cons, slot_value_bump.
  intros Hc. destruct (decide (c' = c)) as [->|Hne].
  - rewrite total_bump_notin by done. rewrite !u64_add. f_equal. lia.
  - rewrite IH by (apply elem_of_cons in Hc as [?|?]; congruence). rewrite Z.add_comm, u64_add, u64_add. f_equal. lia.
Qed.

Lemma NoDup_drops d o : NoDup (fate_counters d o).
Proof. destruct d, o; by apply (bool_decide_unpack _). Qed.

Lemma counter_owner_ok d o c : c ∈ fate_counters d o -> counter_owner c = (d, o).
Proof.
  rewrite list_elem_of_In.
  destruct d, o; cbn; intros H; repeat destruct H as [<-|H]; done.
Qed.

Lemma fate_counters_inj d o d' o' c :
  c ∈ fate_counters d o -> c ∈ fate_counters d' o' -> d' = d /\ o' = o.
Proof.
  intros H%counter_owner_ok H'%counter_owner_ok. by rewrite H in H'; simplify_eq.
Qed.

(** One step in terms of counters. *)
Lemma step_counted s e s' : step s e s' ->
  (forall cpu, cpu <> ev_cpu e -> s' cpu = s cpu) /\
  (ev_fate e = Passed /\ s' (ev_cpu e) = s (ev_cpu e) \/
   exists c, c ∈ fate_counters (ev_dir e) (ev_fate e) /\
     s' (ev_cpu e) = bump c (s (ev_cpu e))).
Proof.
  intros [cpu d k act w' Hp E]. cbn [ev_cpu ev_dir ev_fate]. split.
  { intros cpu' Hne. by rewrite fn_lookup_insert_ne. }
  rewrite fn_lookup_insert.
  destruct (accounts (World k (s cpu)) Hp) as (act' & w'' & E' & Ha).
  rewrite E in E'. simplify_eq. unfold accounted in Ha.
  change (frame (World k (s cpu))) with (skb_bytes k) in Ha.
  destruct (fate_of _ _ _); cbn [fate_counters].
  - left. by destruct Ha.
  - right. exists (dir_translated d). destruct Ha as [_ ->]. split; [in_list|done].
  - right. destruct Ha as (c & Hc & ->). by exists c.
Qed.
(** ** Reachable states *)

Lemma slot_value_init c : slot_value ∅ c = 0.
Proof. unfold slot_value. by case_match. Qed.

Lemma events_cons e e' tr : events e (e' :: tr) = events e tr + (if decide (e' = e) then 1 else 0).
Proof. unfold events. rewrite filter_cons. destruct (decide (e' = e)); rewrite ?zlen_cons; lia. Qed.

Lemma reachable_slots s tr cpu c : reachable s tr -> u64 (slot_value (s cpu) c) = slot_value (s cpu) c.
Proof.
  induction 1 as [|s tr e s' _ IH Hst]; [by rewrite slot_value_init|].
  apply step_counted in Hst as [Ho He]. destruct (decide (cpu = ev_cpu e)) as [->|Hne].
  - destruct He as [[_ ->]|(c' & _ & ->)]; [done|]. rewrite slot_value_bump.
    destruct (decide (c = c')); [|done]. unfold u64. by rewrite Zmod_mod.
  - by rewrite Ho.
Qed.

(** The counters of a fate add up to the packets that had it. *)
Lemma reachable_total s tr cpu d o : reachable s tr -> o <> Passed ->
  total (s cpu) (fate_counters d o) = u64 (events (Event cpu d o) tr).
Proof.
  intros Hr Ho. induction Hr as [|s tr e s' _ IH Hst].
  { unfold total. induction (fate_counters d o) as [|c cs IH]; [done|].
    cbn [foldr]. by rewrite slot_value_init. }
  rewrite events_cons. apply step_counted in Hst as [Hoth He].
  destruct (decide (cpu = ev_cpu e)) as [->|Hne].
  2: { rewrite Hoth, IH, decide_False by (done || by intros ->). by rewrite Z.add_0_r. }
  destruct e as [cpu d' o']. cbn [ev_cpu ev_dir ev_fate] in *.
  destruct He as [[-> ->]|(c & Hc & ->)].
  { rewrite IH, decide_False by congruence. by rewrite Z.add_0_r. }
  destruct (decide (Event cpu d' o' = Event cpu d o)) as [E|E].
  - injection E as -> ->. rewrite total_bump_in by (done || apply NoDup_drops).
    by rewrite IH, u64_add.
  - rewrite total_bump_notin, IH, Z.add_0_r; [done|]. intros Hc'.
    destruct (fate_counters_inj _ _ _ _ _ Hc' Hc) as [-> ->]. done.
Qed.

(** C6: In every state that packets in any order on any CPUs can lead to, the
    counters tell what happened: on each CPU and for each program, the counter
    of translated packets is the number of packets that it translated, and the
    drop counters add up to the number of packets that it dropped, both modulo
    2^64. *)
Theorem counters_account s tr cpu d :
  reachable s tr ->
  slot_value (s cpu) (dir_translated d) = u64 (events (Event cpu d Translated) tr) /\
  total (s cpu) (dir_drops d) = u64 (events (Event cpu d Dropped) tr).
Proof.
  intros Hr. split; [|by apply (reachable_total s tr cpu d Dropped)].
  rewrite <- (reachable_total s tr cpu d Translated) by done.
  unfold total. cbn [fate_counters foldr]. rewrite Z.add_0_r. symmetry.
  by apply (reachable_slots s tr).
Qed.
End System.
