(* ===== verification/Frames.v ===== *)
(** * Concrete frames

    The packets of the tests of src/internal/clat (packet_test.go,
    bpf_test.go), built the same way: headers in network order, checksums
    filled in afterwards.  Both programs run on them on the reference kernel,
    with the addresses the tests use, on targets of both byte orders. *)

From S2P Require Import Prelude Endian Checksum Kernel Program Common RefKernel Contract Egress.
From S2P Require Import Ingress.

(** ** Targets and constants *)

Definition LE : Target := {| little_endian := true; builtin_constant_p := fun _ => false |}.
Definition BE : Target := {| little_endian := false; builtin_constant_p := fun _ => true |}.

Definition mac_pod : list Z := [2; 0; 0; 0; 0; 2].
Definition mac_peer : list Z := [2; 0; 0; 0; 0; 1].

(** 64:ff9b:1::/96 and the addresses inside it. *)
Definition prefix96 : list Z := [0; 0x64; 0xff; 0x9b; 0; 1; 0; 0; 0; 0; 0; 0].
Definition mapped (a4 : list Z) : list Z := prefix96 ++ a4.

(** 2001:db8:cafe::2, 192.0.0.2, 192.0.0.8, 198.51.100.10, 203.0.113.1,
    2001:db8:1::1. *)
Definition pod6 : list Z := [0x20; 1; 0xd; 0xb8; 0xca; 0xfe; 0; 0; 0; 0; 0; 0; 0; 0; 0; 2].
Definition pod4 : list Z := [192; 0; 0; 2].
Definition err4 : list Z := [192; 0; 0; 8].
Definition dst4 : list Z := [198; 51; 100; 10].
Definition router4 : list Z := [203; 0; 113; 1].
Definition router6 : list Z := [0x20; 1; 0xd; 0xb8; 0; 1; 0; 0; 0; 0; 0; 0; 0; 0; 0; 1].

(** The .rodata constants, native on the target. *)
Definition pod_consts (T : Target) : consts :=
  Consts (in6_at (mapped [0; 0; 0; 0]) 0) (in6_at pod6 0) (ld32 pod4 0) (ld32 err4 0).

Lemma pod_consts_ok (T : Target) : consts_ok (pod_consts T).
Proof. by destruct T as [[] ?]. Qed.

(** ** Packets *)

Definition csum (l : list Z) : Z := 65535 - onec_norm (sum16 l).

Definition eth (proto : Z) (dst src : list Z) : list Z := dst ++ src ++ be16 proto.

Definition ip4 (src dst : list Z) (proto tos ttl id flags n : Z) (options : list Z) : list Z :=
  let hl := 20 + zlen options in
  let h := [0x40 + hl / 4; tos] ++ be16 (hl + n) ++ be16 id ++ be16 flags ++ [ttl; proto; 0; 0] ++
           src ++ dst ++ options in
  splice 10 (be16 (csum h)) h.

Definition ip6 (src dst : list Z) (tc hop nh n : Z) : list Z :=
  be32 (6 * 2 ^ 28 + tc * 2 ^ 20) ++ be16 n ++ [nh; hop] ++ src ++ dst.

Definition frag6 (nh off8 more id : Z) : list Z := [nh; 0] ++ be16 (8 * off8 + more) ++ be32 id.

Definition tcp (sp dp flags : Z) (pl : list Z) : list Z :=
  be16 sp ++ be16 dp ++ be32 0x11223344 ++ be32 0x55667788 ++ [0x50; flags] ++ be16 65535 ++
  [0; 0; 0; 0] ++ pl.

Definition udp (sp dp : Z) (pl : list Z) : list Z :=
  be16 sp ++ be16 dp ++ be16 (8 + zlen pl) ++ [0; 0] ++ pl.

Definition icmp (t c rest : Z) (pl : list Z) : list Z := [t; c; 0; 0] ++ be32 rest ++ pl.

(** The transport part [l4] with its checksum over pseudo-header [ps]. *)
Definition sealed (proto : Z) (ps l4 : list Z) : list Z :=
  let off := if proto =? 6 then 16 else if proto =? 17 then 6 else 2 in
  if (proto =? 6) || (proto =? 17) || (proto =? 1) || (proto =? 58) then
    let l0 := splice off [0; 0] l4 in
    let c := csum (ps ++ l0) in
    splice off (be16 (if (proto =? 17) && (c =? 0) then 65535 else c)) l0
  else l4.

Definition sealed4 (src dst : list Z) (proto : Z) (l4 : list Z) : list Z :=
  sealed proto (if proto =? 1 then [] else pseudo4_wire src dst proto (zlen l4)) l4.

Definition sealed6 (src dst : list Z) (nh : Z) (l4 : list Z) : list Z :=
  sealed nh (pseudo6_wire src dst nh (zlen l4)) l4.

(** A frame of the pod, and one to the pod. *)
Definition from_pod (proto : Z) (p : list Z) : list Z := eth proto mac_peer mac_pod ++ p.
Definition to_pod (proto : Z) (p : list Z) : list Z := eth proto mac_pod mac_peer ++ p.

Definition packet4 (src dst : list Z) (proto tos ttl id flags : Z) (options l4 : list Z) : list Z :=
  ip4 src dst proto tos ttl id flags (zlen l4) options ++ sealed4 src dst proto l4.

Definition packet6 (src dst : list Z) (tc hop nh : Z) (l4 : list Z) : list Z :=
  ip6 src dst tc hop nh (zlen l4) ++ sealed6 src dst nh l4.

(** An ICMPv6 error from [src] that quotes [inner], a packet the pod sent. *)
Definition error6 (src : list Z) (t c rest : Z) (inner : list Z) : list Z :=
  packet6 src pod6 0 60 58 (icmp t c rest inner).

Definition quoted6 (nh : Z) (l4 : list Z) : list Z := packet6 pod6 (mapped dst4) 0 64 nh l4.
Definition quoted4 (proto id flags : Z) (l4 : list Z) : list Z :=
  packet4 pod4 dst4 proto 0 64 id flags [] l4.
Definition error4 (src : list Z) (t c rest : Z) (inner : list Z) : list Z :=
  packet4 src pod4 1 0 60 0 0x4000 [] (icmp t c rest inner).

(** ** Running the programs *)

Definition run_egress (st : ip_summed_t) (T : Target) (f : list Z) : option Z * list Z :=
  let '(a, w) := exec (K := RefKernel) (clat_egress (K := RefKernel) (pod_consts T))
                   (ref_world f 20 ETH_P_IP st) in
  (a, frame w).

Definition run_ingress (st : ip_summed_t) (T : Target) (f : list Z) : option Z * list Z :=
  let '(a, w) := exec (K := RefKernel) (clat_ingress (K := RefKernel) (pod_consts T))
                   (ref_world f 20 ETH_P_IPV6 st) in
  (a, frame w).

(** The same on a little-endian and on a big-endian target. *)
Definition on_both (run : Target -> list Z -> option Z * list Z) (f f' : list Z) : Prop :=
  run LE f = (Some TC_ACT_OK, f') /\ run BE f = (Some TC_ACT_OK, f').

Definition dropped_on_both (run : Target -> list Z -> option Z * list Z) (f : list Z) : Prop :=
  fst (run LE f) = Some TC_ACT_SHOT /\ fst (run BE f) = Some TC_ACT_SHOT.

Ltac replay := split; vm_compute; reflexivity.

(** ** The egress tests *)

(** The expected frame of an unfragmented packet. *)
Definition sent6 (tc hop nh : Z) (l4 : list Z) : list Z :=
  from_pod ETH_P_IPV6 (packet6 pod6 (mapped dst4) tc hop nh l4).

Definition hello : list Z := [104; 101; 108; 108; 111].

Definition tcp_out : list Z :=
  from_pod ETH_P_IP (packet4 pod4 dst4 6 0x28 64 0x1234 0x4000 [] (tcp 40000 80 2 hello)).

Definition udp_out : list Z :=
  from_pod ETH_P_IP (packet4 pod4 dst4 17 0 61 7 0 [] (udp 5353 53 hello)).

(** A datagram sent without a checksum. *)
Definition udp_zero_out (pl : list Z) : list Z :=
  from_pod ETH_P_IP (ip4 pod4 dst4 17 0 64 0 0 (8 + zlen pl) [] ++ udp 1234 4321 pl).

Definition echo_out : list Z :=
  from_pod ETH_P_IP (packet4 pod4 dst4 1 0 64 0xabcd 0x4000 [] (icmp 8 0 0x10001 (replicate 56 66))).

Example replay_egress_tcp :
  on_both (run_egress CHECKSUM_NONE) tcp_out (sent6 0x28 64 6 (tcp 40000 80 2 hello)).
Proof. replay. Qed.

Example replay_egress_udp :
  on_both (run_egress CHECKSUM_NONE) udp_out (sent6 0 61 17 (udp 5353 53 hello)).
Proof. replay. Qed.

Example replay_egress_udp_zero :
  on_both (run_egress CHECKSUM_NONE) (udp_zero_out []) (sent6 0 64 17 (udp 1234 4321 [])).
Proof. replay. Qed.

Example replay_egress_udp_zero_300 :
  on_both (run_egress CHECKSUM_NONE) (udp_zero_out (replicate 300 0xa5))
    (sent6 0 64 17 (udp 1234 4321 (replicate 300 0xa5))).
Proof. replay. Qed.

Example replay_egress_echo :
  on_both (run_egress CHECKSUM_NONE) echo_out
    (sent6 0 64 58 (icmp 128 0 0x10001 (replicate 56 66))).
Proof. replay. Qed.

(** Options are removed, a source route is dropped. *)
Example replay_egress_options :
  on_both (run_egress CHECKSUM_NONE)
    (from_pod ETH_P_IP (packet4 pod4 dst4 6 0 64 0 0x4000 [1; 1; 1; 0] (tcp 40000 443 2 [])))
    (sent6 0 64 6 (tcp 40000 443 2 [])) /\
  dropped_on_both (run_egress CHECKSUM_NONE)
    (from_pod ETH_P_IP
       (packet4 pod4 dst4 6 0 64 0 0x4000 [131; 7; 4; 10; 0; 0; 1; 0] (tcp 40000 443 2 []))).
Proof. split; replay. Qed.

(** Two fragments of one datagram. *)
Definition datagram4 : list Z := sealed4 pod4 dst4 17 (udp 2000 3000 (replicate 72 7)).
Definition datagram6 : list Z := sealed6 pod6 (mapped dst4) 17 (udp 2000 3000 (replicate 72 7)).

Definition frag_first_out : list Z :=
  from_pod ETH_P_IP (ip4 pod4 dst4 17 0 64 0x4242 0x2000 40 [] ++ take 40 datagram4).
Definition frag_last_out : list Z :=
  from_pod ETH_P_IP (ip4 pod4 dst4 17 0 64 0x4242 5 40 [] ++ drop 40 datagram4).

Example replay_egress_fragments :
  on_both (run_egress CHECKSUM_NONE) frag_first_out
    (from_pod ETH_P_IPV6
       (ip6 pod6 (mapped dst4) 0 64 44 48 ++ frag6 17 0 1 0x4242 ++ take 40 datagram6)) /\
  on_both (run_egress CHECKSUM_NONE) frag_last_out
    (from_pod ETH_P_IPV6
       (ip6 pod6 (mapped dst4) 0 64 44 48 ++ frag6 17 5 0 0x4242 ++ drop 40 datagram6)).
Proof. split; replay. Qed.

Example replay_egress_drops :
  Forall (fun p => dropped_on_both (run_egress CHECKSUM_NONE) (from_pod ETH_P_IP p))
    [packet4 [10; 0; 0; 1] dst4 6 0 64 0 0 [] (tcp 1 2 0 []);
     packet4 pod4 [224; 0; 0; 1] 17 0 64 0 0 [] (udp 1 2 []);
     packet4 pod4 [255; 255; 255; 255] 17 0 64 0 0 [] (udp 1 2 []);
     packet4 pod4 dst4 1 0 64 0 0 [] (icmp 3 3 0 (replicate 28 0));
     packet4 pod4 dst4 1 0 64 1 0x2000 [] (icmp 8 0 1 (replicate 8 0));
     ip4 pod4 dst4 17 0 64 1 0x2000 16 [] ++ udp 1 2 (replicate 8 1);
     take 10 (packet4 pod4 dst4 6 0 64 0 0 [] (tcp 1 2 0 []))].
Proof. repeat (constructor; [replay|]). constructor. Qed.

(** ** The ingress tests *)

Definition received4 (src : list Z) (proto tos ttl id flags : Z) (l4 : list Z) : list Z :=
  to_pod ETH_P_IP (packet4 src pod4 proto tos ttl id flags [] l4).

Definition tcp_in : list Z :=
  to_pod ETH_P_IPV6 (packet6 (mapped dst4) pod6 0x28 57 6 (tcp 80 40000 0x12 hello)).

Definition udp_in : list Z :=
  to_pod ETH_P_IPV6 (packet6 (mapped dst4) pod6 0 60 17 (udp 53 5353 hello)).

Definition echo_in : list Z :=
  to_pod ETH_P_IPV6 (packet6 (mapped dst4) pod6 0 59 58 (icmp 129 0 0x10001 (replicate 56 66))).

Definition native_in : list Z :=
  to_pod ETH_P_IPV6 (packet6 router6 pod6 0 64 6 (tcp 1 2 0 [])).

Example replay_ingress_tcp :
  on_both (run_ingress CHECKSUM_NONE) tcp_in
    (received4 dst4 6 0x28 57 0 0x4000 (tcp 80 40000 0x12 hello)).
Proof. replay. Qed.

Example replay_ingress_udp :
  on_both (run_ingress CHECKSUM_NONE) udp_in (received4 dst4 17 0 60 0 0x4000 (udp 53 5353 hello)).
Proof. replay. Qed.

Example replay_ingress_echo :
  on_both (run_ingress CHECKSUM_NONE) echo_in
    (received4 dst4 1 0 59 0 0x4000 (icmp 0 0 0x10001 (replicate 56 66))).
Proof. replay. Qed.

Example replay_ingress_native : on_both (run_ingress CHECKSUM_NONE) native_in native_in.
Proof. replay. Qed.

(** An extension header, a fragment of an ICMPv6 message, and a UDP datagram
    without a checksum are dropped. *)
Example replay_ingress_drops :
  Forall (fun p => dropped_on_both (run_ingress CHECKSUM_NONE) (to_pod ETH_P_IPV6 p))
    [packet6 (mapped dst4) pod6 0 64 0 (replicate 16 0);
     ip6 (mapped dst4) pod6 0 64 44 16 ++ frag6 58 0 1 7 ++ icmp 128 0 1 [];
     ip6 (mapped dst4) pod6 0 64 17 8 ++ udp 1 2 []].
Proof. repeat (constructor; [replay|]). constructor. Qed.

(** *** ICMPv6 errors *)

Definition seg : list Z := tcp 40000 80 0x10 (replicate 20 3).

Definition too_big_in (src : list Z) : list Z :=
  to_pod ETH_P_IPV6 (error6 src 2 0 1280 (quoted6 6 seg)).

Example replay_ingress_too_big :
  on_both (run_ingress CHECKSUM_NONE) (too_big_in (mapped router4))
    (to_pod ETH_P_IP (error4 router4 3 4 1260 (quoted4 6 0 0x4000 seg))).
Proof. replay. Qed.

(** From a router outside the prefix. *)
Example replay_ingress_too_big_router :
  on_both (run_ingress CHECKSUM_NONE) (too_big_in router6)
    (to_pod ETH_P_IP (error4 err4 3 4 1260 (quoted4 6 0 0x4000 seg))).
Proof. replay. Qed.

(** Quoting a fragment. *)
Example replay_ingress_too_big_fragment :
  let dg := udp 1000 2000 (replicate 16 4) in
  on_both (run_ingress CHECKSUM_NONE)
    (to_pod ETH_P_IPV6 (error6 (mapped router4) 2 0 1400
       (ip6 pod6 (mapped dst4) 0 64 44 32 ++ frag6 17 0 1 0x77 ++ sealed6 pod6 (mapped dst4) 17 dg)))
    (to_pod ETH_P_IP (error4 router4 3 4 1372 (quoted4 17 0x77 0x2000 dg))).
Proof. replay. Qed.

(** Quoting an Echo Request. *)
Definition exceeded_in : list Z :=
  to_pod ETH_P_IPV6
    (error6 (mapped router4) 3 0 0 (quoted6 58 (icmp 128 0 0x10002 (replicate 8 5)))).

Example replay_ingress_time_exceeded :
  on_both (run_ingress CHECKSUM_NONE) exceeded_in
    (to_pod ETH_P_IP
       (error4 router4 11 0 0 (quoted4 1 0 0x4000 (icmp 8 0 0x10002 (replicate 8 5))))).
Proof. replay. Qed.

Example replay_ingress_parameter_problem :
  on_both (run_ingress CHECKSUM_NONE)
    (to_pod ETH_P_IPV6 (error6 (mapped router4) 4 0 7 (quoted6 6 seg)))
    (to_pod ETH_P_IP (error4 router4 12 0 (8 * 2 ^ 24) (quoted4 6 0 0x4000 seg))).
Proof. replay. Qed.
