(* ===== verification/Witness.v ===== *)
(** * Instances of the theorems

    Every theorem with hypotheses is applied here to concrete packets of
    [Frames], on the reference kernel and a little-endian target: the
    hypotheses hold there, so the theorems say something. *)

From S2P Require Import Prelude Endian Checksum Kernel Program Common RefKernel Wire Rules.
From S2P Require Import Options UdpCsum IcmpMap Egress Ingress Contract EgressSpec EgressProof.
From S2P Require Import IngressSpec IngressProof IcmpError IngressContract EgressTheorems.
From S2P Require Import IngressTheorems RoundTrip System Frames Variadic.

#[local] Existing Instance LE.
#[local] Existing Instance RefKernel.

#[local] Abbreviation cfg := (pod_consts LE).
#[local] Abbreviation cfg_ok := (pod_consts_ok LE).

(** A packet from the pod and one to it, with 20 bytes in the linear area. *)
Definition out_world (st : ip_summed_t) (f : list Z) : world := ref_world f 20 ETH_P_IP st.
Definition in_world (st : ip_summed_t) (f : list Z) : world := ref_world f 20 ETH_P_IPV6 st.

(** Evaluates a decidable hypothesis on concrete bytes. *)
Ltac by_vm := vm_compute; first [done | intuition discriminate].
Ltac by_eval := first [done | by_vm].
Ltac by_eval_bytes := apply (bool_decide_unpack _); vm_compute; exact I.

(** ** Endian and checksum arithmetic *)

Lemma endian_round_trip_witness :
  bpf_ntohs (bpf_htons 0x1234) = 0x1234 /\ bpf_ntohl (bpf_htonl 0x1234) = 0x1234 /\
  store16 (bpf_htons 0x1234) = [0x12; 0x34] /\
  store64 (bpf_cpu_to_be64 0x1234) = [0; 0; 0; 0; 0; 0; 0x12; 0x34].
Proof.
  pose proof (endian_round_trip 0x1234 ltac:(lia)) as (H2 & H4 & _ & Hs & _ & H8).
  split; [apply H2; lia|]. split; [apply H4; lia|]. split; [exact Hs|exact H8].
Defined.

Lemma csum_fold_spec_witness : csum_fold 0x2ffff = 65535 - (0x2fffe mod 65535 + 1).
Proof. apply (csum_fold_spec 0x2ffff). lia. Defined.

Lemma native_checksum_valid_witness :
  inet_ok ([69; 0; 0; 20] ++ store16 (csum_fold (nsum [69; 0; 0; 20; 0; 0; 1; 2; 3])) ++ [1; 2; 3]).
Proof.
  apply (native_checksum_valid [69; 0; 0; 20] [1; 2; 3]).
  - by_eval_bytes.
  - by_eval_bytes.
  - done.
  - intros H. apply Forall_cons_1 in H as [H _]. discriminate.
  - by_eval.
  - done.
Defined.


(** ** ICMP errors *)

Lemma icmp_map_rfc_witness :
  error_of (icmp6_to_icmp4 4 0 8 0) = rfc7915_error 4 0 8 /\
  error_of (icmp6_to_icmp4 1 5 0 0) = Some (3, 10, 0) /\ error_of (icmp6_to_icmp4 4 0 9 0) = None.
Proof.
  split; [|split].
  - apply (icmp_map_rfc 4 0 8); done.
  - apply (icmp_map_rfc 1 5 0); done.
  - apply (icmp_map_rfc 4 0 9); done.
Defined.

(** ** Options and the full UDP checksum *)

(** No-operation, a router alert option, end of list. *)
Definition opts_frame : list Z :=
  from_pod ETH_P_IP (packet4 pod4 dst4 6 0 64 0 0x4000 [1; 148; 4; 0; 0; 1; 1; 0] (tcp 40000 443 2 [])).

Lemma has_source_route_spec_witness :
  ip4_has_source_route 34 8 (out_world CHECKSUM_NONE opts_frame) =
    (Next false, out_world CHECKSUM_NONE opts_frame).
Proof. etrans; [apply (has_source_route_spec 34 2); by_eval|]. by_eval. Defined.

(** A timestamp option whose length is 200, in 4 bytes of options. *)
Definition overlong_frame : list Z :=
  from_pod ETH_P_IP (packet4 pod4 dst4 6 0 64 0 0x4000 [68; 200; 0; 0] (tcp 40000 443 2 [])).

Lemma overlong_option_accepted_witness :
  ip4_has_source_route 34 4 (out_world CHECKSUM_NONE overlong_frame) =
    (Next false, out_world CHECKSUM_NONE overlong_frame).
Proof. apply (overlong_option_accepted 34 1); by_eval. Defined.

Lemma udp_full_csum_spec_witness :
  exists out, udp_full_csum 34 308 7 (out_world CHECKSUM_NONE (udp_zero_out (replicate 300 0xa5))) =
    (Next (Some out), out_world CHECKSUM_NONE (udp_zero_out (replicate 300 0xa5))) /\ 0 < out < 65536.
Proof.
  destruct (udp_full_csum_spec (take 34 (udp_zero_out (replicate 300 0xa5)))
    (drop 34 (udp_zero_out (replicate 300 0xa5))) 308 7
    (out_world CHECKSUM_NONE (udp_zero_out (replicate 300 0xa5))))
    as [(_ & _ & out & E & Hr & _)|[H _]].
  - vm_compute. reflexivity.
  - by_eval.
  - lia.
  - lia.
  - exists out. split; [exact E|exact Hr].
  - exfalso. revert H. by_eval.
Defined.

(** ** Egress *)

Lemma egress_correct_witness :
  exists act w', exec (clat_egress cfg) (out_world CHECKSUM_NONE tcp_out) = (Some act, w') /\
    egress_contract (may_fail := False) cfg (out_world CHECKSUM_NONE tcp_out) act w'.
Proof. apply (egress_correct cfg cfg_ok); by_eval. Defined.

Lemma egress_accounting_witness :
  let w := out_world CHECKSUM_NONE tcp_out in
  exists act w', exec (clat_egress cfg) w = (Some act, w') /\
    ((act = TC_ACT_SHOT /\ exists c, c ∈ egress_drops /\ counted w c w') \/
     (act = TC_ACT_OK /\ frame w' <> frame w /\ counted w CNT_EGRESS_TRANSLATED w') \/
     (act = TC_ACT_OK /\ frame w' = frame w /\ forall c, counter w' c = counter w c)).
Proof. apply (egress_accounting cfg cfg_ok); by_eval. Defined.

Lemma egress_pass_through_witness :
  exists w', exec (clat_egress cfg) (out_world CHECKSUM_NONE native_in) = (Some TC_ACT_OK, w') /\
    same_packet (out_world CHECKSUM_NONE native_in) w'.
Proof. apply (egress_pass_through cfg cfg_ok); by_eval. Defined.

(** A packet to a multicast address. *)
Definition mcast_out : list Z :=
  from_pod ETH_P_IP (packet4 pod4 [224; 0; 0; 1] 17 0 64 0 0 [] (udp 1 2 [])).

Lemma egress_drop_reason_witness :
  exists w', exec (clat_egress cfg) (out_world CHECKSUM_NONE mcast_out) = (Some TC_ACT_SHOT, w') /\
    counted (out_world CHECKSUM_NONE mcast_out) CNT_EGRESS_DROP_MCAST w'.
Proof.
  destruct (egress_drop_reason cfg cfg_ok (out_world CHECKSUM_NONE mcast_out) eq_refl)
    as (act & w' & E & [_ Ha] & Hc).
  destruct (Hc [CNT_EGRESS_DROP_MCAST] ltac:(by_eval)) as (c & Hin & Hcnt).
  apply list_elem_of_singleton in Hin. subst c.
  rewrite Ha in E by (exists [CNT_EGRESS_DROP_MCAST]; by_eval). exists w'. by split.
Defined.

Lemma egress_transport_checksum_witness :
  let w := out_world CHECKSUM_NONE tcp_out in let f := frame w in
  exists w' l', exec (clat_egress cfg) w = (Some TC_ACT_OK, w') /\
    frame w' = sub 0 12 f ++ be16 ETH_P_IPV6 ++ e6_header cfg f ++ l' /\
    inet_ok (pseudo6_wire (e6_src cfg) (e6_dst cfg f) (f4_proto f) (f4_l4len f) ++ l').
Proof. intros w f. apply (egress_transport_checksum cfg cfg_ok w); by_eval. Defined.

(** The same segment with checksum offload: the field holds the sum of the
    pseudo-header. *)
Definition tcp_partial_out : list Z :=
  splice 50 (be16 (onec_norm (sum16 (pseudo4_wire pod4 dst4 6 25)))) tcp_out.

Lemma egress_partial_checksum_witness :
  let w := out_world CHECKSUM_PARTIAL tcp_partial_out in let f := frame w in
  exists w' l', exec (clat_egress cfg) w = (Some TC_ACT_OK, w') /\
    frame w' = sub 0 12 f ++ be16 ETH_P_IPV6 ++ e6_header cfg f ++ e6_frag f ++ l' /\
    rd16 l' 16 ≅ sum16 (pseudo6_wire (e6_src cfg) (e6_dst cfg f) (f4_proto f) 25).
Proof. intros w f. apply (egress_partial_checksum cfg cfg_ok w eq_refl ltac:(by_eval) 25); by_eval. Defined.

Lemma egress_udp_full_checksum_witness :
  let w := out_world CHECKSUM_NONE (udp_zero_out hello) in let f := frame w in
  exists w' d, exec (clat_egress cfg) w = (Some TC_ACT_OK, w') /\ zlen d = 2 /\ d <> [0; 0] /\
    frame w' = sub 0 12 f ++ be16 ETH_P_IPV6 ++ e6_header cfg f ++ splice 6 d (f4_l4 f) /\
    inet_ok (pseudo6_wire (e6_src cfg) (e6_dst cfg f) 17 (f4_l4len f) ++
             sub 0 (f4_l4len f) (splice 6 d (f4_l4 f))).
Proof. intros w f. apply (egress_udp_full_checksum cfg cfg_ok w); by_eval. Defined.

(** A datagram without a checksum to 8.0.55.228: its pseudo-header sums to zero
    modulo 65535, and its data do not. *)
Definition misread_out : list Z :=
  from_pod ETH_P_IP (ip4 pod4 [8; 0; 55; 228] 17 0 64 0 0 8 [] ++ udp 1234 4321 []).

Lemma egress_zero_field_misread_witness :
  let w := out_world CHECKSUM_NONE misread_out in let f := frame w in
  exists w' l', exec (clat_egress cfg) w = (Some TC_ACT_OK, w') /\
    frame w' = sub 0 12 f ++ be16 ETH_P_IPV6 ++ e6_header cfg f ++ l' /\
    ~ inet_ok (pseudo6_wire (e6_src cfg) (e6_dst cfg f) 17 (f4_l4len f) ++ l').
Proof.
  intros w f. destruct (egress_zero_field_misread cfg cfg_ok w eq_refl)
    as (w' & l' & E & Hf & Hok); [by_eval..|].
  exists w', l'. split; [exact E|]. split; [exact Hf|]. intros H. apply Hok in H.
  revert H. by_eval.
Defined.

Lemma egress_echo_checksum_witness :
  let w := out_world CHECKSUM_NONE echo_out in let f := frame w in
  exists w' d, exec (clat_egress cfg) w = (Some TC_ACT_OK, w') /\ zlen d = 2 /\
    let l' := splice 2 d (splice 0 [if byte_at (f4_l4 f) 0 =? 8 then 128 else 129] (f4_l4 f)) in
    frame w' = sub 0 12 f ++ be16 ETH_P_IPV6 ++ e6_header cfg f ++ l' /\
    inet_ok (pseudo6_wire (e6_src cfg) (e6_dst cfg f) 58 (f4_l4len f) ++ l').
Proof. intros w f. apply (egress_echo_checksum cfg cfg_ok w); by_eval. Defined.

Lemma egress_payload_untouched_witness :
  let w := out_world CHECKSUM_NONE frag_last_out in let f := frame w in
  exists w', exec (clat_egress cfg) w = (Some TC_ACT_OK, w') /\
    frame w' = sub 0 12 f ++ be16 ETH_P_IPV6 ++ e6_header cfg f ++ e6_frag f ++ f4_l4 f.
Proof. intros w f. apply (egress_payload_untouched cfg cfg_ok w); by_eval. Defined.

(** ** Ingress *)

Lemma ingress_correct_witness :
  exists act w', exec (clat_ingress cfg) (in_world CHECKSUM_NONE tcp_in) = (Some act, w') /\
    ingress_contract (may_fail := False) cfg (in_world CHECKSUM_NONE tcp_in) act w'.
Proof. apply (ingress_correct cfg cfg_ok); by_eval. Defined.

Lemma ingress_accounting_witness :
  let w := in_world CHECKSUM_NONE tcp_in in
  exists act w', exec (clat_ingress cfg) w = (Some act, w') /\
    ((act = TC_ACT_SHOT /\ exists c, c ∈ ingress_drops /\ counted w c w') \/
     (act = TC_ACT_OK /\ frame w' <> frame w /\ counted w CNT_INGRESS_TRANSLATED w') \/
     (act = TC_ACT_OK /\ frame w' = frame w /\ forall c, counter w' c = counter w c)).
Proof. apply (ingress_accounting cfg cfg_ok); by_eval. Defined.

Lemma ingress_native_untouched_witness :
  exists w', exec (clat_ingress cfg) (in_world CHECKSUM_NONE native_in) = (Some TC_ACT_OK, w') /\
    same_packet (in_world CHECKSUM_NONE native_in) w'.
Proof. apply (ingress_native_untouched cfg cfg_ok); by_eval. Defined.

(** A UDP datagram without a checksum, which IPv6 does not allow. *)
Definition udp_zero_in : list Z :=
  to_pod ETH_P_IPV6 (ip6 (mapped dst4) pod6 0 64 17 8 ++ udp 1 2 []).

Lemma ingress_drop_reason_witness :
  exists w', exec (clat_ingress cfg) (in_world CHECKSUM_NONE udp_zero_in) = (Some TC_ACT_SHOT, w') /\
    counted (in_world CHECKSUM_NONE udp_zero_in) CNT_INGRESS_DROP_UDP_ZERO_CSUM w'.
Proof.
  destruct (ingress_drop_reason cfg cfg_ok (in_world CHECKSUM_NONE udp_zero_in) eq_refl)
    as (act & w' & E & [_ Ha] & Hc).
  destruct (Hc [CNT_INGRESS_DROP_UDP_ZERO_CSUM] ltac:(by_eval)) as (c & Hin & Hcnt).
  apply list_elem_of_singleton in Hin. subst c.
  rewrite Ha in E by (exists [CNT_INGRESS_DROP_UDP_ZERO_CSUM]; by_eval). exists w'. by split.
Defined.

Lemma ingress_transport_checksum_witness :
  let w := in_world CHECKSUM_NONE udp_in in let f := frame w in
  exists w' ck l', exec (clat_ingress cfg) w = (Some TC_ACT_OK, w') /\
    frame w' = sub 0 12 f ++ be16 ETH_P_IP ++ g4_header cfg f (g4_tot_len f) ck ++ l' /\
    inet_ok (g4_header cfg f (g4_tot_len f) ck) /\
    inet_ok (pseudo4_wire (g4_src cfg f) (g4_dst cfg) (h6_upper f 14) (f6_l4len f) ++ l') /\
    (h6_upper f 14 = 17 -> exists d, zlen d = 2 /\ d <> [0; 0] /\ l' = splice 6 d (f6_l4 f)).
Proof. intros w f. apply (ingress_transport_checksum cfg cfg_ok w); by_eval. Defined.

Lemma ingress_echo_checksum_witness :
  let w := in_world CHECKSUM_NONE echo_in in let f := frame w in let l := f6_l4 f in
  exists w' ck d, exec (clat_ingress cfg) w = (Some TC_ACT_OK, w') /\
    let l' := splice 2 d (splice 0 [if byte_at l 0 =? 129 then 0 else 8] l) in
    frame w' = sub 0 12 f ++ be16 ETH_P_IP ++ g4_header cfg f (g4_tot_len f) ck ++ l' /\
    zlen d = 2 /\ sum16 l' ≅ 0 /\ (~ Forall (fun b => b = 0) l' -> inet_ok l').
Proof. intros w f l. apply (ingress_echo_checksum cfg cfg_ok w); by_eval. Defined.

Lemma ingress_error_checksum_witness :
  let w := in_world CHECKSUM_NONE (too_big_in router6) in let f := frame w in let l := f6_l4 f in
  exists w' type4 code4 pointer4 ck4 ck ckq r',
    exec (clat_ingress cfg) w = (Some TC_ACT_OK, w') /\
    design_error (byte_at l 0) (byte_at l 1) (rd32 l 4) = Some (type4, code4, pointer4) /\
    zlen ck4 = 2 /\ zlen ck = 2 /\ zlen ckq = 2 /\
    let l' := [type4; code4] ++ ck ++ q4_rest l type4 pointer4 ++ q4_header cfg l ckq ++ r' in
    frame w' = sub 0 12 f ++ be16 ETH_P_IP ++ g4_header cfg f (g4_tot_len f) ck4 ++ l' /\
    inet_ok (g4_header cfg f (g4_tot_len f) ck4) /\ inet_ok (q4_header cfg l ckq) /\ inet_ok l'.
Proof. intros w f l. apply (ingress_error_checksum cfg cfg_ok w); by_eval. Defined.

Lemma ref_csum_folded : csum_folded (K := RefKernel).
Proof. intros from to seed. apply onec_norm_range. Qed.

Lemma ingress_error_quoted_witness :
  let w := in_world CHECKSUM_NONE (too_big_in (mapped router4)) in
  let f := frame w in let l := f6_l4 f in
  exists w' hd r', exec (clat_ingress cfg) w = (Some TC_ACT_OK, w') /\
    frame w' = hd ++ r' /\ zlen hd = 62 /\ let r := q_l4 l in
    if q_is_echo l then
      exists d, zlen d = 2 /\
        r' = splice 2 d (splice 0 [if byte_at l 48 =? 128 then 8 else 0] r) /\
        sum16 r' ≅ sum16 (pseudo6_wire (h6_src l 8) (h6_dst l 8) 58 (h6_plen l 8)) + sum16 r
    else if q_has_csum l then
      exists d, zlen d = 2 /\ r' = splice (q_coff l) d r /\ forall len, 0 <= len < 65536 ->
        sum16 (pseudo4_wire (g4_dst cfg) (h6_dst4 l 8) (h6_upper l 8) len) + sum16 r' ≅
        sum16 (pseudo6_wire (h6_src l 8) (h6_dst l 8) (h6_upper l 8) len) + sum16 r
    else r' = r.
Proof.
  intros w f l. apply (ingress_error_quoted cfg cfg_ok w); [by_eval..|exact ref_csum_folded].
Defined.

Lemma ingress_too_big_mtu_witness :
  let w := in_world CHECKSUM_NONE (too_big_in router6) in let l := f6_l4 (frame w) in
  exists w', exec (clat_ingress cfg) w = (Some TC_ACT_OK, w') /\
    sub 34 2 (frame w') = [3; 4] /\
    let mtu := rd16 (frame w') 40 in
    68 <= mtu /\ (mtu = 68 \/ mtu + 20 + h6_frag_len l 8 <= rd32 l 4).
Proof. intros w l. apply (ingress_too_big_mtu cfg cfg_ok w); by_eval. Defined.

(** An ESP packet, and one whose payload does not fit IPv4. *)
Definition esp_in (n : nat) : list Z :=
  to_pod ETH_P_IPV6 (packet6 (mapped dst4) pod6 0 64 50 (replicate n 0xee)).

Lemma ingress_payload_untouched_witness :
  let w := in_world CHECKSUM_NONE (esp_in 40) in let f := frame w in
  exists w' ck, exec (clat_ingress cfg) w = (Some TC_ACT_OK, w') /\
    frame w' = sub 0 12 f ++ be16 ETH_P_IP ++ g4_header cfg f ((f6_l4len f + 20) mod 65536) ck ++ f6_l4 f /\
    inet_ok (g4_header cfg f ((f6_l4len f + 20) mod 65536) ck).
Proof. intros w f. apply (ingress_payload_untouched cfg cfg_ok w); by_eval. Defined.

Lemma ingress_length_witness :
  let w := in_world CHECKSUM_NONE (too_big_in router6) in
  exists w', exec (clat_ingress cfg) w = (Some TC_ACT_OK, w') /\
    rd16 (frame w') 16 = zlen (frame w') - 14.
Proof. intros w. apply (ingress_length cfg cfg_ok w); by_eval. Defined.

Lemma ingress_length_wraps_witness :
  let w := in_world CHECKSUM_NONE (esp_in (Z.to_nat 65520)) in
  exists w', exec (clat_ingress cfg) w = (Some TC_ACT_OK, w') /\
    rd16 (frame w') 16 = zlen (frame w') - 14 - 65536.
Proof. intros w. apply (ingress_length_wraps cfg cfg_ok w); by_vm. Defined.

(** ** Round trip *)

Lemma egress_header_fields_witness :
  let w := out_world CHECKSUM_NONE frag_first_out in let f := frame w in
  exists w', exec (clat_egress cfg) w = (Some TC_ACT_OK, w') /\ let f' := frame w' in
    h6_version f' 14 = 6 /\ h6_is_frag f' 14 = true /\ h6_id f' 14 = 0x4242 /\
    h6_plen f' 14 = zlen f' - 54.
Proof.
  intros w f. destruct (egress_header_fields cfg cfg_ok w) as
    (w' & E & _ & Hver & _ & _ & _ & _ & _ & Hfr & Hid & _ & Hlen); [by_eval..|].
  exists w'. split; [exact E|]. cbv zeta. split; [exact Hver|]. split; [etrans; [exact Hfr|by_eval]|].
  split; [etrans; [exact Hid|by_eval]|]. apply Hlen. by_eval.
Defined.

(** The packet that comes back when the peer mirrors what egress sent. *)
Definition mirrored (f : list Z) : world :=
  in_world CHECKSUM_NONE
    (mirror6 (frame (snd (exec (clat_egress cfg) (out_world CHECKSUM_NONE f))))).

Lemma clat_round_trip_witness :
  let f := frame (out_world CHECKSUM_NONE tcp_out) in
  exists w3 ck l3, exec (clat_ingress cfg) (mirrored tcp_out) = (Some TC_ACT_OK, w3) /\
    let h := h4_wire (f4_tos f) (f4_l4len f + 20) (f4_id_kept f) (f4_frag_kept f)
               (byte_at f 22) (f4_proto f) ck (f4_dst f) (f4_src f) in
    frame w3 = sub 0 12 f ++ be16 ETH_P_IP ++ h ++ l3 /\ inet_ok h /\
    same_but_csum f (f4_l4 f) l3 /\ sum16 l3 ≅ sum16 (f4_l4 f).
Proof.
  intros f. destruct (clat_round_trip cfg cfg_ok (out_world CHECKSUM_NONE tcp_out))
    as (w1 & E & H); [by_eval..|].
  assert (Hw : w1 = snd (exec (clat_egress cfg) (out_world CHECKSUM_NONE tcp_out))) by by rewrite E.
  subst w1. destruct (H (mirrored tcp_out)) as (w3 & ck & l3 & E3 & Hw3 & Hok & Hl & Hsum);
    [by_vm..|].
  exists w3, ck, l3. split; [exact E3|]. split; [exact Hw3|]. split; [exact Hok|].
  split; [exact Hl|]. apply Hsum; by_eval.
Defined.

(** ** Both programs *)

(** The state after one packet. *)
Definition next_slots (s : nat -> gmap Z Z) (cpu : nat) (d : direction) (k : skb) : nat -> gmap Z Z :=
  <[cpu := w_slots (snd (exec (dir_prog cfg d) (World k (s cpu))))]> s.

Lemma next_step s cpu d k act o :
  (rd16 (skb_bytes k) 12 = dir_proto d -> skb_protocol k = dir_proto d) ->
  fst (exec (dir_prog cfg d) (World k (s cpu))) = Some act ->
  fate_of (skb_bytes k) act (frame (snd (exec (dir_prog cfg d) (World k (s cpu))))) = o ->
  step cfg s (Event cpu d o) (next_slots s cpu d k).
Proof.
  intros Hp Ha <-. apply step_packet; [done|]. rewrite <- Ha. apply surjective_pairing.
Qed.

(** A translated segment and a dropped datagram on CPU 0. *)
Definition slots1 := next_slots (fun _ => ∅) 0 ToNetwork (w_skb (out_world CHECKSUM_NONE tcp_out)).
Definition slots2 := next_slots slots1 0 ToNetwork (w_skb (out_world CHECKSUM_NONE mcast_out)).

Lemma slots2_reachable :
  reachable cfg slots2 [Event 0 ToNetwork Dropped; Event 0 ToNetwork Translated].
Proof.
  apply (reachable_step cfg slots1).
  - apply (reachable_step cfg (fun _ => ∅)); [apply reachable_init|].
    apply (next_step _ _ _ _ TC_ACT_OK); [done|by_vm..].
  - apply (next_step _ _ _ _ TC_ACT_SHOT); [done|by_vm..].
Qed.

Lemma counters_account_witness :
  slot_value (slots2 0%nat) CNT_EGRESS_TRANSLATED = 1 /\ total (slots2 0%nat) egress_drops = 1.
Proof. apply (counters_account cfg cfg_ok slots2 _ 0 ToNetwork slots2_reachable). Defined.
